(** * isupipe: reservation admission, user cache, rankings and counter reset

    A shallow embedding of the Go web application under [webapp/go]:
    [reserveLivestreamHandler], [getUserWithCache], [getUserByName],
    [getIconHandler], [getUserStatisticsHandler],
    [getLivestreamStatisticsHandler] and [initializeHandler]; then, from
    "The other handlers of the application" on, [getLivestreamHandler],
    [getMyLivestreamsHandler], [getUserLivestreamsHandler],
    [enterLivestreamHandler], [exitLivestreamHandler],
    [postReactionHandler], [postIconHandler], [loginHandler],
    [verifyUserSession], [searchLivestreamsHandler] with
    [getUserOnlyCache], and [HandleAddRecord] and [parseQuery] of the
    name server [isudns].

    Conventions.
    - Go [int64] values are [Z]; where the Go code computes on them the
      two's complement wrap-around is written out with [Int64.wrap].
      Columns of the store are [Z] as well; SQL sums and counts are taken
      in [Z].
    - A MySQL table is the list of its rows in storage order.  SQL
      statements are list functions written next to the statement text;
      strings are compared byte-wise.  The store never fails by itself
      (no connectivity errors); the errors modelled are [sql.ErrNoRows],
      as [None], and the refusal of an empty list by [sqlx.In].
    - A transaction works on a copy of the database; [Commit] installs the
      copy, [Rollback] drops it.  Transactions are serialised.
    - The handlers start after [verifyUserSession] and the decoding of the
      request; one call of a handler happens at one instant [now] of the
      cache clock.
    - The process-wide caches are maps from string keys to records with an
      expiry instant; the cached [*UserModel] pointers are indices into a
      heap of objects, so that aliasing between the two keys is visible.
    - The later handlers are functions from the process state to an
      answer and the state they leave; of their statements only the
      transaction boundaries and the user lookups are recorded in the
      trace.  The clock is read in nanoseconds.  An id that the store
      assigns in a table without a modelled counter is an argument of
      the handler, and so are the library functions: the SHA-256
      digest, [bcrypt.CompareHashAndPassword] and [dns.NewRR]. *)

From Stdlib Require Import ZArith List Lia Bool.
From Stdlib Require Import Strings.String Strings.Ascii Strings.Byte.
From Stdlib Require Import Sorting.Permutation Sorting.Sorted.
From stdpp Require Import base gmap strings list pretty.

Local Open Scope Z_scope.

(** ** Go [int64] arithmetic *)

Module Int64.

Definition min_int : Z := - 2 ^ 63.
Definition max_int : Z := 2 ^ 63 - 1.

(** Reduction of a mathematical integer to the [int64] it is stored as. *)
Definition wrap (z : Z) : Z := (z + 2 ^ 63) mod 2 ^ 64 - 2 ^ 63.

Definition in_range (z : Z) : Prop := min_int <= z <= max_int.

Definition add (a b : Z) : Z := wrap (a + b).

Lemma wrap_in_range z : in_range (wrap z).
Proof.
  unfold in_range, wrap, min_int, max_int.
  pose proof (Z.mod_pos_bound (z + 2 ^ 63) (2 ^ 64) ltac:(lia)). lia.
Qed.

Lemma wrap_id z : in_range z -> wrap z = z.
Proof.
  unfold in_range, wrap, min_int, max_int. intros H.
  rewrite Z.mod_small by lia. lia.
Qed.

End Int64.

(** ** The part of Go's [time] package the handlers use

    [time.Time] without a monotonic reading is a pair of a nanosecond
    field and [ext], the seconds since January 1 of year 1, held in an
    [int64].  [time.Unix] is [unixTime(sec, nsec)], which stores
    [sec + unixToInternal] in [ext]; the sum is an [int64] sum.
    [After], [Before] and [Equal] compare [ext] and then the nanoseconds. *)

Module GoTime.

Record Time := { ext : Z; nsec : Z }.

Definition secondsPerDay : Z := 86400.

Definition unixToInternal : Z :=
  (1969 * 365 + 1969 / 4 - 1969 / 100 + 1969 / 400) * secondsPerDay.

Definition unixTime (sec ns : Z) : Time :=
  {| ext := Int64.add sec unixToInternal; nsec := ns |}.

(** [func Unix(sec int64, nsec int64) Time] *)
Definition Unix (sec ns : Z) : Time :=
  if (ns <? 0) || (1000000000 <=? ns) then
    let n := Z.quot ns 1000000000 in
    let sec1 := Int64.add sec n in
    let ns1 := ns - n * 1000000000 in
    if ns1 <? 0 then unixTime (Int64.add sec1 (-1)) (ns1 + 1000000000)
    else unixTime sec1 ns1
  else unixTime sec ns.

Definition isLeap (year : Z) : bool :=
  (year mod 4 =? 0) && (negb (year mod 100 =? 0) || (year mod 400 =? 0)).

(** Days before the first of each month in a non-leap year. *)
Definition daysBefore : list Z :=
  [0; 31; 59; 90; 120; 151; 181; 212; 243; 273; 304; 334; 365].

(** Days from 1970-01-01 to January 1 of [year]. *)
Definition daysSinceEpoch (year : Z) : Z :=
  let y := year - 1 in
  365 * (year - 1970) + (y / 4 - y / 100 + y / 400)
  - (1969 / 4 - 1969 / 100 + 1969 / 400).

(** [time.Date(year, month, day, hour, min, sec, 0, time.UTC)] for a
    calendar date already in normal form (1 <= month <= 12, and so on),
    which is how the handlers call it. *)
Definition Date (year month day hour min sec : Z) : Time :=
  let d0 := daysSinceEpoch year in
  let d1 := d0 + nth (Z.to_nat (month - 1)) daysBefore 0 in
  let d2 := if isLeap year && (3 <=? month) then d1 + 1 else d1 in
  let d3 := d2 + (day - 1) in
  unixTime (d3 * secondsPerDay + hour * 3600 + min * 60 + sec) 0.

(** [func (t Time) Unix() int64] *)
Definition ToUnix (t : Time) : Z := Int64.add (ext t) (- unixToInternal).

Definition After (t u : Time) : bool :=
  (ext u <? ext t) || ((ext t =? ext u) && (nsec u <? nsec t)).

Definition Before (t u : Time) : bool :=
  (ext t <? ext u) || ((ext t =? ext u) && (nsec t <? nsec u)).

Definition Equal (t u : Time) : bool :=
  (ext t =? ext u) && (nsec t =? nsec u).

Definition Millisecond : Z := 1000000.
Definition Minute : Z := 60 * 1000 * Millisecond.

End GoTime.

(** ** Rows and response objects *)

Record UserModel := {
  UserModel_ID : Z;
  UserModel_Name : string;
  UserModel_DisplayName : string;
  UserModel_Description : string;
  UserModel_HashedPassword : string;
  UserModel_DarkMode : bool;
  UserModel_Reactions : Z;
  UserModel_Tips : Z;
  UserModel_LiveComments : Z;
  UserModel_IconHash : list byte
}.

Record Theme := { Theme_ID : Z; Theme_DarkMode : bool }.

Record User := {
  User_ID : Z;
  User_Name : string;
  User_DisplayName : string;
  User_Description : string;
  User_Theme : Theme;
  User_IconHash : string
}.

Record ReserveLivestreamRequest := {
  Req_Tags : list Z;
  Req_Title : string;
  Req_Description : string;
  Req_PlaylistUrl : string;
  Req_ThumbnailUrl : string;
  Req_StartAt : Z;
  Req_EndAt : Z
}.

(** [LivestreamModel].  The statistics and reset code read and write the
    columns [reactions], [tips] and [max_tip] of [livestreams] through
    this struct ([livestream.Reactions], [livestream.Tips],
    [livestream.MaxTip]); they are part of the row. *)
Record LivestreamModel := {
  LivestreamModel_ID : Z;
  LivestreamModel_UserID : Z;
  LivestreamModel_Title : string;
  LivestreamModel_Description : string;
  LivestreamModel_PlaylistUrl : string;
  LivestreamModel_ThumbnailUrl : string;
  LivestreamModel_StartAt : Z;
  LivestreamModel_EndAt : Z;
  LivestreamModel_Reactions : Z;
  LivestreamModel_Tips : Z;
  LivestreamModel_MaxTip : Z
}.

Record Tag := { Tag_ID : Z; Tag_Name : string }.

Record Livestream := {
  Livestream_ID : Z;
  Livestream_Owner : User;
  Livestream_Title : string;
  Livestream_Description : string;
  Livestream_PlaylistUrl : string;
  Livestream_ThumbnailUrl : string;
  Livestream_Tags : list Tag;
  Livestream_StartAt : Z;
  Livestream_EndAt : Z
}.

Record LivestreamTagModel := {
  LivestreamTagModel_ID : Z;
  LivestreamTagModel_LivestreamID : Z;
  LivestreamTagModel_TagID : Z
}.

Record ReservationSlotModel := {
  ReservationSlotModel_ID : Z;
  ReservationSlotModel_Slot : Z;
  ReservationSlotModel_StartAt : Z;
  ReservationSlotModel_EndAt : Z
}.

(** Row of [reactions]. *)
Record ReactionModel := {
  ReactionModel_ID : Z;
  ReactionModel_EmojiName : string;
  ReactionModel_UserID : Z;
  ReactionModel_LivestreamID : Z;
  ReactionModel_CreatedAt : Z
}.

(** Row of [livecomments], the columns the reset routine reads. *)
Record LivecommentModel := {
  LivecommentModel_ID : Z;
  LivecommentModel_LivestreamID : Z;
  LivecommentModel_Tip : Z
}.

(** Row of [favorite_emojis]. *)
Record FavoriteEmojiRow := {
  FavoriteEmoji_UserID : Z;
  FavoriteEmoji_EmojiName : string
}.

(** Row of [icons]. *)
Record IconRow := { Icon_UserID : Z; Icon_Image : list byte }.

(** Row of [livestream_viewers_history]. *)
Record LivestreamViewerModel := {
  LivestreamViewerModel_UserID : Z;
  LivestreamViewerModel_LivestreamID : Z;
  LivestreamViewerModel_CreatedAt : Z
}.

(** Row of [livecomment_reports], the column the statistics join on. *)
Record LivecommentReportRow := { LivecommentReport_LivestreamID : Z }.

(** ** The store *)

Record DB := {
  users : list UserModel;
  livestreams : list LivestreamModel;
  livestream_tags : list LivestreamTagModel;
  reservation_slots : list ReservationSlotModel;
  reactions : list ReactionModel;
  livecomments : list LivecommentModel;
  favorite_emojis : list FavoriteEmojiRow;
  icons : list IconRow;
  livestream_viewers_history : list LivestreamViewerModel;
  livecomment_reports : list LivecommentReportRow;
  (* AUTO_INCREMENT counters *)
  livestreams_auto : Z;
  livestream_tags_auto : Z
}.

(** Statements issued to the store, in order. *)
Inductive StoreOp :=
| OpBegin
| OpSelectSlotsForUpdate (startAt endAt : Z)
| OpGetSlot (startAt endAt : Z)
| OpUpdateSlots (startAt endAt : Z)
| OpInsertLivestream (row : LivestreamModel)
| OpInsertLivestreamTag (row : LivestreamTagModel)
| OpGetUserByID (id : Z)
| OpGetUserByName (name : string)
| OpGetIcon (userID : Z)
| OpCommit
| OpRollback.

Definition is_read_or_write (op : StoreOp) : bool :=
  match op with
  | OpBegin | OpCommit | OpRollback => false
  | _ => true
  end.

(** ** Responses *)

Definition StatusOK : Z := 200.
Definition StatusCreated : Z := 201.
Definition StatusNotModified : Z := 304.
Definition StatusBadRequest : Z := 400.
Definition StatusNotFound : Z := 404.
Definition StatusInternalServerError : Z := 500.

(** The message of an [echo.NewHTTPError]; one constructor per message text
    of the handlers modelled here. *)
Inductive ErrorMessage :=
| BadReservationTimeRange            (* "bad reservation time range" *)
| SlotNotReservable (termStart termEnd startAt endAt : Z)
| FailedToGetReservationSlots        (* "failed to get reservation_slots: ..." *)
| UserNotFound                       (* "user not found" *)
| NotFoundUserWithUsername           (* "not found user that has the given username" *)
| CannotGetStatsOfNotFoundLivestream (* "cannot get stats of not found livestream" *)
| FailedToConstructINQuery           (* "failed to construct IN query: ..." *)
| FailedToGetUser                    (* "failed to get user: ..." *)
| FailedToInitialize                 (* "failed to initialize: ..." *).

Inductive Response (A : Type) :=
| HTTPError (code : Z) (message : ErrorMessage)
| JSON (code : Z) (body : A)
| NoContent (code : Z)
| File (path : string)
| Blob (code : Z) (contentType : string) (b : list byte).

Arguments HTTPError {A} code message.
Arguments JSON {A} code body.
Arguments NoContent {A} code.
Arguments File {A} path.
Arguments Blob {A} code contentType b.

(** ** [hlts2/gocache]: a string-keyed cache with one expiry per record

    Contract of the library as the handlers use it: [Set] (here [Set_]) stores the value
    with expiry [now + ttl]; [Get] finds a record only while its expiry
    lies in the future; [Clear] drops every record. *)

Module gocache.
Section Cache.
Context {V : Type}.

Definition Get (now : Z) (c : gmap string (V * Z)) (key : string) : option V :=
  match c !! key with
  | Some (v, expire) => if now <? expire then Some v else None
  | None => None
  end.

Definition Set_ (now ttl : Z) (c : gmap string (V * Z)) (key : string) (v : V)
  : gmap string (V * Z) :=
  <[key := (v, now + ttl)]> c.

Definition Clear (c : gmap string (V * Z)) : gmap string (V * Z) := ∅.

Lemma Get_Set_eq now ttl c key v :
  0 < ttl -> Get now (Set_ now ttl c key v) key = Some v.
Proof.
  intros Httl. unfold Get, Set_. rewrite lookup_insert_eq.
  destruct (Z.ltb_spec now (now + ttl)); [done | lia].
Qed.

Lemma Get_Set_ne t now ttl c key key' v :
  key <> key' -> Get t (Set_ now ttl c key v) key' = Get t c key'.
Proof. intros Hne. unfold Get, Set_. by rewrite lookup_insert_ne. Qed.

Lemma Get_Set_later t now ttl c key v :
  Get t (Set_ now ttl c key v) key = if t <? now + ttl then Some v else None.
Proof. unfold Get, Set_. by rewrite lookup_insert_eq. Qed.
End Cache.
End gocache.

(** ** Process state and the handler monad *)

(** [var iconCache = gocache.New(gocache.WithExpireAt(1500 * time.Millisecond))]
    [var userCache = gocache.New(gocache.WithExpireAt(60 * time.Minute))] *)
Definition iconCache_ttl : Z := 1500 * GoTime.Millisecond.
Definition userCache_ttl : Z := 60 * GoTime.Minute.

Record World := {
  committed : DB;            (* what other connections see *)
  working : DB;              (* the open transaction's view *)
  tx_done : bool;            (* Commit or Rollback already ran *)
  heap : list UserModel;     (* objects behind [*UserModel]; the pointer is the index *)
  userCache : gmap string (nat * Z);
  iconCache : gmap string (list byte * Z);
  trace : list StoreOp       (* statements issued so far, oldest first *)
}.

Inductive Res (A : Type) :=
| Ok (a : A)
| Return (r : Response Livestream).
Arguments Ok {A} a.
Arguments Return {A} r.

Definition M (A : Type) : Type := World -> Res A * World.

Definition ret {A} (a : A) : M A := fun w => (Ok a, w).

Definition bind {A B} (m : M A) (k : A -> M B) : M B :=
  fun w => match m w with
           | (Ok a, w') => k a w'
           | (Return r, w') => (Return r, w')
           end.

(** [return echo.NewHTTPError(...)] and the other early exits. *)
Definition exit {A} (r : Response Livestream) : M A := fun w => (Return r, w).

Notation "x <- m ;; k" := (bind m (fun x => k))
  (at level 100, m at level 99, right associativity).
Notation "m ;;; k" := (bind m (fun _ => k))
  (at level 100, right associativity).

Definition set_working (d : DB) (w : World) : World :=
  {| committed := committed w; working := d; tx_done := tx_done w;
     heap := heap w; userCache := userCache w; iconCache := iconCache w;
     trace := trace w |}.

Definition log (op : StoreOp) (w : World) : World :=
  {| committed := committed w; working := working w; tx_done := tx_done w;
     heap := heap w; userCache := userCache w; iconCache := iconCache w;
     trace := trace w ++ [op] |}.

(** [dbConn.BeginTxx] *)
Definition BeginTxx : M unit := fun w =>
  (Ok tt,
   log OpBegin
     {| committed := committed w; working := committed w; tx_done := false;
        heap := heap w; userCache := userCache w; iconCache := iconCache w;
        trace := trace w |}).

(** [tx.Commit] *)
Definition Commit : M unit := fun w =>
  (Ok tt,
   log OpCommit
     {| committed := working w; working := working w; tx_done := true;
        heap := heap w; userCache := userCache w; iconCache := iconCache w;
        trace := trace w |}).

(** [tx.Rollback]; after [Commit] it is [sql.ErrTxDone] and nothing is sent. *)
Definition Rollback (w : World) : World :=
  if tx_done w then w
  else log OpRollback
     {| committed := committed w; working := committed w; tx_done := true;
        heap := heap w; userCache := userCache w; iconCache := iconCache w;
        trace := trace w |}.

(** [defer tx.Rollback()] around the rest of the handler body. *)
Definition defer_Rollback (body : M (Response Livestream))
  : World -> Response Livestream * World :=
  fun w => match body w with
           | (Ok r, w') => (r, Rollback w')
           | (Return r, w') => (r, Rollback w')
           end.

(** ** User lookup through the caches *)

Definition key_id (userId : Z) : string := "id:" +:+ pretty userId.
Definition key_name (userName : string) : string := "name:" +:+ userName.

Definition zeroUserModel : UserModel :=
  {| UserModel_ID := 0; UserModel_Name := ""; UserModel_DisplayName := "";
     UserModel_Description := ""; UserModel_HashedPassword := "";
     UserModel_DarkMode := false; UserModel_Reactions := 0; UserModel_Tips := 0;
     UserModel_LiveComments := 0; UserModel_IconHash := [] |}.

Definition with_IconHash (u : UserModel) (h : list byte) : UserModel :=
  {| UserModel_ID := UserModel_ID u; UserModel_Name := UserModel_Name u;
     UserModel_DisplayName := UserModel_DisplayName u;
     UserModel_Description := UserModel_Description u;
     UserModel_HashedPassword := UserModel_HashedPassword u;
     UserModel_DarkMode := UserModel_DarkMode u;
     UserModel_Reactions := UserModel_Reactions u;
     UserModel_Tips := UserModel_Tips u;
     UserModel_LiveComments := UserModel_LiveComments u;
     UserModel_IconHash := h |}.

(** What [GetContext] leaves in a fresh [UserModel] for the column list
    [id, name, display_name, description, password, dark_mode, icon_hash]:
    the three counters are not selected and keep their zero value. *)
Definition scan_user_columns (row : UserModel) : UserModel :=
  {| UserModel_ID := UserModel_ID row; UserModel_Name := UserModel_Name row;
     UserModel_DisplayName := UserModel_DisplayName row;
     UserModel_Description := UserModel_Description row;
     UserModel_HashedPassword := UserModel_HashedPassword row;
     UserModel_DarkMode := UserModel_DarkMode row;
     UserModel_Reactions := 0; UserModel_Tips := 0; UserModel_LiveComments := 0;
     UserModel_IconHash := UserModel_IconHash row |}.

(** The object a cached pointer refers to.  Pointers handed out by
    [alloc] are always below [length (heap w)]. *)
Definition deref (w : World) (p : nat) : UserModel :=
  default zeroUserModel (heap w !! p).

Definition set_caches (h : list UserModel) (uc : gmap string (nat * Z))
    (ic : gmap string (list byte * Z)) (w : World) : World :=
  {| committed := committed w; working := working w; tx_done := tx_done w;
     heap := h; userCache := uc; iconCache := ic; trace := trace w |}.

(** The cache-hit prefix shared by both lookups:
    [if user, found := userCache.Get(key); found {
       u := the cached *UserModel
       iconHash, valid := iconCache.Get(u.Name)
       if valid { u.IconHash = iconHash.([]byte); return u, nil } }] *)
Definition lookup_cached (now : Z) (key : string) (w : World)
  : option (nat * World) :=
  match gocache.Get now (userCache w) key with
  | Some u =>
      match gocache.Get now (iconCache w) (UserModel_Name (deref w u)) with
      | Some iconHash =>
          Some (u, set_caches (<[u := with_IconHash (deref w u) iconHash]> (heap w))
                              (userCache w) (iconCache w) w)
      | None => None
      end
  | None => None
  end.

(** [SELECT ... FROM users WHERE id = ?] *)
Definition select_user_by_id (d : DB) (userId : Z) : option UserModel :=
  List.find (fun r => UserModel_ID r =? userId) (users d).

(** [SELECT ... FROM users WHERE name = ?] *)
Definition select_user_by_name (d : DB) (userName : string) : option UserModel :=
  List.find (fun r => String.eqb (UserModel_Name r) userName) (users d).

(** [func getUserWithCache(ctx, userId int64)], returning a [*UserModel] and an error;
    [None] is the [sql.ErrNoRows] error. *)
Definition getUserWithCache (now : Z) (userId : Z) : M (option nat) := fun w =>
  match lookup_cached now (key_id userId) w with
  | Some (u, w') => (Ok (Some u), w')
  | None =>
      let w1 := log (OpGetUserByID userId) w in
      match select_user_by_id (committed w1) userId with
      | None => (Ok None, w1)
      | Some row =>
          let userModel := scan_user_columns row in
          let p := length (heap w1) in
          let uc1 := gocache.Set_ now userCache_ttl (userCache w1) (key_id userId) p in
          let uc2 := gocache.Set_ now userCache_ttl uc1
                       (key_name (UserModel_Name userModel)) p in
          let ic := gocache.Set_ now iconCache_ttl (iconCache w1)
                       (UserModel_Name userModel) (UserModel_IconHash userModel) in
          (Ok (Some p), set_caches (heap w1 ++ [userModel]) uc2 ic w1)
      end
  end.

(** [func getUserByName(ctx, userName string)], returning a [*UserModel] and an error *)
Definition getUserByName (now : Z) (userName : string) : M (option nat) := fun w =>
  match lookup_cached now (key_name userName) w with
  | Some (u, w') => (Ok (Some u), w')
  | None =>
      let w1 := log (OpGetUserByName userName) w in
      match select_user_by_name (committed w1) userName with
      | None => (Ok None, w1)
      | Some row =>
          let userModel := scan_user_columns row in
          let p := length (heap w1) in
          let uc1 := gocache.Set_ now userCache_ttl (userCache w1)
                       (key_id (UserModel_ID userModel)) p in
          let uc2 := gocache.Set_ now userCache_ttl uc1
                       (key_name (UserModel_Name userModel)) p in
          let ic := gocache.Set_ now iconCache_ttl (iconCache w1)
                       (UserModel_Name userModel) (UserModel_IconHash userModel) in
          (Ok (Some p), set_caches (heap w1 ++ [userModel]) uc2 ic w1)
      end
  end.

(** [fmt.Sprintf("%x", bytes)]: two lower-case hexadecimal digits per byte. *)
Definition hexDigit (n : N) : ascii :=
  match String.get (N.to_nat n) "0123456789abcdef" with
  | Some c => c
  | None => "0"%char
  end.

Fixpoint hex (bs : list byte) : string :=
  match bs with
  | [] => EmptyString
  | b :: rest =>
      String (hexDigit (Byte.to_N b / 16))
        (String (hexDigit (Byte.to_N b mod 16)) (hex rest))
  end.

(** [func fillUserResponse(ctx, userModel *UserModel)] *)
Definition fillUserResponse (userModel : UserModel) : User :=
  {| User_ID := UserModel_ID userModel;
     User_Name := UserModel_Name userModel;
     User_DisplayName := UserModel_DisplayName userModel;
     User_Description := UserModel_Description userModel;
     User_Theme := {| Theme_ID := UserModel_ID userModel;
                      Theme_DarkMode := UserModel_DarkMode userModel |};
     User_IconHash := hex (UserModel_IconHash userModel) |}.

(** ** Reservation admission: [reserveLivestreamHandler] *)

Definition with_reservation_slots (rows : list ReservationSlotModel) (d : DB) : DB :=
  {| users := users d; livestreams := livestreams d;
     livestream_tags := livestream_tags d; reservation_slots := rows;
     reactions := reactions d; livecomments := livecomments d;
     favorite_emojis := favorite_emojis d; icons := icons d;
     livestream_viewers_history := livestream_viewers_history d;
     livecomment_reports := livecomment_reports d;
     livestreams_auto := livestreams_auto d;
     livestream_tags_auto := livestream_tags_auto d |}.

Definition with_livestreams (rows : list LivestreamModel) (auto : Z) (d : DB) : DB :=
  {| users := users d; livestreams := rows;
     livestream_tags := livestream_tags d;
     reservation_slots := reservation_slots d;
     reactions := reactions d; livecomments := livecomments d;
     favorite_emojis := favorite_emojis d; icons := icons d;
     livestream_viewers_history := livestream_viewers_history d;
     livecomment_reports := livecomment_reports d;
     livestreams_auto := auto;
     livestream_tags_auto := livestream_tags_auto d |}.

Definition with_livestream_tags (rows : list LivestreamTagModel) (auto : Z) (d : DB) : DB :=
  {| users := users d; livestreams := livestreams d;
     livestream_tags := rows;
     reservation_slots := reservation_slots d;
     reactions := reactions d; livecomments := livecomments d;
     favorite_emojis := favorite_emojis d; icons := icons d;
     livestream_viewers_history := livestream_viewers_history d;
     livecomment_reports := livecomment_reports d;
     livestreams_auto := livestreams_auto d;
     livestream_tags_auto := auto |}.

(** The predicate [start_at >= ? AND end_at <= ?] of the two slot
    statements: the slot lies inside the requested range. *)
Definition slot_in_range (startAt endAt : Z) (r : ReservationSlotModel) : bool :=
  (startAt <=? ReservationSlotModel_StartAt r) &&
  (ReservationSlotModel_EndAt r <=? endAt).

(** The predicate [start_at = ? AND end_at = ?]. *)
Definition slot_is (startAt endAt : Z) (r : ReservationSlotModel) : bool :=
  (ReservationSlotModel_StartAt r =? startAt) &&
  (ReservationSlotModel_EndAt r =? endAt).

(** [SELECT * FROM reservation_slots WHERE start_at >= ? AND end_at <= ? FOR UPDATE] *)
Definition select_slots_for_update (startAt endAt : Z)
  : M (list ReservationSlotModel) := fun w =>
  (Ok (List.filter (slot_in_range startAt endAt) (reservation_slots (working w))),
   log (OpSelectSlotsForUpdate startAt endAt) w).

(** [SELECT slot FROM reservation_slots WHERE start_at = ? AND end_at = ?]
    through [GetContext]: the first matching row, or [sql.ErrNoRows]. *)
Definition get_slot (startAt endAt : Z) : M (option Z) := fun w =>
  (Ok (option_map ReservationSlotModel_Slot
         (List.find (slot_is startAt endAt) (reservation_slots (working w)))),
   log (OpGetSlot startAt endAt) w).

Definition decrement_slot (r : ReservationSlotModel) : ReservationSlotModel :=
  {| ReservationSlotModel_ID := ReservationSlotModel_ID r;
     ReservationSlotModel_Slot := ReservationSlotModel_Slot r - 1;
     ReservationSlotModel_StartAt := ReservationSlotModel_StartAt r;
     ReservationSlotModel_EndAt := ReservationSlotModel_EndAt r |}.

(** [UPDATE reservation_slots SET slot = slot - 1 WHERE start_at >= ? AND end_at <= ?] *)
Definition update_slots_rows (startAt endAt : Z) (rows : list ReservationSlotModel)
  : list ReservationSlotModel :=
  map (fun r => if slot_in_range startAt endAt r then decrement_slot r else r) rows.

Definition update_slots (startAt endAt : Z) : M unit := fun w =>
  (Ok tt,
   log (OpUpdateSlots startAt endAt)
     (set_working
        (with_reservation_slots
           (update_slots_rows startAt endAt (reservation_slots (working w)))
           (working w)) w)).

Definition with_LivestreamModel_ID (id : Z) (m : LivestreamModel) : LivestreamModel :=
  {| LivestreamModel_ID := id;
     LivestreamModel_UserID := LivestreamModel_UserID m;
     LivestreamModel_Title := LivestreamModel_Title m;
     LivestreamModel_Description := LivestreamModel_Description m;
     LivestreamModel_PlaylistUrl := LivestreamModel_PlaylistUrl m;
     LivestreamModel_ThumbnailUrl := LivestreamModel_ThumbnailUrl m;
     LivestreamModel_StartAt := LivestreamModel_StartAt m;
     LivestreamModel_EndAt := LivestreamModel_EndAt m;
     LivestreamModel_Reactions := LivestreamModel_Reactions m;
     LivestreamModel_Tips := LivestreamModel_Tips m;
     LivestreamModel_MaxTip := LivestreamModel_MaxTip m |}.

(** [INSERT INTO livestreams (user_id, title, description, playlist_url,
    thumbnail_url, start_at, end_at) VALUES (...)] followed by
    [rs.LastInsertId()]. *)
Definition insert_livestream (m : LivestreamModel) : M Z := fun w =>
  let id := livestreams_auto (working w) in
  let row := with_LivestreamModel_ID id m in
  (Ok id,
   log (OpInsertLivestream row)
     (set_working
        (with_livestreams (livestreams (working w) ++ [row]) (id + 1) (working w))
        w)).

(** [INSERT INTO livestream_tags (livestream_id, tag_id) VALUES (...)] *)
Definition insert_livestream_tag (livestreamID tagID : Z) : M unit := fun w =>
  let id := livestream_tags_auto (working w) in
  let row := {| LivestreamTagModel_ID := id;
                LivestreamTagModel_LivestreamID := livestreamID;
                LivestreamTagModel_TagID := tagID |} in
  (Ok tt,
   log (OpInsertLivestreamTag row)
     (set_working
        (with_livestream_tags (livestream_tags (working w) ++ [row]) (id + 1)
           (working w))
        w)).

Definition termStartAt : GoTime.Time := GoTime.Date 2023 11 25 1 0 0.
Definition termEndAt : GoTime.Time := GoTime.Date 2024 11 25 1 0 0.

(** The condition of the [if] that answers "bad reservation time range". *)
Definition out_of_term (req : ReserveLivestreamRequest) : bool :=
  let reserveStartAt := GoTime.Unix (Req_StartAt req) 0 in
  let reserveEndAt := GoTime.Unix (Req_EndAt req) 0 in
  (GoTime.Equal reserveStartAt termEndAt || GoTime.After reserveStartAt termEndAt)
  || (GoTime.Equal reserveEndAt termStartAt || GoTime.Before reserveEndAt termStartAt).

(** [for _, slot := range slots { ... if count < 1 { return 400 } }] *)
Fixpoint check_slots (req : ReserveLivestreamRequest)
    (slots : list ReservationSlotModel) : M unit :=
  match slots with
  | [] => ret tt
  | slot :: rest =>
      count <- get_slot (ReservationSlotModel_StartAt slot)
                        (ReservationSlotModel_EndAt slot) ;;
      match count with
      | None => exit (HTTPError StatusInternalServerError FailedToGetReservationSlots)
      | Some count =>
          if count <? 1 then
            exit (HTTPError StatusBadRequest
                    (SlotNotReservable (GoTime.ToUnix termStartAt)
                       (GoTime.ToUnix termEndAt) (Req_StartAt req) (Req_EndAt req)))
          else check_slots req rest
      end
  end.

(** [for _, tagID := range req.Tags { INSERT INTO livestream_tags ... }] *)
Fixpoint insert_tags (livestreamID : Z) (tags : list Z) : M unit :=
  match tags with
  | [] => ret tt
  | tagID :: rest =>
      insert_livestream_tag livestreamID tagID ;;;
      insert_tags livestreamID rest
  end.

Section Handlers.

(** The package-level tag table [TAGS], indexed by tag id. *)
Variable TAGS : Z -> string.

(** [func fillLivestreamResponse(ctx, livestreamModel, userModel, tagIds)] *)
Definition fillLivestreamResponse (livestreamModel : LivestreamModel)
    (userModel : UserModel) (tagIds : list Z) : Livestream :=
  let owner := fillUserResponse userModel in
  let tags := map (fun tagId => {| Tag_ID := tagId; Tag_Name := TAGS tagId |}) tagIds in
  {| Livestream_ID := LivestreamModel_ID livestreamModel;
     Livestream_Owner := owner;
     Livestream_Title := LivestreamModel_Title livestreamModel;
     Livestream_Description := LivestreamModel_Description livestreamModel;
     Livestream_PlaylistUrl := LivestreamModel_PlaylistUrl livestreamModel;
     Livestream_ThumbnailUrl := LivestreamModel_ThumbnailUrl livestreamModel;
     Livestream_Tags := tags;
     Livestream_StartAt := LivestreamModel_StartAt livestreamModel;
     Livestream_EndAt := LivestreamModel_EndAt livestreamModel |}.

(** The model built from the request; the three counter columns are not
    part of the [INSERT] and take the column default 0. *)
Definition new_livestreamModel (userID : Z) (req : ReserveLivestreamRequest)
  : LivestreamModel :=
  {| LivestreamModel_ID := 0;
     LivestreamModel_UserID := userID;
     LivestreamModel_Title := Req_Title req;
     LivestreamModel_Description := Req_Description req;
     LivestreamModel_PlaylistUrl := Req_PlaylistUrl req;
     LivestreamModel_ThumbnailUrl := Req_ThumbnailUrl req;
     LivestreamModel_StartAt := Req_StartAt req;
     LivestreamModel_EndAt := Req_EndAt req;
     LivestreamModel_Reactions := 0;
     LivestreamModel_Tips := 0;
     LivestreamModel_MaxTip := 0 |}.

(** The statements after the capacity loop: the decrement, the inserts,
    the owner lookup, the response and the commit. *)
Definition admit_reservation (now : Z) (userID : Z) (req : ReserveLivestreamRequest)
  : M (Response Livestream) :=
  update_slots (Req_StartAt req) (Req_EndAt req) ;;;
  livestreamID <- insert_livestream (new_livestreamModel userID req) ;;
  let livestreamModel :=
    with_LivestreamModel_ID livestreamID (new_livestreamModel userID req) in
  insert_tags livestreamID (Req_Tags req) ;;;
  user <- getUserWithCache now userID ;;
  match user with
  | None => exit (HTTPError StatusNotFound UserNotFound)
  | Some user =>
      fun w =>
        let livestream :=
          fillLivestreamResponse livestreamModel (deref w user) (Req_Tags req) in
        (Commit ;;; ret (JSON StatusCreated livestream)) w
  end.

(** The handler after [verifyUserSession] and the JSON decoding of the
    body: [userID] is the session's user and [req] the decoded request.
    The body is cut in two at the end of the capacity loop. *)
Definition reserve_body (now : Z) (userID : Z) (req : ReserveLivestreamRequest)
  : M (Response Livestream) :=
  if out_of_term req then
    exit (HTTPError StatusBadRequest BadReservationTimeRange)
  else
    slots <- select_slots_for_update (Req_StartAt req) (Req_EndAt req) ;;
    check_slots req slots ;;;
    admit_reservation now userID req.

Definition reserveLivestreamHandler (now : Z) (userID : Z)
    (req : ReserveLivestreamRequest) (w : World)
  : Response Livestream * World :=
  match BeginTxx w with
  | (_, w1) => defer_Rollback (reserve_body now userID req) w1
  end.

End Handlers.

(** * Properties of the reservation handler *)

(** ** Bookkeeping on worlds *)

Definition logs (ops : list StoreOp) (w : World) : World :=
  {| committed := committed w; working := working w; tx_done := tx_done w;
     heap := heap w; userCache := userCache w; iconCache := iconCache w;
     trace := trace w ++ ops |}.

Lemma logs_nil w : logs [] w = w.
Proof. destruct w; unfold logs; simpl. by rewrite app_nil_r. Qed.

Lemma log_logs op ops w : log op (logs ops w) = logs (ops ++ [op]) w.
Proof. unfold log, logs; simpl. by rewrite app_assoc. Qed.

Lemma logs_log op ops w : logs ops (log op w) = logs (op :: ops) w.
Proof. unfold log, logs; simpl. by rewrite <- app_assoc. Qed.

Lemma logs_logs ops ops' w : logs ops' (logs ops w) = logs (ops ++ ops') w.
Proof. unfold logs; simpl. by rewrite app_assoc. Qed.

(** ** Slot rows *)

Definition slot_key (r : ReservationSlotModel) : Z * Z :=
  (ReservationSlotModel_StartAt r, ReservationSlotModel_EndAt r).

(** No two slot rows cover the same interval: the slots partition the
    booking window. *)
Definition slots_wf (rows : list ReservationSlotModel) : Prop :=
  NoDup (map slot_key rows).

Definition slot_exhausted (r : ReservationSlotModel) : bool :=
  ReservationSlotModel_Slot r <? 1.

(** Some slot inside the requested range has no capacity left. *)
Definition capacity_exhausted (startAt endAt : Z)
    (rows : list ReservationSlotModel) : bool :=
  existsb (fun r => slot_in_range startAt endAt r && slot_exhausted r) rows.

Lemma slot_is_key r r' :
  slot_is (ReservationSlotModel_StartAt r) (ReservationSlotModel_EndAt r) r' = true
  <-> slot_key r' = slot_key r.
Proof.
  unfold slot_is, slot_key. rewrite andb_true_iff, !Z.eqb_eq.
  split; [intros [-> ->]; reflexivity | intros [= -> ->]; auto].
Qed.

Lemma find_slot_unique rows r :
  slots_wf rows -> In r rows ->
  List.find (slot_is (ReservationSlotModel_StartAt r) (ReservationSlotModel_EndAt r)) rows
  = Some r.
Proof.
  unfold slots_wf. induction rows as [|x rows IH]; simpl; [tauto|].
  intros Hnd Hin. apply NoDup_cons in Hnd as [Hx Hnd].
  destruct (slot_is _ _ x) eqn:Hk.
  - destruct Hin as [->|Hin]; [reflexivity|].
    apply slot_is_key in Hk. exfalso. apply Hx. rewrite Hk.
    apply list_elem_of_In, in_map, Hin.
  - destruct Hin as [->|Hin]; [|auto].
    assert (slot_is (ReservationSlotModel_StartAt r) (ReservationSlotModel_EndAt r) r = true)
      by (apply slot_is_key; reflexivity).
    congruence.
Qed.

Lemma existsb_filter {A} (p q : A -> bool) l :
  existsb q (List.filter p l) = existsb (fun x => p x && q x) l.
Proof.
  induction l as [|x l IH]; simpl; [reflexivity|].
  destruct (p x); simpl; rewrite IH; reflexivity.
Qed.

(** ** The capacity loop *)

Definition get_op (slot : ReservationSlotModel) : StoreOp :=
  OpGetSlot (ReservationSlotModel_StartAt slot) (ReservationSlotModel_EndAt slot).

(** The slots the loop reads before it stops. *)
Fixpoint checked_prefix (slots : list ReservationSlotModel)
  : list ReservationSlotModel :=
  match slots with
  | [] => []
  | s :: rest => if slot_exhausted s then [s] else s :: checked_prefix rest
  end.

Definition not_reservable (req : ReserveLivestreamRequest) : Response Livestream :=
  HTTPError StatusBadRequest
    (SlotNotReservable (GoTime.ToUnix termStartAt) (GoTime.ToUnix termEndAt)
       (Req_StartAt req) (Req_EndAt req)).

Lemma check_slots_run req slots w :
  (forall slot, In slot slots ->
     List.find (slot_is (ReservationSlotModel_StartAt slot)
                        (ReservationSlotModel_EndAt slot))
       (reservation_slots (working w)) = Some slot) ->
  check_slots req slots w =
  ((if existsb slot_exhausted slots then Return (not_reservable req) else Ok tt),
   logs (map get_op (checked_prefix slots)) w).
Proof.
  revert w. induction slots as [|s slots IH]; intros w Hfind; simpl.
  - unfold ret. by rewrite logs_nil.
  - unfold bind, get_slot. rewrite (Hfind s) by (left; reflexivity). simpl.
    unfold slot_exhausted at 1 3.
    destruct (ReservationSlotModel_Slot s <? 1) eqn:Hc; simpl.
    + reflexivity.
    + rewrite IH by (intros slot Hin; apply Hfind; right; exact Hin).
      by rewrite logs_log.
Qed.

(** ** The tag loop *)

Fixpoint tag_rows (auto livestreamID : Z) (tags : list Z) : list LivestreamTagModel :=
  match tags with
  | [] => []
  | tagID :: rest =>
      {| LivestreamTagModel_ID := auto;
         LivestreamTagModel_LivestreamID := livestreamID;
         LivestreamTagModel_TagID := tagID |}
      :: tag_rows (auto + 1) livestreamID rest
  end.

Lemma length_tag_rows auto id tags : length (tag_rows auto id tags) = length tags.
Proof. revert auto. induction tags; simpl; intros; [reflexivity | by rewrite IHtags]. Qed.

Lemma tag_rows_tags auto id tags :
  map LivestreamTagModel_TagID (tag_rows auto id tags) = tags.
Proof. revert auto. induction tags; simpl; intros; [reflexivity | by rewrite IHtags]. Qed.

Lemma tag_rows_livestream auto id tags :
  Forall (fun row => LivestreamTagModel_LivestreamID row = id) (tag_rows auto id tags).
Proof. revert auto. induction tags; simpl; intros; constructor; auto. Qed.

Lemma insert_tags_run id tags w :
  insert_tags id tags w =
  (Ok tt,
   logs (map OpInsertLivestreamTag (tag_rows (livestream_tags_auto (working w)) id tags))
     (set_working
        (with_livestream_tags
           (livestream_tags (working w)
            ++ tag_rows (livestream_tags_auto (working w)) id tags)
           (livestream_tags_auto (working w) + Z.of_nat (length tags))
           (working w)) w)).
Proof.
  revert w. induction tags as [|t tags IH]; intros w; simpl.
  - unfold ret. rewrite logs_nil, app_nil_r, Z.add_0_r.
    destruct w as [c d ? ? ? ? ?]; destruct d; reflexivity.
  - unfold bind, insert_livestream_tag. rewrite IH. simpl.
    unfold logs, log, set_working, with_livestream_tags; simpl.
    rewrite <- !app_assoc. simpl.
    replace (livestream_tags_auto (working w) + 1 + Z.of_nat (length tags))
      with (livestream_tags_auto (working w) + Z.pos (Pos.of_succ_nat (length tags)))
      by lia.
    reflexivity.
Qed.

(** ** The owner lookup leaves the store alone *)

Lemma lookup_cached_frame now key w u w' :
  lookup_cached now key w = Some (u, w') ->
  committed w' = committed w /\ working w' = working w /\
  tx_done w' = tx_done w /\ trace w' = trace w /\
  userCache w' = userCache w /\ iconCache w' = iconCache w.
Proof.
  unfold lookup_cached. intros H.
  destruct (gocache.Get now (userCache w) key); [|discriminate].
  destruct (gocache.Get now (iconCache w) _); [|discriminate].
  injection H as <- <-. simpl. tauto.
Qed.

Lemma getUserWithCache_frame now userId w r w' :
  getUserWithCache now userId w = (r, w') ->
  committed w' = committed w /\ working w' = working w /\
  tx_done w' = tx_done w /\
  (trace w' = trace w \/ trace w' = trace w ++ [OpGetUserByID userId]) /\
  exists o, r = Ok o /\
    (o = None -> select_user_by_id (committed w) userId = None).
Proof.
  unfold getUserWithCache. intros H.
  destruct (lookup_cached now (key_id userId) w) as [[u w1]|] eqn:Hc.
  - injection H as <- <-.
    apply lookup_cached_frame in Hc as (-> & -> & -> & -> & _).
    repeat split; auto. eexists; split; [reflexivity | discriminate].
  - simpl in H. destruct (select_user_by_id (committed w) userId) eqn:Hs;
      injection H as <- <-; simpl; repeat split; auto;
      eexists; (split; [reflexivity|]); auto; discriminate.
Qed.

(** ** The transaction's view after the admission statements *)

Definition new_row (userID : Z) (req : ReserveLivestreamRequest) (d : DB)
  : LivestreamModel :=
  with_LivestreamModel_ID (livestreams_auto d) (new_livestreamModel userID req).

Definition admitted_view (userID : Z) (req : ReserveLivestreamRequest) (d : DB) : DB :=
  let d1 := with_reservation_slots
              (update_slots_rows (Req_StartAt req) (Req_EndAt req)
                 (reservation_slots d)) d in
  let d2 := with_livestreams (livestreams d1 ++ [new_row userID req d])
              (livestreams_auto d + 1) d1 in
  with_livestream_tags
    (livestream_tags d2
     ++ tag_rows (livestream_tags_auto d2) (livestreams_auto d) (Req_Tags req))
    (livestream_tags_auto d2 + Z.of_nat (length (Req_Tags req))) d2.

(** The statements of an admission, between [BEGIN] and the owner lookup. *)
Definition admission_ops (userID : Z) (req : ReserveLivestreamRequest) (d : DB)
  : list StoreOp :=
  [OpSelectSlotsForUpdate (Req_StartAt req) (Req_EndAt req)]
  ++ map get_op
       (List.filter (slot_in_range (Req_StartAt req) (Req_EndAt req))
          (reservation_slots d))
  ++ [OpUpdateSlots (Req_StartAt req) (Req_EndAt req);
      OpInsertLivestream (new_row userID req d)]
  ++ map OpInsertLivestreamTag
       (tag_rows (livestream_tags_auto d) (livestreams_auto d) (Req_Tags req)).

Definition begun (w : World) : World :=
  {| committed := committed w; working := committed w; tx_done := false;
     heap := heap w; userCache := userCache w; iconCache := iconCache w;
     trace := trace w |}.

Lemma checked_prefix_all slots :
  existsb slot_exhausted slots = false -> checked_prefix slots = slots.
Proof.
  induction slots as [|s slots IH]; simpl; [reflexivity|].
  destruct (slot_exhausted s); simpl; [discriminate|].
  intros H. by rewrite IH.
Qed.

Lemma World_eq w1 w2 :
  committed w1 = committed w2 -> working w1 = working w2 ->
  tx_done w1 = tx_done w2 -> heap w1 = heap w2 ->
  userCache w1 = userCache w2 -> iconCache w1 = iconCache w2 ->
  trace w1 = trace w2 -> w1 = w2.
Proof. destruct w1, w2; simpl; intros; subst; reflexivity. Qed.

(** The writes of an admission. *)
Definition write_ops (userID : Z) (req : ReserveLivestreamRequest) (d : DB)
  : list StoreOp :=
  [OpUpdateSlots (Req_StartAt req) (Req_EndAt req);
   OpInsertLivestream (new_row userID req d)]
  ++ map OpInsertLivestreamTag
       (tag_rows (livestream_tags_auto d) (livestreams_auto d) (Req_Tags req)).

(** The world in which the owner is looked up. *)
Definition written (userID : Z) (req : ReserveLivestreamRequest) (w : World) : World :=
  logs (write_ops userID req (working w))
    (set_working (admitted_view userID req (working w)) w).

Definition committed_world (w : World) : World := snd (Commit w).

Section HandlerRuns.
Variable TAGS : Z -> string.

Lemma admit_reservation_run now userID req w :
  admit_reservation TAGS now userID req w =
  match getUserWithCache now userID (written userID req w) with
  | (Ok (Some u), w2) =>
      (Ok (JSON StatusCreated
             (fillLivestreamResponse TAGS (new_row userID req (working w))
                (deref w2 u) (Req_Tags req))),
       committed_world w2)
  | (Ok None, w2) => (Return (HTTPError StatusNotFound UserNotFound), w2)
  | (Return r, w2) => (Return r, w2)
  end.
Proof.
  unfold admit_reservation.
  unfold bind at 1. unfold update_slots.
  unfold bind at 1. unfold insert_livestream. cbn [working set_working log].
  unfold bind at 1. rewrite insert_tags_run.
  unfold bind at 1.
  match goal with |- context [getUserWithCache now userID ?x] =>
    replace x with (written userID req w) end.
  2:{ unfold written. apply World_eq; simpl; try reflexivity.
      rewrite <- ?app_assoc. reflexivity. }
  destruct (getUserWithCache now userID (written userID req w))
    as [[[u|]|r] w2]; reflexivity.
Qed.

(** The handler, cut at the capacity loop. *)
Lemma reserve_run now userID req w :
  out_of_term req = false ->
  reserveLivestreamHandler TAGS now userID req w =
  match check_slots req
          (List.filter (slot_in_range (Req_StartAt req) (Req_EndAt req))
             (reservation_slots (committed w)))
          (logs [OpBegin; OpSelectSlotsForUpdate (Req_StartAt req) (Req_EndAt req)]
             (begun w)) with
  | (Ok _, wc) =>
      match admit_reservation TAGS now userID req wc with
      | (Ok r, w') => (r, Rollback w')
      | (Return r, w') => (r, Rollback w')
      end
  | (Return r, wc) => (r, Rollback wc)
  end.
Proof.
  intros Hout.
  unfold reserveLivestreamHandler, BeginTxx, defer_Rollback, reserve_body.
  rewrite Hout. unfold bind at 1. unfold select_slots_for_update.
  cbn [working log committed].
  unfold bind at 1.
  match goal with |- context [check_slots req _ ?x] =>
    replace x with
      (logs [OpBegin; OpSelectSlotsForUpdate (Req_StartAt req) (Req_EndAt req)]
         (begun w)) end.
  2:{ apply World_eq; simpl; try reflexivity. rewrite <- ?app_assoc. reflexivity. }
  destruct (check_slots req _ _) as [[[]|r] wc]; reflexivity.
Qed.

Lemma reserve_out_of_term_run now userID req w :
  out_of_term req = true ->
  reserveLivestreamHandler TAGS now userID req w =
  (HTTPError StatusBadRequest BadReservationTimeRange,
   {| committed := committed w; working := committed w; tx_done := true;
      heap := heap w; userCache := userCache w; iconCache := iconCache w;
      trace := trace w ++ [OpBegin; OpRollback] |}).
Proof.
  intros Hout. unfold reserveLivestreamHandler, BeginTxx, defer_Rollback, reserve_body.
  rewrite Hout. unfold exit, Rollback, log. simpl.
  by rewrite <- app_assoc.
Qed.

End HandlerRuns.

(** ** The three ways through the handler *)

Definition rolled_back (w : World) (ops : list StoreOp) : World :=
  {| committed := committed w; working := committed w; tx_done := true;
     heap := heap w; userCache := userCache w; iconCache := iconCache w;
     trace := trace w ++ ops |}.

Definition select_op (req : ReserveLivestreamRequest) : StoreOp :=
  OpSelectSlotsForUpdate (Req_StartAt req) (Req_EndAt req).

Definition slots_in_range (req : ReserveLivestreamRequest) (d : DB)
  : list ReservationSlotModel :=
  List.filter (slot_in_range (Req_StartAt req) (Req_EndAt req)) (reservation_slots d).

(** The world of the owner lookup when every slot had capacity. *)
Definition before_owner (userID : Z) (req : ReserveLivestreamRequest) (w : World)
  : World :=
  written userID req
    (logs ([OpBegin; select_op req] ++ map get_op (slots_in_range req (committed w)))
       (begun w)).

Lemma before_owner_frame userID req w :
  committed (before_owner userID req w) = committed w /\
  working (before_owner userID req w) = admitted_view userID req (committed w) /\
  tx_done (before_owner userID req w) = false /\
  trace (before_owner userID req w)
  = trace w ++ [OpBegin] ++ admission_ops userID req (committed w).
Proof.
  unfold before_owner, written. cbn [committed working tx_done trace logs set_working begun].
  repeat split. unfold admission_ops, write_ops, new_row, select_op, slots_in_range.
  rewrite <- ?app_assoc. reflexivity.
Qed.

Lemma check_slots_frame req slots w :
  exists ops,
    snd (check_slots req slots w) = logs ops w /\
    (fst (check_slots req slots w) = Ok tt \/
     exists code msg, fst (check_slots req slots w) = Return (HTTPError code msg)).
Proof.
  revert w. induction slots as [|s slots IH]; intros w; simpl.
  - exists []. rewrite logs_nil. auto.
  - unfold bind, get_slot.
    destruct (option_map _ _) as [count|]; simpl.
    + destruct (count <? 1); simpl.
      * exists [get_op s]. split; [reflexivity|]. right. eauto.
      * destruct (IH (log (OpGetSlot (ReservationSlotModel_StartAt s)
                                     (ReservationSlotModel_EndAt s)) w))
          as (ops & Hw & Hr).
        exists (get_op s :: ops). rewrite Hw, logs_log. auto.
    + exists [get_op s]. split; [reflexivity|]. right. eauto.
Qed.

Section HandlerCases.
Variable TAGS : Z -> string.

Lemma reserve_exhausted_run now userID req w :
  out_of_term req = false ->
  slots_wf (reservation_slots (committed w)) ->
  capacity_exhausted (Req_StartAt req) (Req_EndAt req)
    (reservation_slots (committed w)) = true ->
  reserveLivestreamHandler TAGS now userID req w =
  (not_reservable req,
   rolled_back w
     ([OpBegin; select_op req]
      ++ map get_op (checked_prefix (slots_in_range req (committed w)))
      ++ [OpRollback])).
Proof.
  intros Hout Hwf Hex. rewrite (reserve_run TAGS now userID req w Hout).
  rewrite check_slots_run.
  2:{ cbn [working logs begun]. intros slot Hin. apply find_slot_unique; [exact Hwf|].
      apply filter_In in Hin. tauto. }
  rewrite existsb_filter.
  fold (capacity_exhausted (Req_StartAt req) (Req_EndAt req)
          (reservation_slots (committed w))).
  rewrite Hex. f_equal. unfold Rollback. cbn [tx_done logs begun].
  apply World_eq; simpl; try reflexivity.
  unfold select_op, slots_in_range. rewrite <- ?app_assoc. reflexivity.
Qed.

Lemma reserve_admitted_run now userID req w :
  out_of_term req = false ->
  slots_wf (reservation_slots (committed w)) ->
  capacity_exhausted (Req_StartAt req) (Req_EndAt req)
    (reservation_slots (committed w)) = false ->
  reserveLivestreamHandler TAGS now userID req w =
  match getUserWithCache now userID (before_owner userID req w) with
  | (Ok (Some u), w2) =>
      (JSON StatusCreated
         (fillLivestreamResponse TAGS (new_row userID req (committed w))
            (deref w2 u) (Req_Tags req)),
       committed_world w2)
  | (Ok None, w2) => (HTTPError StatusNotFound UserNotFound, Rollback w2)
  | (Return r, w2) => (r, Rollback w2)
  end.
Proof.
  intros Hout Hwf Hex. rewrite (reserve_run TAGS now userID req w Hout).
  rewrite check_slots_run.
  2:{ cbn [working logs begun]. intros slot Hin. apply find_slot_unique; [exact Hwf|].
      apply filter_In in Hin. tauto. }
  rewrite existsb_filter.
  fold (capacity_exhausted (Req_StartAt req) (Req_EndAt req)
          (reservation_slots (committed w))).
  rewrite Hex.
  rewrite checked_prefix_all by (rewrite existsb_filter; exact Hex).
  rewrite admit_reservation_run.
  match goal with |- context [getUserWithCache now userID ?x] =>
    replace x with (before_owner userID req w) end.
  2:{ unfold before_owner, slots_in_range, select_op. f_equal.
      apply World_eq; simpl; try reflexivity. rewrite <- ?app_assoc. reflexivity. }
  cbn [working logs begun].
  destruct (getUserWithCache now userID (before_owner userID req w))
    as [[[u|]|r] w2] eqn:Hu; reflexivity.
Qed.

(** Without any assumption on the slot rows: the loop either stops the
    request or hands over to the admission statements. *)
Lemma reserve_run_cases now userID req w :
  out_of_term req = false ->
  (exists code msg wc,
     reserveLivestreamHandler TAGS now userID req w
     = (HTTPError code msg, Rollback wc) /\
     committed wc = committed w /\ tx_done wc = false)
  \/
  (exists ops,
     let wc := logs ops (begun w) in
     reserveLivestreamHandler TAGS now userID req w =
     match getUserWithCache now userID (written userID req wc) with
     | (Ok (Some u), w2) =>
         (JSON StatusCreated
            (fillLivestreamResponse TAGS (new_row userID req (committed w))
               (deref w2 u) (Req_Tags req)),
          committed_world w2)
     | (Ok None, w2) => (HTTPError StatusNotFound UserNotFound, Rollback w2)
     | (Return r, w2) => (r, Rollback w2)
     end).
Proof.
  intros Hout. rewrite (reserve_run TAGS now userID req w Hout).
  match goal with |- context [check_slots req ?l ?x] =>
    destruct (check_slots_frame req l x) as (ops & Hw & Hr);
    destruct (check_slots req l x) as [rc wc] end.
  cbn [fst snd] in Hw, Hr. subst wc.
  destruct Hr as [-> | (code & msg & ->)].
  - right. exists ([OpBegin; select_op req] ++ ops).
    cbv zeta. rewrite admit_reservation_run, logs_logs.
    cbn [working logs begun].
    destruct (getUserWithCache now userID _) as [[[u|]|r] w2]; reflexivity.
  - left. eexists code, msg, _. split; [reflexivity|]. split; reflexivity.
Qed.

End HandlerCases.

(** ** What an admission does to the tables *)

Definition is_write (op : StoreOp) : bool :=
  match op with
  | OpUpdateSlots _ _ | OpInsertLivestream _ | OpInsertLivestreamTag _ => true
  | _ => false
  end.

Definition is_tx_boundary (op : StoreOp) : bool :=
  match op with
  | OpBegin | OpCommit | OpRollback => true
  | _ => false
  end.

(** [r'] is [r] with its counter lowered by exactly one. *)
Definition slot_decremented (r r' : ReservationSlotModel) : Prop :=
  ReservationSlotModel_ID r' = ReservationSlotModel_ID r /\
  slot_key r' = slot_key r /\
  ReservationSlotModel_Slot r' = ReservationSlotModel_Slot r - 1.

(** Row by row: the slots inside [startAt, endAt) are decremented, the
    others are untouched. *)
Definition slots_after (startAt endAt : Z)
    (rows rows' : list ReservationSlotModel) : Prop :=
  Forall2 (fun r r' => if slot_in_range startAt endAt r
                       then slot_decremented r r' else r' = r) rows rows'.

Lemma update_slots_rows_after startAt endAt rows :
  slots_after startAt endAt rows (update_slots_rows startAt endAt rows).
Proof.
  unfold slots_after, update_slots_rows.
  induction rows as [|r rows IH]; simpl; constructor; [|exact IH].
  destruct (slot_in_range startAt endAt r); [|reflexivity].
  repeat split.
Qed.

Lemma admission_ops_no_boundary userID req d :
  Forall (fun op => is_tx_boundary op = false) (admission_ops userID req d).
Proof.
  unfold admission_ops. repeat (apply Forall_app; split);
    try (apply Forall_forall; intros op Hin%list_elem_of_In%in_map_iff;
         destruct Hin as (x & <- & _); reflexivity);
    repeat constructor.
Qed.

Lemma get_ops_no_write slots :
  Forall (fun op => is_write op = false) (map get_op slots).
Proof.
  apply Forall_forall. intros op Hin%list_elem_of_In%in_map_iff.
  destruct Hin as (x & <- & _). reflexivity.
Qed.

(** The outcome of a reservation request that reaches the capacity check,
    in terms of the statements sent and of the tables. *)
Definition capacity_check_cases (TAGS : Z -> string) (now userID : Z)
    (req : ReserveLivestreamRequest) (w : World) : Prop :=
  let d := committed w in
  let resp := fst (reserveLivestreamHandler TAGS now userID req w) in
  let w' := snd (reserveLivestreamHandler TAGS now userID req w) in
  let startAt := Req_StartAt req in
  let endAt := Req_EndAt req in
  exists stmts final,
    trace w' = trace w ++ [OpBegin] ++ stmts ++ [final] /\
    Forall (fun op => is_tx_boundary op = false) stmts /\
    if capacity_exhausted startAt endAt (reservation_slots d) then
      (* CapacityExhausted: 400, nothing written, nothing committed *)
      resp = not_reservable req /\
      final = OpRollback /\
      Forall (fun op => is_write op = false) stmts /\
      committed w' = d
    else
      (* one transaction holds the decrement and the inserts *)
      exists view tags,
        In (OpUpdateSlots startAt endAt) stmts /\
        In (OpInsertLivestream (new_row userID req d)) stmts /\
        Forall (fun row => In (OpInsertLivestreamTag row) stmts) tags /\
        slots_after startAt endAt (reservation_slots d) (reservation_slots view) /\
        livestreams view = livestreams d ++ [new_row userID req d] /\
        livestream_tags view = livestream_tags d ++ tags /\
        map LivestreamTagModel_TagID tags = Req_Tags req /\
        Forall (fun row => LivestreamTagModel_LivestreamID row
                           = LivestreamModel_ID (new_row userID req d)) tags /\
        ((final = OpCommit /\ committed w' = view /\
          exists body, resp = JSON StatusCreated body)
         \/
         (* the owner of the session is not a row of [users] *)
         (final = OpRollback /\ committed w' = d /\
          resp = HTTPError StatusNotFound UserNotFound /\
          select_user_by_id d userID = None)).

(** The capacity check in full: besides the two outcomes of the check
    itself there is the case of a session whose user has no row in
    [users], where the transaction is rolled back with a 404. *)
Lemma reserve_capacity_cases (TAGS : Z -> string) (now userID : Z)
    (req : ReserveLivestreamRequest) (w : World) :
  out_of_term req = false ->
  slots_wf (reservation_slots (committed w)) ->
  capacity_check_cases TAGS now userID req w.
Proof.
  intros Hout Hwf. unfold capacity_check_cases.
  destruct (capacity_exhausted (Req_StartAt req) (Req_EndAt req)
              (reservation_slots (committed w))) eqn:Hex.
  - rewrite (reserve_exhausted_run TAGS now userID req w Hout Hwf Hex).
    cbn [fst snd rolled_back trace committed].
    exists (select_op req
            :: map get_op (checked_prefix (slots_in_range req (committed w)))),
           OpRollback.
    split; [cbn [app]; rewrite <- ?app_assoc; reflexivity|].
    split.
    { constructor; [reflexivity|].
      apply Forall_forall. intros op Hin%list_elem_of_In%in_map_iff.
      destruct Hin as (x & <- & _). reflexivity. }
    repeat split; auto.
    constructor; [reflexivity | apply get_ops_no_write].
  - rewrite (reserve_admitted_run TAGS now userID req w Hout Hwf Hex).
    set (d := committed w).
    destruct (before_owner_frame userID req w) as (Hcm & Hview & Hopen & Htm).
    fold d in Hcm, Hview, Htm.
    destruct (getUserWithCache now userID (before_owner userID req w))
      as [r w2] eqn:Hu.
    pose proof (getUserWithCache_frame _ _ _ _ _ Hu)
      as (Hc & Hw & Hd & Htr & o & -> & Hnone).
    rewrite Hcm in Hc, Hnone. rewrite Hview in Hw. rewrite Hopen in Hd.
    pose proof (admission_ops_no_boundary userID req d) as Hnb.
    set (tags := tag_rows (livestream_tags_auto d) (livestreams_auto d) (Req_Tags req)).
    assert (Hin1 : In (OpUpdateSlots (Req_StartAt req) (Req_EndAt req))
                      (admission_ops userID req d)).
    { unfold admission_ops. apply in_or_app. right. apply in_or_app. right.
      apply in_or_app. left. left. reflexivity. }
    assert (Hin2 : In (OpInsertLivestream (new_row userID req d))
                      (admission_ops userID req d)).
    { unfold admission_ops. apply in_or_app. right. apply in_or_app. right.
      apply in_or_app. left. right. left. reflexivity. }
    assert (Hin3 : Forall (fun row => In (OpInsertLivestreamTag row)
                                         (admission_ops userID req d)) tags).
    { apply Forall_forall. intros row Hrow%list_elem_of_In.
      unfold admission_ops. apply in_or_app. right. apply in_or_app. right.
      apply in_or_app. right. apply in_map. exact Hrow. }
    (* the statement list, with or without the owner's SELECT *)
    assert (Hstm : exists stmts,
               trace w2 = trace w ++ [OpBegin] ++ stmts /\
               Forall (fun op => is_tx_boundary op = false) stmts /\
               (forall op, In op (admission_ops userID req d) -> In op stmts)).
    { destruct Htr as [Htr|Htr]; rewrite Htr, Htm.
      - exists (admission_ops userID req d). auto.
      - exists (admission_ops userID req d ++ [OpGetUserByID userID]).
        split; [by rewrite <- !app_assoc|].
        split; [apply Forall_app; split; [exact Hnb | repeat constructor]|].
        intros op Hin. apply in_or_app. left. exact Hin. }
    destruct Hstm as (stmts & Htr2 & Hnb2 & Hsub).
    exists stmts.
    exists (match o with Some _ => OpCommit | None => OpRollback end).
    split.
    { destruct o; cbn [snd committed_world Commit log trace];
        [|unfold Rollback; rewrite Hd; cbn [log trace]];
        rewrite Htr2, <- ?app_assoc; reflexivity. }
    split; [exact Hnb2|].
    exists (admitted_view userID req d), tags.
    split; [auto|]. split; [auto|].
    split; [eapply Forall_impl; [exact Hin3|]; cbn beta; auto|].
    split; [apply update_slots_rows_after|].
    split; [reflexivity|]. split; [reflexivity|].
    split; [apply tag_rows_tags|].
    split; [apply tag_rows_livestream|].
    destruct o as [u|].
    + left. cbn [fst snd committed_world Commit log committed].
      split; [reflexivity|]. split; [exact Hw|]. eexists. reflexivity.
    + right. unfold Rollback. rewrite Hd. cbn [fst snd log committed].
      auto.
Qed.

(** ** The capacity check as the data model words it *)

(** The slot is fully contained in [startAt, endAt). *)
Definition fully_contained (startAt endAt : Z) (r : ReservationSlotModel) : Prop :=
  startAt <= ReservationSlotModel_StartAt r /\ ReservationSlotModel_EndAt r <= endAt.

(** Some slot fully contained in the range has a remaining-capacity
    counter below 1. *)
Definition some_slot_exhausted (startAt endAt : Z) (rows : list ReservationSlotModel)
  : Prop :=
  exists r, In r rows /\ fully_contained startAt endAt r /\
            ReservationSlotModel_Slot r < 1.

(** Row by row: the counter of every slot fully contained in the range is
    lowered by exactly 1, the other rows are untouched. *)
Definition contained_slots_decremented (startAt endAt : Z)
    (rows rows' : list ReservationSlotModel) : Prop :=
  Forall2 (fun r r' => (fully_contained startAt endAt r -> slot_decremented r r') /\
                       (~ fully_contained startAt endAt r -> r' = r)) rows rows'.

Lemma slot_in_range_spec startAt endAt r :
  slot_in_range startAt endAt r = true <-> fully_contained startAt endAt r.
Proof.
  unfold slot_in_range, fully_contained.
  rewrite andb_true_iff, !Z.leb_le. reflexivity.
Qed.

Lemma capacity_exhausted_spec startAt endAt rows :
  capacity_exhausted startAt endAt rows = true <->
  some_slot_exhausted startAt endAt rows.
Proof.
  unfold capacity_exhausted, some_slot_exhausted, slot_exhausted.
  rewrite existsb_exists. split.
  - intros (r & Hin & Hr). apply andb_true_iff in Hr as [Hc Hx].
    exists r. split; [exact Hin|]. split; [apply slot_in_range_spec; exact Hc|].
    apply Z.ltb_lt. exact Hx.
  - intros (r & Hin & Hc & Hx). exists r. split; [exact Hin|].
    apply andb_true_iff. split; [apply slot_in_range_spec; exact Hc|].
    apply Z.ltb_lt. exact Hx.
Qed.

Lemma slots_after_spec startAt endAt rows rows' :
  slots_after startAt endAt rows rows' ->
  contained_slots_decremented startAt endAt rows rows'.
Proof.
  unfold slots_after, contained_slots_decremented.
  induction 1 as [|r r' rows rows' Hr _ IH]; constructor; [|exact IH].
  destruct (slot_in_range startAt endAt r) eqn:Hin.
  - split; [intros _; exact Hr|]. intros Hn. exfalso. apply Hn.
    apply slot_in_range_spec. exact Hin.
  - split; [|intros _; exact Hr]. intros Hc%slot_in_range_spec. congruence.
Qed.

(** The outcome of a reservation request that reaches the capacity check,
    in terms of the statements sent and of the tables. *)
Definition capacity_check_outcome (TAGS : Z -> string) (now userID : Z)
    (req : ReserveLivestreamRequest) (w : World) : Prop :=
  let d := committed w in
  let resp := fst (reserveLivestreamHandler TAGS now userID req w) in
  let w' := snd (reserveLivestreamHandler TAGS now userID req w) in
  let startAt := Req_StartAt req in
  let endAt := Req_EndAt req in
  exists stmts final,
    trace w' = trace w ++ [OpBegin] ++ stmts ++ [final] /\
    Forall (fun op => is_tx_boundary op = false) stmts /\
    (* CapacityExhausted: 400, nothing written, nothing committed *)
    (some_slot_exhausted startAt endAt (reservation_slots d) ->
     resp = not_reservable req /\
     final = OpRollback /\
     Forall (fun op => is_write op = false) stmts /\
     committed w' = d) /\
    (* otherwise one transaction holds the decrement and the inserts *)
    (~ some_slot_exhausted startAt endAt (reservation_slots d) ->
     exists view tags,
       In (OpUpdateSlots startAt endAt) stmts /\
       In (OpInsertLivestream (new_row userID req d)) stmts /\
       Forall (fun row => In (OpInsertLivestreamTag row) stmts) tags /\
       contained_slots_decremented startAt endAt (reservation_slots d)
         (reservation_slots view) /\
       livestreams view = livestreams d ++ [new_row userID req d] /\
       livestream_tags view = livestream_tags d ++ tags /\
       map LivestreamTagModel_TagID tags = Req_Tags req /\
       Forall (fun row => LivestreamTagModel_LivestreamID row
                          = LivestreamModel_ID (new_row userID req d)) tags /\
       (* it is committed with 201, always so when the user has a row *)
       ((final = OpCommit /\ committed w' = view /\
         exists body, resp = JSON StatusCreated body)
        \/
        (* or rolled back with 404 when the owner lookup finds no user *)
        (final = OpRollback /\ committed w' = d /\
         resp = HTTPError StatusNotFound UserNotFound /\
         select_user_by_id d userID = None)) /\
       (select_user_by_id d userID <> None -> final = OpCommit)).

(** C1, amended.  A reservation request that reaches the capacity check
    (it passed the time-range check), on slot rows with pairwise distinct
    intervals: if some slot fully contained in [startAt, endAt) has a
    counter below 1 the answer is 400 "cannot reserve", no statement of
    the transaction writes and the committed tables are unchanged.
    Otherwise one transaction decrements exactly the slots fully contained
    in the range by 1 and inserts the livestream row and one tag row per
    requested tag; it is committed, with the answer 201, when the owner
    lookup finds the session's user, which it does whenever the user has a
    row in [users]; when it finds none the transaction is rolled back with
    the answer 404 and the committed tables are unchanged. *)
Theorem reserve_capacity_check (TAGS : Z -> string) (now userID : Z)
    (req : ReserveLivestreamRequest) (w : World) :
  out_of_term req = false ->
  slots_wf (reservation_slots (committed w)) ->
  capacity_check_outcome TAGS now userID req w.
Proof.
  intros Hout Hwf.
  destruct (reserve_capacity_cases TAGS now userID req w Hout Hwf)
    as (stmts & final & Htr & Hnb & H).
  unfold capacity_check_outcome. cbv zeta.
  exists stmts, final. split; [exact Htr|]. split; [exact Hnb|].
  destruct (capacity_exhausted (Req_StartAt req) (Req_EndAt req)
              (reservation_slots (committed w))) eqn:Hex.
  - split; [intros _; exact H|].
    intros Hn. exfalso. apply Hn. apply capacity_exhausted_spec. exact Hex.
  - split.
    { intros Hsome%capacity_exhausted_spec. congruence. }
    intros _.
    destruct H as (view & tags & H1 & H2 & H3 & H4 & H5 & H6 & H7 & H8 & Hend).
    exists view, tags.
    split; [exact H1|]. split; [exact H2|]. split; [exact H3|].
    split; [apply slots_after_spec; exact H4|].
    split; [exact H5|]. split; [exact H6|]. split; [exact H7|]. split; [exact H8|].
    split; [exact Hend|].
    intros Howner. destruct Hend as [(Hf & _) | (_ & _ & _ & Hnone)];
      [exact Hf | contradiction].
Qed.

(** ** A small store used to run the handlers *)

Definition ex_TAGS (tagId : Z) : string :=
  if tagId =? 1 then "music" else if tagId =? 2 then "sports" else "".

Definition ex_alice : UserModel :=
  {| UserModel_ID := 1; UserModel_Name := "alice"; UserModel_DisplayName := "Alice";
     UserModel_Description := ""; UserModel_HashedPassword := "x";
     UserModel_DarkMode := false; UserModel_Reactions := 10; UserModel_Tips := 5;
     UserModel_LiveComments := 0; UserModel_IconHash := [Byte.xd9; Byte.xf8] |}.

Definition ex_bob : UserModel :=
  {| UserModel_ID := 2; UserModel_Name := "bob"; UserModel_DisplayName := "Bob";
     UserModel_Description := ""; UserModel_HashedPassword := "y";
     UserModel_DarkMode := true; UserModel_Reactions := 7; UserModel_Tips := 8;
     UserModel_LiveComments := 0; UserModel_IconHash := [Byte.xd9; Byte.xf8] |}.

Definition ex_slot (id slot startAt endAt : Z) : ReservationSlotModel :=
  {| ReservationSlotModel_ID := id; ReservationSlotModel_Slot := slot;
     ReservationSlotModel_StartAt := startAt; ReservationSlotModel_EndAt := endAt |}.

(** Two one-hour slots at the start of the booking window, the first with
    one place left and the second full. *)
Definition ex_db : DB :=
  {| users := [ex_alice; ex_bob];
     livestreams := [];
     livestream_tags := [];
     reservation_slots :=
       [ex_slot 1 1 1700874000 1700877600; ex_slot 2 0 1700877600 1700881200];
     reactions := []; livecomments := []; favorite_emojis := []; icons := [];
     livestream_viewers_history := []; livecomment_reports := [];
     livestreams_auto := 1; livestream_tags_auto := 1 |}.

Definition ex_world : World :=
  {| committed := ex_db; working := ex_db; tx_done := true; heap := [];
     userCache := ∅; iconCache := ∅; trace := [] |}.

Definition ex_req (startAt endAt : Z) : ReserveLivestreamRequest :=
  {| Req_Tags := [1; 2]; Req_Title := "live"; Req_Description := "";
     Req_PlaylistUrl := ""; Req_ThumbnailUrl := "";
     Req_StartAt := startAt; Req_EndAt := endAt |}.

Lemma ex_db_slots_wf : slots_wf (reservation_slots (committed ex_world)).
Proof. apply (bool_decide_unpack _). vm_compute. exact I. Qed.

Lemma reserve_capacity_check_witness :
  out_of_term (ex_req 1700874000 1700877600) = false /\
  slots_wf (reservation_slots (committed ex_world)) /\
  capacity_check_outcome ex_TAGS 0 1 (ex_req 1700874000 1700877600) ex_world.
Proof.
  assert (H1 : out_of_term (ex_req 1700874000 1700877600) = false)
    by (vm_compute; reflexivity).
  assert (H2 : slots_wf (reservation_slots (committed ex_world))).
  { apply (bool_decide_unpack _). vm_compute. exact I. }
  exact (conj H1 (conj H2
    (reserve_capacity_check ex_TAGS 0 1 (ex_req 1700874000 1700877600) ex_world
       H1 H2))).
Defined.

(** [ex_db] with two rows for the first hour, the first with five places
    left and the second full. *)
Definition ex_duplicate_db : DB :=
  with_reservation_slots
    [ex_slot 1 5 1700874000 1700877600; ex_slot 2 0 1700874000 1700877600] ex_db.

Definition ex_duplicate_world : World :=
  {| committed := ex_duplicate_db; working := ex_duplicate_db; tx_done := true;
     heap := []; userCache := ∅; iconCache := ∅; trace := [] |}.

(** C1, as stated, fails, in both of its halves.  A session whose user 99
    has no row in [users]: the request reaches the capacity check, no slot
    inside its range is exhausted, and yet no counter is decremented and
    no livestream row inserted; the answer is 404 and the store is what it
    was.  And on a store with two rows for the same interval the check
    reads the first of them twice: the request is answered 201 although a
    slot inside its range is exhausted, and that slot's counter is
    lowered to -1. *)
Lemma reserve_capacity_claim_fails :
  (out_of_term (ex_req 1700874000 1700877600) = false /\
   (exists r, In r (reservation_slots (committed ex_world)) /\
              fully_contained 1700874000 1700877600 r) /\
   Forall (fun r => fully_contained 1700874000 1700877600 r ->
                    1 <= ReservationSlotModel_Slot r)
     (reservation_slots (committed ex_world)) /\
   select_user_by_id (committed ex_world) 99 = None /\
   fst (reserveLivestreamHandler ex_TAGS 0 99 (ex_req 1700874000 1700877600) ex_world)
   = HTTPError StatusNotFound UserNotFound /\
   committed (snd (reserveLivestreamHandler ex_TAGS 0 99
                     (ex_req 1700874000 1700877600) ex_world))
   = committed ex_world)
  /\
  (out_of_term (ex_req 1700874000 1700877600) = false /\
   some_slot_exhausted 1700874000 1700877600
     (reservation_slots (committed ex_duplicate_world)) /\
   exists body,
     fst (reserveLivestreamHandler ex_TAGS 0 1 (ex_req 1700874000 1700877600)
            ex_duplicate_world)
     = JSON StatusCreated body /\
     map ReservationSlotModel_Slot
       (reservation_slots
          (committed (snd (reserveLivestreamHandler ex_TAGS 0 1
                             (ex_req 1700874000 1700877600) ex_duplicate_world))))
     = [4; -1]).
Proof.
  split.
  - split; [vm_compute; reflexivity|].
    split.
    { exists (ex_slot 1 1 1700874000 1700877600). split; [left; reflexivity|].
      unfold fully_contained. cbn. lia. }
    split.
    { repeat constructor; unfold fully_contained; cbn; lia. }
    repeat split; vm_compute; reflexivity.
  - split; [vm_compute; reflexivity|].
    split.
    { exists (ex_slot 2 0 1700874000 1700877600).
      split; [right; left; reflexivity|]. unfold fully_contained. cbn. lia. }
    eexists. split; vm_compute; reflexivity.
Qed.

(** The run of that request and of a second one for the same hour. *)
Example ex_first_reservation_created :
  exists body w',
    reserveLivestreamHandler ex_TAGS 0 1 (ex_req 1700874000 1700877600) ex_world
    = (JSON StatusCreated body, w') /\
    map ReservationSlotModel_Slot (reservation_slots (committed w')) = [0; 0] /\
    length (livestreams (committed w')) = 1%nat /\
    length (livestream_tags (committed w')) = 2%nat.
Proof. eexists _, _. split; [vm_compute; reflexivity|]. vm_compute. auto. Qed.

Example ex_second_reservation_refused :
  let w1 := snd (reserveLivestreamHandler ex_TAGS 0 1
                   (ex_req 1700874000 1700877600) ex_world) in
  let r2 := reserveLivestreamHandler ex_TAGS 1 2 (ex_req 1700874000 1700877600) w1 in
  fst r2 = not_reservable (ex_req 1700874000 1700877600) /\
  committed (snd r2) = committed w1.
Proof. vm_compute. auto. Qed.

(** ** The booking window *)

Definition WindowStart : Z := GoTime.ToUnix termStartAt.
Definition WindowEnd : Z := GoTime.ToUnix termEndAt.

Lemma WindowStart_value : WindowStart = 1700874000.
Proof. vm_compute. reflexivity. Qed.

Lemma WindowEnd_value : WindowEnd = 1732496400.
Proof. vm_compute. reflexivity. Qed.

(** The seconds [time.Unix] turns into a [Time] without wrapping: those
    with [sec + unixToInternal] inside [int64]. *)
Definition representable (sec : Z) : Prop :=
  Int64.in_range (sec + GoTime.unixToInternal).

Lemma unixToInternal_value : GoTime.unixToInternal = 62135596800.
Proof. reflexivity. Qed.

Lemma termStartAt_value :
  termStartAt = {| GoTime.ext := 1700874000 + 62135596800; GoTime.nsec := 0 |}.
Proof. vm_compute. reflexivity. Qed.

Lemma termEndAt_value :
  termEndAt = {| GoTime.ext := 1732496400 + 62135596800; GoTime.nsec := 0 |}.
Proof. vm_compute. reflexivity. Qed.

Lemma Unix_representable sec :
  representable sec ->
  GoTime.Unix sec 0 = {| GoTime.ext := sec + 62135596800; GoTime.nsec := 0 |}.
Proof.
  unfold representable. intros H.
  unfold GoTime.Unix, GoTime.unixTime, Int64.add. simpl.
  rewrite Int64.wrap_id by exact H. rewrite unixToInternal_value. reflexivity.
Qed.

Lemma out_of_term_representable req :
  representable (Req_StartAt req) -> representable (Req_EndAt req) ->
  out_of_term req
  = (WindowEnd <=? Req_StartAt req) || (Req_EndAt req <=? WindowStart).
Proof.
  intros Hs He.
  rewrite WindowStart_value, WindowEnd_value.
  unfold out_of_term.
  rewrite (Unix_representable _ Hs), (Unix_representable _ He),
    termStartAt_value, termEndAt_value.
  unfold GoTime.Equal, GoTime.After, GoTime.Before.
  cbn [GoTime.ext GoTime.nsec].
  repeat match goal with
         | |- context [Z.ltb ?a ?b] => destruct (Z.ltb_spec a b)
         | |- context [Z.eqb ?a ?b] => destruct (Z.eqb_spec a b)
         | |- context [Z.leb ?a ?b] => destruct (Z.leb_spec a b)
         end; simpl; try reflexivity; lia.
Qed.

(** Within the representable seconds the range check is the intended
    one: the request is refused before any row is read or written. *)
Lemma reserve_out_of_window_refused TAGS now userID req w :
  representable (Req_StartAt req) -> representable (Req_EndAt req) ->
  Req_EndAt req <= WindowStart \/ WindowEnd <= Req_StartAt req ->
  fst (reserveLivestreamHandler TAGS now userID req w)
  = HTTPError StatusBadRequest BadReservationTimeRange /\
  committed (snd (reserveLivestreamHandler TAGS now userID req w)) = committed w /\
  trace (snd (reserveLivestreamHandler TAGS now userID req w))
  = trace w ++ [OpBegin; OpRollback].
Proof.
  intros Hs He Hout.
  rewrite reserve_out_of_term_run; [simpl; auto|].
  rewrite out_of_term_representable by assumption.
  apply orb_true_iff. rewrite !Z.leb_le. tauto.
Qed.

(** C3.  The request with [start_at = 2^63 - 1] (at or after [WindowEnd])
    and [end_at] inside the window is not refused: [time.Unix] wraps its
    seconds, the range check lets it through, the store is read and
    written, and the row is committed with a 201. *)
Theorem reserve_window_check_wraps :
  let req := ex_req (2 ^ 63 - 1) 1710000000 in
  let r := reserveLivestreamHandler ex_TAGS 0 1 req ex_world in
  Int64.in_range (Req_StartAt req) /\
  WindowEnd <= Req_StartAt req /\
  out_of_term req = false /\
  (exists body, fst r = JSON StatusCreated body) /\
  existsb is_read_or_write (trace (snd r)) = true /\
  map LivestreamModel_StartAt (livestreams (committed (snd r))) = [2 ^ 63 - 1].
Proof.
  cbv zeta.
  split; [unfold Int64.in_range, Int64.min_int, Int64.max_int, ex_req;
          cbn [Req_StartAt]; lia|].
  split; [rewrite WindowEnd_value; unfold ex_req; cbn [Req_StartAt]; lia|].
  split; [vm_compute; reflexivity|].
  split; [eexists; vm_compute; reflexivity|].
  split; vm_compute; reflexivity.
Qed.

(** ** What a 201 answer implies, whatever the slot table looks like *)

Lemma written_frame userID req w :
  committed (written userID req w) = committed w /\
  working (written userID req w) = admitted_view userID req (working w) /\
  tx_done (written userID req w) = tx_done w.
Proof. unfold written. cbn [committed working tx_done logs set_working]. auto. Qed.

Lemma admitted_view_slots userID req d :
  reservation_slots (admitted_view userID req d)
  = update_slots_rows (Req_StartAt req) (Req_EndAt req) (reservation_slots d).
Proof. reflexivity. Qed.

Lemma admitted_view_livestreams userID req d :
  livestreams (admitted_view userID req d) = livestreams d ++ [new_row userID req d].
Proof. reflexivity. Qed.

Lemma Rollback_committed w : committed (Rollback w) = committed w.
Proof. unfold Rollback. destruct (tx_done w); reflexivity. Qed.

(** A call either commits nothing, or answers 201 and commits the
    admission. *)
Lemma reserve_committed_cases TAGS now userID req w :
  committed (snd (reserveLivestreamHandler TAGS now userID req w)) = committed w /\
  (forall body,
     fst (reserveLivestreamHandler TAGS now userID req w) <> JSON StatusCreated body)
  \/
  out_of_term req = false /\
  committed (snd (reserveLivestreamHandler TAGS now userID req w))
  = admitted_view userID req (committed w) /\
  exists body,
    fst (reserveLivestreamHandler TAGS now userID req w) = JSON StatusCreated body.
Proof.
  destruct (out_of_term req) eqn:Hout.
  { rewrite reserve_out_of_term_run by exact Hout. left. split; [reflexivity|].
    discriminate. }
  destruct (reserve_run_cases TAGS now userID req w Hout)
    as [(code & msg & wc & -> & Hc & _) | (ops & ->)].
  { left. cbn [fst snd]. rewrite Rollback_committed. split; [exact Hc|]. discriminate. }
  destruct (written_frame userID req (logs ops (begun w))) as (Hc & Hw & Hd).
  cbn [committed working tx_done logs begun] in Hc, Hw, Hd.
  destruct (getUserWithCache now userID _) as [r w2] eqn:Hu.
  apply getUserWithCache_frame in Hu as (Hc2 & Hw2 & Hd2 & _ & o & -> & _).
  rewrite Hc in Hc2. rewrite Hw in Hw2. rewrite Hd in Hd2.
  destruct o as [u|]; cbn [fst snd].
  - right. split; [reflexivity|]. split; [exact Hw2|]. eexists. reflexivity.
  - left. rewrite Rollback_committed. split; [exact Hc2|]. discriminate.
Qed.

Lemma reserve_created_inv TAGS now userID req w body :
  fst (reserveLivestreamHandler TAGS now userID req w) = JSON StatusCreated body ->
  out_of_term req = false /\
  committed (snd (reserveLivestreamHandler TAGS now userID req w))
  = admitted_view userID req (committed w).
Proof.
  intros Hr.
  destruct (reserve_committed_cases TAGS now userID req w)
    as [(_ & Hno) | (Hout & Hc & _)]; [|auto].
  exfalso. exact (Hno body Hr).
Qed.

(** ** C4: the rows the handler commits *)

(** The row invariant as the data model words it. *)
Definition row_in_window (l : LivestreamModel) : Prop :=
  LivestreamModel_StartAt l < LivestreamModel_EndAt l /\
  WindowStart <= LivestreamModel_StartAt l < WindowEnd /\
  WindowStart <= LivestreamModel_EndAt l < WindowEnd.

(** C4, as stated, fails: a request with [start_at = end_at] one hour into
    the window is answered 201 and its row, with start = end, is committed
    although it is not a row "inside the window with start < end". *)
Lemma reserve_commits_empty_range :
  exists body l,
    fst (reserveLivestreamHandler ex_TAGS 0 1 (ex_req 1700877600 1700877600) ex_world)
    = JSON StatusCreated body /\
    In l (livestreams (committed (snd (reserveLivestreamHandler ex_TAGS 0 1
            (ex_req 1700877600 1700877600) ex_world)))) /\
    ~ In l (livestreams (committed ex_world)) /\
    LivestreamModel_StartAt l = LivestreamModel_EndAt l /\
    ~ row_in_window l.
Proof.
  eexists _, (new_row 1 (ex_req 1700877600 1700877600) ex_db).
  split; [vm_compute; reflexivity|].
  split; [vm_compute; left; reflexivity|].
  split; [simpl; tauto|].
  split; [reflexivity|].
  unfold row_in_window; simpl. lia.
Qed.

(** C4, amended.  Every row the handler commits, for timestamps that
    [time.Unix] represents without wrapping, starts before [WindowEnd]
    and ends after [WindowStart]: the requested range is never entirely
    outside the window.  (Neither [start < end] nor the containment of
    both ends in the window is checked.) *)
Theorem reserve_committed_row_meets_window (TAGS : Z -> string) (now userID : Z)
    (req : ReserveLivestreamRequest) (w : World) (l : LivestreamModel) :
  representable (Req_StartAt req) -> representable (Req_EndAt req) ->
  In l (livestreams (committed (snd (reserveLivestreamHandler TAGS now userID req w)))) ->
  ~ In l (livestreams (committed w)) ->
  l = new_row userID req (committed w) /\
  LivestreamModel_StartAt l = Req_StartAt req /\
  LivestreamModel_EndAt l = Req_EndAt req /\
  LivestreamModel_StartAt l < WindowEnd /\
  WindowStart < LivestreamModel_EndAt l.
Proof.
  intros Hs He Hin Hnew.
  destruct (reserve_committed_cases TAGS now userID req w)
    as [(Hsame & _)|(Hout & Hc & _)].
  { rewrite Hsame in Hin. contradiction. }
  rewrite Hc, admitted_view_livestreams in Hin.
  apply in_app_or in Hin as [Hin|Hin]; [contradiction|].
  destruct Hin as [<-|[]].
  rewrite out_of_term_representable in Hout by assumption.
  apply orb_false_iff in Hout as (H1%Z.leb_gt & H2%Z.leb_gt).
  simpl. auto.
Qed.

Lemma reserve_committed_row_meets_window_witness :
  LivestreamModel_StartAt (new_row 1 (ex_req 1700874000 1700877600) ex_db) < WindowEnd /\
  WindowStart < LivestreamModel_EndAt (new_row 1 (ex_req 1700874000 1700877600) ex_db).
Proof.
  assert (H1 : representable (Req_StartAt (ex_req 1700874000 1700877600)))
    by (cbv; split; discriminate).
  assert (H2 : representable (Req_EndAt (ex_req 1700874000 1700877600)))
    by (cbv; split; discriminate).
  assert (H3 : In (new_row 1 (ex_req 1700874000 1700877600) ex_db)
                 (livestreams (committed (snd (reserveLivestreamHandler ex_TAGS 0 1
                    (ex_req 1700874000 1700877600) ex_world)))))
    by (vm_compute; left; reflexivity).
  assert (H4 : ~ In (new_row 1 (ex_req 1700874000 1700877600) ex_db)
                    (livestreams (committed ex_world)))
    by (simpl; tauto).
  destruct (reserve_committed_row_meets_window ex_TAGS 0 1
              (ex_req 1700874000 1700877600) ex_world _ H1 H2 H3 H4)
    as (_ & _ & _ & Ha & Hb).
  exact (conj Ha Hb).
Defined.

(** ** C2: sequences of reservation requests *)

Record Call := {
  call_now : Z;
  call_userID : Z;
  call_req : ReserveLivestreamRequest
}.

(** One served request: the committed tables before, the answer, the
    committed tables after. *)
Record Step := {
  step_req : ReserveLivestreamRequest;
  step_before : DB;
  step_answer : Response Livestream;
  step_after : DB
}.

(** The requests are served one after the other, as the row locks of
    [SELECT ... FOR UPDATE] serialise the transactions that compete for a
    slot. *)
Fixpoint run_reserves (TAGS : Z -> string) (calls : list Call) (w : World)
  : list Step * World :=
  match calls with
  | [] => ([], w)
  | c :: rest =>
      let r := reserveLivestreamHandler TAGS (call_now c) (call_userID c) (call_req c) w in
      let rest' := run_reserves TAGS rest (snd r) in
      ({| step_req := call_req c; step_before := committed w;
          step_answer := fst r; step_after := committed (snd r) |} :: fst rest',
       snd rest')
  end.

Definition is_created (r : Response Livestream) : bool :=
  match r with
  | JSON code _ => code =? StatusCreated
  | _ => false
  end.

(** The reservation [l] holds the whole slot [r]: the slot's interval lies
    inside [l]'s range. *)
Definition holds_slot (r : ReservationSlotModel) (l : LivestreamModel) : bool :=
  slot_in_range (LivestreamModel_StartAt l) (LivestreamModel_EndAt l) r.

(** The reservation [l] and the slot [r] share some instant. *)
Definition overlaps_slot (r : ReservationSlotModel) (l : LivestreamModel) : bool :=
  (LivestreamModel_StartAt l <? ReservationSlotModel_EndAt r) &&
  (ReservationSlotModel_StartAt r <? LivestreamModel_EndAt l).

Definition count_rows (p : LivestreamModel -> bool) (rows : list LivestreamModel) : Z :=
  Z.of_nat (length (List.filter p rows)).

(** The rows of [livestreams] committed since [d0]. *)
Definition rows_since (d0 d : DB) : list LivestreamModel :=
  skipn (length (livestreams d0)) (livestreams d).

Definition slots_nonneg (rows : list ReservationSlotModel) : Prop :=
  Forall (fun r => 0 <= ReservationSlotModel_Slot r) rows.

Lemma slot_in_range_key startAt endAt r r' :
  slot_key r' = slot_key r ->
  slot_in_range startAt endAt r' = slot_in_range startAt endAt r.
Proof. unfold slot_key, slot_in_range. intros [= -> ->]. reflexivity. Qed.

Lemma update_slots_rows_keys startAt endAt rows :
  map slot_key (update_slots_rows startAt endAt rows) = map slot_key rows.
Proof.
  unfold update_slots_rows. rewrite map_map. apply map_ext.
  intros r. destruct (slot_in_range startAt endAt r); reflexivity.
Qed.

Lemma capacity_available_spec startAt endAt rows :
  capacity_exhausted startAt endAt rows = false <->
  Forall (fun r => slot_in_range startAt endAt r = true ->
                   1 <= ReservationSlotModel_Slot r) rows.
Proof.
  unfold capacity_exhausted, slot_exhausted.
  induction rows as [|r rows IH]; simpl.
  - split; [constructor | reflexivity].
  - rewrite orb_false_iff, IH, Forall_cons_iff.
    apply and_iff_compat_r.
    destruct (slot_in_range startAt endAt r); simpl.
    + rewrite Z.ltb_ge. tauto.
    + split; [discriminate | reflexivity].
Qed.

Lemma update_slots_rows_nonneg startAt endAt rows :
  capacity_exhausted startAt endAt rows = false ->
  slots_nonneg rows ->
  slots_nonneg (update_slots_rows startAt endAt rows).
Proof.
  intros Hcap%capacity_available_spec Hnn. unfold slots_nonneg, update_slots_rows in *.
  induction rows as [|r rows IH]; simpl; [constructor|].
  apply Forall_cons_iff in Hcap as [Hr Hcap].
  apply Forall_cons_iff in Hnn as [Hr0 Hnn].
  constructor; [|auto].
  destruct (slot_in_range startAt endAt r); simpl; [specialize (Hr eq_refl); lia | exact Hr0].
Qed.

Lemma count_rows_snoc p rows l :
  count_rows p (rows ++ [l]) = count_rows p rows + (if p l then 1 else 0).
Proof.
  unfold count_rows. rewrite List.filter_app, length_app. simpl.
  destruct (p l); simpl; lia.
Qed.

Section Sequences.
Variable TAGS : Z -> string.

(** A 201 on well-formed slots means that no slot inside the range was
    exhausted. *)
Lemma reserve_created_capacity now userID req w body :
  slots_wf (reservation_slots (committed w)) ->
  fst (reserveLivestreamHandler TAGS now userID req w) = JSON StatusCreated body ->
  capacity_exhausted (Req_StartAt req) (Req_EndAt req)
    (reservation_slots (committed w)) = false.
Proof.
  intros Hwf Hr.
  pose proof (reserve_created_inv _ _ _ _ _ _ Hr) as (Hout & _).
  destruct (capacity_exhausted _ _ _) eqn:Hex; [|reflexivity].
  rewrite (reserve_exhausted_run TAGS now userID req w Hout Hwf Hex) in Hr.
  discriminate.
Qed.

Lemma is_created_inv (r : Response Livestream) :
  is_created r = true -> exists body, r = JSON StatusCreated body.
Proof.
  destruct r as [| code body | | |]; simpl; try discriminate.
  intros ->%Z.eqb_eq. eauto.
Qed.

(** What links the committed tables [d] of a run to those it started
    from, [d0]. *)
Definition run_invariant (d0 d : DB) : Prop :=
  slots_wf (reservation_slots d) /\
  slots_nonneg (reservation_slots d) /\
  exists new,
    livestreams d = livestreams d0 ++ new /\
    Forall2 (fun r0 r =>
               slot_key r = slot_key r0 /\
               ReservationSlotModel_Slot r
               = ReservationSlotModel_Slot r0 - count_rows (holds_slot r0) new)
      (reservation_slots d0) (reservation_slots d).

Lemma run_invariant_refl d :
  slots_wf (reservation_slots d) -> slots_nonneg (reservation_slots d) ->
  run_invariant d d.
Proof.
  intros Hwf Hnn. split; [exact Hwf|]. split; [exact Hnn|].
  exists []. rewrite app_nil_r. split; [reflexivity|].
  clear. induction (reservation_slots d); constructor; auto.
  split; [reflexivity|]. unfold count_rows. simpl. lia.
Qed.

Lemma run_invariant_step d0 now userID req w :
  run_invariant d0 (committed w) ->
  run_invariant d0 (committed (snd (reserveLivestreamHandler TAGS now userID req w))).
Proof.
  intros (Hwf & Hnn & new & Hnew & Hrows).
  destruct (reserve_committed_cases TAGS now userID req w)
    as [(-> & _)|(_ & Hc & body & Hr)].
  { split; [exact Hwf|]. split; [exact Hnn|]. eauto. }
  pose proof (reserve_created_capacity _ _ _ _ _ Hwf Hr) as Hcap.
  rewrite Hc. unfold run_invariant.
  rewrite admitted_view_slots, admitted_view_livestreams.
  split; [unfold slots_wf; rewrite update_slots_rows_keys; exact Hwf|].
  split; [apply update_slots_rows_nonneg; assumption|].
  exists (new ++ [new_row userID req (committed w)]).
  split; [rewrite Hnew, <- app_assoc; reflexivity|].
  clear -Hrows. unfold update_slots_rows.
  induction Hrows as [|r0 r rows0 rows (Hk & Hs) _ IH]; simpl; constructor; auto.
  rewrite count_rows_snoc. unfold holds_slot at 2. simpl.
  rewrite <- (slot_in_range_key _ _ r0 r Hk).
  destruct (slot_in_range (Req_StartAt req) (Req_EndAt req) r); simpl.
  - split; [exact Hk | lia].
  - split; [exact Hk | lia].
Qed.

End Sequences.

(** What a served request may do, read off its [Step]: a 201 needs a
    counter of at least 1 in every slot inside the requested range and
    lowers exactly those by one; any other answer commits nothing. *)
Definition step_admission_ok (s : Step) : Prop :=
  let startAt := Req_StartAt (step_req s) in
  let endAt := Req_EndAt (step_req s) in
  if is_created (step_answer s) then
    Forall (fun r => slot_in_range startAt endAt r = true ->
                     1 <= ReservationSlotModel_Slot r)
      (reservation_slots (step_before s)) /\
    slots_after startAt endAt (reservation_slots (step_before s))
      (reservation_slots (step_after s))
  else step_after s = step_before s.

Lemma run_reserves_invariant TAGS d0 calls w :
  run_invariant d0 (committed w) ->
  Forall (fun s => slots_nonneg (reservation_slots (step_after s)))
    (fst (run_reserves TAGS calls w)) /\
  Forall step_admission_ok (fst (run_reserves TAGS calls w)) /\
  run_invariant d0 (committed (snd (run_reserves TAGS calls w))).
Proof.
  revert w. induction calls as [|c calls IH]; intros w Hinv; simpl.
  - split; [constructor|]. split; [constructor|]. exact Hinv.
  - pose proof (run_invariant_step TAGS d0 (call_now c) (call_userID c)
                  (call_req c) w Hinv) as Hinv'.
    destruct (IH _ Hinv') as (H1 & H2 & H3).
    split; [constructor; [simpl; apply Hinv'|exact H1]|].
    split; [|exact H3].
    constructor; [|exact H2].
    unfold step_admission_ok. simpl.
    destruct Hinv as (Hwf & _).
    destruct (is_created _) eqn:Hcr.
    + apply is_created_inv in Hcr as (body & Hr).
      pose proof (reserve_created_capacity TAGS _ _ _ _ _ Hwf Hr) as Hcap.
      apply reserve_created_inv in Hr as (_ & ->).
      split; [apply capacity_available_spec; exact Hcap|].
      apply update_slots_rows_after.
    + destruct (reserve_committed_cases TAGS (call_now c) (call_userID c)
                  (call_req c) w) as [(-> & _)|(_ & _ & body & Hr)]; [reflexivity|].
      rewrite Hr in Hcr. cbn [is_created] in Hcr.
      rewrite Z.eqb_refl in Hcr. discriminate.
Qed.

(** C2, amended.  From slot rows with pairwise distinct intervals and
    counters >= 0, every serialised sequence of reservation requests keeps
    every counter >= 0, answers 201 only when every slot lying inside the
    requested range has a counter >= 1 and then lowers exactly those slots
    by one, and never lets the number of committed reservations whose
    range contains a slot exceed that slot's initial counter. *)
Theorem reserve_sequence_no_overbooking (TAGS : Z -> string)
    (calls : list Call) (w : World) :
  slots_wf (reservation_slots (committed w)) ->
  slots_nonneg (reservation_slots (committed w)) ->
  Forall (fun s => slots_nonneg (reservation_slots (step_after s)))
    (fst (run_reserves TAGS calls w)) /\
  Forall step_admission_ok (fst (run_reserves TAGS calls w)) /\
  Forall (fun r0 =>
            count_rows (holds_slot r0)
              (rows_since (committed w) (committed (snd (run_reserves TAGS calls w))))
            <= ReservationSlotModel_Slot r0)
    (reservation_slots (committed w)).
Proof.
  intros Hwf Hnn.
  destruct (run_reserves_invariant TAGS (committed w) calls w
              (run_invariant_refl _ Hwf Hnn)) as (H1 & H2 & _ & Hnn' & new & Hnew & Hrows).
  split; [exact H1|]. split; [exact H2|].
  unfold rows_since. rewrite Hnew, drop_app_length.
  clear -Hnn' Hrows. unfold slots_nonneg in Hnn'.
  induction Hrows as [|r0 r rows0 rows (Hk & Hs) _ IH]; constructor.
  - apply Forall_cons_iff in Hnn' as [Hr _]. lia.
  - apply IH. apply Forall_cons_iff in Hnn' as [_ Hr]. exact Hr.
Qed.

Definition ex_calls (startAt endAt : Z) : list Call :=
  [ {| call_now := 0; call_userID := 1; call_req := ex_req startAt endAt |};
    {| call_now := 1; call_userID := 2; call_req := ex_req startAt endAt |} ].

Lemma reserve_sequence_no_overbooking_witness :
  Forall (fun s => slots_nonneg (reservation_slots (step_after s)))
    (fst (run_reserves ex_TAGS (ex_calls 1700874000 1700877600) ex_world)) /\
  Forall step_admission_ok
    (fst (run_reserves ex_TAGS (ex_calls 1700874000 1700877600) ex_world)) /\
  Forall (fun r0 =>
            count_rows (holds_slot r0)
              (rows_since (committed ex_world)
                 (committed (snd (run_reserves ex_TAGS
                                    (ex_calls 1700874000 1700877600) ex_world))))
            <= ReservationSlotModel_Slot r0)
    (reservation_slots (committed ex_world)).
Proof.
  assert (H1 : slots_wf (reservation_slots (committed ex_world))).
  { apply (bool_decide_unpack _). vm_compute. exact I. }
  assert (H2 : slots_nonneg (reservation_slots (committed ex_world))).
  { unfold slots_nonneg. simpl. repeat constructor; simpl; lia. }
  exact (reserve_sequence_no_overbooking ex_TAGS (ex_calls 1700874000 1700877600)
           ex_world H1 H2).
Defined.

(** C2, as stated, fails when "overlaps" is read as sharing an instant:
    the first slot, one hour long with one place left, is overlapped by two
    committed half-hour reservations, both answered 201, and its counter is
    not lowered. *)
Lemma reserve_overbooks_overlapped_slot :
  slots_wf (reservation_slots (committed ex_world)) /\
  slots_nonneg (reservation_slots (committed ex_world)) /\
  In (ex_slot 1 1 1700874000 1700877600) (reservation_slots (committed ex_world)) /\
  map (fun s => is_created (step_answer s))
    (fst (run_reserves ex_TAGS (ex_calls 1700874000 1700875800) ex_world))
  = [true; true] /\
  count_rows (overlaps_slot (ex_slot 1 1 1700874000 1700877600))
    (rows_since (committed ex_world)
       (committed (snd (run_reserves ex_TAGS (ex_calls 1700874000 1700875800) ex_world))))
  = 2 /\
  map ReservationSlotModel_Slot
    (reservation_slots
       (committed (snd (run_reserves ex_TAGS (ex_calls 1700874000 1700875800) ex_world))))
  = [1; 0].
Proof.
  split; [apply ex_db_slots_wf|].
  split; [unfold slots_nonneg; simpl; repeat constructor; simpl; lia|].
  split; [left; reflexivity|].
  split; [vm_compute; reflexivity|].
  split; vm_compute; reflexivity.
Qed.


(** * Rankings and statistics *)

(** ** Go's [<] on strings: byte-wise lexicographic order *)

Lemma ascii_compare_lt_trans a b c :
  Ascii.compare a b = Lt -> Ascii.compare b c = Lt -> Ascii.compare a c = Lt.
Proof.
  unfold Ascii.compare. rewrite !N.compare_lt_iff. lia.
Qed.

Lemma string_compare_refl s : String.compare s s = Eq.
Proof.
  induction s as [|a s IH]; simpl; [reflexivity|].
  unfold Ascii.compare. rewrite N.compare_refl. exact IH.
Qed.

Lemma string_compare_lt_trans s1 s2 s3 :
  String.compare s1 s2 = Lt -> String.compare s2 s3 = Lt ->
  String.compare s1 s3 = Lt.
Proof.
  revert s2 s3. induction s1 as [|a s1 IH]; intros [|b s2] [|c s3]; simpl;
    try discriminate; auto.
  destruct (Ascii.compare a b) eqn:Hab; try discriminate.
  - apply Ascii.compare_eq_iff in Hab as ->.
    destruct (Ascii.compare b c); try discriminate; eauto.
  - intros _. destruct (Ascii.compare b c) eqn:Hbc; try discriminate.
    + apply Ascii.compare_eq_iff in Hbc as <-. rewrite Hab. reflexivity.
    + intros _. rewrite (ascii_compare_lt_trans a b c Hab Hbc). reflexivity.
Qed.

Lemma string_ltb_irrefl s : String.ltb s s = false.
Proof. unfold String.ltb. rewrite string_compare_refl. reflexivity. Qed.

Lemma string_ltb_trans s1 s2 s3 :
  String.ltb s1 s2 = true -> String.ltb s2 s3 = true -> String.ltb s1 s3 = true.
Proof.
  unfold String.ltb.
  destruct (String.compare s1 s2) eqn:H12; try discriminate.
  destruct (String.compare s2 s3) eqn:H23; try discriminate.
  rewrite (string_compare_lt_trans _ _ _ H12 H23). reflexivity.
Qed.

Lemma string_ltb_total s1 s2 :
  String.ltb s1 s2 = false -> String.ltb s2 s1 = false -> s1 = s2.
Proof.
  unfold String.ltb. rewrite (String.compare_antisym s2 s1).
  destruct (String.compare s1 s2) eqn:H; simpl; try discriminate.
  intros _ _. apply String.compare_eq_iff. exact H.
Qed.

(** ** [sort.Sort] over a [Less] that is a strict total order *)

Section Sort.
Context {A : Type}.
Variable less : A -> A -> bool.

Fixpoint sort_insert (x : A) (l : list A) : list A :=
  match l with
  | [] => [x]
  | y :: rest => if less y x then y :: sort_insert x rest else x :: y :: rest
  end.

(** [sort.Sort(data)]: the entries in ascending [Less] order.  For the
    [Less] functions of the handlers the ascending arrangement of a slice
    is unique ([sorted_unique] below), so the sorting algorithm does not
    show in the result. *)
Fixpoint sort_Sort (l : list A) : list A :=
  match l with
  | [] => []
  | x :: rest => sort_insert x (sort_Sort rest)
  end.

(** [a] may stand before [b]. *)
Definition may_precede (a b : A) : Prop := less b a = false.

Definition ascending (l : list A) : Prop := StronglySorted may_precede l.

Lemma sort_insert_perm x l : Permutation (x :: l) (sort_insert x l).
Proof.
  induction l as [|y l IH]; simpl; [reflexivity|].
  destruct (less y x); [|reflexivity].
  rewrite perm_swap. apply perm_skip. exact IH.
Qed.

Lemma sort_Sort_perm l : Permutation l (sort_Sort l).
Proof.
  induction l as [|x l IH]; simpl; [reflexivity|].
  rewrite <- sort_insert_perm. apply perm_skip. exact IH.
Qed.

Hypothesis less_irrefl : forall a, less a a = false.
Hypothesis less_trans :
  forall a b c, less a b = true -> less b c = true -> less a c = true.
Hypothesis less_total :
  forall a b, less a b = false -> less b a = false -> a = b.

Lemma less_asym a b : less a b = true -> less b a = false.
Proof.
  intros Hab. destruct (less b a) eqn:Hba; [|reflexivity].
  rewrite <- (less_irrefl a). symmetry. eapply less_trans; eassumption.
Qed.

Lemma may_precede_trans a b c :
  may_precede a b -> may_precede b c -> may_precede a c.
Proof.
  unfold may_precede. intros Hba Hcb.
  destruct (less c a) eqn:Hca; [|reflexivity].
  destruct (less a b) eqn:Hab.
  - rewrite (less_trans _ _ _ Hca Hab) in Hcb. discriminate.
  - rewrite (less_total a b Hab Hba) in Hca. congruence.
Qed.

Lemma sort_insert_ascending x l : ascending l -> ascending (sort_insert x l).
Proof.
  unfold ascending. induction l as [|y l IH]; simpl; intros Hs.
  - repeat constructor.
  - apply StronglySorted_inv in Hs as [Hl Hy].
    destruct (less y x) eqn:Hyx.
    + constructor; [auto|].
      apply Forall_forall. intros z Hz%list_elem_of_In.
      apply (Permutation_in _ (Permutation_sym (sort_insert_perm x l))) in Hz.
      destruct Hz as [<-|Hz].
      * apply less_asym. exact Hyx.
      * rewrite Forall_forall in Hy. apply Hy, list_elem_of_In, Hz.
    + constructor; [constructor; assumption|].
      constructor; [exact Hyx|].
      eapply Forall_impl; [exact Hy|]. simpl.
      intros z Hz. eapply may_precede_trans; [exact Hyx | exact Hz].
Qed.

Lemma sort_Sort_ascending l : ascending (sort_Sort l).
Proof.
  induction l as [|x l IH]; simpl; [constructor|].
  apply sort_insert_ascending. exact IH.
Qed.

(** The ascending arrangement of a slice is unique. *)
Lemma sorted_unique l1 l2 :
  Permutation l1 l2 -> ascending l1 -> ascending l2 -> l1 = l2.
Proof.
  unfold ascending. revert l2. induction l1 as [|a l1 IH]; intros l2 Hp H1 H2.
  - apply Permutation_nil in Hp. congruence.
  - destruct l2 as [|b l2]; [apply Permutation_sym, Permutation_nil in Hp; discriminate|].
    apply StronglySorted_inv in H1 as [H1 Ha].
    apply StronglySorted_inv in H2 as [H2 Hb].
    assert (a = b) as ->.
    { rewrite Forall_forall in Ha, Hb.
      assert (Hab : In b (a :: l1))
        by (apply (Permutation_in _ (Permutation_sym Hp)); left; reflexivity).
      assert (Hba : In a (b :: l2))
        by (apply (Permutation_in _ Hp); left; reflexivity).
      destruct Hab as [Hab|Hab]; [exact Hab|].
      destruct Hba as [Hba|Hba]; [congruence|].
      apply less_total.
      - apply (Hb a), list_elem_of_In, Hba.
      - apply (Ha b), list_elem_of_In, Hab. }
    f_equal. apply IH; auto. eapply Permutation_cons_inv. exact Hp.
Qed.

(** The rank loop:
    [var rank int64 = 1
     for i := len(ranking) - 1; i >= 0; i-- {
       if ranking[i] is the target { break }
       rank++ }]
    on the entries taken from the last to the first.  A slice has fewer
    than 2^63 entries, so [rank++] does not wrap. *)
Fixpoint rank_walk (is_target : A -> bool) (from_last : list A) (rank : Z) : Z :=
  match from_last with
  | [] => rank
  | entry :: rest =>
      if is_target entry then rank else rank_walk is_target rest (rank + 1)
  end.

Definition rank_from_end (is_target : A -> bool) (ranking : list A) : Z :=
  rank_walk is_target (rev ranking) 1.

Definition count_greater (t : A) (l : list A) : Z :=
  Z.of_nat (length (List.filter (less t) l)).

Lemma rank_walk_skip is_target l rest rank :
  Forall (fun e => is_target e = false) l ->
  rank_walk is_target (l ++ rest) rank
  = rank_walk is_target rest (rank + Z.of_nat (length l)).
Proof.
  revert rank. induction l as [|e l IH]; intros rank Hl; simpl.
  - f_equal. lia.
  - apply Forall_cons_iff in Hl as [-> Hl]. rewrite IH by exact Hl. f_equal. lia.
Qed.

Lemma filter_none (p : A -> bool) l :
  Forall (fun e => p e = false) l -> List.filter p l = [].
Proof.
  induction l as [|e l IH]; simpl; [reflexivity|].
  intros [-> Hl]%Forall_cons_iff. auto.
Qed.

Lemma filter_all (p : A -> bool) l :
  Forall (fun e => p e = true) l -> List.filter p l = l.
Proof.
  induction l as [|e l IH]; simpl; [reflexivity|].
  intros [-> Hl]%Forall_cons_iff. f_equal. auto.
Qed.

(** In an ascending slice without repeated entries where the target test
    singles out the entry [t], the loop returns one plus the number of
    entries greater than [t]. *)
Lemma rank_in_ascending is_target t s :
  ascending s -> NoDup s -> In t s -> is_target t = true ->
  (forall e, In e s -> is_target e = true -> e = t) ->
  rank_from_end is_target s = 1 + count_greater t s.
Proof.
  intros Hs Hnd Hin Ht Huniq.
  apply in_split in Hin as (l1 & l2 & ->).
  unfold ascending in Hs.
  assert (Hl1 : Forall (fun e => less t e = false) l1).
  { clear -Hs. induction l1 as [|x l1 IH]; [constructor|].
    simpl in Hs. apply StronglySorted_inv in Hs as [Hs Hx].
    constructor; [|auto].
    rewrite Forall_forall in Hx. apply Hx, list_elem_of_In, in_or_app.
    right. left. reflexivity. }
  assert (Hs2 : StronglySorted may_precede (t :: l2)).
  { clear -Hs. induction l1 as [|x l1 IH]; [exact Hs|].
    simpl in Hs. apply StronglySorted_inv in Hs as [Hs _]. auto. }
  apply StronglySorted_inv in Hs2 as [_ Hl2].
  assert (Hne : forall e, In e l2 -> e <> t).
  { intros e He ->. apply NoDup_app in Hnd as (_ & _ & Hnd).
    apply NoDup_cons in Hnd as [Hnd _]. apply Hnd, list_elem_of_In, He. }
  assert (Hnt : Forall (fun e => is_target e = false) l2).
  { apply Forall_forall. intros e He%list_elem_of_In.
    destruct (is_target e) eqn:Hte; [|reflexivity].
    exfalso. apply (Hne e He). apply Huniq; [|exact Hte].
    apply in_or_app. right. right. exact He. }
  assert (Hgt : Forall (fun e => less t e = true) l2).
  { apply Forall_forall. intros e He%list_elem_of_In.
    destruct (less t e) eqn:Hlt; [reflexivity|].
    exfalso. apply (Hne e He). symmetry. apply less_total; [exact Hlt|].
    rewrite Forall_forall in Hl2. apply Hl2, list_elem_of_In, He. }
  unfold rank_from_end, count_greater.
  rewrite rev_app_distr. simpl. rewrite <- app_assoc. simpl.
  rewrite rank_walk_skip by (apply Forall_rev; exact Hnt).
  simpl. rewrite Ht.
  rewrite List.filter_app. simpl. rewrite less_irrefl.
  rewrite (filter_none _ _ Hl1), (filter_all _ _ Hgt). simpl.
  rewrite length_rev. lia.
Qed.

Lemma count_greater_perm t l1 l2 :
  Permutation l1 l2 -> count_greater t l1 = count_greater t l2.
Proof.
  intros Hp. unfold count_greater. f_equal.
  induction Hp as [|x l1 l2 _ IH|x y l|l1 l2 l3 _ IH1 _ IH2]; simpl.
  - reflexivity.
  - destruct (less t x); simpl; congruence.
  - destruct (less t x), (less t y); reflexivity.
  - congruence.
Qed.

(** The rank the handlers compute: sort, then walk from the end. *)
Lemma rank_sort_Sort is_target t l :
  NoDup l -> In t l -> is_target t = true ->
  (forall e, In e l -> is_target e = true -> e = t) ->
  rank_from_end is_target (sort_Sort l) = 1 + count_greater t l.
Proof.
  intros Hnd Hin Ht Huniq.
  rewrite (count_greater_perm t l (sort_Sort l) (sort_Sort_perm l)).
  apply rank_in_ascending.
  - apply sort_Sort_ascending.
  - rewrite <- (sort_Sort_perm l). exact Hnd.
  - eapply Permutation_in; [apply sort_Sort_perm | exact Hin].
  - exact Ht.
  - intros e He. apply Huniq.
    eapply Permutation_in; [apply Permutation_sym, sort_Sort_perm | exact He].
Qed.

(** A smaller entry has strictly more entries above it. *)
Lemma count_greater_lt a b l :
  In b l -> less a b = true -> count_greater b l < count_greater a l.
Proof.
  intros Hin Hab. unfold count_greater.
  induction l as [|x l IH]; [destruct Hin|].
  assert (Hmono : forall l', (length (List.filter (less b) l')
                              <= length (List.filter (less a) l'))%nat).
  { clear -Hab less_trans. induction l' as [|y l' IH]; simpl; [lia|].
    destruct (less b y) eqn:Hby.
    - rewrite (less_trans _ _ _ Hab Hby). simpl. lia.
    - destruct (less a y); simpl; lia. }
  simpl. destruct Hin as [->|Hin].
  - rewrite less_irrefl, Hab. simpl. specialize (Hmono l). lia.
  - specialize (IH Hin). destruct (less b x) eqn:Hbx.
    + rewrite (less_trans _ _ _ Hab Hbx). simpl. lia.
    + destruct (less a x); simpl; lia.
Qed.

End Sort.

(** ** The ranking entries and their [Less] *)

Record LivestreamStatistics := {
  LivestreamStatistics_Rank : Z;
  LivestreamStatistics_ViewersCount : Z;
  LivestreamStatistics_TotalReactions : Z;
  LivestreamStatistics_TotalReports : Z;
  LivestreamStatistics_MaxTip : Z
}.

Record LivestreamRankingEntry := {
  LivestreamRankingEntry_LivestreamID : Z;
  LivestreamRankingEntry_Score : Z
}.

(** [func (r LivestreamRanking) Less(i, j int) bool] *)
Definition LivestreamRanking_Less (ri rj : LivestreamRankingEntry) : bool :=
  if LivestreamRankingEntry_Score ri =? LivestreamRankingEntry_Score rj then
    LivestreamRankingEntry_LivestreamID ri <? LivestreamRankingEntry_LivestreamID rj
  else
    LivestreamRankingEntry_Score ri <? LivestreamRankingEntry_Score rj.

Record UserStatistics := {
  UserStatistics_Rank : Z;
  UserStatistics_ViewersCount : Z;
  UserStatistics_TotalReactions : Z;
  UserStatistics_TotalLivecomments : Z;
  UserStatistics_TotalTip : Z;
  UserStatistics_FavoriteEmoji : string
}.

Record UserRankingEntry := {
  UserRankingEntry_Username : string;
  UserRankingEntry_Score : Z
}.

(** [func (r UserRanking) Less(i, j int) bool] *)
Definition UserRanking_Less (ri rj : UserRankingEntry) : bool :=
  if UserRankingEntry_Score ri =? UserRankingEntry_Score rj then
    String.ltb (UserRankingEntry_Username ri) (UserRankingEntry_Username rj)
  else
    UserRankingEntry_Score ri <? UserRankingEntry_Score rj.

(** ** [getUserStatisticsHandler] *)

(** [score := user.Reactions + user.Tips], an [int64] sum. *)
Definition user_entry (user : UserModel) : UserRankingEntry :=
  {| UserRankingEntry_Username := UserModel_Name user;
     UserRankingEntry_Score := Int64.add (UserModel_Reactions user) (UserModel_Tips user) |}.

(** The ranking block of the handler: build, sort, walk from the end. *)
Definition user_rank (d : DB) (username : string) : Z :=
  let ranking := map user_entry (users d) in
  let sorted := sort_Sort UserRanking_Less ranking in
  rank_from_end (fun entry => String.eqb (UserRankingEntry_Username entry) username)
    sorted.

(** [SELECT id FROM livestreams WHERE user_id = ?] *)
Definition select_livestream_ids_of (d : DB) (userID : Z) : list Z :=
  map LivestreamModel_ID
    (List.filter (fun l => LivestreamModel_UserID l =? userID) (livestreams d)).

(** [SELECT COUNT( * ) FROM livestream_viewers_history WHERE livestream_id IN (?)] *)
Definition count_viewers_in (d : DB) (ids : list Z) : Z :=
  Z.of_nat (length (List.filter
    (fun h => existsb (Z.eqb (LivestreamViewerModel_LivestreamID h)) ids)
    (livestream_viewers_history d))).

(** One row of [GROUP BY emoji_name] with its [COUNT( * )]. *)
Definition emoji_groups (names : list string) : list (string * Z) :=
  map (fun n => (n, Z.of_nat (count_occ string_dec names n)))
    (nodup string_dec names).

(** [ORDER BY COUNT( * ) DESC, emoji_name DESC]: [a] comes before [b]. *)
Definition emoji_order (a b : string * Z) : bool :=
  if snd a =? snd b then String.ltb (fst b) (fst a) else snd b <? snd a.

(** [SELECT emoji_name FROM favorite_emojis WHERE user_id = ?
     GROUP BY emoji_name ORDER BY COUNT( * ) DESC, emoji_name DESC LIMIT 1];
    [None] is [sql.ErrNoRows].  Names are compared byte-wise. *)
Definition select_favorite_emoji (d : DB) (userID : Z) : option string :=
  let names := map FavoriteEmoji_EmojiName
                 (List.filter (fun r => FavoriteEmoji_UserID r =? userID)
                    (favorite_emojis d)) in
  option_map fst (head (sort_Sort emoji_order (emoji_groups names))).

(** The handler after [verifyUserSession].  It only reads, inside a
    transaction that is rolled back.  [sqlx.In] answers an error for an
    empty id list, which the handler turns into a 500. *)
Definition getUserStatisticsHandler (d : DB) (username : string)
  : Response UserStatistics :=
  match select_user_by_name d username with
  | None => HTTPError StatusBadRequest NotFoundUserWithUsername
  | Some user =>
      let rank := user_rank d username in
      let livestreamsIDs := select_livestream_ids_of d (UserModel_ID user) in
      match livestreamsIDs with
      | [] => HTTPError StatusInternalServerError FailedToConstructINQuery
      | _ :: _ =>
          let viewersCount := count_viewers_in d livestreamsIDs in
          let favoriteEmoji :=
            default EmptyString (select_favorite_emoji d (UserModel_ID user)) in
          JSON StatusOK
            {| UserStatistics_Rank := rank;
               UserStatistics_ViewersCount := viewersCount;
               UserStatistics_TotalReactions := UserModel_Reactions user;
               UserStatistics_TotalLivecomments := UserModel_LiveComments user;
               UserStatistics_TotalTip := UserModel_Tips user;
               UserStatistics_FavoriteEmoji := favoriteEmoji |}
      end
  end.

(** ** [getLivestreamStatisticsHandler] *)

Definition livestream_entry (l : LivestreamModel) : LivestreamRankingEntry :=
  {| LivestreamRankingEntry_LivestreamID := LivestreamModel_ID l;
     LivestreamRankingEntry_Score :=
       Int64.add (LivestreamModel_Reactions l) (LivestreamModel_Tips l) |}.

Definition livestream_rank (d : DB) (livestreamID : Z) : Z :=
  let ranking := map livestream_entry (livestreams d) in
  let sorted := sort_Sort LivestreamRanking_Less ranking in
  rank_from_end (fun entry => LivestreamRankingEntry_LivestreamID entry =? livestreamID)
    sorted.

(** [SELECT * FROM livestreams WHERE id = ?] *)
Definition select_livestream (d : DB) (livestreamID : Z) : option LivestreamModel :=
  List.find (fun l => LivestreamModel_ID l =? livestreamID) (livestreams d).

(** [SELECT COUNT( * ) FROM livestreams l INNER JOIN livestream_viewers_history h
     ON h.livestream_id = l.id WHERE l.id = ?] *)
Definition count_viewers_of (d : DB) (livestreamID : Z) : Z :=
  Z.of_nat (length (flat_map
    (fun l => List.filter (fun h => LivestreamViewerModel_LivestreamID h
                                    =? LivestreamModel_ID l)
                (livestream_viewers_history d))
    (List.filter (fun l => LivestreamModel_ID l =? livestreamID) (livestreams d)))).

(** [SELECT COUNT( * ) FROM livestreams l INNER JOIN livecomment_reports r
     ON r.livestream_id = l.id WHERE l.id = ?] *)
Definition count_reports_of (d : DB) (livestreamID : Z) : Z :=
  Z.of_nat (length (flat_map
    (fun l => List.filter (fun r => LivecommentReport_LivestreamID r
                                    =? LivestreamModel_ID l)
                (livecomment_reports d))
    (List.filter (fun l => LivestreamModel_ID l =? livestreamID) (livestreams d)))).

(** The handler after [verifyUserSession] and the parsing of the path
    parameter. *)
Definition getLivestreamStatisticsHandler (d : DB) (livestreamID : Z)
  : Response LivestreamStatistics :=
  match select_livestream d livestreamID with
  | None => HTTPError StatusBadRequest CannotGetStatsOfNotFoundLivestream
  | Some livestream =>
      let rank := livestream_rank d livestreamID in
      let viewersCount := count_viewers_of d livestreamID in
      let totalReports := count_reports_of d livestreamID in
      JSON StatusOK
        {| LivestreamStatistics_Rank := rank;
           LivestreamStatistics_ViewersCount := viewersCount;
           LivestreamStatistics_TotalReactions := LivestreamModel_Reactions livestream;
           LivestreamStatistics_TotalReports := totalReports;
           LivestreamStatistics_MaxTip := LivestreamModel_MaxTip livestream |}
  end.

(** ** The three orders are strict total orders *)

Ltac split_Z_tests :=
  repeat match goal with
         | H : context [Z.eqb ?a ?b] |- _ => destruct (Z.eqb_spec a b)
         | H : context [Z.ltb ?a ?b] |- _ => destruct (Z.ltb_spec a b)
         | |- context [Z.eqb ?a ?b] => destruct (Z.eqb_spec a b)
         | |- context [Z.ltb ?a ?b] => destruct (Z.ltb_spec a b)
         end.

Lemma UserRanking_Less_irrefl a : UserRanking_Less a a = false.
Proof. unfold UserRanking_Less. rewrite Z.eqb_refl. apply string_ltb_irrefl. Qed.

Lemma UserRanking_Less_trans a b c :
  UserRanking_Less a b = true -> UserRanking_Less b c = true ->
  UserRanking_Less a c = true.
Proof.
  unfold UserRanking_Less. intros Hab Hbc. split_Z_tests;
    try lia; try discriminate; eauto using string_ltb_trans.
Qed.

Lemma UserRanking_Less_total a b :
  UserRanking_Less a b = false -> UserRanking_Less b a = false -> a = b.
Proof.
  unfold UserRanking_Less. destruct a as [na sa], b as [nb sb]; simpl.
  intros Hab Hba. split_Z_tests; try lia; try discriminate.
  f_equal; [|assumption]. apply string_ltb_total; assumption.
Qed.

Lemma LivestreamRanking_Less_irrefl a : LivestreamRanking_Less a a = false.
Proof. unfold LivestreamRanking_Less. rewrite Z.eqb_refl. apply Z.ltb_irrefl. Qed.

Lemma LivestreamRanking_Less_trans a b c :
  LivestreamRanking_Less a b = true -> LivestreamRanking_Less b c = true ->
  LivestreamRanking_Less a c = true.
Proof.
  unfold LivestreamRanking_Less. intros Hab Hbc. split_Z_tests;
    try lia; try discriminate; reflexivity.
Qed.

Lemma LivestreamRanking_Less_total a b :
  LivestreamRanking_Less a b = false -> LivestreamRanking_Less b a = false -> a = b.
Proof.
  unfold LivestreamRanking_Less. destruct a as [ia sa], b as [ib sb]; simpl.
  intros Hab Hba. split_Z_tests; try lia; try discriminate.
  f_equal; lia.
Qed.




(** ** C5: the rank is one plus the number of greater entries *)

Lemma NoDup_map_inj_on {A B} (f : A -> B) l x y :
  NoDup (map f l) -> In x l -> In y l -> f x = f y -> x = y.
Proof.
  induction l as [|z l IH]; simpl; [tauto|].
  intros [Hz Hnd]%NoDup_cons [->|Hx] [->|Hy] Hf; auto.
  - exfalso. apply Hz. rewrite Hf. apply list_elem_of_In, in_map, Hy.
  - exfalso. apply Hz. rewrite <- Hf. apply list_elem_of_In, in_map, Hx.
Qed.

Lemma NoDup_map_of_key {A B C} (f : A -> B) (g : B -> C) l :
  NoDup (map (fun x => g (f x)) l) -> NoDup (map f l).
Proof.
  induction l as [|x l IH]; simpl; [constructor|].
  intros [Hx Hnd]%NoDup_cons. apply NoDup_cons. split; [|auto].
  intros Hin%list_elem_of_In%in_map_iff. destruct Hin as (y & Hy & Hin).
  apply Hx, list_elem_of_In, in_map_iff. exists y. split; [congruence|exact Hin].
Qed.

Lemma user_rank_spec d username user :
  NoDup (map UserModel_Name (users d)) ->
  select_user_by_name d username = Some user ->
  user_rank d username
  = 1 + count_greater UserRanking_Less (user_entry user) (map user_entry (users d)).
Proof.
  intros Hnd Hsel. unfold select_user_by_name in Hsel.
  apply find_some in Hsel as [Hin Hname]. apply String.eqb_eq in Hname.
  unfold user_rank.
  apply (rank_sort_Sort UserRanking_Less UserRanking_Less_irrefl
           UserRanking_Less_trans UserRanking_Less_total).
  - apply (NoDup_map_of_key user_entry UserRankingEntry_Username). exact Hnd.
  - apply in_map. exact Hin.
  - simpl. apply String.eqb_eq. exact Hname.
  - intros e (u & <- & Hu)%in_map_iff Hk. simpl in Hk. apply String.eqb_eq in Hk.
    f_equal. apply (NoDup_map_inj_on UserModel_Name (users d)); auto. congruence.
Qed.

Lemma livestream_rank_spec d livestreamID livestream :
  NoDup (map LivestreamModel_ID (livestreams d)) ->
  select_livestream d livestreamID = Some livestream ->
  livestream_rank d livestreamID
  = 1 + count_greater LivestreamRanking_Less (livestream_entry livestream)
          (map livestream_entry (livestreams d)).
Proof.
  intros Hnd Hsel. unfold select_livestream in Hsel.
  apply find_some in Hsel as [Hin Hid]. apply Z.eqb_eq in Hid.
  unfold livestream_rank.
  apply (rank_sort_Sort LivestreamRanking_Less LivestreamRanking_Less_irrefl
           LivestreamRanking_Less_trans LivestreamRanking_Less_total).
  - apply (NoDup_map_of_key livestream_entry LivestreamRankingEntry_LivestreamID).
    exact Hnd.
  - apply in_map. exact Hin.
  - simpl. apply Z.eqb_eq. exact Hid.
  - intros e (l & <- & Hl)%in_map_iff Hk. simpl in Hk. apply Z.eqb_eq in Hk.
    f_equal. apply (NoDup_map_inj_on LivestreamModel_ID (livestreams d)); auto.
    congruence.
Qed.

(** The rank field of whatever statistics the handlers answer. *)
Lemma user_statistics_rank d username code stats :
  getUserStatisticsHandler d username = JSON code stats ->
  UserStatistics_Rank stats = user_rank d username.
Proof.
  unfold getUserStatisticsHandler.
  destruct (select_user_by_name d username); [|discriminate].
  destruct (select_livestream_ids_of d _); [discriminate|].
  intros [= _ <-]. reflexivity.
Qed.

(** ** The ranking as the data model words it *)












(** ** A snapshot for the statistics examples *)

Definition ex_carol : UserModel :=
  {| UserModel_ID := 3; UserModel_Name := "carol"; UserModel_DisplayName := "Carol";
     UserModel_Description := ""; UserModel_HashedPassword := "z";
     UserModel_DarkMode := false; UserModel_Reactions := 1; UserModel_Tips := 1;
     UserModel_LiveComments := 0; UserModel_IconHash := [] |}.

Definition ex_livestream (id userID reactions tips : Z) : LivestreamModel :=
  {| LivestreamModel_ID := id; LivestreamModel_UserID := userID;
     LivestreamModel_Title := "live"; LivestreamModel_Description := "";
     LivestreamModel_PlaylistUrl := ""; LivestreamModel_ThumbnailUrl := "";
     LivestreamModel_StartAt := 1700874000; LivestreamModel_EndAt := 1700877600;
     LivestreamModel_Reactions := reactions; LivestreamModel_Tips := tips;
     LivestreamModel_MaxTip := tips |}.

Definition ex_favorite (userID : Z) (name : string) : FavoriteEmojiRow :=
  {| FavoriteEmoji_UserID := userID; FavoriteEmoji_EmojiName := name |}.

(** alice (10 reactions, 5 tips) and bob (7 reactions, 8 tips) both score
    15; carol scores 2. *)
Definition ex_stats_db : DB :=
  {| users := [ex_alice; ex_bob; ex_carol];
     livestreams := [ex_livestream 1 1 10 5; ex_livestream 2 2 7 8;
                     ex_livestream 3 3 1 1];
     livestream_tags := [];
     reservation_slots := [];
     reactions := []; livecomments := [];
     favorite_emojis := [ex_favorite 1 "heart"; ex_favorite 1 "clap";
                         ex_favorite 1 "star"; ex_favorite 1 "clap";
                         ex_favorite 1 "star"; ex_favorite 2 "heart"];
     icons := [];
     livestream_viewers_history := []; livecomment_reports := [];
     livestreams_auto := 4; livestream_tags_auto := 1 |}.

Example ex_ranks :
  map (user_rank ex_stats_db) ["alice"; "bob"; "carol"] = [2; 1; 3] /\
  map (livestream_rank ex_stats_db) [1; 2; 3] = [2; 1; 3].
Proof. vm_compute. auto. Qed.


(** ** C6: two users with the same score *)

(** C6, as stated, fails: alice and bob both score 15 and "alice" sorts
    before "bob", yet alice is ranked 2 and bob 1: the alphabetically
    earlier name gets the numerically larger rank. *)
Lemma equal_score_earlier_name_ranks_lower :
  exists sa sb,
    getUserStatisticsHandler ex_stats_db "alice" = JSON StatusOK sa /\
    getUserStatisticsHandler ex_stats_db "bob" = JSON StatusOK sb /\
    UserRankingEntry_Score (user_entry ex_alice)
    = UserRankingEntry_Score (user_entry ex_bob) /\
    String.ltb "alice" "bob" = true /\
    UserStatistics_Rank sa = 2 /\
    UserStatistics_Rank sb = 1.
Proof.
  eexists _, _.
  split; [vm_compute; reflexivity|].
  split; [vm_compute; reflexivity|].
  repeat split; vm_compute; reflexivity.
Qed.

Lemma select_user_by_name_in d user :
  NoDup (map UserModel_Name (users d)) -> In user (users d) ->
  select_user_by_name d (UserModel_Name user) = Some user.
Proof.
  intros Hnd Hin. unfold select_user_by_name.
  destruct (List.find _ (users d)) as [x|] eqn:Hf.
  - apply find_some in Hf as [Hx Hname]. apply String.eqb_eq in Hname.
    f_equal. apply (NoDup_map_inj_on UserModel_Name (users d)); auto.
  - apply (find_none _ _ Hf) in Hin. rewrite String.eqb_refl in Hin. discriminate.
Qed.

(** C6, amended.  With unique names, of two users with equal score the
    one whose name is alphabetically later (byte-wise) receives the
    higher rank, i.e. the numerically smaller rank value. *)
Theorem equal_score_later_name_ranks_higher (d : DB) (a b : UserModel)
    (sa sb : UserStatistics) :
  NoDup (map UserModel_Name (users d)) ->
  In a (users d) -> In b (users d) ->
  UserRankingEntry_Score (user_entry a) = UserRankingEntry_Score (user_entry b) ->
  String.ltb (UserModel_Name a) (UserModel_Name b) = true ->
  getUserStatisticsHandler d (UserModel_Name a) = JSON StatusOK sa ->
  getUserStatisticsHandler d (UserModel_Name b) = JSON StatusOK sb ->
  UserStatistics_Rank sb < UserStatistics_Rank sa.
Proof.
  intros Hnd Ha Hb Hscore Hname Hsa Hsb.
  rewrite (user_statistics_rank _ _ _ _ Hsa), (user_statistics_rank _ _ _ _ Hsb).
  rewrite (user_rank_spec d _ a Hnd (select_user_by_name_in d a Hnd Ha)).
  rewrite (user_rank_spec d _ b Hnd (select_user_by_name_in d b Hnd Hb)).
  apply Z.add_lt_mono_l.
  apply (count_greater_lt UserRanking_Less UserRanking_Less_irrefl
           UserRanking_Less_trans).
  - apply in_map. exact Hb.
  - unfold UserRanking_Less. rewrite Hscore, Z.eqb_refl. exact Hname.
Qed.

Lemma equal_score_later_name_ranks_higher_witness :
  exists sa sb,
    getUserStatisticsHandler ex_stats_db "alice" = JSON StatusOK sa /\
    getUserStatisticsHandler ex_stats_db "bob" = JSON StatusOK sb /\
    UserStatistics_Rank sb < UserStatistics_Rank sa.
Proof.
  assert (H1 : NoDup (map UserModel_Name (users ex_stats_db))).
  { apply (bool_decide_unpack _). vm_compute. exact I. }
  assert (H2 : In ex_alice (users ex_stats_db)) by (left; reflexivity).
  assert (H3 : In ex_bob (users ex_stats_db)) by (right; left; reflexivity).
  assert (H4 : UserRankingEntry_Score (user_entry ex_alice)
               = UserRankingEntry_Score (user_entry ex_bob))
    by (vm_compute; reflexivity).
  assert (H5 : String.ltb (UserModel_Name ex_alice) (UserModel_Name ex_bob) = true)
    by (vm_compute; reflexivity).
  assert (H6 : {sa | getUserStatisticsHandler ex_stats_db (UserModel_Name ex_alice)
                     = JSON StatusOK sa})
    by (eexists; vm_compute; reflexivity).
  assert (H7 : {sb | getUserStatisticsHandler ex_stats_db (UserModel_Name ex_bob)
                     = JSON StatusOK sb})
    by (eexists; vm_compute; reflexivity).
  destruct H6 as [sa H6], H7 as [sb H7].
  exists sa, sb.
  exact (conj H6 (conj H7
    (equal_score_later_name_ranks_higher ex_stats_db ex_alice ex_bob
       sa sb H1 H2 H3 H4 H5 H6 H7))).
Defined.

(** ** C8: the favourite emoji *)



(** The names of the [favorite_emojis] rows logged for a user. *)
Definition logged_emojis (d : DB) (userID : Z) : list string :=
  map FavoriteEmoji_EmojiName
    (List.filter (fun r => FavoriteEmoji_UserID r =? userID) (favorite_emojis d)).

Definition usage (names : list string) (e : string) : Z :=
  Z.of_nat (count_occ string_dec names e).




Example ex_favorite_emoji :
  exists stats,
    getUserStatisticsHandler ex_stats_db "alice" = JSON StatusOK stats /\
    UserStatistics_FavoriteEmoji stats = "star".
Proof. eexists. split; vm_compute; reflexivity. Qed.

(** * The user cache *)

Lemma key_id_neq_key_name userId userName : key_id userId <> key_name userName.
Proof. unfold key_id, key_name. cbn. discriminate. Qed.

Lemma userCache_ttl_pos : 0 < userCache_ttl.
Proof. reflexivity. Qed.

(** A population at instant [now]: one fresh object [p] holding the
    columns read from [row], and both keys of the user cache bound to
    [p] with the same expiry. *)
Definition populated (now : Z) (row : UserModel) (p : nat) (w w' : World) : Prop :=
  p = length (heap w) /\
  heap w' = heap w ++ [scan_user_columns row] /\
  forall t,
    gocache.Get t (userCache w') (key_id (UserModel_ID row))
    = (if t <? now + userCache_ttl then Some p else None) /\
    gocache.Get t (userCache w') (key_name (UserModel_Name row))
    = (if t <? now + userCache_ttl then Some p else None).

Lemma populate_both_keys now (row : UserModel) (w : World) ic :
  populated now row (length (heap w)) w
    (set_caches (heap w ++ [scan_user_columns row])
       (gocache.Set_ now userCache_ttl
          (gocache.Set_ now userCache_ttl (userCache w)
             (key_id (UserModel_ID row)) (length (heap w)))
          (key_name (UserModel_Name row)) (length (heap w)))
       ic w).
Proof.
  split; [reflexivity|]. split; [reflexivity|].
  intros t. cbn [userCache set_caches]. split.
  - rewrite gocache.Get_Set_ne by (apply not_eq_sym, key_id_neq_key_name).
    apply gocache.Get_Set_later.
  - apply gocache.Get_Set_later.
Qed.

(** C7.  Both read-through paths either leave the user cache as it was
    (a hit, or no such user) or populate it from the single row they read:
    the id key and the name key are then bound to the same fresh object
    with the same expiry, so that at every instant, and in particular
    right after the population, a lookup by id and a lookup by name give
    the same snapshot. *)
Theorem cache_population_binds_both_keys (now : Z) (w : World) :
  (forall userId,
     userCache (snd (getUserWithCache now userId w)) = userCache w \/
     exists row p,
       select_user_by_id (committed w) userId = Some row /\
       fst (getUserWithCache now userId w) = Ok (Some p) /\
       populated now row p w (snd (getUserWithCache now userId w)))
  /\
  (forall userName,
     userCache (snd (getUserByName now userName w)) = userCache w \/
     exists row p,
       select_user_by_name (committed w) userName = Some row /\
       fst (getUserByName now userName w) = Ok (Some p) /\
       populated now row p w (snd (getUserByName now userName w))).
Proof.
  split.
  - intros userId. unfold getUserWithCache.
    destruct (lookup_cached now (key_id userId) w) as [[u w1]|] eqn:Hc.
    { left. apply lookup_cached_frame in Hc as (_ & _ & _ & _ & Huc & _). exact Huc. }
    cbn [committed log].
    destruct (select_user_by_id (committed w) userId) as [row|] eqn:Hs;
      [|left; reflexivity].
    right. exists row, (length (heap w)). split; [reflexivity|].
    split; [reflexivity|].
    assert (Hid : UserModel_ID row = userId).
    { unfold select_user_by_id in Hs. apply find_some in Hs as [_ Hid].
      apply Z.eqb_eq. exact Hid. }
    cbn [fst snd heap userCache iconCache log scan_user_columns UserModel_Name
         UserModel_IconHash].
    pose proof (populate_both_keys now row (log (OpGetUserByID userId) w)
                  (gocache.Set_ now iconCache_ttl (iconCache w)
                     (UserModel_Name row) (UserModel_IconHash row))) as Hp.
    rewrite Hid in Hp. exact Hp.
  - intros userName. unfold getUserByName.
    destruct (lookup_cached now (key_name userName) w) as [[u w1]|] eqn:Hc.
    { left. apply lookup_cached_frame in Hc as (_ & _ & _ & _ & Huc & _). exact Huc. }
    cbn [committed log].
    destruct (select_user_by_name (committed w) userName) as [row|] eqn:Hs;
      [|left; reflexivity].
    right. exists row, (length (heap w)). split; [reflexivity|].
    split; [reflexivity|].
    cbn [fst snd heap userCache iconCache log scan_user_columns UserModel_Name
         UserModel_ID UserModel_IconHash].
    exact (populate_both_keys now row (log (OpGetUserByName userName) w)
             (gocache.Set_ now iconCache_ttl (iconCache w)
                (UserModel_Name row) (UserModel_IconHash row))).
Qed.

(** Right after a population both lookups return the object just stored. *)
Lemma populated_lookups_agree now row p w w' :
  populated now row p w w' ->
  gocache.Get now (userCache w') (key_id (UserModel_ID row)) = Some p /\
  gocache.Get now (userCache w') (key_name (UserModel_Name row)) = Some p /\
  deref w' p = scan_user_columns row.
Proof.
  intros (-> & Hheap & Hget). destruct (Hget now) as [-> ->].
  assert ((now <? now + userCache_ttl) = true) as ->
    by (apply Z.ltb_lt; pose proof userCache_ttl_pos; lia).
  repeat split. unfold deref. rewrite Hheap.
  rewrite lookup_app_r by reflexivity. rewrite Nat.sub_diag. reflexivity.
Qed.

Example ex_cache_population :
  let w1 := snd (getUserByName 0 "bob" ex_world) in
  fst (getUserByName 0 "bob" ex_world) = Ok (Some 0%nat) /\
  fst (getUserWithCache 1 2 w1) = Ok (Some 0%nat) /\
  fst (getUserByName 1 "bob" w1) = Ok (Some 0%nat) /\
  trace (snd (getUserWithCache 1 2 w1)) = [OpGetUserByName "bob"].
Proof. vm_compute. auto. Qed.

(** * The icon endpoint: [getIconHandler] *)

(** [var fallbackImage = "../img/NoImage.jpg"] *)
Definition fallbackImage : string := "../img/NoImage.jpg".

Definition dquote : ascii := "034"%char.

(** [fmt.Sprintf("\"%x\"", hash)]: the hexadecimal digits between two
    double quotes. *)
Definition quoted_hex (hash : list byte) : string :=
  String dquote (hex hash +:+ String dquote EmptyString).

(** [SELECT image FROM icons WHERE user_id = ?] *)
Definition select_icon (d : DB) (userID : Z) : option (list byte) :=
  option_map Icon_Image (List.find (fun r => Icon_UserID r =? userID) (icons d)).

(** The handler; [iconHash] is the request's [If-None-Match] header and
    [username] the path parameter. *)
Definition getIconHandler (now : Z) (iconHash : string) (username : string)
    (w : World) : Response unit * World :=
  if negb (String.eqb iconHash "") &&
     match gocache.Get now (iconCache w) username with
     | Some cacheIconCacheHash => String.eqb iconHash (quoted_hex cacheIconCacheHash)
     | None => false
     end
  then (NoContent StatusNotModified, w)
  else
    match getUserByName now username w with
    | (Ok None, w1) => (HTTPError StatusNotFound NotFoundUserWithUsername, w1)
    | (Return _, w1) => (HTTPError StatusInternalServerError FailedToGetUser, w1)
    | (Ok (Some user), w1) =>
        if negb (String.eqb iconHash "") &&
           String.eqb (quoted_hex (UserModel_IconHash (deref w1 user))) iconHash
        then (NoContent StatusNotModified, w1)
        else
          let w2 := log (OpGetIcon (UserModel_ID (deref w1 user))) w1 in
          match select_icon (committed w2) (UserModel_ID (deref w1 user)) with
          | None => (File fallbackImage, w2)
          | Some image => (Blob StatusOK "image/jpeg" image, w2)
          end
    end.

(** The name keys of the user cache point at objects that carry the id of
    the store's row of that name.  It holds for the empty cache and is
    kept by the two lookups as long as names are unique, rows are neither
    renamed nor deleted and ids do not change. *)
Definition name_keys_sound (w : World) : Prop :=
  forall name p expire,
    userCache w !! key_name name = Some (p, expire) ->
    (p < length (heap w))%nat /\
    exists row,
      select_user_by_name (committed w) name = Some row /\
      UserModel_ID (deref w p) = UserModel_ID row.

Lemma name_keys_sound_empty w : userCache w = ∅ -> name_keys_sound w.
Proof. intros He name p expire. rewrite He, lookup_empty. discriminate. Qed.

Lemma getUserByName_resolves now userName w row :
  name_keys_sound w ->
  select_user_by_name (committed w) userName = Some row ->
  exists p w1,
    getUserByName now userName w = (Ok (Some p), w1) /\
    committed w1 = committed w /\
    UserModel_ID (deref w1 p) = UserModel_ID row.
Proof.
  intros Hsound Hsel. unfold getUserByName, lookup_cached, gocache.Get.
  destruct (userCache w !! key_name userName) as [[u e]|] eqn:Hk.
  - destruct (now <? e).
    + destruct (iconCache w !! UserModel_Name (deref w u)) as [[h e']|].
      * destruct (now <? e').
        -- eexists _, _. split; [reflexivity|]. split; [reflexivity|].
           destruct (Hsound _ _ _ Hk) as (_ & row' & Hsel' & Hid).
           rewrite Hsel in Hsel'. injection Hsel' as <-.
           unfold deref in *. cbn [heap set_caches].
           destruct (heap w !! u) as [um|] eqn:Hu.
           ++ rewrite list_lookup_insert_eq by (eapply lookup_lt_Some; exact Hu).
              simpl in *. exact Hid.
           ++ rewrite list_insert_ge by (apply lookup_ge_None; exact Hu).
              rewrite Hu. exact Hid.
        -- cbn [committed log]. rewrite Hsel.
           eexists _, _. split; [reflexivity|]. split; [reflexivity|].
           unfold deref. cbn [heap set_caches log].
           rewrite lookup_app_r by reflexivity. rewrite Nat.sub_diag. reflexivity.
      * cbn [committed log]. rewrite Hsel.
        eexists _, _. split; [reflexivity|]. split; [reflexivity|].
        unfold deref. cbn [heap set_caches log].
        rewrite lookup_app_r by reflexivity. rewrite Nat.sub_diag. reflexivity.
    + cbn [committed log]. rewrite Hsel.
      eexists _, _. split; [reflexivity|]. split; [reflexivity|].
      unfold deref. cbn [heap set_caches log].
      rewrite lookup_app_r by reflexivity. rewrite Nat.sub_diag. reflexivity.
  - cbn [committed log]. rewrite Hsel.
    eexists _, _. split; [reflexivity|]. split; [reflexivity|].
    unfold deref. cbn [heap set_caches log].
    rewrite lookup_app_r by reflexivity. rewrite Nat.sub_diag. reflexivity.
Qed.

Lemma getUserByName_not_found now userName w w1 :
  getUserByName now userName w = (Ok None, w1) ->
  select_user_by_name (committed w) userName = None.
Proof.
  unfold getUserByName.
  destruct (lookup_cached now (key_name userName) w) as [[u w']|]; [discriminate|].
  cbn [committed log].
  destruct (select_user_by_name (committed w) userName); [discriminate|reflexivity].
Qed.

Lemma key_name_inj n n' : key_name n = key_name n' -> n = n'.
Proof. unfold key_name. cbn. intros [= H]. exact H. Qed.

Lemma deref_with_IconHash w u h p :
  UserModel_ID
    (default zeroUserModel
       (<[u := with_IconHash (deref w u) h]> (heap w) !! p))
  = UserModel_ID (deref w p).
Proof.
  unfold deref. destruct (decide (u = p)) as [->|Hne].
  - destruct (heap w !! p) as [um|] eqn:Hp.
    + rewrite list_lookup_insert_eq by (eapply lookup_lt_Some; exact Hp). reflexivity.
    + rewrite list_insert_ge by (apply lookup_ge_None; exact Hp).
      rewrite Hp. reflexivity.
  - rewrite list_lookup_insert_ne by exact Hne. reflexivity.
Qed.

Lemma lookup_cached_keeps_sound now key w u w' :
  lookup_cached now key w = Some (u, w') ->
  name_keys_sound w -> name_keys_sound w'.
Proof.
  unfold lookup_cached. intros H Hsound.
  destruct (gocache.Get now (userCache w) key); [|discriminate].
  destruct (gocache.Get now (iconCache w) _) as [h|]; [|discriminate].
  injection H as <- <-. intros name p e Hk. cbn [userCache set_caches] in Hk.
  destruct (Hsound _ _ _ Hk) as (Hlt & row & Hsel & Hid).
  cbn [heap committed set_caches]. rewrite length_insert.
  split; [exact Hlt|]. exists row. split; [exact Hsel|].
  unfold deref at 1. cbn [heap set_caches].
  rewrite deref_with_IconHash. exact Hid.
Qed.

(** A population keeps the name keys sound when the populated name key
    names the row's own name and that name selects a row with its id. *)
Lemma populate_keeps_sound now (row : UserModel) idkey op (w : World) :
  name_keys_sound w ->
  (exists row', select_user_by_name (committed w) (UserModel_Name row) = Some row' /\
                UserModel_ID row' = UserModel_ID row) ->
  (forall n, idkey <> key_name n) ->
  name_keys_sound
    (set_caches (heap (log op w) ++ [scan_user_columns row])
       (gocache.Set_ now userCache_ttl
          (gocache.Set_ now userCache_ttl (userCache (log op w)) idkey
             (length (heap (log op w))))
          (key_name (UserModel_Name (scan_user_columns row)))
          (length (heap (log op w))))
       (gocache.Set_ now iconCache_ttl (iconCache (log op w))
          (UserModel_Name (scan_user_columns row))
          (UserModel_IconHash (scan_user_columns row)))
       (log op w)).
Proof.
  intros Hsound (row' & Hsel & Hid) Hkey name p e Hk.
  cbn [userCache heap committed set_caches log scan_user_columns UserModel_Name] in *.
  unfold gocache.Set_ in Hk. rewrite length_app. cbn [length].
  destruct (decide (key_name (UserModel_Name row) = key_name name)) as [He|Hne].
  - rewrite He, lookup_insert_eq in Hk. injection Hk as <- _.
    apply key_name_inj in He. subst name.
    split; [lia|]. exists row'. split; [exact Hsel|].
    unfold deref. cbn [heap set_caches]. rewrite lookup_app_r by reflexivity.
    rewrite Nat.sub_diag. cbn. congruence.
  - rewrite lookup_insert_ne in Hk by exact Hne.
    rewrite lookup_insert_ne in Hk by apply Hkey.
    destruct (Hsound _ _ _ Hk) as (Hlt & r & Hr & Hrid).
    split; [lia|]. exists r. split; [exact Hr|].
    unfold deref in *. cbn [heap set_caches]. rewrite lookup_app_l by exact Hlt.
    exact Hrid.
Qed.

Lemma getUserByName_keeps_sound now userName w :
  name_keys_sound w -> name_keys_sound (snd (getUserByName now userName w)).
Proof.
  intros Hsound. unfold getUserByName.
  destruct (lookup_cached now (key_name userName) w) as [[u w1]|] eqn:Hc.
  { eapply lookup_cached_keeps_sound; eassumption. }
  cbn [committed log].
  destruct (select_user_by_name (committed w) userName) as [row|] eqn:Hs.
  - cbn [snd]. apply populate_keeps_sound; [exact Hsound| |].
    + exists row. split; [|reflexivity].
      unfold select_user_by_name in Hs. pose proof Hs as Hf.
      apply find_some in Hf as [_ Hn]. apply String.eqb_eq in Hn.
      rewrite Hn. exact Hs.
    + intros n. apply key_id_neq_key_name.
  - cbn [snd]. intros name p e Hk. apply (Hsound name p e Hk).
Qed.

Lemma getUserWithCache_keeps_sound now userId w :
  NoDup (map UserModel_Name (users (committed w))) ->
  name_keys_sound w -> name_keys_sound (snd (getUserWithCache now userId w)).
Proof.
  intros Hnd Hsound. unfold getUserWithCache.
  destruct (lookup_cached now (key_id userId) w) as [[u w1]|] eqn:Hc.
  { eapply lookup_cached_keeps_sound; eassumption. }
  cbn [committed log].
  destruct (select_user_by_id (committed w) userId) as [row|] eqn:Hs.
  - cbn [snd]. apply populate_keeps_sound; [exact Hsound| |].
    + exists row. split; [|reflexivity].
      apply select_user_by_name_in; [exact Hnd|].
      unfold select_user_by_id in Hs. apply find_some in Hs as [Hin _]. exact Hin.
    + intros n. apply key_id_neq_key_name.
  - cbn [snd]. intros name p e Hk. apply (Hsound name p e Hk).
Qed.

Lemma getUserByName_ok now userName w :
  exists o, fst (getUserByName now userName w) = Ok o.
Proof.
  unfold getUserByName.
  destruct (lookup_cached now (key_name userName) w) as [[u w']|]; [eauto|].
  cbn [committed log].
  destruct (select_user_by_name (committed w) userName); eauto.
Qed.

(** C10, as stated, fails: bob has a row in [users] and none in [icons],
    but a request whose [If-None-Match] header is the quoted hex of his
    icon hash is answered 304 Not Modified, not the fallback image. *)
Lemma icon_request_not_modified :
  select_user_by_name (committed ex_world) "bob" = Some ex_bob /\
  select_icon (committed ex_world) (UserModel_ID ex_bob) = None /\
  fst (getIconHandler 0 (quoted_hex (UserModel_IconHash ex_bob)) "bob" ex_world)
  = NoContent StatusNotModified /\
  fst (getIconHandler 0 (quoted_hex (UserModel_IconHash ex_bob)) "bob" ex_world)
  <> File fallbackImage.
Proof.
  split; [vm_compute; reflexivity|].
  split; [vm_compute; reflexivity|].
  split; [vm_compute; reflexivity|].
  vm_compute. discriminate.
Qed.

(** The icon hash that the user lookup serves from the caches at [now],
    if it serves one: the name key of the user cache is valid, and so is
    the icon-cache record of the cached object's name. *)
Definition cached_user_hash (now : Z) (username : string) (w : World)
  : option (list byte) :=
  match gocache.Get now (userCache w) (key_name username) with
  | Some p => gocache.Get now (iconCache w) (UserModel_Name (deref w p))
  | None => None
  end.

(** The hashes an [If-None-Match] header is compared with, for a user
    whose row is [row]: the icon-cache record of the name, if it is valid,
    and the hash of the user, which is the cached one or else the one
    stored in the row. *)
Definition known_hashes (now : Z) (username : string) (row : UserModel) (w : World)
  : list (list byte) :=
  match gocache.Get now (iconCache w) username with
  | Some h => [h]
  | None => []
  end
  ++ [default (UserModel_IconHash row) (cached_user_hash now username w)].

(** The request carries a header, and it is the quoted hex of one of the
    hashes. *)
Definition header_matches (iconHash : string) (hashes : list (list byte)) : bool :=
  negb (String.eqb iconHash EmptyString) &&
  existsb (fun h => String.eqb iconHash (quoted_hex h)) hashes.

(** The answers of the icon endpoint for a user without an [icons] row,
    and what an error answer implies. *)
Definition icon_outcome (now : Z) (iconHash username : string) (w : World) : Prop :=
  let resp := fst (getIconHandler now iconHash username w) in
  (forall row,
     select_user_by_name (committed w) username = Some row ->
     select_icon (committed w) (UserModel_ID row) = None ->
     resp = if header_matches iconHash (known_hashes now username row w)
            then NoContent StatusNotModified
            else File fallbackImage)
  /\
  (forall code msg,
     resp = HTTPError code msg ->
     code = StatusNotFound /\
     select_user_by_name (committed w) username = None).

(** The hash of the object the lookup by name returns. *)
Lemma getUserByName_hash now username w row p w1 :
  name_keys_sound w ->
  select_user_by_name (committed w) username = Some row ->
  getUserByName now username w = (Ok (Some p), w1) ->
  UserModel_IconHash (deref w1 p)
  = default (UserModel_IconHash row) (cached_user_hash now username w).
Proof.
  intros Hsound Hsel. unfold getUserByName, lookup_cached, cached_user_hash, gocache.Get.
  destruct (userCache w !! key_name username) as [[u e]|] eqn:Hk.
  - destruct (Hsound _ _ _ Hk) as (Hlt & _).
    destruct (now <? e).
    + destruct (iconCache w !! UserModel_Name (deref w u)) as [[h e']|].
      * destruct (now <? e').
        -- intros [= <- <-]. unfold deref at 1. cbn [heap set_caches].
           rewrite list_lookup_insert_eq by exact Hlt. reflexivity.
        -- cbn [committed log]. rewrite Hsel. intros [= <- <-].
           unfold deref. cbn [heap set_caches log].
           rewrite lookup_app_r by reflexivity. rewrite Nat.sub_diag. reflexivity.
      * cbn [committed log]. rewrite Hsel. intros [= <- <-].
        unfold deref. cbn [heap set_caches log].
        rewrite lookup_app_r by reflexivity. rewrite Nat.sub_diag. reflexivity.
    + cbn [committed log]. rewrite Hsel. intros [= <- <-].
      unfold deref. cbn [heap set_caches log].
      rewrite lookup_app_r by reflexivity. rewrite Nat.sub_diag. reflexivity.
  - cbn [committed log]. rewrite Hsel. intros [= <- <-].
    unfold deref. cbn [heap set_caches log].
    rewrite lookup_app_r by reflexivity. rewrite Nat.sub_diag. reflexivity.
Qed.

(** C10, amended.  For an icon request naming a user that exists in the
    store but has no row in [icons], on a cache with sound name keys, the
    handler never answers an error.  It answers 304 Not Modified exactly
    when the request carries an [If-None-Match] header that is the quoted
    hex of the hash in the valid icon-cache record of the name, or of the
    hash of the user, served from the caches or else as stored in the
    user's row; every other request, so every request without that
    header, gets the fixed fallback image.  The only error answer of the
    handler is 404, and only when the store has no user of that name. *)
Theorem icon_fallback_or_not_modified (now : Z) (iconHash username : string)
    (w : World) :
  name_keys_sound w ->
  icon_outcome now iconHash username w.
Proof.
  intros Hsound. unfold icon_outcome. cbv zeta. split.
  - intros row Hsel Hicon.
    destruct (getUserByName_resolves now username w row Hsound Hsel)
      as (p & w1 & Hget & Hc & Hid).
    pose proof (getUserByName_hash now username w row p w1 Hsound Hsel Hget) as Hhash.
    unfold getIconHandler, header_matches, known_hashes. rewrite Hget, Hhash.
    set (served := default (UserModel_IconHash row) (cached_user_hash now username w)).
    rewrite (String.eqb_sym (quoted_hex served) iconHash).
    cbn [committed log]. rewrite Hc, Hid, Hicon.
    destruct (String.eqb iconHash EmptyString); cbn [negb andb fst]; [reflexivity|].
    destruct (gocache.Get now (iconCache w) username) as [h|]; cbn [app existsb].
    + destruct (String.eqb iconHash (quoted_hex h)); cbn [orb fst]; [reflexivity|].
      rewrite orb_false_r.
      destruct (String.eqb iconHash (quoted_hex served)); reflexivity.
    + rewrite orb_false_r.
      destruct (String.eqb iconHash (quoted_hex served)); reflexivity.
  - intros code msg. unfold getIconHandler.
    destruct (negb _ && _); [discriminate|].
    destruct (getUserByName_ok now username w) as (o & Ho).
    destruct (getUserByName now username w) as [r w1] eqn:Hu.
    cbn [fst] in Ho. subst r. destruct o as [p|].
    + destruct (negb _ && _); [discriminate|].
      cbn [committed log].
      destruct (select_icon _ _); discriminate.
    + cbn [fst]. intros [= <- <-]. split; [reflexivity|].
      eapply getUserByName_not_found. exact Hu.
Qed.

Lemma icon_fallback_or_not_modified_witness :
  icon_outcome 0 (quoted_hex (UserModel_IconHash ex_bob)) "bob" ex_world /\
  fst (getIconHandler 0 (quoted_hex (UserModel_IconHash ex_bob)) "bob" ex_world)
  = NoContent StatusNotModified /\
  fst (getIconHandler 0 (quoted_hex [Byte.x00]) "bob" ex_world) = File fallbackImage /\
  fst (getIconHandler 0 EmptyString "bob" ex_world) = File fallbackImage.
Proof.
  assert (H : name_keys_sound ex_world)
    by (apply name_keys_sound_empty; reflexivity).
  assert (Hrow : select_user_by_name (committed ex_world) "bob" = Some ex_bob)
    by (vm_compute; reflexivity).
  assert (Hicon : select_icon (committed ex_world) (UserModel_ID ex_bob) = None)
    by (vm_compute; reflexivity).
  split; [exact (icon_fallback_or_not_modified 0 _ "bob" ex_world H)|].
  split; [|split].
  - rewrite (proj1 (icon_fallback_or_not_modified 0 _ "bob" ex_world H) ex_bob Hrow Hicon).
    vm_compute. reflexivity.
  - rewrite (proj1 (icon_fallback_or_not_modified 0 _ "bob" ex_world H) ex_bob Hrow Hicon).
    vm_compute. reflexivity.
  - rewrite (proj1 (icon_fallback_or_not_modified 0 _ "bob" ex_world H) ex_bob Hrow Hicon).
    vm_compute. reflexivity.
Defined.

Example ex_icon_unknown_user :
  fst (getIconHandler 0 EmptyString "mallory" ex_world)
  = HTTPError StatusNotFound NotFoundUserWithUsername.
Proof. vm_compute. reflexivity. Qed.

(** * The bulk counter recomputation of [initializeHandler] *)

Definition with_users (rows : list UserModel) (d : DB) : DB :=
  {| users := rows; livestreams := livestreams d;
     livestream_tags := livestream_tags d;
     reservation_slots := reservation_slots d;
     reactions := reactions d; livecomments := livecomments d;
     favorite_emojis := favorite_emojis d; icons := icons d;
     livestream_viewers_history := livestream_viewers_history d;
     livecomment_reports := livecomment_reports d;
     livestreams_auto := livestreams_auto d;
     livestream_tags_auto := livestream_tags_auto d |}.

Definition with_livestream_rows (rows : list LivestreamModel) (d : DB) : DB :=
  with_livestreams rows (livestreams_auto d) d.

Definition set_user_counters (u : UserModel) (c : Z * Z * Z) : UserModel :=
  {| UserModel_ID := UserModel_ID u; UserModel_Name := UserModel_Name u;
     UserModel_DisplayName := UserModel_DisplayName u;
     UserModel_Description := UserModel_Description u;
     UserModel_HashedPassword := UserModel_HashedPassword u;
     UserModel_DarkMode := UserModel_DarkMode u;
     UserModel_Reactions := fst (fst c);
     UserModel_Tips := snd (fst c);
     UserModel_LiveComments := snd c;
     UserModel_IconHash := UserModel_IconHash u |}.

Definition set_livestream_counters (l : LivestreamModel) (c : Z * Z * Z)
  : LivestreamModel :=
  {| LivestreamModel_ID := LivestreamModel_ID l;
     LivestreamModel_UserID := LivestreamModel_UserID l;
     LivestreamModel_Title := LivestreamModel_Title l;
     LivestreamModel_Description := LivestreamModel_Description l;
     LivestreamModel_PlaylistUrl := LivestreamModel_PlaylistUrl l;
     LivestreamModel_ThumbnailUrl := LivestreamModel_ThumbnailUrl l;
     LivestreamModel_StartAt := LivestreamModel_StartAt l;
     LivestreamModel_EndAt := LivestreamModel_EndAt l;
     LivestreamModel_Reactions := fst (fst c);
     LivestreamModel_Tips := snd (fst c);
     LivestreamModel_MaxTip := snd c |}.

(** [UPDATE users SET reactions = ? WHERE id = ?] and its two siblings. *)
Definition update_user_reactions (userID v : Z) (d : DB) : DB :=
  with_users
    (map (fun u => if UserModel_ID u =? userID
                   then set_user_counters u (v, UserModel_Tips u, UserModel_LiveComments u)
                   else u) (users d)) d.

Definition update_user_tips (userID v : Z) (d : DB) : DB :=
  with_users
    (map (fun u => if UserModel_ID u =? userID
                   then set_user_counters u (UserModel_Reactions u, v, UserModel_LiveComments u)
                   else u) (users d)) d.

Definition update_user_live_comments (userID v : Z) (d : DB) : DB :=
  with_users
    (map (fun u => if UserModel_ID u =? userID
                   then set_user_counters u (UserModel_Reactions u, UserModel_Tips u, v)
                   else u) (users d)) d.

(** [UPDATE livestreams SET reactions = ? WHERE id = ?] and its two siblings. *)
Definition update_livestream_reactions (livestreamID v : Z) (d : DB) : DB :=
  with_livestream_rows
    (map (fun l => if LivestreamModel_ID l =? livestreamID
                   then set_livestream_counters l
                          (v, LivestreamModel_Tips l, LivestreamModel_MaxTip l)
                   else l) (livestreams d)) d.

Definition update_livestream_tips (livestreamID v : Z) (d : DB) : DB :=
  with_livestream_rows
    (map (fun l => if LivestreamModel_ID l =? livestreamID
                   then set_livestream_counters l
                          (LivestreamModel_Reactions l, v, LivestreamModel_MaxTip l)
                   else l) (livestreams d)) d.

Definition update_livestream_max_tip (livestreamID v : Z) (d : DB) : DB :=
  with_livestream_rows
    (map (fun l => if LivestreamModel_ID l =? livestreamID
                   then set_livestream_counters l
                          (LivestreamModel_Reactions l, LivestreamModel_Tips l, v)
                   else l) (livestreams d)) d.

(** [FROM users u INNER JOIN livestreams l ON l.user_id = u.id
     INNER JOIN t x ON x.livestream_id = l.id WHERE u.id = ?]:
    the rows [x] of the join, for a table [t] with livestream column [lid]. *)
Definition join_user {R : Type} (lid : R -> Z) (rows : list R) (d : DB) (userID : Z)
  : list R :=
  flat_map
    (fun u =>
       flat_map
         (fun l => List.filter (fun x => lid x =? LivestreamModel_ID l) rows)
         (List.filter (fun l => LivestreamModel_UserID l =? UserModel_ID u)
            (livestreams d)))
    (List.filter (fun u => UserModel_ID u =? userID) (users d)).

(** [FROM livestreams l INNER JOIN t x ON x.livestream_id = l.id WHERE l.id = ?] *)
Definition join_livestream {R : Type} (lid : R -> Z) (rows : list R) (d : DB)
    (livestreamID : Z) : list R :=
  flat_map
    (fun l => List.filter (fun x => lid x =? LivestreamModel_ID l) rows)
    (List.filter (fun l => LivestreamModel_ID l =? livestreamID) (livestreams d)).

Definition COUNT {R : Type} (rows : list R) : Z := Z.of_nat (length rows).

(** [IFNULL(SUM(tip), 0)] *)
Definition SUM_tip (rows : list LivecommentModel) : Z :=
  fold_right Z.add 0 (map LivecommentModel_Tip rows).

(** [IFNULL(MAX(tip), 0)] *)
Definition MAX_tip (rows : list LivecommentModel) : Z :=
  match map LivecommentModel_Tip rows with
  | [] => 0
  | t :: ts => fold_left Z.max ts t
  end.

(** The body of [for _, user := range users]. *)
Definition recompute_user (d : DB) (user : UserModel) : DB :=
  let reactions :=
    COUNT (join_user ReactionModel_LivestreamID (reactions d) d (UserModel_ID user)) in
  let d1 := update_user_reactions (UserModel_ID user) reactions d in
  let tips :=
    SUM_tip (join_user LivecommentModel_LivestreamID (livecomments d1) d1
               (UserModel_ID user)) in
  let d2 := update_user_tips (UserModel_ID user) tips d1 in
  let live_comments :=
    COUNT (join_user LivecommentModel_LivestreamID (livecomments d2) d2
             (UserModel_ID user)) in
  update_user_live_comments (UserModel_ID user) live_comments d2.

(** The body of [for _, livestream := range livestreams]. *)
Definition recompute_livestream (d : DB) (livestream : LivestreamModel) : DB :=
  let reactions :=
    COUNT (join_livestream ReactionModel_LivestreamID (reactions d) d
             (LivestreamModel_ID livestream)) in
  let d1 := update_livestream_reactions (LivestreamModel_ID livestream) reactions d in
  let totalTips :=
    SUM_tip (join_livestream LivecommentModel_LivestreamID (livecomments d1) d1
               (LivestreamModel_ID livestream)) in
  let d2 := update_livestream_tips (LivestreamModel_ID livestream) totalTips d1 in
  let maxTip :=
    MAX_tip (join_livestream LivecommentModel_LivestreamID (livecomments d2) d2
               (LivestreamModel_ID livestream)) in
  update_livestream_max_tip (LivestreamModel_ID livestream) maxTip d2.

(** The transaction of [initializeHandler]: [SELECT * FROM users], the
    user loop, [SELECT * FROM livestreams], the livestream loop.  Sums and
    counts are taken in [Z]. *)
Definition recompute_counters (d : DB) : DB :=
  let users_snapshot := users d in
  let d1 := fold_left recompute_user users_snapshot d in
  let livestreams_snapshot := livestreams d1 in
  fold_left recompute_livestream livestreams_snapshot d1.

Record InitializeResponse := { InitializeResponse_Language : string }.

Section Initialize.

(** [exec.Command("../sql/init.sh")]: the script that reloads the tables;
    [None] when it fails. *)
Variable init_sh : DB -> option DB.

(** [func initializeHandler(c echo.Context) error] *)
Definition initializeHandler (w : World) : Response InitializeResponse * World :=
  let w0 := set_caches (heap w) (gocache.Clear (userCache w))
              (gocache.Clear (iconCache w)) w in
  match init_sh (committed w0) with
  | None => (HTTPError StatusInternalServerError FailedToInitialize, w0)
  | Some d =>
      (JSON StatusOK {| InitializeResponse_Language := "golang" |},
       {| committed := recompute_counters d; working := recompute_counters d;
          tx_done := true; heap := heap w0; userCache := userCache w0;
          iconCache := iconCache w0; trace := trace w0 ++ [OpBegin; OpCommit] |})
  end.

End Initialize.

(** ** The recomputation reads no counter *)

Definition livestream_key (l : LivestreamModel) : Z * Z :=
  (LivestreamModel_ID l, LivestreamModel_UserID l).

(** Two stores with the same rows up to the counter columns of [users]
    and [livestreams]. *)
Definition same_facts (d d' : DB) : Prop :=
  map UserModel_ID (users d) = map UserModel_ID (users d') /\
  map livestream_key (livestreams d) = map livestream_key (livestreams d') /\
  reactions d = reactions d' /\
  livecomments d = livecomments d'.

Lemma same_facts_refl d : same_facts d d.
Proof. repeat split. Qed.

Lemma same_facts_trans d1 d2 d3 :
  same_facts d1 d2 -> same_facts d2 d3 -> same_facts d1 d3.
Proof. intros (?&?&?&?) (?&?&?&?). repeat split; congruence. Qed.

Lemma filter_map_comm {A B} (f : A -> B) (p : B -> bool) l :
  List.filter p (map f l) = map f (List.filter (fun x => p (f x)) l).
Proof.
  induction l as [|x l IH]; simpl; [reflexivity|].
  destruct (p (f x)); simpl; rewrite IH; reflexivity.
Qed.

Lemma flat_map_map {A B C} (f : A -> B) (g : B -> list C) l :
  flat_map g (map f l) = flat_map (fun x => g (f x)) l.
Proof.
  induction l as [|x l IH]; simpl; [reflexivity|]. rewrite IH. reflexivity.
Qed.

(** The joins through the key columns only. *)
Definition join_user_keys {R : Type} (lid : R -> Z) (rows : list R)
    (uids : list Z) (lkeys : list (Z * Z)) (userID : Z) : list R :=
  flat_map
    (fun uid =>
       flat_map (fun k => List.filter (fun x => lid x =? fst k) rows)
         (List.filter (fun k => snd k =? uid) lkeys))
    (List.filter (fun uid => uid =? userID) uids).

Lemma join_user_by_keys {R} (lid : R -> Z) rows d userID :
  join_user lid rows d userID
  = join_user_keys lid rows (map UserModel_ID (users d))
      (map livestream_key (livestreams d)) userID.
Proof.
  unfold join_user, join_user_keys.
  rewrite filter_map_comm, flat_map_map.
  apply flat_map_ext. intros u.
  rewrite filter_map_comm, flat_map_map. reflexivity.
Qed.

Definition join_livestream_keys {R : Type} (lid : R -> Z) (rows : list R)
    (lkeys : list (Z * Z)) (livestreamID : Z) : list R :=
  flat_map (fun k => List.filter (fun x => lid x =? fst k) rows)
    (List.filter (fun k => fst k =? livestreamID) lkeys).

Lemma join_livestream_by_keys {R} (lid : R -> Z) rows d livestreamID :
  join_livestream lid rows d livestreamID
  = join_livestream_keys lid rows (map livestream_key (livestreams d)) livestreamID.
Proof.
  unfold join_livestream, join_livestream_keys.
  rewrite filter_map_comm, flat_map_map. reflexivity.
Qed.

(** The three values the user loop stores for a user id. *)
Definition user_counters (d : DB) (userID : Z) : Z * Z * Z :=
  (COUNT (join_user ReactionModel_LivestreamID (reactions d) d userID),
   SUM_tip (join_user LivecommentModel_LivestreamID (livecomments d) d userID),
   COUNT (join_user LivecommentModel_LivestreamID (livecomments d) d userID)).

(** The three values the livestream loop stores for a livestream id. *)
Definition livestream_counters (d : DB) (livestreamID : Z) : Z * Z * Z :=
  (COUNT (join_livestream ReactionModel_LivestreamID (reactions d) d livestreamID),
   SUM_tip (join_livestream LivecommentModel_LivestreamID (livecomments d) d
              livestreamID),
   MAX_tip (join_livestream LivecommentModel_LivestreamID (livecomments d) d
              livestreamID)).

Lemma user_counters_facts d d' userID :
  same_facts d d' -> user_counters d userID = user_counters d' userID.
Proof.
  intros (Hu & Hl & Hr & Hc). unfold user_counters.
  rewrite !join_user_by_keys, Hu, Hl, Hr, Hc. reflexivity.
Qed.

Lemma livestream_counters_facts d d' livestreamID :
  same_facts d d' ->
  livestream_counters d livestreamID = livestream_counters d' livestreamID.
Proof.
  intros (Hu & Hl & Hr & Hc). unfold livestream_counters.
  rewrite !join_livestream_by_keys, Hl, Hr, Hc. reflexivity.
Qed.

Lemma with_users_facts us d :
  map UserModel_ID us = map UserModel_ID (users d) -> same_facts (with_users us d) d.
Proof. intros H. repeat split. exact H. Qed.

Lemma with_livestream_rows_facts ls d :
  map livestream_key ls = map livestream_key (livestreams d) ->
  same_facts (with_livestream_rows ls d) d.
Proof. intros H. repeat split. exact H. Qed.

Lemma map_key_preserved {A K} (key : A -> K) (f : A -> A) l :
  (forall x, key (f x) = key x) -> map key (map f l) = map key l.
Proof. intros H. rewrite map_map. apply map_ext. exact H. Qed.

(** ** One pass of each loop body *)

Lemma join_user_facts {R} (lid : R -> Z) rows d d' userID :
  same_facts d d' -> join_user lid rows d userID = join_user lid rows d' userID.
Proof. intros (Hu & Hl & _). rewrite !join_user_by_keys, Hu, Hl. reflexivity. Qed.

Lemma join_livestream_facts {R} (lid : R -> Z) rows d d' livestreamID :
  same_facts d d' ->
  join_livestream lid rows d livestreamID = join_livestream lid rows d' livestreamID.
Proof. intros (_ & Hl & _). rewrite !join_livestream_by_keys, Hl. reflexivity. Qed.

Lemma update_user_reactions_facts userID v d :
  same_facts (update_user_reactions userID v d) d.
Proof.
  apply with_users_facts, map_key_preserved. intros x.
  destruct (UserModel_ID x =? userID); reflexivity.
Qed.

Lemma update_user_tips_facts userID v d : same_facts (update_user_tips userID v d) d.
Proof.
  apply with_users_facts, map_key_preserved. intros x.
  destruct (UserModel_ID x =? userID); reflexivity.
Qed.

Lemma update_livestream_reactions_facts livestreamID v d :
  same_facts (update_livestream_reactions livestreamID v d) d.
Proof.
  apply with_livestream_rows_facts, map_key_preserved. intros x.
  destruct (LivestreamModel_ID x =? livestreamID); reflexivity.
Qed.

Lemma update_livestream_tips_facts livestreamID v d :
  same_facts (update_livestream_tips livestreamID v d) d.
Proof.
  apply with_livestream_rows_facts, map_key_preserved. intros x.
  destruct (LivestreamModel_ID x =? livestreamID); reflexivity.
Qed.

Lemma recompute_user_eq d u :
  recompute_user d u
  = with_users
      (map (fun x => if UserModel_ID x =? UserModel_ID u
                     then set_user_counters x (user_counters d (UserModel_ID u))
                     else x) (users d)) d.
Proof.
  unfold recompute_user. cbv zeta.
  set (r := COUNT (join_user ReactionModel_LivestreamID (reactions d) d (UserModel_ID u))).
  set (d1 := update_user_reactions (UserModel_ID u) r d).
  change (livecomments d1) with (livecomments d).
  rewrite (join_user_facts _ (livecomments d) d1 d _ (update_user_reactions_facts _ _ _)).
  set (t := SUM_tip (join_user LivecommentModel_LivestreamID (livecomments d) d
                       (UserModel_ID u))).
  set (d2 := update_user_tips (UserModel_ID u) t d1).
  change (livecomments d2) with (livecomments d).
  rewrite (join_user_facts _ (livecomments d) d2 d _
             (same_facts_trans _ _ _ (update_user_tips_facts _ _ _)
                (update_user_reactions_facts _ _ _))).
  set (c := COUNT (join_user LivecommentModel_LivestreamID (livecomments d) d
                     (UserModel_ID u))).
  change (user_counters d (UserModel_ID u)) with (r, t, c).
  unfold d2, d1, update_user_live_comments, update_user_tips, update_user_reactions,
    with_users.
  cbn [users livestreams livestream_tags reservation_slots reactions livecomments
       favorite_emojis icons livestream_viewers_history livecomment_reports
       livestreams_auto livestream_tags_auto].
  f_equal. rewrite !map_map. apply map_ext. intros x.
  destruct (UserModel_ID x =? UserModel_ID u) eqn:Hx; cbn; rewrite ?Hx; cbn;
    rewrite ?Hx; reflexivity.
Qed.

Lemma recompute_livestream_eq d l :
  recompute_livestream d l
  = with_livestream_rows
      (map (fun x => if LivestreamModel_ID x =? LivestreamModel_ID l
                     then set_livestream_counters x
                            (livestream_counters d (LivestreamModel_ID l))
                     else x) (livestreams d)) d.
Proof.
  unfold recompute_livestream. cbv zeta.
  set (r := COUNT (join_livestream ReactionModel_LivestreamID (reactions d) d
                     (LivestreamModel_ID l))).
  set (d1 := update_livestream_reactions (LivestreamModel_ID l) r d).
  change (livecomments d1) with (livecomments d).
  rewrite (join_livestream_facts _ (livecomments d) d1 d _
             (update_livestream_reactions_facts _ _ _)).
  set (t := SUM_tip (join_livestream LivecommentModel_LivestreamID (livecomments d) d
                       (LivestreamModel_ID l))).
  set (d2 := update_livestream_tips (LivestreamModel_ID l) t d1).
  change (livecomments d2) with (livecomments d).
  rewrite (join_livestream_facts _ (livecomments d) d2 d _
             (same_facts_trans _ _ _ (update_livestream_tips_facts _ _ _)
                (update_livestream_reactions_facts _ _ _))).
  set (m := MAX_tip (join_livestream LivecommentModel_LivestreamID (livecomments d) d
                       (LivestreamModel_ID l))).
  change (livestream_counters d (LivestreamModel_ID l)) with (r, t, m).
  unfold d2, d1, update_livestream_max_tip, update_livestream_tips,
    update_livestream_reactions, with_livestream_rows, with_livestreams.
  cbn [users livestreams livestream_tags reservation_slots reactions livecomments
       favorite_emojis icons livestream_viewers_history livecomment_reports
       livestreams_auto livestream_tags_auto].
  f_equal. rewrite !map_map. apply map_ext. intros x.
  destruct (LivestreamModel_ID x =? LivestreamModel_ID l) eqn:Hx; cbn; rewrite ?Hx; cbn;
    rewrite ?Hx; reflexivity.
Qed.

(** ** The loops *)

Lemma with_users_same d : with_users (users d) d = d.
Proof. destruct d; reflexivity. Qed.

Lemma with_livestream_rows_same d : with_livestream_rows (livestreams d) d = d.
Proof. destruct d; reflexivity. Qed.

Lemma fold_recompute_user d0 snapshot d :
  same_facts d d0 ->
  fold_left recompute_user snapshot d
  = with_users
      (map (fun x => if existsb (fun u => UserModel_ID x =? UserModel_ID u) snapshot
                     then set_user_counters x (user_counters d0 (UserModel_ID x))
                     else x) (users d)) d.
Proof.
  revert d. induction snapshot as [|u snapshot IH]; intros d Hf; simpl.
  - rewrite map_id. symmetry. apply with_users_same.
  - rewrite recompute_user_eq, (user_counters_facts d d0 _ Hf).
    rewrite IH.
    2:{ eapply same_facts_trans; [|exact Hf].
        apply with_users_facts, map_key_preserved. intros x.
        destruct (UserModel_ID x =? UserModel_ID u); reflexivity. }
    unfold with_users.
    cbn [users livestreams livestream_tags reservation_slots reactions livecomments
         favorite_emojis icons livestream_viewers_history livecomment_reports
         livestreams_auto livestream_tags_auto].
    f_equal. rewrite map_map. apply map_ext. intros x.
    destruct (Z.eqb_spec (UserModel_ID x) (UserModel_ID u)) as [He|Hne]; cbn.
    + rewrite He. destruct (existsb _ snapshot); reflexivity.
    + reflexivity.
Qed.

Lemma fold_recompute_livestream d0 snapshot d :
  same_facts d d0 ->
  fold_left recompute_livestream snapshot d
  = with_livestream_rows
      (map (fun x => if existsb (fun l => LivestreamModel_ID x =? LivestreamModel_ID l)
                          snapshot
                     then set_livestream_counters x
                            (livestream_counters d0 (LivestreamModel_ID x))
                     else x) (livestreams d)) d.
Proof.
  revert d. induction snapshot as [|l snapshot IH]; intros d Hf; simpl.
  - rewrite map_id. symmetry. apply with_livestream_rows_same.
  - rewrite recompute_livestream_eq, (livestream_counters_facts d d0 _ Hf).
    rewrite IH.
    2:{ eapply same_facts_trans; [|exact Hf].
        apply with_livestream_rows_facts, map_key_preserved. intros x.
        destruct (LivestreamModel_ID x =? LivestreamModel_ID l); reflexivity. }
    unfold with_livestream_rows, with_livestreams.
    cbn [users livestreams livestream_tags reservation_slots reactions livecomments
         favorite_emojis icons livestream_viewers_history livecomment_reports
         livestreams_auto livestream_tags_auto].
    f_equal. rewrite map_map. apply map_ext. intros x.
    destruct (Z.eqb_spec (LivestreamModel_ID x) (LivestreamModel_ID l)) as [He|Hne]; cbn.
    + rewrite He. destruct (existsb _ snapshot); reflexivity.
    + reflexivity.
Qed.

Lemma map_over_itself {A} (key : A -> Z) (f : A -> A) (l : list A) :
  map (fun x => if existsb (fun y => key x =? key y) l then f x else x) l = map f l.
Proof.
  apply map_ext_in. intros x Hx.
  assert (existsb (fun y => key x =? key y) l = true) as ->; [|reflexivity].
  apply existsb_exists. exists x. split; [exact Hx | apply Z.eqb_refl].
Qed.

(** The store after the recomputation: every user row and every
    livestream row carries the counters computed from the fact tables. *)
Definition recomputed (d : DB) : DB :=
  with_livestream_rows
    (map (fun l => set_livestream_counters l
                     (livestream_counters d (LivestreamModel_ID l)))
       (livestreams d))
    (with_users
       (map (fun u => set_user_counters u (user_counters d (UserModel_ID u)))
          (users d)) d).

Lemma recomputed_facts d : same_facts (recomputed d) d.
Proof.
  unfold recomputed. repeat split; cbn.
  - apply map_key_preserved. reflexivity.
  - apply map_key_preserved. reflexivity.
Qed.

Lemma recompute_counters_eq d : recompute_counters d = recomputed d.
Proof.
  unfold recompute_counters. cbv zeta.
  rewrite (fold_recompute_user d (users d) d (same_facts_refl d)).
  rewrite (map_over_itself UserModel_ID
             (fun x => set_user_counters x (user_counters d (UserModel_ID x)))).
  set (d1 := with_users _ d).
  assert (Hf : same_facts d1 d)
    by (apply with_users_facts, map_key_preserved; reflexivity).
  rewrite (fold_recompute_livestream d (livestreams d1) d1 Hf).
  rewrite (map_over_itself LivestreamModel_ID
             (fun x => set_livestream_counters x
                         (livestream_counters d (LivestreamModel_ID x)))).
  reflexivity.
Qed.

(** C9.  Running the bulk recomputation a second time, with nothing
    written in between, leaves every row as the first run left it: in
    particular the three counters of every user ([reactions], [tips],
    [live_comments]) and of every livestream ([reactions], [tips],
    [max_tip]) have the same values after each run.  The runs also leave
    the reaction and live-comment rows untouched. *)
Theorem recompute_counters_idempotent (d : DB) :
  recompute_counters (recompute_counters d) = recompute_counters d /\
  reactions (recompute_counters d) = reactions d /\
  livecomments (recompute_counters d) = livecomments d.
Proof.
  rewrite !recompute_counters_eq. split; [|split; reflexivity].
  unfold recomputed at 1.
  assert (Hu : forall id, user_counters (recomputed d) id = user_counters d id)
    by (intros id; apply user_counters_facts, recomputed_facts).
  assert (Hl : forall id, livestream_counters (recomputed d) id
                          = livestream_counters d id)
    by (intros id; apply livestream_counters_facts, recomputed_facts).
  unfold recomputed, with_livestream_rows, with_livestreams, with_users in *.
  cbn [users livestreams livestream_tags reservation_slots reactions livecomments
       favorite_emojis icons livestream_viewers_history livecomment_reports
       livestreams_auto livestream_tags_auto] in *.
  f_equal.
  - rewrite map_map. apply map_ext. intros u. cbn. rewrite Hu. reflexivity.
  - rewrite map_map. apply map_ext. intros l. cbn. rewrite Hl. reflexivity.
Qed.

Definition ex_reaction (id livestreamID : Z) (name : string) : ReactionModel :=
  {| ReactionModel_ID := id; ReactionModel_EmojiName := name;
     ReactionModel_UserID := 3; ReactionModel_LivestreamID := livestreamID;
     ReactionModel_CreatedAt := 1700874000 |}.

Definition ex_livecomment (id livestreamID tip : Z) : LivecommentModel :=
  {| LivecommentModel_ID := id; LivecommentModel_LivestreamID := livestreamID;
     LivecommentModel_Tip := tip |}.

(** The statistics snapshot with stale counters and some facts: two
    reactions and tips 100 and 30 on alice's livestream 1, one reaction
    and a tip of 7 on bob's livestream 2. *)
Definition ex_facts_db : DB :=
  {| users := users ex_stats_db;
     livestreams := livestreams ex_stats_db;
     livestream_tags := [];
     reservation_slots := [];
     reactions := [ex_reaction 1 1 "clap"; ex_reaction 2 1 "star"; ex_reaction 3 2 "clap"];
     livecomments := [ex_livecomment 1 1 100; ex_livecomment 2 1 30;
                      ex_livecomment 3 2 7];
     favorite_emojis := []; icons := [];
     livestream_viewers_history := []; livecomment_reports := [];
     livestreams_auto := 4; livestream_tags_auto := 1 |}.

Example ex_recompute :
  map (fun u => (UserModel_Reactions u, UserModel_Tips u, UserModel_LiveComments u))
    (users (recompute_counters ex_facts_db))
  = [(2, 130, 2); (1, 7, 1); (0, 0, 0)] /\
  map (fun l => (LivestreamModel_Reactions l, LivestreamModel_Tips l,
                 LivestreamModel_MaxTip l))
    (livestreams (recompute_counters ex_facts_db))
  = [(2, 130, 100); (1, 7, 7); (0, 0, 0)].
Proof. vm_compute. auto. Qed.

(** Two calls of the handler in a row, when [init.sh] reloads the same
    tables each time, commit the same store. *)
Lemma initializeHandler_twice (init_sh : DB -> option DB) (w : World) :
  (forall d d', init_sh d = init_sh d') ->
  committed (snd (initializeHandler init_sh (snd (initializeHandler init_sh w))))
  = committed (snd (initializeHandler init_sh w)).
Proof.
  intros Hsame. unfold initializeHandler.
  cbn [committed set_caches].
  destruct (init_sh (committed w)) as [d|] eqn:H1; cbn [snd committed set_caches].
  - rewrite (Hsame _ (committed w)), H1. reflexivity.
  - rewrite H1. reflexivity.
Qed.

(** * Example worlds for the properties below *)

(** The statistics snapshot as the store of a world with empty caches. *)
Definition ex_stats_world : World :=
  {| committed := ex_stats_db; working := ex_stats_db; tx_done := true; heap := [];
     userCache := ∅; iconCache := ∅; trace := [] |}.

Lemma ex_stats_db_ids :
  NoDup (map UserModel_ID (users ex_stats_db)) /\
  NoDup (map UserModel_Name (users ex_stats_db)) /\
  NoDup (map LivestreamModel_ID (livestreams ex_stats_db)).
Proof. repeat split; apply (bool_decide_unpack _); vm_compute; exact I. Qed.

(** The store [ex_facts_db] after a recomputation of its counters. *)
Definition ex_counted_world : World :=
  {| committed := recompute_counters ex_facts_db;
     working := recompute_counters ex_facts_db; tx_done := true; heap := [];
     userCache := ∅; iconCache := ∅; trace := [] |}.

(** The statistics snapshot with the tags 2 and 1 on livestream 1 and
    the tag 1 on livestream 2. *)
Definition ex_tagged_db : DB :=
  with_livestream_tags
    [{| LivestreamTagModel_ID := 1; LivestreamTagModel_LivestreamID := 1;
        LivestreamTagModel_TagID := 2 |};
     {| LivestreamTagModel_ID := 2; LivestreamTagModel_LivestreamID := 2;
        LivestreamTagModel_TagID := 1 |};
     {| LivestreamTagModel_ID := 3; LivestreamTagModel_LivestreamID := 1;
        LivestreamTagModel_TagID := 1 |}] 4 ex_stats_db.

Definition ex_tagged_world : World :=
  {| committed := ex_tagged_db; working := ex_tagged_db; tx_done := true; heap := [];
     userCache := ∅; iconCache := ∅; trace := [] |}.

(** A stand-in for SHA-256 in the examples: the first two bytes. *)
Definition ex_sum (image : list byte) : list byte := firstn 2 image.

(** * How long a cached user is served *)

(** The two caches are configured with 1500 ms and 60 minutes. *)
Lemma iconCache_ttl_lt_userCache_ttl : iconCache_ttl < userCache_ttl.
Proof. reflexivity. Qed.

Lemma iconCache_ttl_pos : 0 < iconCache_ttl.
Proof. reflexivity. Qed.

(** Two worlds whose process memory agrees: the same objects and the same
    records in both caches.  Their stores and traces may differ. *)
Definition same_memory (w w' : World) : Prop :=
  heap w' = heap w /\ userCache w' = userCache w /\ iconCache w' = iconCache w.

(** The memory a population at instant [now] leaves behind: the object
    [um] at the fresh address [p], both keys of the user cache bound to
    [p], and the icon hash of [um] under its name. *)
Definition memory_after_population (now : Z) (idkey : string) (um : UserModel)
    (p : nat) (w w1 : World) : Prop :=
  p = length (heap w) /\
  heap w1 = heap w ++ [um] /\
  userCache w1
  = gocache.Set_ now userCache_ttl
      (gocache.Set_ now userCache_ttl (userCache w) idkey p)
      (key_name (UserModel_Name um)) p /\
  iconCache w1
  = gocache.Set_ now iconCache_ttl (iconCache w) (UserModel_Name um)
      (UserModel_IconHash um).

Lemma with_IconHash_same um : with_IconHash um (UserModel_IconHash um) = um.
Proof. destruct um; reflexivity. Qed.

Lemma lookup_cached_populated now t idkey um p w w1 key :
  memory_after_population now idkey um p w w1 ->
  key = idkey \/ key = key_name (UserModel_Name um) ->
  lookup_cached t key w1
  = if t <? now + iconCache_ttl then Some (p, w1) else None.
Proof.
  intros (-> & Hheap & Huc & Hic) Hkey.
  assert (Hp : heap w1 !! length (heap w) = Some um).
  { rewrite Hheap, lookup_app_r by reflexivity.
    rewrite Nat.sub_diag. reflexivity. }
  assert (Hd : deref w1 (length (heap w)) = um) by (unfold deref; rewrite Hp; reflexivity).
  assert (Hu : gocache.Get t (userCache w1) key
               = if t <? now + userCache_ttl then Some (length (heap w)) else None).
  { rewrite Huc. destruct Hkey as [->| ->].
    - destruct (decide (key_name (UserModel_Name um) = idkey)) as [He|Hne].
      + rewrite <- He. apply gocache.Get_Set_later.
      + rewrite gocache.Get_Set_ne by exact Hne. apply gocache.Get_Set_later.
    - apply gocache.Get_Set_later. }
  unfold lookup_cached. rewrite Hu.
  pose proof iconCache_ttl_lt_userCache_ttl as Httl.
  destruct (Z.ltb_spec t (now + iconCache_ttl)) as [Hlt|Hge].
  - destruct (Z.ltb_spec t (now + userCache_ttl)) as [_|?]; [|lia].
    rewrite Hd, Hic, gocache.Get_Set_later.
    destruct (Z.ltb_spec t (now + iconCache_ttl)) as [_|?]; [|lia].
    rewrite with_IconHash_same. do 2 f_equal.
    apply World_eq; try reflexivity; cbn [heap iconCache set_caches].
    + apply list_insert_id. exact Hp.
    + symmetry. exact Hic.
  - destruct (t <? now + userCache_ttl); [|reflexivity].
    rewrite Hd, Hic, gocache.Get_Set_later.
    destruct (Z.ltb_spec t (now + iconCache_ttl)) as [?|_]; [lia|reflexivity].
Qed.

(** A lookup that went to the store: what it returned and left behind. *)
Lemma getUserWithCache_read now userId w :
  trace (snd (getUserWithCache now userId w)) = trace w ++ [OpGetUserByID userId] ->
  lookup_cached now (key_id userId) w = None.
Proof.
  unfold getUserWithCache.
  destruct (lookup_cached now (key_id userId) w) as [[u w1]|] eqn:Hc; [|reflexivity].
  apply lookup_cached_frame in Hc as (_ & _ & _ & Ht & _).
  cbn [snd]. rewrite Ht. intros H. apply (f_equal length) in H.
  rewrite length_app in H. simpl in H. lia.
Qed.

Lemma getUserByName_read now userName w :
  trace (snd (getUserByName now userName w)) = trace w ++ [OpGetUserByName userName] ->
  lookup_cached now (key_name userName) w = None.
Proof.
  unfold getUserByName.
  destruct (lookup_cached now (key_name userName) w) as [[u w1]|] eqn:Hc; [|reflexivity].
  apply lookup_cached_frame in Hc as (_ & _ & _ & Ht & _).
  cbn [snd]. rewrite Ht. intros H. apply (f_equal length) in H.
  rewrite length_app in H. simpl in H. lia.
Qed.

Lemma select_user_by_id_found d userId row :
  select_user_by_id d userId = Some row -> In row (users d) /\ UserModel_ID row = userId.
Proof.
  unfold select_user_by_id. intros [Hin Hid]%find_some.
  split; [exact Hin | apply Z.eqb_eq; exact Hid].
Qed.

Lemma select_user_by_name_found d userName row :
  select_user_by_name d userName = Some row ->
  In row (users d) /\ UserModel_Name row = userName.
Proof.
  unfold select_user_by_name. intros [Hin Hn]%find_some.
  split; [exact Hin | apply String.eqb_eq; exact Hn].
Qed.

Lemma getUserWithCache_miss now userId w row :
  lookup_cached now (key_id userId) w = None ->
  select_user_by_id (committed w) userId = Some row ->
  fst (getUserWithCache now userId w) = Ok (Some (length (heap w))) /\
  memory_after_population now (key_id (UserModel_ID row)) (scan_user_columns row)
    (length (heap w)) w (snd (getUserWithCache now userId w)).
Proof.
  intros Hc Hs. unfold getUserWithCache. rewrite Hc. cbn [committed log].
  rewrite Hs. cbn [fst snd heap log].
  apply select_user_by_id_found in Hs as [_ ->].
  split; [reflexivity|]. repeat split.
Qed.

Lemma getUserByName_miss now userName w row :
  lookup_cached now (key_name userName) w = None ->
  select_user_by_name (committed w) userName = Some row ->
  fst (getUserByName now userName w) = Ok (Some (length (heap w))) /\
  memory_after_population now (key_id (UserModel_ID row)) (scan_user_columns row)
    (length (heap w)) w (snd (getUserByName now userName w)).
Proof.
  intros Hc Hs. unfold getUserByName. rewrite Hc. cbn [committed log].
  rewrite Hs. cbn [fst snd heap log].
  split; [reflexivity|]. repeat split.
Qed.

Lemma memory_after_population_same now idkey um p w w1 w2 :
  memory_after_population now idkey um p w w1 -> same_memory w1 w2 ->
  memory_after_population now idkey um p w w2.
Proof.
  intros (Hp & Hh & Hu & Hi) (Hh2 & Hu2 & Hi2).
  repeat split; congruence.
Qed.

(** What the two lookups do in a world whose memory a population at
    instant [now] has left, at instant [t]. *)
Definition served_from_cache (t : Z) (userId : Z) (userName : string)
    (p : nat) (snapshot : UserModel) (w2 : World) : Prop :=
  getUserWithCache t userId w2 = (Ok (Some p), w2) /\
  getUserByName t userName w2 = (Ok (Some p), w2) /\
  deref w2 p = snapshot.

Definition read_from_store (t : Z) (userId : Z) (userName : string) (w2 : World)
  : Prop :=
  trace (snd (getUserWithCache t userId w2)) = trace w2 ++ [OpGetUserByID userId] /\
  trace (snd (getUserByName t userName w2)) = trace w2 ++ [OpGetUserByName userName] /\
  (forall p, fst (getUserWithCache t userId w2) = Ok (Some p) ->
     exists row', select_user_by_id (committed w2) userId = Some row' /\
       deref (snd (getUserWithCache t userId w2)) p = scan_user_columns row') /\
  (select_user_by_id (committed w2) userId = None ->
     fst (getUserWithCache t userId w2) = Ok None) /\
  (forall p, fst (getUserByName t userName w2) = Ok (Some p) ->
     exists row', select_user_by_name (committed w2) userName = Some row' /\
       deref (snd (getUserByName t userName w2)) p = scan_user_columns row') /\
  (select_user_by_name (committed w2) userName = None ->
     fst (getUserByName t userName w2) = Ok None).

Lemma populated_then_served now t um p w w2 idkey userId userName :
  memory_after_population now idkey um p w w2 ->
  idkey = key_id userId -> userName = UserModel_Name um ->
  t < now + iconCache_ttl ->
  served_from_cache t userId userName p um w2.
Proof.
  intros Hm -> -> Ht.
  assert (Hlt : (t <? now + iconCache_ttl) = true) by (apply Z.ltb_lt; exact Ht).
  unfold served_from_cache, getUserWithCache, getUserByName.
  rewrite (lookup_cached_populated now t _ um p w w2 (key_id userId) Hm) by (left; reflexivity).
  rewrite (lookup_cached_populated now t _ um p w w2 (key_name (UserModel_Name um)) Hm)
    by (right; reflexivity).
  rewrite Hlt. repeat split.
  destruct Hm as (-> & Hh & _). unfold deref. rewrite Hh.
  rewrite lookup_app_r by reflexivity. rewrite Nat.sub_diag. reflexivity.
Qed.

Lemma fresh_object w um :
  default zeroUserModel ((heap w ++ [um]) !! length (heap w)) = um.
Proof. rewrite lookup_app_r by reflexivity. rewrite Nat.sub_diag. reflexivity. Qed.

Lemma populated_then_read now t um p w w2 idkey userId userName :
  memory_after_population now idkey um p w w2 ->
  idkey = key_id userId -> userName = UserModel_Name um ->
  now + iconCache_ttl <= t ->
  read_from_store t userId userName w2.
Proof.
  intros Hm -> -> Ht.
  assert (Hge : (t <? now + iconCache_ttl) = false) by (apply Z.ltb_ge; exact Ht).
  unfold read_from_store, getUserWithCache, getUserByName.
  rewrite (lookup_cached_populated now t _ um p w w2 (key_id userId) Hm) by (left; reflexivity).
  rewrite (lookup_cached_populated now t _ um p w w2 (key_name (UserModel_Name um)) Hm)
    by (right; reflexivity).
  rewrite Hge. cbn [committed log].
  split; [destruct (select_user_by_id _ _); reflexivity|].
  split; [destruct (select_user_by_name _ _); reflexivity|].
  split.
  { intros q. destruct (select_user_by_id (committed w2) userId) as [row'|];
      [|discriminate].
    cbn [fst snd]. intros [= <-]. exists row'. split; [reflexivity|].
    unfold deref. cbn [heap set_caches log]. apply fresh_object. }
  split; [intros ->; reflexivity|].
  split.
  { intros q. destruct (select_user_by_name (committed w2) _) as [row'|];
      [|discriminate].
    cbn [fst snd]. intros [= <-]. exists row'. split; [reflexivity|].
    unfold deref. cbn [heap set_caches log]. apply fresh_object. }
  intros ->; reflexivity.
Qed.

(** X1.  A user row read from the store by [getUserWithCache] at instant
    [now] is served from the caches, by id and by name, at every instant
    before [now + 1500 ms], whatever the store holds by then: the lookups
    return the object populated at [now], still holding the columns read
    at [now], and send no statement. *)
Theorem cached_user_hides_store (now t userId : Z) (row : UserModel) (w w2 : World) :
  trace (snd (getUserWithCache now userId w)) = trace w ++ [OpGetUserByID userId] ->
  select_user_by_id (committed w) userId = Some row ->
  same_memory (snd (getUserWithCache now userId w)) w2 ->
  t < now + iconCache_ttl ->
  fst (getUserWithCache now userId w) = Ok (Some (length (heap w))) /\
  served_from_cache t userId (UserModel_Name row) (length (heap w))
    (scan_user_columns row) w2.
Proof.
  intros Hread Hsel Hsame Ht.
  apply getUserWithCache_read in Hread.
  destruct (getUserWithCache_miss now userId w row Hread Hsel) as (Hfst & Hm).
  split; [exact Hfst|].
  pose proof (select_user_by_id_found _ _ _ Hsel) as [_ Hid].
  eapply populated_then_served.
  - eapply memory_after_population_same; [exact Hm | exact Hsame].
  - rewrite Hid. reflexivity.
  - reflexivity.
  - exact Ht.
Qed.

Lemma cached_user_hides_store_witness :
  served_from_cache 1 1 "alice" 0%nat (scan_user_columns ex_alice)
    (snd (getUserWithCache 0 1 ex_world)).
Proof.
  assert (H1 : trace (snd (getUserWithCache 0 1 ex_world))
               = trace ex_world ++ [OpGetUserByID 1]) by (vm_compute; reflexivity).
  assert (H2 : select_user_by_id (committed ex_world) 1 = Some ex_alice)
    by (vm_compute; reflexivity).
  assert (H3 : same_memory (snd (getUserWithCache 0 1 ex_world))
                 (snd (getUserWithCache 0 1 ex_world))) by (repeat split).
  assert (H4 : 1 < 0 + iconCache_ttl) by (vm_compute; reflexivity).
  exact (proj2 (cached_user_hides_store 0 1 1 ex_alice ex_world _ H1 H2 H3 H4)).
Defined.

(** X2.  From [now + 1500 ms] on, the lifetime of the icon cache, both
    lookups of a user populated at [now] go to the store again (the 60
    minutes of the user cache never take effect): each sends its SELECT
    and answers what the store holds at that moment, the current row in a
    fresh object or [sql.ErrNoRows]. *)
Theorem cached_user_refetched_after_icon_ttl (now t userId : Z) (row : UserModel)
    (w w2 : World) :
  trace (snd (getUserWithCache now userId w)) = trace w ++ [OpGetUserByID userId] ->
  select_user_by_id (committed w) userId = Some row ->
  same_memory (snd (getUserWithCache now userId w)) w2 ->
  now + iconCache_ttl <= t ->
  read_from_store t userId (UserModel_Name row) w2.
Proof.
  intros Hread Hsel Hsame Ht.
  apply getUserWithCache_read in Hread.
  destruct (getUserWithCache_miss now userId w row Hread Hsel) as (_ & Hm).
  pose proof (select_user_by_id_found _ _ _ Hsel) as [_ Hid].
  eapply populated_then_read.
  - eapply memory_after_population_same; [exact Hm | exact Hsame].
  - rewrite Hid. reflexivity.
  - reflexivity.
  - exact Ht.
Qed.

Lemma cached_user_refetched_after_icon_ttl_witness :
  read_from_store 1500000000 1 "alice" (snd (getUserWithCache 0 1 ex_world)).
Proof.
  assert (H1 : trace (snd (getUserWithCache 0 1 ex_world))
               = trace ex_world ++ [OpGetUserByID 1]) by (vm_compute; reflexivity).
  assert (H2 : select_user_by_id (committed ex_world) 1 = Some ex_alice)
    by (vm_compute; reflexivity).
  assert (H3 : same_memory (snd (getUserWithCache 0 1 ex_world))
                 (snd (getUserWithCache 0 1 ex_world))) by (repeat split).
  assert (H4 : 0 + iconCache_ttl <= 1500000000) by (vm_compute; discriminate).
  exact (cached_user_refetched_after_icon_ttl 0 1500000000 1 ex_alice ex_world _
           H1 H2 H3 H4).
Defined.

(** * The other handlers of the application

    The handlers below answer with their own message texts, so their
    answers carry the text itself.  Of their statements the trace keeps
    the transaction boundaries and the user lookups; what they do is
    specified on the tables and the caches.  As before they start after
    [verifyUserSession] and after the path parameters and the body have
    been decoded. *)

Inductive Answer (A : Type) :=
| EchoError (code : Z) (message : string)  (* return echo.NewHTTPError(code, message) *)
| GoError (message : string)               (* return fmt.Errorf(...), answered with 500 *)
| AnswerJSON (code : Z) (body : A)         (* return c.JSON(code, body) *)
| AnswerNoContent (code : Z).              (* return c.NoContent(code) *)

Arguments EchoError {A} code message.
Arguments GoError {A} message.
Arguments AnswerJSON {A} code body.
Arguments AnswerNoContent {A} code.

(** The text of [sql.ErrNoRows]. *)
Definition ErrNoRows : string := "sql: no rows in result set".

(** Leaving a handler whose [defer tx.Rollback()] is pending. *)
Definition leave {A} (r : A) (w : World) : A * World := (r, Rollback w).

(** [time.Now().Unix()], the clock being read in nanoseconds. *)
Definition unix (now : Z) : Z := now / 1000000000.

Definition with_viewers (rows : list LivestreamViewerModel) (d : DB) : DB :=
  {| users := users d; livestreams := livestreams d;
     livestream_tags := livestream_tags d;
     reservation_slots := reservation_slots d;
     reactions := reactions d; livecomments := livecomments d;
     favorite_emojis := favorite_emojis d; icons := icons d;
     livestream_viewers_history := rows;
     livecomment_reports := livecomment_reports d;
     livestreams_auto := livestreams_auto d;
     livestream_tags_auto := livestream_tags_auto d |}.

Definition with_reactions (rows : list ReactionModel) (d : DB) : DB :=
  {| users := users d; livestreams := livestreams d;
     livestream_tags := livestream_tags d;
     reservation_slots := reservation_slots d;
     reactions := rows; livecomments := livecomments d;
     favorite_emojis := favorite_emojis d; icons := icons d;
     livestream_viewers_history := livestream_viewers_history d;
     livecomment_reports := livecomment_reports d;
     livestreams_auto := livestreams_auto d;
     livestream_tags_auto := livestream_tags_auto d |}.

Definition with_favorite_emojis (rows : list FavoriteEmojiRow) (d : DB) : DB :=
  {| users := users d; livestreams := livestreams d;
     livestream_tags := livestream_tags d;
     reservation_slots := reservation_slots d;
     reactions := reactions d; livecomments := livecomments d;
     favorite_emojis := rows; icons := icons d;
     livestream_viewers_history := livestream_viewers_history d;
     livecomment_reports := livecomment_reports d;
     livestreams_auto := livestreams_auto d;
     livestream_tags_auto := livestream_tags_auto d |}.

Definition with_icons (rows : list IconRow) (d : DB) : DB :=
  {| users := users d; livestreams := livestreams d;
     livestream_tags := livestream_tags d;
     reservation_slots := reservation_slots d;
     reactions := reactions d; livecomments := livecomments d;
     favorite_emojis := favorite_emojis d; icons := rows;
     livestream_viewers_history := livestream_viewers_history d;
     livecomment_reports := livecomment_reports d;
     livestreams_auto := livestreams_auto d;
     livestream_tags_auto := livestream_tags_auto d |}.

(** ** Reading livestreams *)

(** [SELECT `tag_id` FROM livestream_tags WHERE livestream_id = ?] *)
Definition select_tag_ids (d : DB) (livestreamID : Z) : list Z :=
  map LivestreamTagModel_TagID
    (List.filter (fun t => LivestreamTagModel_LivestreamID t =? livestreamID)
       (livestream_tags d)).

(** [SELECT livestream_id, tag_id FROM livestream_tags WHERE livestream_id IN (?)];
    the [id] column is not selected and stays zero in the scanned struct. *)
Definition select_tags_in (d : DB) (livestreamIds : list Z) : list LivestreamTagModel :=
  map (fun t => {| LivestreamTagModel_ID := 0;
                   LivestreamTagModel_LivestreamID := LivestreamTagModel_LivestreamID t;
                   LivestreamTagModel_TagID := LivestreamTagModel_TagID t |})
    (List.filter
       (fun t => existsb (Z.eqb (LivestreamTagModel_LivestreamID t)) livestreamIds)
       (livestream_tags d)).

(** [tags := make(map[int64][]int64)
     for _, tagModel := range tagModels {
       tags[tagModel.LivestreamID] = append(tags[tagModel.LivestreamID], tagModel.TagID) }] *)
Definition group_tags (tagModels : list LivestreamTagModel) : gmap Z (list Z) :=
  fold_left
    (fun (tags : gmap Z (list Z)) tagModel =>
       <[LivestreamTagModel_LivestreamID tagModel :=
           default [] (tags !! LivestreamTagModel_LivestreamID tagModel)
           ++ [LivestreamTagModel_TagID tagModel]]> tags)
    tagModels ∅.

(** [SELECT * FROM livestreams WHERE user_id = ?] *)
Definition select_livestreams_of (d : DB) (userID : Z) : list LivestreamModel :=
  List.filter (fun l => LivestreamModel_UserID l =? userID) (livestreams d).

Section ReadHandlers.

Variable TAGS : Z -> string.

(** [func getLivestreamHandler(c echo.Context) error] *)
Definition getLivestreamHandler (now livestreamID : Z) (w : World)
  : Answer Livestream * World :=
  let w1 := snd (BeginTxx w) in
  match select_livestream (working w1) livestreamID with
  | None =>
      leave (EchoError StatusNotFound "not found livestream that has the given id") w1
  | Some livestreamModel =>
      match getUserWithCache now (LivestreamModel_UserID livestreamModel) w1 with
      | (Ok (Some user), w2) =>
          let tagsId :=
            select_tag_ids (working w2) (LivestreamModel_ID livestreamModel) in
          let livestream :=
            fillLivestreamResponse TAGS livestreamModel (deref w2 user) tagsId in
          leave (AnswerJSON StatusOK livestream) (snd (Commit w2))
      | (_, w2) => leave (GoError ("failed to get user id: " +:+ ErrNoRows)) w2
      end
  end.

(** The part the two listing handlers share, from
    [tags := make(map[int64][]int64)] to the filled [livestreams] slice:
    the tag rows are only read when there is a livestream to show. *)
Definition fill_livestreams (d : DB) (user : UserModel)
    (livestreamModels : list LivestreamModel) : list Livestream :=
  let tags :=
    match livestreamModels with
    | [] => ∅
    | _ :: _ =>
        group_tags (select_tags_in d (map LivestreamModel_ID livestreamModels))
    end in
  map (fun m => fillLivestreamResponse TAGS m user
                  (default [] (tags !! LivestreamModel_ID m)))
    livestreamModels.

(** [func getMyLivestreamsHandler(c echo.Context) error] *)
Definition getMyLivestreamsHandler (now userID : Z) (w : World)
  : Answer (list Livestream) * World :=
  let w1 := snd (BeginTxx w) in
  match getUserWithCache now userID w1 with
  | (Ok (Some user), w2) =>
      let livestreamModels := select_livestreams_of (working w2) userID in
      let livestreams := fill_livestreams (working w2) (deref w2 user) livestreamModels in
      leave (AnswerJSON StatusOK livestreams) (snd (Commit w2))
  | (Ok None, w2) => leave (EchoError StatusNotFound "user not found") w2
  | (Return _, w2) =>
      leave (EchoError StatusInternalServerError "failed to get user: ") w2
  end.

(** [func getUserLivestreamsHandler(c echo.Context) error] *)
Definition getUserLivestreamsHandler (now : Z) (username : string) (w : World)
  : Answer (list Livestream) * World :=
  let w1 := snd (BeginTxx w) in
  match getUserByName now username w1 with
  | (Ok (Some user), w2) =>
      let livestreamModels :=
        select_livestreams_of (working w2) (UserModel_ID (deref w2 user)) in
      let livestreams := fill_livestreams (working w2) (deref w2 user) livestreamModels in
      leave (AnswerJSON StatusOK livestreams) (snd (Commit w2))
  | (Ok None, w2) => leave (EchoError StatusNotFound "user not found") w2
  | (Return _, w2) =>
      leave (EchoError StatusInternalServerError "failed to get user: ") w2
  end.

End ReadHandlers.

(** ** Viewers: [enterLivestreamHandler] and [exitLivestreamHandler] *)

(** [INSERT INTO livestream_viewers_history (user_id, livestream_id, created_at)
     VALUES (...)] *)
Definition insert_viewer (viewer : LivestreamViewerModel) (d : DB) : DB :=
  with_viewers (livestream_viewers_history d ++ [viewer]) d.

(** [DELETE FROM livestream_viewers_history WHERE user_id = ? AND livestream_id = ?] *)
Definition delete_viewer (userID livestreamID : Z) (d : DB) : DB :=
  with_viewers
    (List.filter
       (fun h => negb ((LivestreamViewerModel_UserID h =? userID) &&
                       (LivestreamViewerModel_LivestreamID h =? livestreamID)))
       (livestream_viewers_history d)) d.

(** [func enterLivestreamHandler(c echo.Context) error] *)
Definition enterLivestreamHandler (now userID livestreamID : Z) (w : World)
  : Answer unit * World :=
  let w1 := snd (BeginTxx w) in
  let viewer := {| LivestreamViewerModel_UserID := userID;
                   LivestreamViewerModel_LivestreamID := livestreamID;
                   LivestreamViewerModel_CreatedAt := unix now |} in
  let w2 := set_working (insert_viewer viewer (working w1)) w1 in
  leave (AnswerNoContent StatusOK) (snd (Commit w2)).

(** [func exitLivestreamHandler(c echo.Context) error] *)
Definition exitLivestreamHandler (userID livestreamID : Z) (w : World)
  : Answer unit * World :=
  let w1 := snd (BeginTxx w) in
  let w2 := set_working (delete_viewer userID livestreamID (working w1)) w1 in
  leave (AnswerNoContent StatusOK) (snd (Commit w2)).

(** ** Reactions: [postReactionHandler] *)

Record Reaction := {
  Reaction_ID : Z;
  Reaction_EmojiName : string;
  Reaction_User : User;
  Reaction_Livestream : Livestream;
  Reaction_CreatedAt : Z
}.

(** [UPDATE livestreams SET reactions = reactions + 1 WHERE id = ?] *)
Definition increment_livestream_reactions (livestreamID : Z) (d : DB) : DB :=
  with_livestream_rows
    (map (fun l => if LivestreamModel_ID l =? livestreamID
                   then set_livestream_counters l
                          (LivestreamModel_Reactions l + 1, LivestreamModel_Tips l,
                           LivestreamModel_MaxTip l)
                   else l) (livestreams d)) d.

(** [UPDATE users SET reactions = reactions + 1 WHERE id = ?] *)
Definition increment_user_reactions (userID : Z) (d : DB) : DB :=
  with_users
    (map (fun u => if UserModel_ID u =? userID
                   then set_user_counters u
                          (UserModel_Reactions u + 1, UserModel_Tips u,
                           UserModel_LiveComments u)
                   else u) (users d)) d.

(** [INSERT INTO reactions (user_id, livestream_id, emoji_name, created_at)
     VALUES (...)] *)
Definition insert_reaction (row : ReactionModel) (d : DB) : DB :=
  with_reactions (reactions d ++ [row]) d.

(** [INSERT INTO favorite_emojis (user_id, emoji_name) VALUES (?, ?)] *)
Definition insert_favorite_emoji (userID : Z) (emojiName : string) (d : DB) : DB :=
  with_favorite_emojis
    (favorite_emojis d
     ++ [{| FavoriteEmoji_UserID := userID; FavoriteEmoji_EmojiName := emojiName |}]) d.

(** The four writes of the handler, in its order; [owner] is
    [livestreamModel.UserID]. *)
Definition reaction_writes (row : ReactionModel) (owner : Z) (d : DB) : DB :=
  insert_favorite_emoji owner (ReactionModel_EmojiName row)
    (increment_user_reactions owner
       (increment_livestream_reactions (ReactionModel_LivestreamID row)
          (insert_reaction row d))).

Section WriteHandlers.

Variable TAGS : Z -> string.

(** [func fillReactionResponse(ctx, reactionModel, reactionUserModel,
     livestreamModel, tagIds, liveOwnerModel)] *)
Definition fillReactionResponse (reactionModel : ReactionModel)
    (reactionUserModel : UserModel) (livestreamModel : LivestreamModel)
    (tagIds : list Z) (liveOwnerModel : UserModel) : Reaction :=
  let user := fillUserResponse reactionUserModel in
  let livestream := fillLivestreamResponse TAGS livestreamModel liveOwnerModel tagIds in
  {| Reaction_ID := ReactionModel_ID reactionModel;
     Reaction_EmojiName := ReactionModel_EmojiName reactionModel;
     Reaction_User := user;
     Reaction_Livestream := livestream;
     Reaction_CreatedAt := ReactionModel_CreatedAt reactionModel |}.

(** [func postReactionHandler(c echo.Context) error].  [reactionID] is the
    AUTO_INCREMENT value the store gives the new row, which the handler
    reads back with [result.LastInsertId()]. *)
Definition postReactionHandler (now userID livestreamID : Z) (emojiName : string)
    (reactionID : Z) (w : World) : Answer Reaction * World :=
  let w1 := snd (BeginTxx w) in
  let reactionModel :=
    {| ReactionModel_ID := reactionID;
       ReactionModel_EmojiName := emojiName;
       ReactionModel_UserID := userID;
       ReactionModel_LivestreamID := livestreamID;
       ReactionModel_CreatedAt := unix now |} in
  match select_livestream (working w1) livestreamID with
  | None =>
      leave (EchoError StatusInternalServerError
               ("failed to get livestream: " +:+ ErrNoRows)) w1
  | Some livestreamModel =>
      let w2 :=
        set_working
          (reaction_writes reactionModel (LivestreamModel_UserID livestreamModel)
             (working w1)) w1 in
      match getUserWithCache now userID w2 with
      | (Ok (Some reactionUser), w3) =>
          let tagsId :=
            select_tag_ids (working w3) (LivestreamModel_ID livestreamModel) in
          match getUserWithCache now (LivestreamModel_UserID livestreamModel) w3 with
          | (Ok (Some livestreamUser), w4) =>
              let reaction :=
                fillReactionResponse reactionModel (deref w4 reactionUser)
                  livestreamModel tagsId (deref w4 livestreamUser) in
              leave (AnswerJSON StatusCreated reaction) (snd (Commit w4))
          | (_, w4) => leave (GoError ("invalid user: " +:+ ErrNoRows)) w4
          end
      | (_, w3) => leave (GoError ("invalid user: " +:+ ErrNoRows)) w3
      end
  end.

End WriteHandlers.

(** * Properties of the viewer handlers *)

Lemma Commit_committed w : committed (snd (Commit w)) = working w.
Proof. reflexivity. Qed.

Lemma leave_committed {A} (r : A) w : committed (snd (leave r w)) = committed w.
Proof. apply Rollback_committed. Qed.

Lemma BeginTxx_committed w : committed (snd (BeginTxx w)) = committed w.
Proof. reflexivity. Qed.

Lemma enter_committed now userID livestreamID w :
  committed (snd (enterLivestreamHandler now userID livestreamID w))
  = insert_viewer
      {| LivestreamViewerModel_UserID := userID;
         LivestreamViewerModel_LivestreamID := livestreamID;
         LivestreamViewerModel_CreatedAt := unix now |} (committed w).
Proof. reflexivity. Qed.

Lemma exit_committed userID livestreamID w :
  committed (snd (exitLivestreamHandler userID livestreamID w))
  = delete_viewer userID livestreamID (committed w).
Proof. reflexivity. Qed.

Lemma length_flat_map_app {A B} (f g h : A -> list B) (l : list A) :
  (forall x, In x l -> length (f x) = (length (g x) + length (h x))%nat) ->
  length (flat_map f l) = (length (flat_map g l) + length (flat_map h l))%nat.
Proof.
  induction l as [|x l IH]; simpl; intros Hf; [reflexivity|].
  rewrite !length_app, IH by auto. rewrite (Hf x) by auto. lia.
Qed.

(** With unique ids, [id] selects at most one row of [livestreams]. *)
Lemma filter_unique_id (ls : list LivestreamModel) id :
  NoDup (map LivestreamModel_ID ls) ->
  List.filter (fun l => LivestreamModel_ID l =? id) ls
  = match List.find (fun l => LivestreamModel_ID l =? id) ls with
    | Some l => [l]
    | None => []
    end.
Proof.
  induction ls as [|x ls IH]; simpl; [reflexivity|].
  intros [Hx Hnd]%NoDup_cons.
  destruct (Z.eqb_spec (LivestreamModel_ID x) id) as [He|Hne]; [|auto].
  f_equal. apply filter_none. apply Forall_forall.
  intros y Hy%list_elem_of_In. apply Z.eqb_neq. intros Hy'.
  apply Hx. rewrite He, <- Hy'. apply list_elem_of_In, in_map, Hy.
Qed.

Lemma count_viewers_of_insert d viewer id :
  NoDup (map LivestreamModel_ID (livestreams d)) ->
  count_viewers_of (insert_viewer viewer d) id
  = count_viewers_of d id
    + match select_livestream d id with
      | Some _ => if LivestreamViewerModel_LivestreamID viewer =? id then 1 else 0
      | None => 0
      end.
Proof.
  intros Hnd. unfold count_viewers_of, select_livestream.
  cbn [livestreams livestream_viewers_history insert_viewer with_viewers].
  rewrite (filter_unique_id _ id Hnd).
  destruct (List.find _ (livestreams d)) as [l|] eqn:Hf; [|simpl; lia].
  apply find_some in Hf as [_ Hid%Z.eqb_eq].
  simpl. rewrite !app_nil_r, List.filter_app, length_app. simpl. rewrite Hid.
  destruct (LivestreamViewerModel_LivestreamID viewer =? id); simpl; lia.
Qed.

Lemma count_viewers_in_insert d viewer ids :
  count_viewers_in (insert_viewer viewer d) ids
  = count_viewers_in d ids
    + if existsb (Z.eqb (LivestreamViewerModel_LivestreamID viewer)) ids then 1 else 0.
Proof.
  unfold count_viewers_in.
  cbn [livestream_viewers_history insert_viewer with_viewers].
  rewrite List.filter_app, length_app. simpl.
  destruct (existsb _ ids); simpl; lia.
Qed.

Definition add_livestream_viewers (n : Z) (stats : LivestreamStatistics)
  : LivestreamStatistics :=
  {| LivestreamStatistics_Rank := LivestreamStatistics_Rank stats;
     LivestreamStatistics_ViewersCount := LivestreamStatistics_ViewersCount stats + n;
     LivestreamStatistics_TotalReactions := LivestreamStatistics_TotalReactions stats;
     LivestreamStatistics_TotalReports := LivestreamStatistics_TotalReports stats;
     LivestreamStatistics_MaxTip := LivestreamStatistics_MaxTip stats |}.

Definition add_user_viewers (n : Z) (stats : UserStatistics) : UserStatistics :=
  {| UserStatistics_Rank := UserStatistics_Rank stats;
     UserStatistics_ViewersCount := UserStatistics_ViewersCount stats + n;
     UserStatistics_TotalReactions := UserStatistics_TotalReactions stats;
     UserStatistics_TotalLivecomments := UserStatistics_TotalLivecomments stats;
     UserStatistics_TotalTip := UserStatistics_TotalTip stats;
     UserStatistics_FavoriteEmoji := UserStatistics_FavoriteEmoji stats |}.

(** The user of that name owns a livestream with that id. *)
Definition owns (d : DB) (username : string) (livestreamID : Z) : bool :=
  match select_user_by_name d username with
  | Some user =>
      existsb (Z.eqb livestreamID) (select_livestream_ids_of d (UserModel_ID user))
  | None => false
  end.

(** X3.  [enterLivestreamHandler] always answers 200, and what it commits
    shows in the statistics as one more viewer of the entered livestream:
    on a store with unique livestream ids, every answer 200 of the
    livestream statistics and of the user statistics is the same after
    the call, except that the viewer count of the entered livestream, and
    of the user who owns it, is one higher. *)
Theorem enter_adds_one_viewer (now userID livestreamID : Z) (w : World) :
  NoDup (map LivestreamModel_ID (livestreams (committed w))) ->
  fst (enterLivestreamHandler now userID livestreamID w) = AnswerNoContent StatusOK /\
  (forall id stats,
     getLivestreamStatisticsHandler (committed w) id = JSON StatusOK stats ->
     getLivestreamStatisticsHandler
       (committed (snd (enterLivestreamHandler now userID livestreamID w))) id
     = JSON StatusOK
         (add_livestream_viewers (if id =? livestreamID then 1 else 0) stats)) /\
  (forall username stats,
     getUserStatisticsHandler (committed w) username = JSON StatusOK stats ->
     getUserStatisticsHandler
       (committed (snd (enterLivestreamHandler now userID livestreamID w))) username
     = JSON StatusOK
         (add_user_viewers
            (if owns (committed w) username livestreamID then 1 else 0) stats)).
Proof.
  intros Hnd. split; [reflexivity|]. rewrite enter_committed.
  set (viewer := {| LivestreamViewerModel_UserID := userID;
                    LivestreamViewerModel_LivestreamID := livestreamID;
                    LivestreamViewerModel_CreatedAt := unix now |}).
  split.
  - intros id stats. unfold getLivestreamStatisticsHandler.
    change (select_livestream (insert_viewer viewer (committed w)) id)
      with (select_livestream (committed w) id).
    destruct (select_livestream (committed w) id) as [l|] eqn:Hsel; [|discriminate].
    intros [= <-]. rewrite (count_viewers_of_insert _ viewer id Hnd), Hsel.
    cbn [LivestreamViewerModel_LivestreamID viewer].
    rewrite (Z.eqb_sym livestreamID id). reflexivity.
  - intros username stats. unfold getUserStatisticsHandler, owns.
    change (select_user_by_name (insert_viewer viewer (committed w)) username)
      with (select_user_by_name (committed w) username).
    destruct (select_user_by_name (committed w) username) as [user|]; [|discriminate].
    change (select_livestream_ids_of (insert_viewer viewer (committed w))
              (UserModel_ID user))
      with (select_livestream_ids_of (committed w) (UserModel_ID user)).
    destruct (select_livestream_ids_of (committed w) (UserModel_ID user))
      as [|i ids] eqn:Hids; [discriminate|].
    intros [= <-]. rewrite count_viewers_in_insert. reflexivity.
Qed.

Lemma enter_adds_one_viewer_witness :
  fst (enterLivestreamHandler 0 3 1 ex_stats_world) = AnswerNoContent StatusOK /\
  exists stats,
    getLivestreamStatisticsHandler (committed ex_stats_world) 1 = JSON StatusOK stats /\
    getLivestreamStatisticsHandler
      (committed (snd (enterLivestreamHandler 0 3 1 ex_stats_world))) 1
    = JSON StatusOK (add_livestream_viewers 1 stats).
Proof.
  assert (H : NoDup (map LivestreamModel_ID (livestreams (committed ex_stats_world))))
    by (apply (bool_decide_unpack _); vm_compute; exact I).
  destruct (enter_adds_one_viewer 0 3 1 ex_stats_world H) as (Ha & Hl & _).
  split; [exact Ha|]. eexists. split; [reflexivity|].
  exact (Hl 1 _ eq_refl).
Defined.

(** The entries of a user for a livestream. *)
Definition entries_of (userID livestreamID : Z) (d : DB) : list LivestreamViewerModel :=
  List.filter
    (fun h => (LivestreamViewerModel_UserID h =? userID) &&
              (LivestreamViewerModel_LivestreamID h =? livestreamID))
    (livestream_viewers_history d).

(** The user enters the livestream once at each of the instants [nows]. *)
Definition enter_repeatedly (nows : list Z) (userID livestreamID : Z) (w : World)
  : World :=
  fold_left (fun w now => snd (enterLivestreamHandler now userID livestreamID w)) nows w.

Lemma filter_filter_negb {A} (p : A -> bool) l :
  List.filter p (List.filter (fun x => negb (p x)) l) = [].
Proof.
  induction l as [|x l IH]; simpl; [reflexivity|].
  destruct (p x) eqn:Hp; simpl; [exact IH|]. rewrite Hp. exact IH.
Qed.

Lemma filter_negb_none {A} (p : A -> bool) l :
  List.filter p l = [] -> List.filter (fun x => negb (p x)) l = l.
Proof.
  induction l as [|x l IH]; simpl; [reflexivity|].
  destruct (p x); simpl; [discriminate|]. intros H. f_equal. auto.
Qed.

Lemma enter_repeatedly_history nows userID livestreamID w :
  exists added,
    livestream_viewers_history (committed (enter_repeatedly nows userID livestreamID w))
    = livestream_viewers_history (committed w) ++ added /\
    length added = length nows /\
    Forall (fun h => LivestreamViewerModel_UserID h = userID /\
                     LivestreamViewerModel_LivestreamID h = livestreamID) added.
Proof.
  unfold enter_repeatedly. revert w.
  induction nows as [|now nows IH]; intros w; cbn [fold_left].
  - exists []. rewrite app_nil_r. auto.
  - destruct (IH (snd (enterLivestreamHandler now userID livestreamID w)))
      as (added & Hh & Hlen & Hall).
    rewrite enter_committed in Hh.
    cbn [livestream_viewers_history insert_viewer with_viewers] in Hh.
    eexists (_ :: added). rewrite Hh, <- app_assoc. split; [reflexivity|].
    split; [simpl; lia|]. constructor; [split; reflexivity | exact Hall].
Qed.

(** X4.  [exitLivestreamHandler] does not undo one entry, it removes them
    all: after the user has entered a livestream any number of times, one
    exit leaves no entry of that user for that livestream, and the table
    is what the exit alone would have left, the rows of other users and
    other livestreams in their order.  If the user had no entry before,
    the table is back to what it was. *)
Theorem exit_removes_every_entry (nows : list Z) (userID livestreamID : Z) (w : World) :
  let entered := enter_repeatedly nows userID livestreamID w in
  let left := snd (exitLivestreamHandler userID livestreamID entered) in
  fst (exitLivestreamHandler userID livestreamID entered) = AnswerNoContent StatusOK /\
  length (entries_of userID livestreamID (committed entered))
  = (length (entries_of userID livestreamID (committed w)) + length nows)%nat /\
  entries_of userID livestreamID (committed left) = [] /\
  livestream_viewers_history (committed left)
  = livestream_viewers_history
      (committed (snd (exitLivestreamHandler userID livestreamID w))) /\
  (entries_of userID livestreamID (committed w) = [] ->
   livestream_viewers_history (committed left)
   = livestream_viewers_history (committed w)).
Proof.
  cbv zeta. split; [reflexivity|].
  destruct (enter_repeatedly_history nows userID livestreamID w)
    as (added & Hh & Hlen & Hall).
  assert (Hmine : List.filter
            (fun h => (LivestreamViewerModel_UserID h =? userID) &&
                      (LivestreamViewerModel_LivestreamID h =? livestreamID)) added
          = added).
  { apply filter_all. eapply Forall_impl; [exact Hall|]. cbn beta.
    intros h [-> ->]. rewrite !Z.eqb_refl. reflexivity. }
  assert (Hnot : List.filter
            (fun h => negb ((LivestreamViewerModel_UserID h =? userID) &&
                            (LivestreamViewerModel_LivestreamID h =? livestreamID)))
            added = []).
  { apply filter_none. eapply Forall_impl; [exact Hall|]. cbn beta.
    intros h [-> ->]. rewrite !Z.eqb_refl. reflexivity. }
  rewrite !exit_committed. unfold entries_of.
  cbn [livestream_viewers_history delete_viewer with_viewers].
  rewrite Hh, !List.filter_app, Hmine, Hnot, !app_nil_r, length_app, Hlen.
  split; [reflexivity|].
  split; [apply (filter_filter_negb
                   (fun h => (LivestreamViewerModel_UserID h =? userID) &&
                             (LivestreamViewerModel_LivestreamID h =? livestreamID)))|].
  split; [reflexivity|].
  apply (filter_negb_none
           (fun h => (LivestreamViewerModel_UserID h =? userID) &&
                     (LivestreamViewerModel_LivestreamID h =? livestreamID))).
Qed.

Example ex_enter_twice_exit_once :
  let w := enter_repeatedly [0; 5] 3 1 ex_stats_world in
  length (livestream_viewers_history (committed w)) = 2%nat /\
  livestream_viewers_history (committed (snd (exitLivestreamHandler 3 1 w))) = [].
Proof. vm_compute. auto. Qed.

(** * Properties of [postReactionHandler] *)

Definition is_error {A} (a : Answer A) : bool :=
  match a with
  | EchoError _ _ | GoError _ => true
  | AnswerJSON _ _ | AnswerNoContent _ => false
  end.

(** The row the handler inserts. *)
Definition reaction_row (now userID livestreamID : Z) (emojiName : string)
    (reactionID : Z) : ReactionModel :=
  {| ReactionModel_ID := reactionID;
     ReactionModel_EmojiName := emojiName;
     ReactionModel_UserID := userID;
     ReactionModel_LivestreamID := livestreamID;
     ReactionModel_CreatedAt := unix now |}.

Lemma postReaction_cases TAGS now userID livestreamID emojiName reactionID w :
  (committed (snd (postReactionHandler TAGS now userID livestreamID emojiName
                     reactionID w)) = committed w /\
   is_error (fst (postReactionHandler TAGS now userID livestreamID emojiName
                    reactionID w)) = true)
  \/
  (exists l reaction,
     select_livestream (committed w) livestreamID = Some l /\
     fst (postReactionHandler TAGS now userID livestreamID emojiName reactionID w)
     = AnswerJSON StatusCreated reaction /\
     Reaction_ID reaction = reactionID /\
     Reaction_EmojiName reaction = emojiName /\
     Livestream_ID (Reaction_Livestream reaction) = LivestreamModel_ID l /\
     committed (snd (postReactionHandler TAGS now userID livestreamID emojiName
                       reactionID w))
     = reaction_writes (reaction_row now userID livestreamID emojiName reactionID)
         (LivestreamModel_UserID l) (committed w)).
Proof.
  unfold postReactionHandler. cbv zeta.
  change (working (snd (BeginTxx w))) with (committed w).
  destruct (select_livestream (committed w) livestreamID) as [l|] eqn:Hsel.
  2:{ left. split; [rewrite leave_committed; reflexivity | reflexivity]. }
  fold (reaction_row now userID livestreamID emojiName reactionID).
  set (w2 := set_working _ (snd (BeginTxx w))).
  destruct (getUserWithCache now userID w2) as [r3 w3] eqn:H3.
  apply getUserWithCache_frame in H3 as (Hc3 & Hw3 & Hd3 & _ & o3 & -> & _).
  destruct o3 as [reactionUser|].
  2:{ left. rewrite leave_committed. split; [exact Hc3 | reflexivity]. }
  destruct (getUserWithCache now (LivestreamModel_UserID l) w3) as [r4 w4] eqn:H4.
  apply getUserWithCache_frame in H4 as (Hc4 & Hw4 & Hd4 & _ & o4 & -> & _).
  destruct o4 as [livestreamUser|].
  2:{ left. rewrite leave_committed. split; [rewrite Hc4, Hc3; reflexivity | reflexivity]. }
  right. eexists l, _. split; [reflexivity|].
  split; [reflexivity|].
  split; [reflexivity|]. split; [reflexivity|]. split; [reflexivity|].
  rewrite leave_committed, Commit_committed, Hw4, Hw3. reflexivity.
Qed.

(** ** The eager counters agree with the bulk recomputation *)

Lemma map_fixed {A} (f : A -> A) l : map f l = l -> Forall (fun x => f x = x) l.
Proof.
  induction l as [|x l IH]; simpl; [constructor|].
  intros [= Hx Hl]. constructor; auto.
Qed.

Lemma fixed_map {A} (f : A -> A) l : Forall (fun x => f x = x) l -> map f l = l.
Proof.
  induction 1 as [|x l Hx _ IH]; simpl; [reflexivity|]. rewrite Hx, IH. reflexivity.
Qed.

(** The counters every row carries are the recomputed ones. *)
Definition counters_recomputed (d : DB) : Prop :=
  Forall (fun u => user_counters d (UserModel_ID u)
                   = (UserModel_Reactions u, UserModel_Tips u, UserModel_LiveComments u))
    (users d) /\
  Forall (fun l => livestream_counters d (LivestreamModel_ID l)
                   = (LivestreamModel_Reactions l, LivestreamModel_Tips l,
                      LivestreamModel_MaxTip l))
    (livestreams d).

Lemma set_user_counters_same u c :
  set_user_counters u c = u <->
  c = (UserModel_Reactions u, UserModel_Tips u, UserModel_LiveComments u).
Proof.
  destruct u, c as [[r t] n]; unfold set_user_counters; cbn. split.
  - intros [= -> -> ->]. reflexivity.
  - intros [= -> -> ->]. reflexivity.
Qed.

Lemma set_livestream_counters_same l c :
  set_livestream_counters l c = l <->
  c = (LivestreamModel_Reactions l, LivestreamModel_Tips l, LivestreamModel_MaxTip l).
Proof.
  destruct l, c as [[r t] n]; unfold set_livestream_counters; cbn. split.
  - intros [= -> -> ->]. reflexivity.
  - intros [= -> -> ->]. reflexivity.
Qed.

Lemma recompute_counters_fixed d :
  recompute_counters d = d <-> counters_recomputed d.
Proof.
  rewrite recompute_counters_eq. unfold counters_recomputed, recomputed. split.
  - intros H. split.
    + apply (f_equal users) in H. cbn in H. apply map_fixed in H.
      eapply Forall_impl; [exact H|]. cbn beta. intros u Hu.
      apply set_user_counters_same. exact Hu.
    + apply (f_equal livestreams) in H. cbn in H. apply map_fixed in H.
      eapply Forall_impl; [exact H|]. cbn beta. intros l Hl.
      apply set_livestream_counters_same. exact Hl.
  - intros [Hu Hl].
    rewrite (fixed_map (fun u => set_user_counters u (user_counters d (UserModel_ID u)))).
    2:{ eapply Forall_impl; [exact Hu|]. cbn beta. intros u Hx.
        apply set_user_counters_same. exact Hx. }
    rewrite with_users_same.
    rewrite (fixed_map (fun l => set_livestream_counters l
                                   (livestream_counters d (LivestreamModel_ID l)))).
    2:{ eapply Forall_impl; [exact Hl|]. cbn beta. intros l Hx.
        apply set_livestream_counters_same. exact Hx. }
    apply with_livestream_rows_same.
Qed.

Lemma filter_key_unique {A} (key : A -> Z) (l : list A) (a : A) :
  NoDup (map key l) -> In a l -> List.filter (fun x => key x =? key a) l = [a].
Proof.
  induction l as [|x l IH]; simpl; [tauto|].
  intros [Hx Hnd]%NoDup_cons [->|Hin].
  - rewrite Z.eqb_refl. f_equal. apply filter_none, Forall_forall.
    intros y Hy%list_elem_of_In. apply Z.eqb_neq. intros He.
    apply Hx. rewrite <- He. apply list_elem_of_In, in_map, Hy.
  - destruct (Z.eqb_spec (key x) (key a)) as [He|_]; [|auto].
    exfalso. apply Hx. rewrite He. apply list_elem_of_In, in_map, Hin.
Qed.

Lemma filter_comm {A} (p q : A -> bool) l :
  List.filter p (List.filter q l) = List.filter q (List.filter p l).
Proof.
  induction l as [|x l IH]; simpl; [reflexivity|].
  destruct (p x) eqn:Hp, (q x) eqn:Hq; simpl; rewrite ?Hp, ?Hq, IH; reflexivity.
Qed.

(** The join of a single row [x] with the livestream keys [ks] has one
    row per key of the livestream [x] refers to. *)
Lemma length_join_one {R} (lid : R -> Z) (x : R) (ks : list (Z * Z)) :
  length (flat_map (fun k => List.filter (fun y => lid y =? fst k) [x]) ks)
  = length (List.filter (fun k => fst k =? lid x) ks).
Proof.
  induction ks as [|k ks IH]; [reflexivity|].
  cbn [flat_map]. rewrite length_app, IH. cbn [List.filter].
  rewrite (Z.eqb_sym (lid x) (fst k)).
  destruct (fst k =? lid x); reflexivity.
Qed.

Lemma join_user_keys_snoc {R} (lid : R -> Z) rows (x : R) uids lkeys uid :
  length (join_user_keys lid (rows ++ [x]) uids lkeys uid)
  = (length (join_user_keys lid rows uids lkeys uid)
     + length (join_user_keys lid [x] uids lkeys uid))%nat.
Proof.
  unfold join_user_keys. apply length_flat_map_app. intros u _.
  apply length_flat_map_app. intros k _.
  rewrite List.filter_app, length_app. reflexivity.
Qed.

Lemma join_livestream_keys_snoc {R} (lid : R -> Z) rows (x : R) lkeys id :
  length (join_livestream_keys lid (rows ++ [x]) lkeys id)
  = (length (join_livestream_keys lid rows lkeys id)
     + length (join_livestream_keys lid [x] lkeys id))%nat.
Proof.
  unfold join_livestream_keys. apply length_flat_map_app. intros k _.
  rewrite List.filter_app, length_app. reflexivity.
Qed.

Lemma join_user_keys_one {R} (lid : R -> Z) (x : R) uids lkeys uid owner :
  NoDup uids -> NoDup (map fst lkeys) ->
  In uid uids -> In (lid x, owner) lkeys ->
  length (join_user_keys lid [x] uids lkeys uid)
  = if uid =? owner then 1%nat else 0%nat.
Proof.
  intros Hu Hk Hin Hl. unfold join_user_keys.
  rewrite (filter_key_unique (fun u => u) uids uid) by (rewrite ?map_id; assumption).
  cbn [flat_map]. rewrite app_nil_r, length_join_one, filter_comm.
  change (fun k : Z * Z => fst k =? lid x)
    with (fun k : Z * Z => fst k =? fst (lid x, owner)).
  rewrite (filter_key_unique fst lkeys (lid x, owner) Hk Hl).
  cbn [List.filter snd]. rewrite (Z.eqb_sym owner uid).
  destruct (uid =? owner); reflexivity.
Qed.

Lemma join_livestream_keys_one {R} (lid : R -> Z) (x : R) lkeys id owner :
  NoDup (map fst lkeys) -> In (lid x, owner) lkeys ->
  length (join_livestream_keys lid [x] lkeys id)
  = if id =? lid x then 1%nat else 0%nat.
Proof.
  intros Hk Hl. unfold join_livestream_keys.
  rewrite length_join_one, filter_comm.
  change (fun k : Z * Z => fst k =? lid x)
    with (fun k : Z * Z => fst k =? fst (lid x, owner)).
  rewrite (filter_key_unique fst lkeys (lid x, owner) Hk Hl).
  cbn [List.filter fst]. rewrite (Z.eqb_sym (lid x) id).
  destruct (id =? lid x); reflexivity.
Qed.

Lemma reaction_writes_user_keys row owner d :
  map UserModel_ID (users (reaction_writes row owner d)) = map UserModel_ID (users d).
Proof.
  cbn. apply map_key_preserved. intros u.
  destruct (UserModel_ID u =? owner); reflexivity.
Qed.

Lemma reaction_writes_livestream_keys row owner d :
  map livestream_key (livestreams (reaction_writes row owner d))
  = map livestream_key (livestreams d).
Proof.
  cbn. apply map_key_preserved. intros l.
  destruct (LivestreamModel_ID l =? ReactionModel_LivestreamID row); reflexivity.
Qed.

Lemma livestream_keys_fst (ls : list LivestreamModel) :
  map fst (map livestream_key ls) = map LivestreamModel_ID ls.
Proof. rewrite map_map. reflexivity. Qed.

Lemma user_counters_after_reaction row owner d uid :
  NoDup (map UserModel_ID (users d)) ->
  NoDup (map LivestreamModel_ID (livestreams d)) ->
  In uid (map UserModel_ID (users d)) ->
  In (ReactionModel_LivestreamID row, owner) (map livestream_key (livestreams d)) ->
  user_counters (reaction_writes row owner d) uid
  = (fst (fst (user_counters d uid)) + (if uid =? owner then 1 else 0),
     snd (fst (user_counters d uid)), snd (user_counters d uid)).
Proof.
  intros Hu Hl Hin Hrow. unfold user_counters. rewrite !join_user_by_keys.
  rewrite reaction_writes_user_keys, reaction_writes_livestream_keys.
  change (reactions (reaction_writes row owner d)) with (reactions d ++ [row]).
  change (livecomments (reaction_writes row owner d)) with (livecomments d).
  cbn [fst snd]. f_equal. f_equal. unfold COUNT.
  rewrite join_user_keys_snoc.
  rewrite (join_user_keys_one ReactionModel_LivestreamID row _ _ uid owner Hu);
    [|rewrite livestream_keys_fst; exact Hl | exact Hin | exact Hrow].
  destruct (uid =? owner); lia.
Qed.

Lemma livestream_counters_after_reaction row owner d id :
  NoDup (map LivestreamModel_ID (livestreams d)) ->
  In (ReactionModel_LivestreamID row, owner) (map livestream_key (livestreams d)) ->
  livestream_counters (reaction_writes row owner d) id
  = (fst (fst (livestream_counters d id))
     + (if id =? ReactionModel_LivestreamID row then 1 else 0),
     snd (fst (livestream_counters d id)), snd (livestream_counters d id)).
Proof.
  intros Hl Hrow. unfold livestream_counters. rewrite !join_livestream_by_keys.
  rewrite reaction_writes_livestream_keys.
  change (reactions (reaction_writes row owner d)) with (reactions d ++ [row]).
  change (livecomments (reaction_writes row owner d)) with (livecomments d).
  cbn [fst snd]. f_equal. f_equal. unfold COUNT.
  rewrite join_livestream_keys_snoc.
  rewrite (join_livestream_keys_one ReactionModel_LivestreamID row _ id owner);
    [|rewrite livestream_keys_fst; exact Hl | exact Hrow].
  destruct (id =? ReactionModel_LivestreamID row); lia.
Qed.

Lemma select_livestream_found d id l :
  select_livestream d id = Some l -> In l (livestreams d) /\ LivestreamModel_ID l = id.
Proof.
  unfold select_livestream. intros [Hin Hid]%find_some.
  split; [exact Hin | apply Z.eqb_eq; exact Hid].
Qed.

Lemma reaction_writes_recomputed row l d :
  NoDup (map UserModel_ID (users d)) ->
  NoDup (map LivestreamModel_ID (livestreams d)) ->
  select_livestream d (ReactionModel_LivestreamID row) = Some l ->
  counters_recomputed d ->
  counters_recomputed (reaction_writes row (LivestreamModel_UserID l) d).
Proof.
  intros Hu Hl Hsel [Hcu Hcl].
  apply select_livestream_found in Hsel as [Hin Hid].
  assert (Hrow : In (ReactionModel_LivestreamID row, LivestreamModel_UserID l)
                    (map livestream_key (livestreams d))).
  { rewrite <- Hid. apply (in_map livestream_key _ _ Hin). }
  set (owner := LivestreamModel_UserID l) in *.
  split.
  - change (users (reaction_writes row owner d))
      with (map (fun u => if UserModel_ID u =? owner
                          then set_user_counters u
                                 (UserModel_Reactions u + 1, UserModel_Tips u,
                                  UserModel_LiveComments u)
                          else u) (users d)).
    apply Forall_forall. intros u' (u & <- & Hin')%list_elem_of_In%in_map_iff.
    rewrite Forall_forall in Hcu. specialize (Hcu u (proj2 (list_elem_of_In _ _) Hin')).
    assert (Hidu : UserModel_ID (if UserModel_ID u =? owner
                                 then set_user_counters u
                                        (UserModel_Reactions u + 1, UserModel_Tips u,
                                         UserModel_LiveComments u)
                                 else u) = UserModel_ID u)
      by (destruct (UserModel_ID u =? owner); reflexivity).
    rewrite Hidu, user_counters_after_reaction; auto using in_map.
    rewrite Hcu. cbn [fst snd].
    destruct (UserModel_ID u =? owner); cbn; [reflexivity|].
    rewrite Z.add_0_r. reflexivity.
  - change (livestreams (reaction_writes row owner d))
      with (map (fun x => if LivestreamModel_ID x =? ReactionModel_LivestreamID row
                          then set_livestream_counters x
                                 (LivestreamModel_Reactions x + 1, LivestreamModel_Tips x,
                                  LivestreamModel_MaxTip x)
                          else x) (livestreams d)).
    apply Forall_forall. intros x' (x & <- & Hin')%list_elem_of_In%in_map_iff.
    rewrite Forall_forall in Hcl. specialize (Hcl x (proj2 (list_elem_of_In _ _) Hin')).
    assert (Hidx : LivestreamModel_ID
                     (if LivestreamModel_ID x =? ReactionModel_LivestreamID row
                      then set_livestream_counters x
                             (LivestreamModel_Reactions x + 1, LivestreamModel_Tips x,
                              LivestreamModel_MaxTip x)
                      else x) = LivestreamModel_ID x)
      by (destruct (LivestreamModel_ID x =? ReactionModel_LivestreamID row); reflexivity).
    rewrite Hidx, (livestream_counters_after_reaction row owner); auto.
    rewrite Hcl. cbn [fst snd].
    destruct (LivestreamModel_ID x =? ReactionModel_LivestreamID row); cbn;
      [reflexivity|].
    rewrite Z.add_0_r. reflexivity.
Qed.

(** X5.  The counters that [postReactionHandler] increments eagerly stay
    in step with the bulk recomputation of [initializeHandler]: on a
    store with unique user ids and unique livestream ids whose counters
    are the recomputed ones (a recomputation would change nothing), the
    store the handler leaves has that property again, whatever the
    handler answered. *)
Theorem reaction_keeps_counters_recomputed (TAGS : Z -> string)
    (now userID livestreamID : Z) (emojiName : string) (reactionID : Z) (w : World) :
  NoDup (map UserModel_ID (users (committed w))) ->
  NoDup (map LivestreamModel_ID (livestreams (committed w))) ->
  recompute_counters (committed w) = committed w ->
  recompute_counters
    (committed (snd (postReactionHandler TAGS now userID livestreamID emojiName
                       reactionID w)))
  = committed (snd (postReactionHandler TAGS now userID livestreamID emojiName
                      reactionID w)).
Proof.
  intros Hu Hl Hfix.
  destruct (postReaction_cases TAGS now userID livestreamID emojiName reactionID w)
    as [[-> _] | (l & reaction & Hsel & _ & _ & _ & _ & ->)]; [exact Hfix|].
  apply recompute_counters_fixed. apply recompute_counters_fixed in Hfix.
  apply reaction_writes_recomputed; assumption.
Qed.

Lemma reaction_keeps_counters_recomputed_witness :
  (exists reaction,
     fst (postReactionHandler ex_TAGS 0 3 1 "clap" 4 ex_counted_world)
     = AnswerJSON StatusCreated reaction) /\
  recompute_counters
    (committed (snd (postReactionHandler ex_TAGS 0 3 1 "clap" 4 ex_counted_world)))
  = committed (snd (postReactionHandler ex_TAGS 0 3 1 "clap" 4 ex_counted_world)).
Proof.
  assert (H1 : NoDup (map UserModel_ID (users (committed ex_counted_world))))
    by (apply (bool_decide_unpack _); vm_compute; exact I).
  assert (H2 : NoDup (map LivestreamModel_ID (livestreams (committed ex_counted_world))))
    by (apply (bool_decide_unpack _); vm_compute; exact I).
  assert (H3 : recompute_counters (committed ex_counted_world)
               = committed ex_counted_world) by (vm_compute; reflexivity).
  split; [eexists; vm_compute; reflexivity|].
  exact (reaction_keeps_counters_recomputed ex_TAGS 0 3 1 "clap" 4 ex_counted_world
           H1 H2 H3).
Defined.

(** ** A reaction is committed whole or not at all *)

Lemma getUserWithCache_found now userId w row :
  select_user_by_id (committed w) userId = Some row ->
  exists p, fst (getUserWithCache now userId w) = Ok (Some p).
Proof.
  intros Hs. unfold getUserWithCache.
  destruct (lookup_cached now (key_id userId) w) as [[u w1]|]; [eauto|].
  cbn [committed log]. rewrite Hs. eauto.
Qed.


Example ex_reaction_on_unknown_livestream :
  fst (postReactionHandler ex_TAGS 0 3 99 "clap" 4 ex_counted_world)
  = EchoError StatusInternalServerError
      "failed to get livestream: sql: no rows in result set" /\
  committed (snd (postReactionHandler ex_TAGS 0 3 99 "clap" 4 ex_counted_world))
  = committed ex_counted_world.
Proof. vm_compute. auto. Qed.

(** ** Whose favourite emoji a reaction counts for *)

Lemma logged_emojis_after_reaction row owner d uid :
  logged_emojis (reaction_writes row owner d) uid
  = logged_emojis d uid
    ++ (if uid =? owner then [ReactionModel_EmojiName row] else []).
Proof.
  unfold logged_emojis.
  change (favorite_emojis (reaction_writes row owner d))
    with (favorite_emojis d
          ++ [{| FavoriteEmoji_UserID := owner;
                 FavoriteEmoji_EmojiName := ReactionModel_EmojiName row |}]).
  rewrite List.filter_app, map_app. f_equal. cbn [List.filter FavoriteEmoji_UserID].
  rewrite (Z.eqb_sym owner uid). destruct (uid =? owner); reflexivity.
Qed.

Lemma usage_snoc names e e' :
  usage (names ++ [e']) e = usage names e + (if String.eqb e' e then 1 else 0).
Proof.
  unfold usage. rewrite count_occ_app. cbn [count_occ].
  destruct (string_dec e' e) as [->|Hne].
  - rewrite String.eqb_refl. lia.
  - apply String.eqb_neq in Hne. rewrite Hne. lia.
Qed.

(** X7.  The emoji of a reaction is logged for the owner of the
    livestream, not for the user who reacted: after an answer 201 the
    favourite-emoji log of the owner has the emoji once more, at its
    end, and the log of every other user, the reacting one included, is
    unchanged, and with it the favourite emoji their statistics show. *)
Theorem reaction_is_logged_for_the_owner (TAGS : Z -> string)
    (now userID livestreamID : Z) (emojiName : string) (reactionID : Z) (w : World)
    (reaction : Reaction) (l : LivestreamModel) :
  fst (postReactionHandler TAGS now userID livestreamID emojiName reactionID w)
  = AnswerJSON StatusCreated reaction ->
  select_livestream (committed w) livestreamID = Some l ->
  let d := committed w in
  let d' := committed (snd (postReactionHandler TAGS now userID livestreamID emojiName
                              reactionID w)) in
  let owner := LivestreamModel_UserID l in
  logged_emojis d' owner = logged_emojis d owner ++ [emojiName] /\
  usage (logged_emojis d' owner) emojiName
  = usage (logged_emojis d owner) emojiName + 1 /\
  (forall uid, uid <> owner ->
     logged_emojis d' uid = logged_emojis d uid /\
     select_favorite_emoji d' uid = select_favorite_emoji d uid).
Proof.
  intros Hans Hsel. cbv zeta.
  destruct (postReaction_cases TAGS now userID livestreamID emojiName reactionID w)
    as [[_ He] | (l' & reaction' & Hsel' & _ & _ & _ & _ & ->)].
  { rewrite Hans in He. discriminate. }
  rewrite Hsel in Hsel'. injection Hsel' as <-.
  rewrite !logged_emojis_after_reaction. cbn [ReactionModel_EmojiName reaction_row].
  rewrite Z.eqb_refl. split; [reflexivity|].
  split; [rewrite usage_snoc, String.eqb_refl; reflexivity|].
  intros uid Hne.
  assert (Hlog : logged_emojis
                   (reaction_writes
                      (reaction_row now userID livestreamID emojiName reactionID)
                      (LivestreamModel_UserID l) (committed w)) uid
                 = logged_emojis (committed w) uid).
  { rewrite logged_emojis_after_reaction.
    destruct (Z.eqb_spec uid (LivestreamModel_UserID l)); [contradiction|].
    apply app_nil_r. }
  split; [exact Hlog|].
  unfold select_favorite_emoji. unfold logged_emojis in Hlog. rewrite Hlog.
  reflexivity.
Qed.

Lemma reaction_is_logged_for_the_owner_witness :
  logged_emojis
    (committed (snd (postReactionHandler ex_TAGS 0 3 1 "star" 4 ex_stats_world))) 1
  = logged_emojis (committed ex_stats_world) 1 ++ ["star"] /\
  logged_emojis
    (committed (snd (postReactionHandler ex_TAGS 0 3 1 "star" 4 ex_stats_world))) 3
  = logged_emojis (committed ex_stats_world) 3.
Proof.
  assert (H1 : exists reaction,
             fst (postReactionHandler ex_TAGS 0 3 1 "star" 4 ex_stats_world)
             = AnswerJSON StatusCreated reaction)
    by (eexists; vm_compute; reflexivity).
  destruct H1 as (reaction & H1).
  assert (H2 : select_livestream (committed ex_stats_world) 1
               = Some (ex_livestream 1 1 10 5)) by (vm_compute; reflexivity).
  destruct (reaction_is_logged_for_the_owner ex_TAGS 0 3 1 "star" 4 ex_stats_world
              reaction _ H1 H2) as (Ho & _ & Hother).
  split; [exact Ho|].
  apply (Hother 3). cbn. discriminate.
Defined.

(** * Properties of the livestream readers *)

Lemma group_tags_fold (tagModels : list LivestreamTagModel) (acc : gmap Z (list Z)) k :
  default []
    (fold_left
       (fun (tags : gmap Z (list Z)) tagModel =>
          <[LivestreamTagModel_LivestreamID tagModel :=
              default [] (tags !! LivestreamTagModel_LivestreamID tagModel)
              ++ [LivestreamTagModel_TagID tagModel]]> tags)
       tagModels acc !! k)
  = default [] (acc !! k)
    ++ map LivestreamTagModel_TagID
         (List.filter (fun t => LivestreamTagModel_LivestreamID t =? k) tagModels).
Proof.
  revert acc. induction tagModels as [|t ts IH]; intros acc; cbn [fold_left].
  - cbn. rewrite app_nil_r. reflexivity.
  - rewrite IH. cbn [List.filter].
    destruct (Z.eqb_spec (LivestreamTagModel_LivestreamID t) k) as [->|Hne].
    + rewrite lookup_insert_eq. cbn. rewrite <- app_assoc. reflexivity.
    + rewrite lookup_insert_ne by exact Hne. reflexivity.
Qed.

(** The slice the loop leaves under a livestream id. *)
Lemma group_tags_lookup tagModels k :
  default [] (group_tags tagModels !! k)
  = map LivestreamTagModel_TagID
      (List.filter (fun t => LivestreamTagModel_LivestreamID t =? k) tagModels).
Proof. unfold group_tags. rewrite group_tags_fold, lookup_empty. reflexivity. Qed.

Lemma filter_filter_implied {A} (p q : A -> bool) l :
  (forall x, p x = true -> q x = true) ->
  List.filter p (List.filter q l) = List.filter p l.
Proof.
  intros Hpq. induction l as [|x l IH]; simpl; [reflexivity|].
  destruct (q x) eqn:Hq; simpl.
  - destruct (p x); rewrite IH; reflexivity.
  - destruct (p x) eqn:Hp; [|exact IH].
    rewrite (Hpq x Hp) in Hq. discriminate.
Qed.

Lemma group_tags_select d ids k :
  In k ids ->
  default [] (group_tags (select_tags_in d ids) !! k) = select_tag_ids d k.
Proof.
  intros Hk. rewrite group_tags_lookup. unfold select_tags_in, select_tag_ids.
  rewrite filter_map_comm, map_map. cbn [LivestreamTagModel_LivestreamID
                                         LivestreamTagModel_TagID].
  rewrite filter_filter_implied; [reflexivity|].
  intros t Ht%Z.eqb_eq. apply existsb_exists. exists k. split; [exact Hk|].
  apply Z.eqb_eq. exact Ht.
Qed.

(** The livestreams of a user as the listing handlers show them. *)
Definition listing (TAGS : Z -> string) (d : DB) (owner : UserModel) (userID : Z)
  : list Livestream :=
  map (fun m => fillLivestreamResponse TAGS m owner
                  (select_tag_ids d (LivestreamModel_ID m)))
    (select_livestreams_of d userID).

Lemma fill_livestreams_spec TAGS d user models :
  fill_livestreams TAGS d user models
  = map (fun m => fillLivestreamResponse TAGS m user
                    (select_tag_ids d (LivestreamModel_ID m))) models.
Proof.
  unfold fill_livestreams. destruct models as [|m0 models]; [reflexivity|].
  apply map_ext_in. intros m Hm. f_equal.
  apply group_tags_select. apply in_map. exact Hm.
Qed.

Lemma getUserByName_frame now userName w r w' :
  getUserByName now userName w = (r, w') ->
  committed w' = committed w /\ working w' = working w /\ tx_done w' = tx_done w.
Proof.
  unfold getUserByName. intros H.
  destruct (lookup_cached now (key_name userName) w) as [[u w1]|] eqn:Hc.
  - injection H as <- <-.
    apply lookup_cached_frame in Hc as (-> & -> & -> & _). auto.
  - simpl in H. destruct (select_user_by_name (committed w) userName);
      injection H as <- <-; simpl; auto.
Qed.

Lemma name_keys_sound_begun w : name_keys_sound w -> name_keys_sound (snd (BeginTxx w)).
Proof. intros Hsound name p e Hk. exact (Hsound name p e Hk). Qed.

Lemma getUserByName_unknown now userName w :
  name_keys_sound w ->
  select_user_by_name (committed w) userName = None ->
  fst (getUserByName now userName w) = Ok None.
Proof.
  intros Hsound Hnone. unfold getUserByName, lookup_cached, gocache.Get.
  destruct (userCache w !! key_name userName) as [[u e]|] eqn:Hk.
  - destruct (Hsound _ _ _ Hk) as (_ & row & Hrow & _). congruence.
  - cbn [committed log]. rewrite Hnone. reflexivity.
Qed.

(** X8.  The two listing handlers answer 200 with one entry per row of
    [livestreams] owned by the user, in table order; each entry carries
    the tag ids of its [livestream_tags] rows in table order, which is
    what [getLivestreamHandler] shows for it, and the same owner
    object.  A user without livestreams gets the empty list.
    [getUserLivestreamsHandler] is taken on a cache whose name keys are
    sound: it lists the livestreams of the store's user of that name and
    answers 404 when the store has none.  Nothing is written. *)
Theorem livestream_listings (TAGS : Z -> string) (now : Z) (w : World) :
  (forall userID row,
     select_user_by_id (committed w) userID = Some row ->
     exists owner,
       fst (getMyLivestreamsHandler TAGS now userID w)
       = AnswerJSON StatusOK (listing TAGS (committed w) owner userID) /\
       committed (snd (getMyLivestreamsHandler TAGS now userID w)) = committed w)
  /\
  (forall username row,
     name_keys_sound w ->
     select_user_by_name (committed w) username = Some row ->
     exists owner,
       UserModel_ID owner = UserModel_ID row /\
       fst (getUserLivestreamsHandler TAGS now username w)
       = AnswerJSON StatusOK (listing TAGS (committed w) owner (UserModel_ID row)) /\
       committed (snd (getUserLivestreamsHandler TAGS now username w)) = committed w)
  /\
  (forall username,
     name_keys_sound w ->
     select_user_by_name (committed w) username = None ->
     fst (getUserLivestreamsHandler TAGS now username w)
     = EchoError StatusNotFound "user not found").
Proof.
  split; [|split].
  - intros userID row Hsel. unfold getMyLivestreamsHandler. cbv zeta.
    destruct (getUserWithCache_found now userID (snd (BeginTxx w)) row Hsel) as (p & Hp).
    destruct (getUserWithCache now userID (snd (BeginTxx w))) as [r w2] eqn:Hu.
    cbn [fst] in Hp. subst r.
    apply getUserWithCache_frame in Hu as (Hc & Hw & _).
    exists (deref w2 p). rewrite leave_committed, Commit_committed, Hw.
    split; [|reflexivity]. unfold leave. cbn [fst].
    rewrite fill_livestreams_spec. reflexivity.
  - intros username row Hsound Hsel. unfold getUserLivestreamsHandler. cbv zeta.
    destruct (getUserByName_resolves now username (snd (BeginTxx w)) row
                (name_keys_sound_begun w Hsound) Hsel) as (p & w2 & Hu & Hc & Hid).
    rewrite Hu. apply getUserByName_frame in Hu as (_ & Hw & _).
    exists (deref w2 p). split; [exact Hid|].
    rewrite leave_committed, Commit_committed, Hw.
    split; [|reflexivity]. unfold leave. cbn [fst]. rewrite Hid.
    rewrite fill_livestreams_spec. reflexivity.
  - intros username Hsound Hnone. unfold getUserLivestreamsHandler. cbv zeta.
    pose proof (getUserByName_unknown now username (snd (BeginTxx w))
                  (name_keys_sound_begun w Hsound) Hnone) as Hu.
    destruct (getUserByName now username (snd (BeginTxx w))) as [r w2].
    cbn [fst] in Hu. subst r. reflexivity.
Qed.

Lemma livestream_listings_witness :
  (exists owner,
     UserModel_ID owner = 1 /\
     fst (getUserLivestreamsHandler ex_TAGS 0 "alice" ex_tagged_world)
     = AnswerJSON StatusOK (listing ex_TAGS (committed ex_tagged_world) owner 1)) /\
  map (fun l => map Tag_ID (Livestream_Tags l))
    (listing ex_TAGS (committed ex_tagged_world) ex_alice 1) = [[2; 1]] /\
  fst (getUserLivestreamsHandler ex_TAGS 0 "mallory" ex_tagged_world)
  = EchoError StatusNotFound "user not found".
Proof.
  assert (H1 : name_keys_sound ex_tagged_world)
    by (apply name_keys_sound_empty; reflexivity).
  assert (H2 : select_user_by_name (committed ex_tagged_world) "alice" = Some ex_alice)
    by (vm_compute; reflexivity).
  assert (H3 : select_user_by_name (committed ex_tagged_world) "mallory" = None)
    by (vm_compute; reflexivity).
  destruct (livestream_listings ex_TAGS 0 ex_tagged_world) as (_ & Hu & Hn).
  destruct (Hu "alice" ex_alice H1 H2) as (owner & Hid & Ha & _).
  split; [exists owner; split; [exact Hid | exact Ha]|].
  split; [vm_compute; reflexivity|].
  exact (Hn "mallory" H1 H3).
Defined.

(** ** A reservation can be read back *)

Lemma with_IconHash_twice um h :
  with_IconHash (with_IconHash um h) h = with_IconHash um h.
Proof. reflexivity. Qed.

(** At one instant a successful lookup can be repeated: it returns the
    same object, leaves the memory as the first lookup left it and sends
    nothing. *)
Lemma getUserWithCache_again now userId w u w2 w3 :
  getUserWithCache now userId w = (Ok (Some u), w2) ->
  same_memory w2 w3 ->
  getUserWithCache now userId w3 = (Ok (Some u), w3).
Proof.
  intros Hget Hsame. unfold getUserWithCache in Hget.
  destruct (lookup_cached now (key_id userId) w) as [[u' w']|] eqn:Hc.
  - injection Hget as -> ->. destruct Hsame as (Hh & Hu & Hi).
    unfold lookup_cached in Hc.
    destruct (gocache.Get now (userCache w) (key_id userId)) as [q|] eqn:Hq;
      [|discriminate].
    destruct (gocache.Get now (iconCache w) (UserModel_Name (deref w q))) as [h|] eqn:Hic;
      [|discriminate].
    injection Hc as Hqu <-. subst q.
    cbn [heap userCache iconCache set_caches] in Hh, Hu, Hi.
    unfold deref in Hh.
    assert (Hname : UserModel_Name (deref w3 u) = UserModel_Name (deref w u)).
    { unfold deref. rewrite Hh. destruct (heap w !! u) as [x|] eqn:Hx.
      - rewrite list_lookup_insert_eq by (eapply lookup_lt_Some; exact Hx).
        reflexivity.
      - rewrite list_insert_ge by (apply lookup_ge_None; exact Hx).
        rewrite Hx. reflexivity. }
    unfold getUserWithCache, lookup_cached. rewrite Hu, Hq, Hname, Hi, Hic.
    do 2 f_equal.
    apply World_eq; try reflexivity; try (symmetry; assumption).
    cbn [heap set_caches]. unfold deref. rewrite Hh. destruct (heap w !! u) as [x|] eqn:Hx.
    + rewrite list_lookup_insert_eq by (eapply lookup_lt_Some; exact Hx).
      cbn [from_option id]. rewrite with_IconHash_twice.
      apply list_insert_id.
      apply list_lookup_insert_eq. eapply lookup_lt_Some; exact Hx.
    + assert (Hins : forall y, <[u := y]> (heap w) = heap w)
        by (intros y; apply list_insert_ge, lookup_ge_None, Hx).
      rewrite !Hins. reflexivity.
  - cbn [committed log] in Hget.
    destruct (select_user_by_id (committed w) userId) as [row|] eqn:Hs;
      [|discriminate].
    destruct (getUserWithCache_miss now userId w row Hc Hs) as (Hfst & Hm).
    unfold getUserWithCache in Hfst, Hm. rewrite Hc in Hfst, Hm.
    cbn [committed log] in Hfst, Hm. rewrite Hs in Hfst, Hm.
    injection Hget as <- <-. cbn [fst snd] in Hfst, Hm.
    pose proof (memory_after_population_same _ _ _ _ _ _ _ Hm Hsame) as Hm3.
    apply select_user_by_id_found in Hs as [_ Hid]. rewrite Hid in Hm3.
    unfold getUserWithCache.
    rewrite (lookup_cached_populated now now _ _ _ w w3 (key_id userId) Hm3)
      by (left; reflexivity).
    assert ((now <? now + iconCache_ttl) = true) as ->
      by (apply Z.ltb_lt; pose proof iconCache_ttl_pos; lia).
    reflexivity.
Qed.

(** The next AUTO_INCREMENT value of [livestreams] is an id that no row
    has and no tag row refers to. *)
Definition livestream_id_fresh (d : DB) : Prop :=
  Forall (fun l => LivestreamModel_ID l <> livestreams_auto d) (livestreams d) /\
  Forall (fun t => LivestreamTagModel_LivestreamID t <> livestreams_auto d)
    (livestream_tags d).

Lemma find_snoc_fresh {A} (p : A -> bool) l x :
  Forall (fun y => p y = false) l -> p x = true -> List.find p (l ++ [x]) = Some x.
Proof.
  induction 1 as [|y l Hy _ IH]; simpl; intros Hx.
  - rewrite Hx. reflexivity.
  - rewrite Hy. auto.
Qed.

Lemma select_admitted_livestream userID req d :
  livestream_id_fresh d ->
  select_livestream (admitted_view userID req d) (livestreams_auto d)
  = Some (new_row userID req d).
Proof.
  intros [Hl _]. unfold select_livestream. rewrite admitted_view_livestreams.
  apply find_snoc_fresh; [|apply Z.eqb_refl].
  eapply Forall_impl; [exact Hl|]. cbn beta. intros l Hne. apply Z.eqb_neq. exact Hne.
Qed.

Lemma select_admitted_tags userID req d :
  livestream_id_fresh d ->
  select_tag_ids (admitted_view userID req d) (livestreams_auto d) = Req_Tags req.
Proof.
  intros [_ Ht]. unfold select_tag_ids.
  change (livestream_tags (admitted_view userID req d))
    with (livestream_tags d
          ++ tag_rows (livestream_tags_auto d) (livestreams_auto d) (Req_Tags req)).
  rewrite List.filter_app, map_app.
  rewrite (filter_none (fun t => LivestreamTagModel_LivestreamID t =? livestreams_auto d)
             (livestream_tags d)).
  2:{ eapply Forall_impl; [exact Ht|]. cbn beta. intros t Hne.
      apply Z.eqb_neq. exact Hne. }
  rewrite filter_all.
  2:{ eapply Forall_impl; [apply tag_rows_livestream|]. cbn beta. intros t ->.
      apply Z.eqb_refl. }
  apply tag_rows_tags.
Qed.

(** X9.  A reservation can be read back.  When [reserveLivestreamHandler]
    has answered 201 with a body, on a store whose next livestream id is
    fresh, [getLivestreamHandler] asked at the same instant for the id
    in that body answers 200 with the very same body: the row, the tags
    in the order of the request, and the owner as the reservation showed
    it. *)
Theorem reservation_can_be_read_back (TAGS : Z -> string) (now userID : Z)
    (req : ReserveLivestreamRequest) (w : World) (body : Livestream) :
  fst (reserveLivestreamHandler TAGS now userID req w) = JSON StatusCreated body ->
  livestream_id_fresh (committed w) ->
  Livestream_ID body = livestreams_auto (committed w) /\
  fst (getLivestreamHandler TAGS now (Livestream_ID body)
         (snd (reserveLivestreamHandler TAGS now userID req w)))
  = AnswerJSON StatusOK body.
Proof.
  intros Hr Hfresh.
  destruct (reserve_created_inv TAGS now userID req w body Hr) as (Hout & _).
  destruct (reserve_run_cases TAGS now userID req w Hout)
    as [(code & msg & wc & He & _) | (ops & He)].
  { rewrite He in Hr. discriminate. }
  cbv zeta in He. rewrite He in Hr |- *. clear He.
  destruct (written_frame userID req (logs ops (begun w))) as (_ & Hview & _).
  cbn [working logs begun] in Hview.
  destruct (getUserWithCache now userID (written userID req (logs ops (begun w))))
    as [r w2] eqn:Hu.
  pose proof (getUserWithCache_frame _ _ _ _ _ Hu) as (_ & Hw & _ & _ & o & -> & _).
  rewrite Hview in Hw.
  destruct o as [u|]; cbn [fst snd] in Hr |- *; [|discriminate].
  injection Hr as <-. split; [reflexivity|].
  cbn [Livestream_ID fillLivestreamResponse new_row with_LivestreamModel_ID
       LivestreamModel_ID].
  unfold getLivestreamHandler. cbv zeta.
  change (working (snd (BeginTxx (committed_world w2)))) with (working w2).
  rewrite Hw, (select_admitted_livestream userID req (committed w) Hfresh).
  change (LivestreamModel_UserID (new_row userID req (committed w))) with userID.
  rewrite (getUserWithCache_again now userID _ u w2
             (snd (BeginTxx (committed_world w2))) Hu)
    by (repeat split).
  change (working (snd (BeginTxx (committed_world w2)))) with (working w2).
  rewrite Hw.
  change (LivestreamModel_ID (new_row userID req (committed w)))
    with (livestreams_auto (committed w)).
  rewrite (select_admitted_tags userID req (committed w) Hfresh).
  reflexivity.
Qed.

Lemma reservation_can_be_read_back_witness :
  exists body,
    fst (reserveLivestreamHandler ex_TAGS 0 1 (ex_req 1700874000 1700877600) ex_world)
    = JSON StatusCreated body /\
    fst (getLivestreamHandler ex_TAGS 0 (Livestream_ID body)
           (snd (reserveLivestreamHandler ex_TAGS 0 1 (ex_req 1700874000 1700877600)
                   ex_world)))
    = AnswerJSON StatusOK body.
Proof.
  assert (H1 : exists body,
             fst (reserveLivestreamHandler ex_TAGS 0 1 (ex_req 1700874000 1700877600)
                    ex_world) = JSON StatusCreated body)
    by (eexists; vm_compute; reflexivity).
  destruct H1 as (body & H1).
  assert (H2 : livestream_id_fresh (committed ex_world))
    by (split; constructor).
  exists body. split; [exact H1|].
  exact (proj2 (reservation_can_be_read_back ex_TAGS 0 1
                  (ex_req 1700874000 1700877600) ex_world body H1 H2)).
Defined.

(** * More on the statistics handlers *)

Lemma count_greater_bound {A} (less : A -> A -> bool) (a : A) (l : list A) :
  less a a = false -> In a l -> 0 <= count_greater less a l < Z.of_nat (length l).
Proof.
  intros Hirr Hin. unfold count_greater. split; [lia|].
  apply inj_lt. induction l as [|x l IH]; [destruct Hin|].
  pose proof (filter_length_le (less a) l) as Hle. simpl.
  destruct Hin as [->|Hin].
  - rewrite Hirr. lia.
  - specialize (IH Hin). destruct (less a x); simpl; lia.
Qed.

Lemma select_livestream_in d l :
  NoDup (map LivestreamModel_ID (livestreams d)) ->
  In l (livestreams d) ->
  select_livestream d (LivestreamModel_ID l) = Some l.
Proof.
  intros Hnd Hin. unfold select_livestream.
  pose proof (filter_key_unique LivestreamModel_ID (livestreams d) l Hnd Hin) as Hf.
  induction (livestreams d) as [|x ls IH]; [destruct Hin|].
  simpl in *. destruct (LivestreamModel_ID x =? LivestreamModel_ID l) eqn:Hx.
  - injection Hf as -> _. reflexivity.
  - apply NoDup_cons in Hnd as [_ Hnd]. destruct Hin as [->|Hin].
    + rewrite Z.eqb_refl in Hx. discriminate.
    + auto.
Qed.

(** X10.  Ranks are positions: on a store with unique user names every
    user gets a rank between 1 and the number of users, and two different
    users never share a rank, whatever their scores; likewise the
    livestreams of a store with unique livestream ids. *)
Theorem ranks_are_positions (d : DB) :
  (NoDup (map UserModel_Name (users d)) ->
   forall a b, In a (users d) -> In b (users d) ->
     1 <= user_rank d (UserModel_Name a) <= Z.of_nat (length (users d)) /\
     (user_rank d (UserModel_Name a) = user_rank d (UserModel_Name b) -> a = b))
  /\
  (NoDup (map LivestreamModel_ID (livestreams d)) ->
   forall a b, In a (livestreams d) -> In b (livestreams d) ->
     1 <= livestream_rank d (LivestreamModel_ID a) <= Z.of_nat (length (livestreams d)) /\
     (livestream_rank d (LivestreamModel_ID a) = livestream_rank d (LivestreamModel_ID b)
      -> a = b)).
Proof.
  split.
  - intros Hnd a b Ha Hb.
    rewrite (user_rank_spec d _ a Hnd (select_user_by_name_in d a Hnd Ha)).
    rewrite (user_rank_spec d _ b Hnd (select_user_by_name_in d b Hnd Hb)).
    pose proof (count_greater_bound UserRanking_Less (user_entry a)
                  (map user_entry (users d)) (UserRanking_Less_irrefl _)
                  (in_map user_entry _ _ Ha)) as Hbound.
    rewrite length_map in Hbound. split; [lia|].
    intros Heq.
    assert (He : user_entry a = user_entry b).
    { apply UserRanking_Less_total.
      - destruct (UserRanking_Less (user_entry a) (user_entry b)) eqn:Hlt; [|reflexivity].
        pose proof (count_greater_lt UserRanking_Less UserRanking_Less_irrefl
                      UserRanking_Less_trans _ _ (map user_entry (users d))
                      (in_map user_entry _ _ Hb) Hlt). lia.
      - destruct (UserRanking_Less (user_entry b) (user_entry a)) eqn:Hlt; [|reflexivity].
        pose proof (count_greater_lt UserRanking_Less UserRanking_Less_irrefl
                      UserRanking_Less_trans _ _ (map user_entry (users d))
                      (in_map user_entry _ _ Ha) Hlt). lia. }
    apply (NoDup_map_inj_on UserModel_Name (users d)); auto.
    apply (f_equal UserRankingEntry_Username) in He. exact He.
  - intros Hnd a b Ha Hb.
    rewrite (livestream_rank_spec d _ a Hnd (select_livestream_in d a Hnd Ha)).
    rewrite (livestream_rank_spec d _ b Hnd (select_livestream_in d b Hnd Hb)).
    pose proof (count_greater_bound LivestreamRanking_Less (livestream_entry a)
                  (map livestream_entry (livestreams d)) (LivestreamRanking_Less_irrefl _)
                  (in_map livestream_entry _ _ Ha)) as Hbound.
    rewrite length_map in Hbound. split; [lia|].
    intros Heq.
    assert (He : livestream_entry a = livestream_entry b).
    { apply LivestreamRanking_Less_total.
      - destruct (LivestreamRanking_Less (livestream_entry a) (livestream_entry b))
          eqn:Hlt; [|reflexivity].
        pose proof (count_greater_lt LivestreamRanking_Less LivestreamRanking_Less_irrefl
                      LivestreamRanking_Less_trans _ _ (map livestream_entry (livestreams d))
                      (in_map livestream_entry _ _ Hb) Hlt). lia.
      - destruct (LivestreamRanking_Less (livestream_entry b) (livestream_entry a))
          eqn:Hlt; [|reflexivity].
        pose proof (count_greater_lt LivestreamRanking_Less LivestreamRanking_Less_irrefl
                      LivestreamRanking_Less_trans _ _ (map livestream_entry (livestreams d))
                      (in_map livestream_entry _ _ Ha) Hlt). lia. }
    apply (NoDup_map_inj_on LivestreamModel_ID (livestreams d)); auto.
    apply (f_equal LivestreamRankingEntry_LivestreamID) in He. exact He.
Qed.

Lemma ranks_are_positions_witness :
  1 <= user_rank ex_stats_db "alice" <= 3 /\
  user_rank ex_stats_db "alice" <> user_rank ex_stats_db "bob".
Proof.
  assert (H1 : NoDup (map UserModel_Name (users ex_stats_db)))
    by (apply (bool_decide_unpack _); vm_compute; exact I).
  assert (Ha : In ex_alice (users ex_stats_db)) by (left; reflexivity).
  assert (Hb : In ex_bob (users ex_stats_db)) by (right; left; reflexivity).
  destruct (proj1 (ranks_are_positions ex_stats_db) H1 ex_alice ex_bob Ha Hb)
    as (Hrange & Hinj).
  split; [exact Hrange|].
  intros He. specialize (Hinj He). discriminate Hinj.
Defined.

Lemma select_livestream_ids_of_map d userID :
  select_livestream_ids_of d userID
  = map LivestreamModel_ID (select_livestreams_of d userID).
Proof. reflexivity. Qed.

(** X11.  The user statistics need a livestream.  For a user of the store
    who owns no livestream the handler answers 500, because [sqlx.In]
    refuses the empty id list; once a reservation of that user has been
    answered 201, the statistics of the committed store answer 200, with
    the counters of the user's row. *)
Theorem user_statistics_need_a_livestream (TAGS : Z -> string) (now userID : Z)
    (req : ReserveLivestreamRequest) (w : World) (row : UserModel) :
  NoDup (map UserModel_Name (users (committed w))) ->
  select_user_by_id (committed w) userID = Some row ->
  select_livestreams_of (committed w) userID = [] ->
  getUserStatisticsHandler (committed w) (UserModel_Name row)
  = HTTPError StatusInternalServerError FailedToConstructINQuery /\
  (forall body,
     fst (reserveLivestreamHandler TAGS now userID req w) = JSON StatusCreated body ->
     exists stats,
       getUserStatisticsHandler
         (committed (snd (reserveLivestreamHandler TAGS now userID req w)))
         (UserModel_Name row)
       = JSON StatusOK stats /\
       UserStatistics_TotalReactions stats = UserModel_Reactions row /\
       UserStatistics_TotalTip stats = UserModel_Tips row /\
       UserStatistics_TotalLivecomments stats = UserModel_LiveComments row).
Proof.
  intros Hnd Hsel Hnone.
  apply select_user_by_id_found in Hsel as [Hin Hid].
  pose proof (select_user_by_name_in (committed w) row Hnd Hin) as Hname.
  split.
  - unfold getUserStatisticsHandler. rewrite Hname, select_livestream_ids_of_map, Hid, Hnone.
    reflexivity.
  - intros body Hr.
    destruct (reserve_created_inv TAGS now userID req w body Hr) as (_ & ->).
    unfold getUserStatisticsHandler.
    change (select_user_by_name (admitted_view userID req (committed w))
              (UserModel_Name row))
      with (select_user_by_name (committed w) (UserModel_Name row)).
    rewrite Hname, select_livestream_ids_of_map, Hid.
    unfold select_livestreams_of. rewrite admitted_view_livestreams, List.filter_app.
    fold (select_livestreams_of (committed w) userID). rewrite Hnone.
    cbn [app List.filter new_row with_LivestreamModel_ID new_livestreamModel
         LivestreamModel_UserID]. rewrite Z.eqb_refl. cbn [map].
    eexists. split; [reflexivity|]. cbn. auto.
Qed.

Lemma user_statistics_need_a_livestream_witness :
  getUserStatisticsHandler (committed ex_world) "alice"
  = HTTPError StatusInternalServerError FailedToConstructINQuery /\
  exists stats,
    getUserStatisticsHandler
      (committed (snd (reserveLivestreamHandler ex_TAGS 0 1
                         (ex_req 1700874000 1700877600) ex_world))) "alice"
    = JSON StatusOK stats.
Proof.
  assert (H1 : NoDup (map UserModel_Name (users (committed ex_world))))
    by (apply (bool_decide_unpack _); vm_compute; exact I).
  assert (H2 : select_user_by_id (committed ex_world) 1 = Some ex_alice)
    by (vm_compute; reflexivity).
  assert (H3 : select_livestreams_of (committed ex_world) 1 = [])
    by (vm_compute; reflexivity).
  assert (H4 : exists body,
             fst (reserveLivestreamHandler ex_TAGS 0 1 (ex_req 1700874000 1700877600)
                    ex_world) = JSON StatusCreated body)
    by (eexists; vm_compute; reflexivity).
  destruct H4 as (body & H4).
  destruct (user_statistics_need_a_livestream ex_TAGS 0 1
              (ex_req 1700874000 1700877600) ex_world ex_alice H1 H2 H3) as (H500 & H200).
  split; [exact H500|].
  destruct (H200 body H4) as (stats & Hs & _). exists stats. exact Hs.
Defined.

(** * Uploading an icon: [postIconHandler] *)

Record PostIconResponse := { PostIconResponse_ID : Z }.

(** [INSERT INTO icons (user_id, image) VALUES (?, ?) as new_row
     ON DUPLICATE KEY UPDATE image = new_row.image], [user_id] being the
    key the clause refers to: the row of that user gets the new image, or
    a row is added when there is none. *)
Definition upsert_icon (userID : Z) (image : list byte) (d : DB) : DB :=
  if existsb (fun r => Icon_UserID r =? userID) (icons d) then
    with_icons
      (map (fun r => if Icon_UserID r =? userID
                     then {| Icon_UserID := Icon_UserID r; Icon_Image := image |}
                     else r) (icons d)) d
  else
    with_icons (icons d ++ [{| Icon_UserID := userID; Icon_Image := image |}]) d.

(** [UPDATE users SET icon_hash = ? WHERE id = ?] *)
Definition update_icon_hash (userID : Z) (iconHash : list byte) (d : DB) : DB :=
  with_users
    (map (fun u => if UserModel_ID u =? userID then with_IconHash u iconHash else u)
       (users d)) d.

Section Icons.

(** [crypto/sha256]: [hash.Write(image)] followed by [hash.Sum(nil)]. *)
Variable sha256_Sum : list byte -> list byte.

(** [func postIconHandler(c echo.Context) error].  [iconID] is what
    [rs.LastInsertId()] reports for the [INSERT]. *)
Definition postIconHandler (userID : Z) (image : list byte) (iconID : Z) (w : World)
  : Answer PostIconResponse * World :=
  let iconHash := sha256_Sum image in
  let w1 := snd (BeginTxx w) in
  let w2 := set_working (upsert_icon userID image (working w1)) w1 in
  let w3 := set_working (update_icon_hash userID iconHash (working w2)) w2 in
  leave (AnswerJSON StatusCreated {| PostIconResponse_ID := iconID |}) (snd (Commit w3)).

Lemma postIcon_committed userID image iconID w :
  committed (snd (postIconHandler userID image iconID w))
  = update_icon_hash userID (sha256_Sum image) (upsert_icon userID image (committed w)).
Proof. reflexivity. Qed.

Lemma postIcon_memory userID image iconID w :
  same_memory w (snd (postIconHandler userID image iconID w)).
Proof. repeat split. Qed.

End Icons.

Lemma find_map_same {A} (p : A -> bool) (f : A -> A) l :
  (forall x, p (f x) = p x) -> List.find p (map f l) = option_map f (List.find p l).
Proof.
  intros Hp. induction l as [|x l IH]; simpl; [reflexivity|].
  rewrite Hp. destruct (p x); [reflexivity | exact IH].
Qed.

Lemma select_icon_upsert userID image d :
  select_icon (upsert_icon userID image d) userID = Some image.
Proof.
  unfold select_icon, upsert_icon.
  destruct (existsb (fun r => Icon_UserID r =? userID) (icons d)) eqn:He;
    cbn [icons with_icons].
  - rewrite find_map_same
      by (intros r; destruct (Icon_UserID r =? userID) eqn:Hr; cbn; rewrite Hr; reflexivity).
    apply existsb_exists in He as (r & Hin & Hr).
    destruct (List.find (fun r => Icon_UserID r =? userID) (icons d)) as [r'|] eqn:Hf.
    + apply find_some in Hf as [_ Hr']. cbn. rewrite Hr'. reflexivity.
    + rewrite (find_none _ _ Hf r Hin) in Hr. discriminate.
  - rewrite (find_snoc_fresh (fun r => Icon_UserID r =? userID) (icons d)).
    + reflexivity.
    + apply Forall_forall. intros r Hr%list_elem_of_In.
      destruct (Icon_UserID r =? userID) eqn:Hq; [|reflexivity].
      assert (existsb (fun r => Icon_UserID r =? userID) (icons d) = true)
        by (apply existsb_exists; eauto).
      congruence.
    + apply Z.eqb_refl.
Qed.

Lemma select_user_by_name_update_icon_hash userID iconHash d name :
  select_user_by_name (update_icon_hash userID iconHash d) name
  = option_map (fun u => if UserModel_ID u =? userID then with_IconHash u iconHash else u)
      (select_user_by_name d name).
Proof.
  unfold select_user_by_name, update_icon_hash. cbn [users with_users].
  apply find_map_same. intros u. destruct (UserModel_ID u =? userID); reflexivity.
Qed.

Lemma select_user_by_name_upsert_icon userID image d name :
  select_user_by_name (upsert_icon userID image d) name = select_user_by_name d name.
Proof. unfold upsert_icon. destruct (existsb _ _); reflexivity. Qed.

Section IconRoundTrip.

Variable sha256_Sum : list byte -> list byte.

Lemma postIcon_keeps_sound userID image iconID w :
  name_keys_sound w ->
  name_keys_sound (snd (postIconHandler sha256_Sum userID image iconID w)).
Proof.
  intros Hsound name p e Hk.
  destruct (Hsound name p e Hk) as (Hlt & row & Hsel & Hid).
  split; [exact Hlt|].
  rewrite postIcon_committed.
  rewrite select_user_by_name_update_icon_hash.
  rewrite select_user_by_name_upsert_icon, Hsel. eexists. split; [reflexivity|].
  change (deref (snd (postIconHandler sha256_Sum userID image iconID w)) p)
    with (deref w p).
  rewrite Hid. destruct (UserModel_ID row =? userID); reflexivity.
Qed.

(** X12.  An uploaded icon is served.  After [postIconHandler] for the
    user of a name, on a cache whose name keys are sound, the store holds
    the hash of the image in that user's row, and [getIconHandler] for
    that name, asked without [If-None-Match], answers 200 with the image
    just uploaded, whether the user had an icon before or not. *)
Theorem uploaded_icon_is_served (now userID : Z) (image : list byte) (iconID : Z)
    (username : string) (row : UserModel) (w : World) :
  name_keys_sound w ->
  select_user_by_name (committed w) username = Some row ->
  UserModel_ID row = userID ->
  fst (postIconHandler sha256_Sum userID image iconID w)
  = AnswerJSON StatusCreated {| PostIconResponse_ID := iconID |} /\
  select_user_by_name
    (committed (snd (postIconHandler sha256_Sum userID image iconID w))) username
  = Some (with_IconHash row (sha256_Sum image)) /\
  fst (getIconHandler now EmptyString username
         (snd (postIconHandler sha256_Sum userID image iconID w)))
  = Blob StatusOK "image/jpeg" image.
Proof.
  intros Hsound Hsel Hid. split; [reflexivity|].
  assert (Hsel' : select_user_by_name
                    (committed (snd (postIconHandler sha256_Sum userID image iconID w)))
                    username
                  = Some (with_IconHash row (sha256_Sum image))).
  { rewrite postIcon_committed, select_user_by_name_update_icon_hash,
      select_user_by_name_upsert_icon, Hsel.
    cbn [option_map]. rewrite Hid, Z.eqb_refl. reflexivity. }
  split; [exact Hsel'|].
  unfold getIconHandler. cbn [String.eqb negb andb].
  destruct (getUserByName_resolves now username _ _
              (postIcon_keeps_sound userID image iconID w Hsound) Hsel')
    as (p & w1 & -> & Hc & Hp).
  cbn [committed log]. rewrite Hc, Hp. cbn [UserModel_ID with_IconHash].
  rewrite Hid, postIcon_committed.
  change (select_icon (update_icon_hash userID (sha256_Sum image)
                         (upsert_icon userID image (committed w))) userID)
    with (select_icon (upsert_icon userID image (committed w)) userID).
  rewrite select_icon_upsert. reflexivity.
Qed.

End IconRoundTrip.

Lemma uploaded_icon_is_served_witness :
  fst (getIconHandler 0 EmptyString "bob"
         (snd (postIconHandler ex_sum 2 [Byte.x01; Byte.x02; Byte.x03] 1 ex_world)))
  = Blob StatusOK "image/jpeg" [Byte.x01; Byte.x02; Byte.x03].
Proof.
  assert (H1 : name_keys_sound ex_world) by (apply name_keys_sound_empty; reflexivity).
  assert (H2 : select_user_by_name (committed ex_world) "bob" = Some ex_bob)
    by (vm_compute; reflexivity).
  assert (H3 : UserModel_ID ex_bob = 2) by reflexivity.
  exact (proj2 (proj2 (uploaded_icon_is_served ex_sum 0 2
                         [Byte.x01; Byte.x02; Byte.x03] 1 "bob" ex_bob ex_world
                         H1 H2 H3))).
Defined.

(** ** Fingerprints and how long a stale one is served *)

(** The value of a hexadecimal digit. *)
Definition hexval (c : ascii) : N :=
  match index 0 (String c EmptyString) "0123456789abcdef" with
  | Some i => N.of_nat i
  | None => 0
  end.

Definition byte_of_hex (hi lo : ascii) : option byte :=
  Byte.of_N (16 * hexval hi + hexval lo).

Lemma byte_of_hex_digits b :
  byte_of_hex (hexDigit (Byte.to_N b / 16)) (hexDigit (Byte.to_N b mod 16)) = Some b.
Proof. destruct b; vm_compute; reflexivity. Qed.

(** [%x] loses nothing: two byte slices with the same digits, followed by
    the same text, are the same slice. *)
Lemma hex_append_inj a b q c :
  hex a +:+ String c q = hex b +:+ String c q ->
  (forall x, hexDigit x <> c) -> a = b.
Proof.
  intros H Hc. revert b H. induction a as [|x a IH]; intros [|y b] H.
  - reflexivity.
  - cbn in H. injection H as H _. exfalso. exact (Hc _ (eq_sym H)).
  - cbn in H. injection H as H _. exfalso. exact (Hc _ H).
  - cbn in H. injection H as Hhi Hlo Hrest.
    pose proof (byte_of_hex_digits x) as Hx. rewrite Hhi, Hlo, byte_of_hex_digits in Hx.
    injection Hx as ->. f_equal. apply IH. exact Hrest.
Qed.

Lemma hexDigit_not_dquote x : hexDigit x <> dquote.
Proof.
  unfold hexDigit.
  destruct (N.to_nat x) as [|[|[|[|[|[|[|[|[|[|[|[|[|[|[|[|n]]]]]]]]]]]]]]]];
    cbn; discriminate.
Qed.

Lemma quoted_hex_inj a b : quoted_hex a = quoted_hex b -> a = b.
Proof.
  unfold quoted_hex. intros [= H].
  eapply hex_append_inj; [exact H | apply hexDigit_not_dquote].
Qed.

Lemma quoted_hex_not_empty h : String.eqb (quoted_hex h) EmptyString = false.
Proof. reflexivity. Qed.

Section StaleFingerprint.

Variable sha256_Sum : list byte -> list byte.

(** X13.  [postIconHandler] refreshes neither cache, and the staleness
    this causes is bounded by the 1500 ms of the icon cache.  Let a
    lookup by name have read a user's row at instant [now0], and let the
    user upload a new image afterwards.  A conditional request carrying
    the previous fingerprint is answered 304 at every instant before
    [now0 + 1500 ms], so the new image is not served; from that instant
    on the same request is answered 200 with the new image. *)
Theorem stale_fingerprint_is_bounded (now0 t userID : Z) (image : list byte)
    (iconID : Z) (username : string) (row : UserModel) (w : World) :
  trace (snd (getUserByName now0 username w)) = trace w ++ [OpGetUserByName username] ->
  select_user_by_name (committed w) username = Some row ->
  UserModel_ID row = userID ->
  sha256_Sum image <> UserModel_IconHash row ->
  let cached := snd (getUserByName now0 username w) in
  let uploaded := snd (postIconHandler sha256_Sum userID image iconID cached) in
  let etag := quoted_hex (UserModel_IconHash row) in
  (t < now0 + iconCache_ttl ->
   fst (getIconHandler t etag username uploaded) = NoContent StatusNotModified) /\
  (now0 + iconCache_ttl <= t ->
   fst (getIconHandler t etag username uploaded) = Blob StatusOK "image/jpeg" image).
Proof.
  intros Hread Hsel Hid Hnew. cbv zeta.
  apply getUserByName_read in Hread.
  destruct (getUserByName_miss now0 username w row Hread Hsel) as (_ & Hm).
  pose proof (select_user_by_name_found _ _ _ Hsel) as [_ Hname].
  set (cached := snd (getUserByName now0 username w)) in *.
  assert (Hcc : committed cached = committed w).
  { unfold cached. destruct (getUserByName now0 username w) as [r c] eqn:Hu.
    apply getUserByName_frame in Hu as (Hc & _). exact Hc. }
  set (uploaded := snd (postIconHandler sha256_Sum userID image iconID cached)).
  assert (Hm' : memory_after_population now0 (key_id (UserModel_ID row))
                  (scan_user_columns row) (length (heap w)) w uploaded).
  { eapply memory_after_population_same; [exact Hm|]. apply postIcon_memory. }
  assert (Hic : gocache.Get t (iconCache uploaded) username
                = if t <? now0 + iconCache_ttl
                  then Some (UserModel_IconHash row) else None).
  { destruct Hm' as (_ & _ & _ & ->). cbn [scan_user_columns UserModel_Name
                                            UserModel_IconHash].
    rewrite Hname. apply gocache.Get_Set_later. }
  split; intros Ht.
  - unfold getIconHandler. rewrite Hic, quoted_hex_not_empty.
    apply Z.ltb_lt in Ht. rewrite Ht, String.eqb_refl. reflexivity.
  - unfold getIconHandler. rewrite Hic, quoted_hex_not_empty.
    apply Z.ltb_ge in Ht. rewrite Ht. cbn [negb andb].
    unfold getUserByName.
    rewrite (lookup_cached_populated now0 t _ _ _ w uploaded (key_name username) Hm')
      by (right; cbn; rewrite Hname; reflexivity).
    rewrite Ht. cbn [committed log].
    assert (Hsel' : select_user_by_name (committed uploaded) username
                    = Some (with_IconHash row (sha256_Sum image))).
    { unfold uploaded. rewrite postIcon_committed, select_user_by_name_update_icon_hash,
        select_user_by_name_upsert_icon, Hcc, Hsel.
      cbn [option_map]. rewrite Hid, Z.eqb_refl. reflexivity. }
    rewrite Hsel'.
    assert (Hd : deref
                   (set_caches
                      (heap (log (OpGetUserByName username) uploaded)
                       ++ [scan_user_columns (with_IconHash row (sha256_Sum image))])
                      (gocache.Set_ t userCache_ttl
                         (gocache.Set_ t userCache_ttl
                            (userCache (log (OpGetUserByName username) uploaded))
                            (key_id (UserModel_ID
                               (scan_user_columns
                                  (with_IconHash row (sha256_Sum image)))))
                            (length (heap (log (OpGetUserByName username) uploaded))))
                         (key_name (UserModel_Name
                            (scan_user_columns (with_IconHash row (sha256_Sum image)))))
                         (length (heap (log (OpGetUserByName username) uploaded))))
                      (gocache.Set_ t iconCache_ttl
                         (iconCache (log (OpGetUserByName username) uploaded))
                         (UserModel_Name
                            (scan_user_columns (with_IconHash row (sha256_Sum image))))
                         (UserModel_IconHash
                            (scan_user_columns (with_IconHash row (sha256_Sum image)))))
                      (log (OpGetUserByName username) uploaded))
                   (length (heap (log (OpGetUserByName username) uploaded)))
                 = scan_user_columns (with_IconHash row (sha256_Sum image))).
    { unfold deref. cbn [heap set_caches]. apply fresh_object. }
    rewrite Hd. cbn [UserModel_IconHash UserModel_ID scan_user_columns with_IconHash].
    assert (Hne : String.eqb (quoted_hex (sha256_Sum image))
                    (quoted_hex (UserModel_IconHash row)) = false).
    { apply String.eqb_neq. intros He. apply Hnew, quoted_hex_inj, He. }
    rewrite Hne. cbn [andb committed log set_caches].
    rewrite Hid. unfold uploaded at 1. rewrite postIcon_committed.
    change (select_icon (update_icon_hash userID (sha256_Sum image)
                           (upsert_icon userID image (committed cached))) userID)
      with (select_icon (upsert_icon userID image (committed cached)) userID).
    rewrite select_icon_upsert. reflexivity.
Qed.

End StaleFingerprint.

Lemma stale_fingerprint_is_bounded_witness :
  let cached := snd (getUserByName 0 "bob" ex_world) in
  let uploaded := snd (postIconHandler ex_sum 2 [Byte.x01; Byte.x02; Byte.x03] 1 cached) in
  fst (getIconHandler 1 (quoted_hex (UserModel_IconHash ex_bob)) "bob" uploaded)
  = NoContent StatusNotModified /\
  fst (getIconHandler 1500000000 (quoted_hex (UserModel_IconHash ex_bob)) "bob" uploaded)
  = Blob StatusOK "image/jpeg" [Byte.x01; Byte.x02; Byte.x03].
Proof.
  assert (H1 : trace (snd (getUserByName 0 "bob" ex_world))
               = trace ex_world ++ [OpGetUserByName "bob"]) by (vm_compute; reflexivity).
  assert (H2 : select_user_by_name (committed ex_world) "bob" = Some ex_bob)
    by (vm_compute; reflexivity).
  assert (H3 : UserModel_ID ex_bob = 2) by reflexivity.
  assert (H4 : ex_sum [Byte.x01; Byte.x02; Byte.x03] <> UserModel_IconHash ex_bob)
    by (vm_compute; discriminate).
  assert (H5 : 1 < 0 + iconCache_ttl) by (vm_compute; reflexivity).
  assert (H6 : 0 + iconCache_ttl <= 1500000000) by (vm_compute; discriminate).
  cbv zeta. split.
  - exact (proj1 (stale_fingerprint_is_bounded ex_sum 0 1 2
                    [Byte.x01; Byte.x02; Byte.x03] 1 "bob" ex_bob ex_world
                    H1 H2 H3 H4) H5).
  - exact (proj2 (stale_fingerprint_is_bounded ex_sum 0 1500000000 2
                    [Byte.x01; Byte.x02; Byte.x03] 1 "bob" ex_bob ex_world
                    H1 H2 H3 H4) H6).
Defined.

(** ** A reaction and the ranks *)

Section OneEntryGrows.

Context {A E : Type}.
Variable less : E -> E -> bool.
Hypothesis less_trans :
  forall a b c, less a b = true -> less b c = true -> less a c = true.
Hypothesis less_irrefl : forall a, less a a = false.

Variable key : A -> Z.
Variable entry : A -> E.
(** The update of the row with key [k]. *)
Variable grow : A -> A.
Variable k : Z.

Definition grown (l : list A) : list A :=
  map (fun x => if key x =? k then grow x else x) l.

Lemma count_greater_grown_target (l : list A) (t : A) :
  (forall x, In x l -> key x = k -> x = t) ->
  less (entry t) (entry (grow t)) = true ->
  count_greater less (entry (grow t)) (map entry (grown l))
  <= count_greater less (entry t) (map entry l).
Proof.
  intros Huniq Hlt. unfold count_greater, grown. apply inj_le.
  induction l as [|x l IH]; simpl; [lia|].
  assert (IH' := IH (fun y Hy => Huniq y (or_intror Hy))).
  destruct (Z.eqb_spec (key x) k) as [Hk|Hk].
  - rewrite (Huniq x (or_introl eq_refl) Hk), less_irrefl.
    destruct (less (entry t) (entry t)); simpl; lia.
  - destruct (less (entry (grow t)) (entry x)) eqn:Hx.
    + rewrite (less_trans _ _ _ Hlt Hx). simpl. lia.
    + destruct (less (entry t) (entry x)); simpl; lia.
Qed.

Lemma count_greater_grown_other (l : list A) (t : A) (e : E) :
  NoDup (map key l) ->
  (forall x, In x l -> key x = k -> x = t) ->
  less (entry t) (entry (grow t)) = true ->
  count_greater less e (map entry l)
  <= count_greater less e (map entry (grown l))
  <= count_greater less e (map entry l) + 1.
Proof.
  intros Hnd Huniq Hlt. unfold count_greater, grown.
  assert (H : (length (List.filter (less e) (map entry l))
               <= length (List.filter (less e)
                            (map entry (map (fun x => if (key x =? k)%Z then grow x else x) l)))
               <= length (List.filter (less e) (map entry l))
                  + (if existsb (fun x => (key x =? k)%Z) l then 1 else 0))%nat).
  { induction l as [|x l IH]; simpl; [lia|].
    apply NoDup_cons in Hnd as [Hx Hnd].
    specialize (IH Hnd (fun y Hy => Huniq y (or_intror Hy))).
    destruct (Z.eqb_spec (key x) k) as [Hk|Hk]; simpl.
    - assert (Hnone : existsb (fun y => key y =? k) l = false).
      { destruct (existsb (fun y => key y =? k) l) eqn:He; [|reflexivity].
        apply existsb_exists in He as (y & Hy & Hky%Z.eqb_eq).
        exfalso. apply Hx. rewrite Hk, <- Hky. apply list_elem_of_In, in_map, Hy. }
      rewrite Hnone in IH. rewrite (Huniq x (or_introl eq_refl) Hk).
      destruct (less e (entry t)) eqn:Het.
      + rewrite (less_trans _ _ _ Het Hlt). simpl. lia.
      + destruct (less e (entry (grow t))); simpl; lia.
    - destruct (less e (entry x)); simpl;
        destruct (existsb (fun y => key y =? k) l); lia. }
  destruct (existsb (fun x => key x =? k) l); lia.
Qed.

End OneEntryGrows.

(** Both sums of the score fit an [int64], before and after the
    increment of the reaction counter. *)
Definition score_can_grow (reactions tips : Z) : Prop :=
  Int64.in_range (reactions + tips) /\ Int64.in_range (reactions + 1 + tips).

Definition grow_livestream (l : LivestreamModel) : LivestreamModel :=
  set_livestream_counters l
    (LivestreamModel_Reactions l + 1, LivestreamModel_Tips l, LivestreamModel_MaxTip l).

Definition grow_user (u : UserModel) : UserModel :=
  set_user_counters u
    (UserModel_Reactions u + 1, UserModel_Tips u, UserModel_LiveComments u).

Lemma livestream_entry_grows l :
  score_can_grow (LivestreamModel_Reactions l) (LivestreamModel_Tips l) ->
  LivestreamRanking_Less (livestream_entry l) (livestream_entry (grow_livestream l)) = true.
Proof.
  intros [H1 H2]. unfold LivestreamRanking_Less, livestream_entry, grow_livestream.
  cbn. unfold Int64.add. rewrite !Int64.wrap_id by assumption.
  destruct (Z.eqb_spec (LivestreamModel_Reactions l + LivestreamModel_Tips l)
              (LivestreamModel_Reactions l + 1 + LivestreamModel_Tips l)); [lia|].
  apply Z.ltb_lt. lia.
Qed.

Lemma user_entry_grows u :
  score_can_grow (UserModel_Reactions u) (UserModel_Tips u) ->
  UserRanking_Less (user_entry u) (user_entry (grow_user u)) = true.
Proof.
  intros [H1 H2]. unfold UserRanking_Less, user_entry, grow_user.
  cbn. unfold Int64.add. rewrite !Int64.wrap_id by assumption.
  destruct (Z.eqb_spec (UserModel_Reactions u + UserModel_Tips u)
              (UserModel_Reactions u + 1 + UserModel_Tips u)); [lia|].
  apply Z.ltb_lt. lia.
Qed.

Lemma reaction_writes_livestreams row owner d :
  livestreams (reaction_writes row owner d)
  = grown LivestreamModel_ID grow_livestream (ReactionModel_LivestreamID row)
      (livestreams d).
Proof. reflexivity. Qed.

Lemma reaction_writes_users row owner d :
  users (reaction_writes row owner d) = grown UserModel_ID grow_user owner (users d).
Proof. reflexivity. Qed.

Lemma grown_keys {A} (key : A -> Z) (grow : A -> A) k l :
  (forall x, key (grow x) = key x) -> map key (grown key grow k l) = map key l.
Proof.
  intros Hk. unfold grown. rewrite map_map. apply map_ext. intros x.
  destruct (key x =? k); auto.
Qed.

Lemma grown_In {A} (key : A -> Z) (grow : A -> A) k l x :
  In x l -> In (if key x =? k then grow x else x) (grown key grow k l).
Proof. intros Hx. unfold grown. apply (in_map (fun x => if key x =? k then grow x else x)), Hx. Qed.

Lemma unique_key {A} (key : A -> Z) l t :
  NoDup (map key l) -> In t l -> forall x, In x l -> key x = key t -> x = t.
Proof. intros Hnd Ht x Hx Hk. eapply NoDup_map_inj_on; eassumption. Qed.

(** The ranks of the livestreams after a reaction to the livestream [l]. *)
Lemma livestream_ranks_after_reaction row owner d l :
  NoDup (map LivestreamModel_ID (livestreams d)) ->
  In l (livestreams d) -> LivestreamModel_ID l = ReactionModel_LivestreamID row ->
  score_can_grow (LivestreamModel_Reactions l) (LivestreamModel_Tips l) ->
  livestream_rank (reaction_writes row owner d) (LivestreamModel_ID l)
  <= livestream_rank d (LivestreamModel_ID l) /\
  forall other, In other (livestreams d) -> other <> l ->
    livestream_rank d (LivestreamModel_ID other)
    <= livestream_rank (reaction_writes row owner d) (LivestreamModel_ID other)
    <= livestream_rank d (LivestreamModel_ID other) + 1.
Proof.
  intros Hnd Hin Hid Hgrow.
  pose proof (livestream_entry_grows l Hgrow) as Hlt.
  assert (Huniq : forall x, In x (livestreams d) ->
                    LivestreamModel_ID x = ReactionModel_LivestreamID row -> x = l).
  { intros x Hx Hk. apply (unique_key LivestreamModel_ID (livestreams d)); auto.
    congruence. }
  assert (Hnd' : NoDup (map LivestreamModel_ID (livestreams (reaction_writes row owner d)))).
  { rewrite reaction_writes_livestreams, grown_keys; [exact Hnd | reflexivity]. }
  assert (Hin' : forall x, In x (livestreams d) ->
                   In (if LivestreamModel_ID x =? ReactionModel_LivestreamID row
                       then grow_livestream x else x)
                      (livestreams (reaction_writes row owner d))).
  { intros x Hx. rewrite reaction_writes_livestreams. apply grown_In, Hx. }
  split.
  - rewrite (livestream_rank_spec d _ l Hnd (select_livestream_in d l Hnd Hin)).
    pose proof (Hin' l Hin) as Hl'. rewrite Hid, Z.eqb_refl in Hl'.
    pose proof (select_livestream_in _ _ Hnd' Hl') as Hsel'.
    change (LivestreamModel_ID (grow_livestream l)) with (LivestreamModel_ID l) in Hsel'.
    rewrite (livestream_rank_spec _ _ _ Hnd' Hsel'), reaction_writes_livestreams.
    pose proof (count_greater_grown_target LivestreamRanking_Less
                  LivestreamRanking_Less_trans LivestreamRanking_Less_irrefl
                  LivestreamModel_ID livestream_entry grow_livestream
                  (ReactionModel_LivestreamID row) (livestreams d) l Huniq Hlt).
    lia.
  - intros other Ho Hne.
    rewrite (livestream_rank_spec d _ other Hnd (select_livestream_in d other Hnd Ho)).
    pose proof (Hin' other Ho) as Ho'.
    destruct (Z.eqb_spec (LivestreamModel_ID other) (ReactionModel_LivestreamID row))
      as [Hk|Hk]; [exfalso; apply Hne, Huniq; assumption|].
    pose proof (select_livestream_in _ _ Hnd' Ho') as Hsel'.
    rewrite (livestream_rank_spec _ _ _ Hnd' Hsel'), reaction_writes_livestreams.
    pose proof (count_greater_grown_other LivestreamRanking_Less
                  LivestreamRanking_Less_trans
                  LivestreamModel_ID livestream_entry grow_livestream
                  (ReactionModel_LivestreamID row) (livestreams d) l
                  (livestream_entry other) Hnd Huniq Hlt).
    lia.
Qed.

(** The ranks of the users after a reaction to a livestream of [o]. *)
Lemma user_ranks_after_reaction row d o :
  NoDup (map UserModel_ID (users d)) ->
  NoDup (map UserModel_Name (users d)) ->
  In o (users d) ->
  score_can_grow (UserModel_Reactions o) (UserModel_Tips o) ->
  user_rank (reaction_writes row (UserModel_ID o) d) (UserModel_Name o)
  <= user_rank d (UserModel_Name o) /\
  forall other, In other (users d) -> other <> o ->
    user_rank d (UserModel_Name other)
    <= user_rank (reaction_writes row (UserModel_ID o) d) (UserModel_Name other)
    <= user_rank d (UserModel_Name other) + 1.
Proof.
  intros Hids Hnd Hin Hgrow.
  pose proof (user_entry_grows o Hgrow) as Hlt.
  assert (Huniq : forall x, In x (users d) -> UserModel_ID x = UserModel_ID o -> x = o).
  { intros x Hx Hk. apply (unique_key UserModel_ID (users d)); auto. }
  assert (Hnd' : NoDup (map UserModel_Name
                          (users (reaction_writes row (UserModel_ID o) d)))).
  { rewrite reaction_writes_users. unfold grown. rewrite map_map.
    erewrite map_ext; [exact Hnd|]. intros x. cbn beta.
    destruct (UserModel_ID x =? UserModel_ID o); reflexivity. }
  assert (Hin' : forall x, In x (users d) ->
                   In (if UserModel_ID x =? UserModel_ID o then grow_user x else x)
                      (users (reaction_writes row (UserModel_ID o) d))).
  { intros x Hx. rewrite reaction_writes_users. apply grown_In, Hx. }
  split.
  - rewrite (user_rank_spec d _ o Hnd (select_user_by_name_in d o Hnd Hin)).
    pose proof (Hin' o Hin) as Hl'. rewrite Z.eqb_refl in Hl'.
    pose proof (select_user_by_name_in _ _ Hnd' Hl') as Hsel'.
    change (UserModel_Name (grow_user o)) with (UserModel_Name o) in Hsel'.
    rewrite (user_rank_spec _ _ _ Hnd' Hsel'), reaction_writes_users.
    pose proof (count_greater_grown_target UserRanking_Less
                  UserRanking_Less_trans UserRanking_Less_irrefl
                  UserModel_ID user_entry grow_user
                  (UserModel_ID o) (users d) o Huniq Hlt).
    lia.
  - intros other Ho Hne.
    rewrite (user_rank_spec d _ other Hnd (select_user_by_name_in d other Hnd Ho)).
    pose proof (Hin' other Ho) as Ho'.
    destruct (Z.eqb_spec (UserModel_ID other) (UserModel_ID o))
      as [Hk|Hk]; [exfalso; apply Hne, Huniq; assumption|].
    pose proof (select_user_by_name_in _ _ Hnd' Ho') as Hsel'.
    rewrite (user_rank_spec _ _ _ Hnd' Hsel'), reaction_writes_users.
    pose proof (count_greater_grown_other UserRanking_Less
                  UserRanking_Less_trans
                  UserModel_ID user_entry grow_user
                  (UserModel_ID o) (users d) o
                  (user_entry other) Hids Huniq Hlt).
    lia.
Qed.

(** X14.  A reaction never lowers a rank it counts for.  After an answer
    201 of [postReactionHandler], on a store with unique keys and scores
    that fit an [int64], the livestream keeps or improves its rank (its
    rank number does not grow) and so does its owner in the ranking of
    the users, while every other livestream and every other user keeps
    its rank or loses exactly one place. *)
Theorem reaction_never_lowers_the_rank (TAGS : Z -> string)
    (now userID livestreamID : Z) (emojiName : string) (reactionID : Z) (w : World)
    (reaction : Reaction) (l : LivestreamModel) (o : UserModel) :
  fst (postReactionHandler TAGS now userID livestreamID emojiName reactionID w)
  = AnswerJSON StatusCreated reaction ->
  NoDup (map LivestreamModel_ID (livestreams (committed w))) ->
  NoDup (map UserModel_ID (users (committed w))) ->
  NoDup (map UserModel_Name (users (committed w))) ->
  select_livestream (committed w) livestreamID = Some l ->
  select_user_by_id (committed w) (LivestreamModel_UserID l) = Some o ->
  score_can_grow (LivestreamModel_Reactions l) (LivestreamModel_Tips l) ->
  score_can_grow (UserModel_Reactions o) (UserModel_Tips o) ->
  let d := committed w in
  let d' := committed (snd (postReactionHandler TAGS now userID livestreamID emojiName
                              reactionID w)) in
  livestream_rank d' livestreamID <= livestream_rank d livestreamID /\
  user_rank d' (UserModel_Name o) <= user_rank d (UserModel_Name o) /\
  (forall other, In other (livestreams d) -> other <> l ->
     livestream_rank d (LivestreamModel_ID other)
     <= livestream_rank d' (LivestreamModel_ID other)
     <= livestream_rank d (LivestreamModel_ID other) + 1) /\
  (forall other, In other (users d) -> other <> o ->
     user_rank d (UserModel_Name other)
     <= user_rank d' (UserModel_Name other)
     <= user_rank d (UserModel_Name other) + 1).
Proof.
  intros Hans Hls Hids Hnames Hsel Ho Hgl Hgo. cbv zeta.
  destruct (postReaction_cases TAGS now userID livestreamID emojiName reactionID w)
    as [[_ He] | (l' & reaction' & Hsel' & _ & _ & _ & _ & ->)].
  { rewrite Hans in He. discriminate. }
  rewrite Hsel in Hsel'. injection Hsel' as <-.
  apply select_livestream_found in Hsel as [Hin Hid].
  apply select_user_by_id_found in Ho as [Hoin Hoid].
  destruct (livestream_ranks_after_reaction
              (reaction_row now userID livestreamID emojiName reactionID)
              (LivestreamModel_UserID l) (committed w) l Hls Hin Hid Hgl) as (Hl1 & Hl2).
  rewrite Hid in Hl1.
  destruct (user_ranks_after_reaction
              (reaction_row now userID livestreamID emojiName reactionID)
              (committed w) o Hids Hnames Hoin Hgo) as (Hu1 & Hu2).
  rewrite Hoid in Hu1, Hu2.
  repeat split; auto; try apply Hl2; try apply Hu2; auto.
Qed.

Lemma reaction_never_lowers_the_rank_witness :
  let d := committed ex_stats_world in
  let d' := committed (snd (postReactionHandler ex_TAGS 0 3 1 "star" 4 ex_stats_world)) in
  livestream_rank d' 1 <= livestream_rank d 1 /\
  user_rank d' "alice" <= user_rank d "alice" /\
  (livestream_rank d 1, livestream_rank d' 1, livestream_rank d 2, livestream_rank d' 2)
  = (2, 1, 1, 2).
Proof.
  assert (H0 : exists reaction,
             fst (postReactionHandler ex_TAGS 0 3 1 "star" 4 ex_stats_world)
             = AnswerJSON StatusCreated reaction)
    by (eexists; vm_compute; reflexivity).
  destruct H0 as (reaction & H0).
  assert (H1 : NoDup (map LivestreamModel_ID (livestreams (committed ex_stats_world))))
    by (apply (bool_decide_unpack _); vm_compute; exact I).
  assert (H2 : NoDup (map UserModel_ID (users (committed ex_stats_world))))
    by (apply (bool_decide_unpack _); vm_compute; exact I).
  assert (H3 : NoDup (map UserModel_Name (users (committed ex_stats_world))))
    by (apply (bool_decide_unpack _); vm_compute; exact I).
  assert (H4 : select_livestream (committed ex_stats_world) 1
               = Some (ex_livestream 1 1 10 5)) by (vm_compute; reflexivity).
  assert (H5 : select_user_by_id (committed ex_stats_world)
                 (LivestreamModel_UserID (ex_livestream 1 1 10 5)) = Some ex_alice)
    by (vm_compute; reflexivity).
  assert (H6 : score_can_grow (LivestreamModel_Reactions (ex_livestream 1 1 10 5))
                 (LivestreamModel_Tips (ex_livestream 1 1 10 5)))
    by (vm_compute; repeat split; discriminate).
  assert (H7 : score_can_grow (UserModel_Reactions ex_alice) (UserModel_Tips ex_alice))
    by (vm_compute; repeat split; discriminate).
  destruct (reaction_never_lowers_the_rank ex_TAGS 0 3 1 "star" 4 ex_stats_world
              reaction _ _ H0 H1 H2 H3 H4 H5 H6 H7) as (Ha & Hb & _).
  cbv zeta. split; [exact Ha|]. split; [exact Hb|]. vm_compute. reflexivity.
Defined.

(** * Sessions: [verifyUserSession] and [loginHandler] *)

Definition StatusUnauthorized : Z := 401.
Definition StatusForbidden : Z := 403.

Definition defaultSessionIDKey : string := "SESSIONID".
Definition defaultSessionExpiresKey : string := "EXPIRES".
Definition defaultUserIDKey : string := "USERID".
Definition defaultUsernameKey : string := "USERNAME".

(** The values this application stores in [sess.Values]: strings and
    [int64]s. *)
Inductive SessionValue :=
| VInt64 (z : Z)
| VString (s : string).

(** What [verifyUserSession] does: it returns nil, it returns an
    [echo.NewHTTPError], or the type assertion [sessionExpires.(int64)]
    panics. *)
Inductive Verdict :=
| Verified
| Rejected (code : Z) (message : string)
| Panics.

(** [func verifyUserSession(c echo.Context) error].  [session] is what
    [session.Get] returns: the values of the session, or [None] for an
    error. *)
Definition verifyUserSession (now : Z) (session : option (gmap string SessionValue))
  : Verdict :=
  match session with
  | None => Rejected StatusUnauthorized "failed to get session"
  | Some values =>
      match values !! defaultSessionExpiresKey with
      | None => Rejected StatusForbidden "failed to get EXPIRES value from session"
      | Some sessionExpires =>
          match values !! defaultUserIDKey with
          | Some (VInt64 _) =>
              match sessionExpires with
              | VInt64 expires =>
                  if expires <? unix now
                  then Rejected StatusUnauthorized "session has expired"
                  else Verified
              | VString _ => Panics
              end
          | _ => Rejected StatusUnauthorized "failed to get USERID value from session"
          end
      end
  end.

Record LoginRequest := {
  LoginRequest_Username : string;
  LoginRequest_Password : string
}.

(** The three outcomes of [bcrypt.CompareHashAndPassword] the handler
    tells apart. *)
Inductive CompareResult :=
| PasswordMatches
| ErrMismatchedHashAndPassword
| CompareError (message : string).

(** [1 * time.Hour], in nanoseconds. *)
Definition Hour : Z := 60 * GoTime.Minute.

Section Login.

(** [golang.org/x/crypto/bcrypt] *)
Variable CompareHashAndPassword : string -> string -> CompareResult.

(** The values [loginHandler] stores before [sess.Save]. *)
Definition login_values (now : Z) (sessionID : string) (userModel : UserModel)
    (values : gmap string SessionValue) : gmap string SessionValue :=
  <[defaultSessionExpiresKey := VInt64 (unix (now + Hour))]>
    (<[defaultUsernameKey := VString (UserModel_Name userModel)]>
       (<[defaultUserIDKey := VInt64 (UserModel_ID userModel)]>
          (<[defaultSessionIDKey := VString sessionID]> values))).

(** [func loginHandler(c echo.Context) error], after the decoding of the
    body.  [sessionID] is the value of [uuid.NewString()] and [session]
    what [session.Get] returns.  Besides the answer the handler yields
    the session it has saved, if it got that far. *)
Definition loginHandler (now : Z) (req : LoginRequest) (sessionID : string)
    (session : option (gmap string SessionValue)) (w : World)
  : Answer unit * option (gmap string SessionValue) * World :=
  let w1 := snd (BeginTxx w) in
  match getUserByName now (LoginRequest_Username req) w1 with
  | (Ok (Some userModel), w2) =>
      let w3 := snd (Commit w2) in
      match CompareHashAndPassword (UserModel_HashedPassword (deref w3 userModel))
              (LoginRequest_Password req) with
      | ErrMismatchedHashAndPassword =>
          (EchoError StatusUnauthorized "invalid username or password", None,
           Rollback w3)
      | CompareError message =>
          (EchoError StatusInternalServerError
             ("failed to compare hash and password: " +:+ message), None, Rollback w3)
      | PasswordMatches =>
          match session with
          | None =>
              (EchoError StatusUnauthorized "failed to get session", None, Rollback w3)
          | Some values =>
              (AnswerNoContent StatusOK,
               Some (login_values now sessionID (deref w3 userModel) values),
               Rollback w3)
          end
      end
  | (Ok None, w2) =>
      (EchoError StatusUnauthorized "invalid username or password", None, Rollback w2)
  | (Return _, w2) =>
      (EchoError StatusInternalServerError "failed to get user: ", None, Rollback w2)
  end.

Lemma unix_add_Hour now : unix (now + Hour) = unix now + 3600.
Proof.
  unfold unix, Hour, GoTime.Minute, GoTime.Millisecond.
  replace (now + 60 * (60 * 1000 * 1000000)) with (now + 3600 * 1000000000) by lia.
  apply Z.div_add. discriminate.
Qed.

Lemma login_values_lookup now sessionID userModel values :
  login_values now sessionID userModel values !! defaultSessionExpiresKey
  = Some (VInt64 (unix now + 3600)) /\
  login_values now sessionID userModel values !! defaultUserIDKey
  = Some (VInt64 (UserModel_ID userModel)) /\
  login_values now sessionID userModel values !! defaultUsernameKey
  = Some (VString (UserModel_Name userModel)).
Proof.
  unfold login_values. rewrite <- unix_add_Hour. split; [|split].
  - apply lookup_insert_eq.
  - rewrite !lookup_insert_ne by discriminate. apply lookup_insert_eq.
  - rewrite lookup_insert_ne by discriminate. apply lookup_insert_eq.
Qed.

(** X15.  A login is good for one hour.  When [loginHandler] answers 200
    it has saved a session that [verifyUserSession] accepts at every
    instant whose Unix second is at most 3600 past the second of the
    login, and rejects with 401 "session has expired" afterwards; it
    never makes [verifyUserSession] panic.  On a cache with sound name
    keys the user id in the session is the id of the store's row of the
    name that logged in.  A login that does not answer 200 saves
    nothing. *)
Theorem login_session_lasts_an_hour (now t : Z) (req : LoginRequest)
    (sessionID : string) (session : option (gmap string SessionValue)) (w : World) :
  let answer := fst (fst (loginHandler now req sessionID session w)) in
  let saved := snd (fst (loginHandler now req sessionID session w)) in
  (answer = AnswerNoContent StatusOK ->
   exists values,
     saved = Some values /\
     verifyUserSession t (Some values)
     = (if unix t <=? unix now + 3600 then Verified
        else Rejected StatusUnauthorized "session has expired") /\
     forall row,
       name_keys_sound w ->
       select_user_by_name (committed w) (LoginRequest_Username req) = Some row ->
       values !! defaultUserIDKey = Some (VInt64 (UserModel_ID row))) /\
  (answer <> AnswerNoContent StatusOK -> saved = None).
Proof.
  cbv zeta. unfold loginHandler. cbv zeta.
  destruct (getUserByName now (LoginRequest_Username req) (snd (BeginTxx w)))
    as [r w2] eqn:Hu.
  destruct (getUserByName_ok now (LoginRequest_Username req) (snd (BeginTxx w)))
    as (o & Ho). rewrite Hu in Ho. cbn [fst] in Ho. subst r.
  destruct o as [p|]; [|split; [discriminate | reflexivity]].
  destruct (CompareHashAndPassword _ _);
    [|split; [discriminate | reflexivity] ..].
  destruct session as [values|]; [|split; [discriminate | reflexivity]].
  cbn [fst snd]. split; [|intros H; contradiction].
  intros _. eexists. split; [reflexivity|].
  destruct (login_values_lookup now sessionID (deref (snd (Commit w2)) p) values)
    as (He & Hi & _).
  split.
  - unfold verifyUserSession. rewrite He, Hi.
    destruct (Z.ltb_spec (unix now + 3600) (unix t)),
             (Z.leb_spec (unix t) (unix now + 3600)); try lia; reflexivity.
  - intros row Hsound Hsel. rewrite Hi.
    destruct (getUserByName_resolves now (LoginRequest_Username req) _ row
                (name_keys_sound_begun w Hsound) Hsel) as (p' & w2' & Hu' & _ & Hid).
    rewrite Hu in Hu'. injection Hu' as <- <-.
    change (deref (snd (Commit w2)) p) with (deref w2 p). rewrite Hid. reflexivity.
Qed.

(** X16.  Failed logins look alike.  A login for a name the store does
    not know (on a cache with sound name keys) and a login whose password
    does not match the hash of the user found get the same answer, 401
    "invalid username or password", and neither saves a session nor
    writes to the store. *)
Theorem failed_logins_look_alike (now : Z) (req : LoginRequest) (sessionID : string)
    (session : option (gmap string SessionValue)) (w : World) :
  (name_keys_sound w /\
   select_user_by_name (committed w) (LoginRequest_Username req) = None)
  \/
  (exists userModel w2,
     getUserByName now (LoginRequest_Username req) (snd (BeginTxx w))
     = (Ok (Some userModel), w2) /\
     CompareHashAndPassword (UserModel_HashedPassword (deref w2 userModel))
       (LoginRequest_Password req)
     = ErrMismatchedHashAndPassword) ->
  fst (loginHandler now req sessionID session w)
  = (EchoError StatusUnauthorized "invalid username or password", None) /\
  committed (snd (loginHandler now req sessionID session w)) = committed w.
Proof.
  intros [[Hsound Hnone] | (userModel & w2 & Hu & Hcmp)]; unfold loginHandler; cbv zeta.
  - pose proof (getUserByName_unknown now _ _ (name_keys_sound_begun w Hsound) Hnone)
      as Hu.
    destruct (getUserByName now (LoginRequest_Username req) (snd (BeginTxx w)))
      as [r w2] eqn:Hget.
    cbn [fst] in Hu. subst r. cbn [fst snd]. split; [reflexivity|].
    rewrite Rollback_committed.
    apply getUserByName_frame in Hget as (Hc & _). exact Hc.
  - rewrite Hu.
    change (deref (snd (Commit w2)) userModel) with (deref w2 userModel).
    rewrite Hcmp. cbn [fst snd]. split; [reflexivity|].
    rewrite Rollback_committed, Commit_committed.
    apply getUserByName_frame in Hu as (_ & Hw & _). exact Hw.
Qed.

End Login.

(** A stand-in for bcrypt in the examples: the hash is the password. *)
Definition ex_compare (hash password : string) : CompareResult :=
  if String.eqb hash password then PasswordMatches else ErrMismatchedHashAndPassword.

Lemma login_session_lasts_an_hour_witness :
  let login :=
    loginHandler ex_compare 5000000000
      {| LoginRequest_Username := "bob"; LoginRequest_Password := "y" |}
      "0b7e" (Some ∅) ex_world in
  fst (fst login) = AnswerNoContent StatusOK /\
  verifyUserSession 3605999999999 (snd (fst login)) = Verified /\
  verifyUserSession 3606000000000 (snd (fst login))
  = Rejected StatusUnauthorized "session has expired".
Proof.
  cbv zeta.
  assert (H : fst (fst (loginHandler ex_compare 5000000000
                          {| LoginRequest_Username := "bob";
                             LoginRequest_Password := "y" |}
                          "0b7e" (Some ∅) ex_world))
              = AnswerNoContent StatusOK) by (vm_compute; reflexivity).
  split; [exact H|].
  split.
  - destruct (proj1 (login_session_lasts_an_hour ex_compare 5000000000 3605999999999
                       {| LoginRequest_Username := "bob"; LoginRequest_Password := "y" |}
                       "0b7e" (Some ∅) ex_world) H) as (values & -> & Hv & _).
    exact Hv.
  - destruct (proj1 (login_session_lasts_an_hour ex_compare 5000000000 3606000000000
                       {| LoginRequest_Username := "bob"; LoginRequest_Password := "y" |}
                       "0b7e" (Some ∅) ex_world) H) as (values & -> & Hv & _).
    exact Hv.
Defined.

Lemma failed_logins_look_alike_witness :
  fst (loginHandler ex_compare 0
         {| LoginRequest_Username := "mallory"; LoginRequest_Password := "y" |}
         "0b7e" (Some ∅) ex_world)
  = fst (loginHandler ex_compare 0
           {| LoginRequest_Username := "bob"; LoginRequest_Password := "x" |}
           "0b7e" (Some ∅) ex_world).
Proof.
  assert (H1 : name_keys_sound ex_world /\
               select_user_by_name (committed ex_world)
                 (LoginRequest_Username
                    {| LoginRequest_Username := "mallory";
                       LoginRequest_Password := "y" |}) = None)
    by (split; [apply name_keys_sound_empty; reflexivity | vm_compute; reflexivity]).
  rewrite (proj1 (failed_logins_look_alike ex_compare 0
                    {| LoginRequest_Username := "mallory"; LoginRequest_Password := "y" |}
                    "0b7e" (Some ∅) ex_world (or_introl H1))).
  vm_compute. reflexivity.
Defined.

(** * Searching livestreams: [searchLivestreamsHandler] *)

(** Row of [tags]. *)
Record TagModel := { TagModel_ID : Z; TagModel_Name : string }.

(** [c.QueryParam("limit")] as the handler reads it: empty, not an
    integer for [strconv.Atoi], or an integer. *)
Inductive LimitParam :=
| LimitEmpty
| LimitNotInteger
| LimitInteger (limit : Z).

(** A handler run ends with an answer or with a panic (here: a nil
    [*UserModel] is dereferenced). *)
Inductive Run (A : Type) :=
| Returns (answer : Answer A)
| NilPointerPanic.
Arguments Returns {A} answer.
Arguments NilPointerPanic {A}.

(** [func getUserOnlyCache(userId int64) *UserModel] *)
Definition getUserOnlyCache (now userId : Z) (w : World) : option nat * World :=
  match lookup_cached now (key_id userId) w with
  | Some (u, w') => (Some u, w')
  | None => (None, w)
  end.

(** [ORDER BY id DESC] on rows of [livestreams]. *)
Definition id_desc (a b : LivestreamModel) : bool :=
  LivestreamModel_ID b <? LivestreamModel_ID a.

(** [SELECT * FROM livestreams ORDER BY id DESC], with [LIMIT n] when a
    limit is given. *)
Definition select_livestreams_desc (d : DB) (limit : option Z) : list LivestreamModel :=
  let rows := sort_Sort id_desc (livestreams d) in
  match limit with
  | None => rows
  | Some n => firstn (Z.to_nat n) rows
  end.

(** What a scan of the columns [id, user_id, title, description,
    playlist_url, thumbnail_url, start_at, end_at] leaves in a fresh
    [LivestreamModel]. *)
Definition scan_livestream_columns (row : LivestreamModel) : LivestreamModel :=
  {| LivestreamModel_ID := LivestreamModel_ID row;
     LivestreamModel_UserID := LivestreamModel_UserID row;
     LivestreamModel_Title := LivestreamModel_Title row;
     LivestreamModel_Description := LivestreamModel_Description row;
     LivestreamModel_PlaylistUrl := LivestreamModel_PlaylistUrl row;
     LivestreamModel_ThumbnailUrl := LivestreamModel_ThumbnailUrl row;
     LivestreamModel_StartAt := LivestreamModel_StartAt row;
     LivestreamModel_EndAt := LivestreamModel_EndAt row;
     LivestreamModel_Reactions := 0; LivestreamModel_Tips := 0;
     LivestreamModel_MaxTip := 0 |}.

(** The [ON] condition of the join, for one livestream. *)
Definition tagged_with (tagIDList : list Z) (l : LivestreamModel)
    (t : LivestreamTagModel) : bool :=
  existsb (Z.eqb (LivestreamTagModel_TagID t)) tagIDList
  && (LivestreamTagModel_LivestreamID t =? LivestreamModel_ID l).

(** [SELECT livestreams.id, ..., livestreams.end_at FROM livestreams
     JOIN livestream_tags ON livestream_tags.tag_id IN (?)
       AND livestream_tags.livestream_id = livestreams.id
     ORDER BY livestreams.id DESC]: one row per matching pair. *)
Definition select_tagged_livestreams (d : DB) (tagIDList : list Z)
  : list LivestreamModel :=
  sort_Sort id_desc
    (flat_map
       (fun l => map (fun _ => scan_livestream_columns l)
                   (List.filter (tagged_with tagIDList l) (livestream_tags d)))
       (livestreams d)).

(** [SELECT id, name, ..., icon_hash FROM users WHERE id IN (?)] *)
Definition select_users_in (d : DB) (userIds : list Z) : list UserModel :=
  map scan_user_columns
    (List.filter (fun u => existsb (Z.eqb (UserModel_ID u)) userIds) (users d)).

(** [for _, model := range livestreamModels {
       userModel := getUserOnlyCache(model.UserID)
       if userModel != nil { users[userModel.ID] = userModel }
       else { userIds = append(userIds, model.UserID) } }] *)
Fixpoint collect_cached (now : Z) (livestreamModels : list LivestreamModel)
    (users : gmap Z nat) (userIds : list Z) (w : World)
  : gmap Z nat * list Z * World :=
  match livestreamModels with
  | [] => (users, userIds, w)
  | model :: rest =>
      match getUserOnlyCache now (LivestreamModel_UserID model) w with
      | (Some userModel, w1) =>
          collect_cached now rest
            (<[UserModel_ID (deref w1 userModel) := userModel]> users) userIds w1
      | (None, w1) =>
          collect_cached now rest users (userIds ++ [LivestreamModel_UserID model]) w1
      end
  end.

(** [for _, userModel := range userModels { users[userModel.ID] = userModel }],
    each scanned row being a fresh object. *)
Fixpoint store_users (userModels : list UserModel) (users : gmap Z nat) (w : World)
  : gmap Z nat * World :=
  match userModels with
  | [] => (users, w)
  | userModel :: rest =>
      store_users rest
        (<[UserModel_ID userModel := length (heap w)]> users)
        (set_caches (heap w ++ [userModel]) (userCache w) (iconCache w) w)
  end.

Section Search.

Variable TAGS : Z -> string.

(** The table [tags], which no handler writes. *)
Variable tags_table : list TagModel.

(** The text of the store's error for [LIMIT n] with a negative [n]. *)
Variable limit_error : Z -> string.

(** [SELECT id FROM tags WHERE name = ?] *)
Definition select_tag_ids_by_name (name : string) : list Z :=
  map TagModel_ID
    (List.filter (fun t => String.eqb (TagModel_Name t) name) tags_table).

(** The final loop: [fillLivestreamResponse] with [users[model.UserID]],
    which is nil for a user id that is not in the map, and
    [tags[model.ID]]. *)
Fixpoint fill_found (users : gmap Z nat) (tags : gmap Z (list Z)) (w : World)
    (livestreamModels : list LivestreamModel) : option (list Livestream) :=
  match livestreamModels with
  | [] => Some []
  | model :: rest =>
      match users !! LivestreamModel_UserID model with
      | None => None
      | Some userModel =>
          option_map
            (cons (fillLivestreamResponse TAGS model (deref w userModel)
                     (default [] (tags !! LivestreamModel_ID model))))
            (fill_found users tags w rest)
      end
  end.

(** The part of the handler after the livestreams are selected. *)
Definition fill_search (now : Z) (livestreamModels : list LivestreamModel) (w : World)
  : Run (list Livestream) * World :=
  let '(users, tags, w3) :=
    match livestreamModels with
    | [] => (∅, ∅, w)
    | _ :: _ =>
        let tags :=
          group_tags
            (select_tags_in (working w) (map LivestreamModel_ID livestreamModels)) in
        let '(users, userIds, w1) := collect_cached now livestreamModels ∅ [] w in
        match userIds with
        | [] => (users, tags, w1)
        | _ :: _ =>
            let '(users, w2) :=
              store_users (select_users_in (working w1) userIds) users w1 in
            (users, tags, w2)
        end
    end in
  match fill_found users tags w3 livestreamModels with
  | None => leave NilPointerPanic w3
  | Some livestreams =>
      leave (Returns (AnswerJSON StatusOK livestreams)) (snd (Commit w3))
  end.

(** [func searchLivestreamsHandler(c echo.Context) error] *)
Definition searchLivestreamsHandler (now : Z) (keyTagName : string)
    (limit : LimitParam) (w : World) : Run (list Livestream) * World :=
  let w1 := snd (BeginTxx w) in
  if negb (String.eqb keyTagName "") then
    match select_tag_ids_by_name keyTagName with
    | [] =>
        leave (Returns (EchoError StatusInternalServerError
                 "failed to construct IN query: empty slice passed to 'in' query")) w1
    | tagIDList =>
        fill_search now (select_tagged_livestreams (working w1) tagIDList) w1
    end
  else
    match limit with
    | LimitEmpty => fill_search now (select_livestreams_desc (working w1) None) w1
    | LimitNotInteger =>
        leave (Returns (EchoError StatusBadRequest
                 "limit query parameter must be integer")) w1
    | LimitInteger n =>
        if n <? 0
        then leave (Returns (EchoError StatusInternalServerError
                      ("failed to get livestreams: " +:+ limit_error n))) w1
        else fill_search now (select_livestreams_desc (working w1) (Some n)) w1
    end.

End Search.

(** ** What the search relies on *)

(** Every id key of the user cache points to an object with that id.
    The two populating lookups establish this and nothing else writes
    the cache. *)
Definition id_keys_sound (w : World) : Prop :=
  forall userId p expire,
    userCache w !! key_id userId = Some (p, expire) ->
    (p < length (heap w))%nat /\ UserModel_ID (deref w p) = userId.

(** Every livestream has the row of its owner. *)
Definition owners_exist (d : DB) : Prop :=
  forall l, In l (livestreams d) ->
            In (LivestreamModel_UserID l) (map UserModel_ID (users d)).

(** The map [users] of the handler holds, under each key, an object
    with that id. *)
Definition users_ok (users : gmap Z nat) (w : World) : Prop :=
  forall k p, users !! k = Some p ->
              (p < length (heap w))%nat /\ UserModel_ID (deref w p) = k.

(** [w'] differs from [w] in the heap only, where the objects of [w]
    have kept their ids. *)
Definition grows (w w' : World) : Prop :=
  committed w' = committed w /\ working w' = working w /\
  tx_done w' = tx_done w /\ trace w' = trace w /\
  userCache w' = userCache w /\ iconCache w' = iconCache w /\
  (length (heap w) <= length (heap w'))%nat /\
  forall p, (p < length (heap w))%nat ->
            UserModel_ID (deref w' p) = UserModel_ID (deref w p).

Lemma grows_refl w : grows w w.
Proof. unfold grows. repeat split; auto. Qed.

Lemma grows_trans w1 w2 w3 : grows w1 w2 -> grows w2 w3 -> grows w1 w3.
Proof.
  intros (a1 & a2 & a3 & a4 & a5 & a6 & a7 & a8) (b1 & b2 & b3 & b4 & b5 & b6 & b7 & b8).
  unfold grows. repeat split; try congruence; try lia.
  intros p Hp. rewrite b8 by lia. apply a8. exact Hp.
Qed.

Lemma grows_id_keys_sound w w' : grows w w' -> id_keys_sound w -> id_keys_sound w'.
Proof.
  intros (_ & _ & _ & _ & Hu & _ & Hl & Hid) Hs userId p e Hk. rewrite Hu in Hk.
  destruct (Hs _ _ _ Hk) as (Hp & Hi). split; [lia|]. rewrite Hid by exact Hp. exact Hi.
Qed.

Lemma grows_users_ok users w w' : grows w w' -> users_ok users w -> users_ok users w'.
Proof.
  intros (_ & _ & _ & _ & _ & _ & Hl & Hid) Hs k p Hk.
  destruct (Hs _ _ Hk) as (Hp & Hi). split; [lia|]. rewrite Hid by exact Hp. exact Hi.
Qed.

Lemma lookup_cached_grows now key w u w' :
  lookup_cached now key w = Some (u, w') -> grows w w'.
Proof.
  intros H. pose proof (lookup_cached_frame _ _ _ _ _ H) as (a1 & a2 & a3 & a4 & a5 & a6).
  unfold grows. repeat split; auto.
  - unfold lookup_cached in H.
    destruct (gocache.Get now (userCache w) key); [|discriminate].
    destruct (gocache.Get now (iconCache w) _); [|discriminate].
    injection H as <- <-. cbn [heap set_caches]. rewrite length_insert. lia.
  - intros p _. unfold lookup_cached in H.
    destruct (gocache.Get now (userCache w) key); [|discriminate].
    destruct (gocache.Get now (iconCache w) _); [|discriminate].
    injection H as <- <-. unfold deref at 1. cbn [heap set_caches].
    apply deref_with_IconHash.
Qed.

Lemma lookup_cached_key now key w u w' :
  lookup_cached now key w = Some (u, w') ->
  exists expire, userCache w !! key = Some (u, expire).
Proof.
  unfold lookup_cached, gocache.Get. intros H.
  destruct (userCache w !! key) as [[v e]|]; [|discriminate].
  destruct (now <? e); [|discriminate].
  destruct (iconCache w !! _) as [[h e']|]; [|discriminate].
  destruct (now <? e'); [|discriminate].
  injection H as <- _. eauto.
Qed.

Lemma collect_cached_spec now models : forall users userIds w users' userIds' w',
  collect_cached now models users userIds w = (users', userIds', w') ->
  id_keys_sound w -> users_ok users w ->
  grows w w' /\ users_ok users' w' /\
  (forall k, is_Some (users !! k) -> is_Some (users' !! k)) /\
  (forall x, In x userIds -> In x userIds') /\
  (forall m, In m models ->
             is_Some (users' !! LivestreamModel_UserID m) \/
             In (LivestreamModel_UserID m) userIds').
Proof.
  induction models as [|m models IH]; intros users userIds w users' userIds' w' H Hs Hu.
  - injection H as <- <- <-. split; [apply grows_refl|]. split; [exact Hu|].
    split; [auto|]. split; [auto|]. intros m [].
  - cbn [collect_cached] in H. unfold getUserOnlyCache in H.
    destruct (lookup_cached now (key_id (LivestreamModel_UserID m)) w)
      as [[u w1]|] eqn:Hc.
    + pose proof (lookup_cached_grows _ _ _ _ _ Hc) as Hg.
      destruct (lookup_cached_key _ _ _ _ _ Hc) as (e & Hk).
      destruct (Hs _ _ _ Hk) as (Hlt & Hid).
      assert (Hid1 : UserModel_ID (deref w1 u) = LivestreamModel_UserID m).
      { destruct Hg as (_ & _ & _ & _ & _ & _ & _ & Hkeep).
        rewrite Hkeep by exact Hlt. exact Hid. }
      rewrite Hid1 in H.
      assert (Hu1 : users_ok (<[LivestreamModel_UserID m := u]> users) w1).
      { intros k p Hkp. destruct (decide (LivestreamModel_UserID m = k)) as [<-|Hne].
        - rewrite lookup_insert_eq in Hkp. injection Hkp as <-.
          split; [|exact Hid1]. destruct Hg as (_ & _ & _ & _ & _ & _ & Hl & _). lia.
        - rewrite lookup_insert_ne in Hkp by exact Hne.
          exact (grows_users_ok _ _ _ Hg Hu k p Hkp). }
      destruct (IH _ _ _ _ _ _ H (grows_id_keys_sound _ _ Hg Hs) Hu1)
        as (Hg' & Hu' & Hk' & Hx' & Hm').
      split; [eapply grows_trans; eassumption|]. split; [exact Hu'|].
      split; [|split; [exact Hx'|]].
      * intros k Hsome. apply Hk'.
        destruct (decide (LivestreamModel_UserID m = k)) as [<-|Hne].
        -- rewrite lookup_insert_eq. eauto.
        -- rewrite lookup_insert_ne by exact Hne. exact Hsome.
      * intros m' [<-|Hin]; [|apply Hm'; exact Hin].
        left. apply Hk'. rewrite lookup_insert_eq. eauto.
    + destruct (IH _ _ _ _ _ _ H Hs Hu) as (Hg' & Hu' & Hk' & Hx' & Hm').
      split; [exact Hg'|]. split; [exact Hu'|]. split; [exact Hk'|].
      split.
      * intros x Hx. apply Hx'. apply in_or_app. left. exact Hx.
      * intros m' [<-|Hin]; [|apply Hm'; exact Hin].
        right. apply Hx'. apply in_or_app. right. left. reflexivity.
Qed.

Lemma store_users_spec rows : forall users w users' w',
  store_users rows users w = (users', w') ->
  users_ok users w ->
  grows w w' /\ users_ok users' w' /\
  (forall k, is_Some (users !! k) -> is_Some (users' !! k)) /\
  (forall r, In r rows -> is_Some (users' !! UserModel_ID r)).
Proof.
  induction rows as [|r rows IH]; intros users w users' w' H Hu.
  - injection H as <- <-. split; [apply grows_refl|]. split; [exact Hu|].
    split; [auto|]. intros r [].
  - cbn [store_users] in H.
    set (w1 := set_caches (heap w ++ [r]) (userCache w) (iconCache w) w) in *.
    assert (Hg : grows w w1).
    { unfold grows, w1. cbn [committed working tx_done trace userCache iconCache heap
                               set_caches].
      repeat split; auto.
      - rewrite length_app. lia.
      - intros p Hp. unfold deref. cbn [heap set_caches].
        rewrite lookup_app_l by exact Hp. reflexivity. }
    assert (Hu1 : users_ok (<[UserModel_ID r := length (heap w)]> users) w1).
    { intros k p Hkp. destruct (decide (UserModel_ID r = k)) as [<-|Hne].
      - rewrite lookup_insert_eq in Hkp. injection Hkp as <-.
        unfold w1, deref. cbn [heap set_caches]. rewrite length_app. cbn [length].
        split; [lia|]. rewrite lookup_app_r by reflexivity.
        rewrite Nat.sub_diag. reflexivity.
      - rewrite lookup_insert_ne in Hkp by exact Hne.
        exact (grows_users_ok _ _ _ Hg Hu k p Hkp). }
    destruct (IH _ _ _ _ H Hu1) as (Hg' & Hu' & Hk' & Hr').
    split; [eapply grows_trans; eassumption|]. split; [exact Hu'|].
    split.
    + intros k Hsome. apply Hk'.
      destruct (decide (UserModel_ID r = k)) as [<-|Hne].
      * rewrite lookup_insert_eq. eauto.
      * rewrite lookup_insert_ne by exact Hne. exact Hsome.
    + intros r' [<-|Hin]; [|apply Hr'; exact Hin].
      apply Hk'. rewrite lookup_insert_eq. eauto.
Qed.

Lemma select_users_in_covers d userIds x :
  In x userIds -> In x (map UserModel_ID (users d)) ->
  exists r, In r (select_users_in d userIds) /\ UserModel_ID r = x.
Proof.
  intros Hx Hin. apply in_map_iff in Hin as (row & Hid & Hrow).
  exists (scan_user_columns row). split; [|exact Hid].
  unfold select_users_in. apply in_map. apply filter_In. split; [exact Hrow|].
  apply existsb_exists. exists x. split; [exact Hx|]. apply Z.eqb_eq. exact Hid.
Qed.

(** An entry of the answer: the livestream [m] with an owner object of
    the id [m] names and the tags of [m] in the store. *)
Definition shows (TAGS : Z -> string) (d : DB) (e : Livestream) (m : LivestreamModel)
  : Prop :=
  exists owner,
    UserModel_ID owner = LivestreamModel_UserID m /\
    e = fillLivestreamResponse TAGS m owner (select_tag_ids d (LivestreamModel_ID m)).

Lemma fill_found_spec TAGS d ids users w models :
  users_ok users w ->
  (forall m, In m models -> is_Some (users !! LivestreamModel_UserID m)) ->
  (forall m, In m models -> In (LivestreamModel_ID m) ids) ->
  exists livestreams,
    fill_found TAGS users (group_tags (select_tags_in d ids)) w models = Some livestreams /\
    Forall2 (shows TAGS d) livestreams models.
Proof.
  intros Hu. induction models as [|m models IH]; intros Hm Hids.
  - exists []. split; [reflexivity | constructor].
  - destruct IH as (ls & Hls & Hall).
    { intros m' Hin. apply Hm. right. exact Hin. }
    { intros m' Hin. apply Hids. right. exact Hin. }
    cbn [fill_found]. destruct (Hm m (or_introl eq_refl)) as (p & Hp).
    rewrite Hp, Hls. cbn [option_map]. eexists. split; [reflexivity|].
    constructor; [|exact Hall].
    exists (deref w p). split; [apply (Hu _ _ Hp)|].
    rewrite group_tags_select by (apply Hids; left; reflexivity). reflexivity.
Qed.

Lemma fill_search_spec TAGS now models w :
  id_keys_sound w ->
  (forall m, In m models ->
             In (LivestreamModel_UserID m) (map UserModel_ID (users (working w)))) ->
  exists livestreams,
    fst (fill_search TAGS now models w) = Returns (AnswerJSON StatusOK livestreams) /\
    Forall2 (shows TAGS (working w)) livestreams models /\
    committed (snd (fill_search TAGS now models w)) = working w.
Proof.
  intros Hs Hown. unfold fill_search.
  destruct models as [|m0 models0] eqn:Hmodels.
  { exists []. cbn [fill_found]. split; [reflexivity|]. split; [constructor|].
    rewrite leave_committed, Commit_committed. reflexivity. }
  rewrite <- Hmodels in *. clear Hmodels.
  destruct (collect_cached now models ∅ [] w) as [[users userIds] w1] eqn:Hc.
  destruct (collect_cached_spec _ _ _ _ _ _ _ _ Hc Hs) as (Hg & Hu & _ & _ & Hm).
  { intros k p Hk. rewrite lookup_empty in Hk. discriminate. }
  assert (Hids : forall m, In m models ->
                           In (LivestreamModel_ID m) (map LivestreamModel_ID models))
    by (intros m Hin; apply in_map; exact Hin).
  destruct userIds as [|x xs] eqn:Hx.
  - destruct (fill_found_spec TAGS (working w) (map LivestreamModel_ID models)
                users w1 models Hu) as (ls & Hls & Hall); [|exact Hids|].
    { intros m Hin. destruct (Hm m Hin) as [H|[]]. exact H. }
    rewrite Hls. exists ls. split; [reflexivity|]. split; [exact Hall|].
    rewrite leave_committed, Commit_committed. apply Hg.
  - rewrite <- Hx in *. clear Hx.
    destruct (store_users (select_users_in (working w1) userIds) users w1)
      as [users2 w2] eqn:Hst.
    destruct (store_users_spec _ _ _ _ _ Hst Hu) as (Hg2 & Hu2 & Hk2 & Hr2).
    destruct (fill_found_spec TAGS (working w) (map LivestreamModel_ID models)
                users2 w2 models Hu2) as (ls & Hls & Hall); [|exact Hids|].
    { intros m Hin. destruct (Hm m Hin) as [H|H]; [apply Hk2; exact H|].
      destruct (select_users_in_covers (working w1) userIds _ H) as (r & Hr & Hid).
      - destruct Hg as (_ & -> & _). apply Hown. exact Hin.
      - rewrite <- Hid. apply Hr2. exact Hr. }
    rewrite Hls. exists ls. split; [reflexivity|]. split; [exact Hall|].
    rewrite leave_committed, Commit_committed.
    destruct Hg2 as (_ & -> & _). apply Hg.
Qed.

(** ** The order of the answer *)

Definition newest_first (l : list LivestreamModel) : Prop :=
  StronglySorted (fun a b => LivestreamModel_ID b <= LivestreamModel_ID a) l.

Lemma sort_insert_newest_first x l :
  newest_first l -> newest_first (sort_insert id_desc x l).
Proof.
  unfold newest_first. induction l as [|y l IH]; cbn [sort_insert]; intros Hs.
  - repeat constructor.
  - apply StronglySorted_inv in Hs as [Hl Hy]. unfold id_desc at 1.
    destruct (Z.ltb_spec (LivestreamModel_ID x) (LivestreamModel_ID y)) as [Hlt|Hge].
    + constructor; [apply IH; exact Hl|].
      apply (Permutation_Forall (sort_insert_perm id_desc x l)).
      constructor; [lia | exact Hy].
    + constructor; [constructor; assumption|].
      constructor; [exact Hge|].
      eapply Forall_impl; [exact Hy|]. cbn. intros z Hz. lia.
Qed.

Lemma sort_Sort_newest_first l : newest_first (sort_Sort id_desc l).
Proof.
  induction l as [|x l IH]; cbn [sort_Sort]; [constructor|].
  apply sort_insert_newest_first. exact IH.
Qed.

Lemma newest_first_strict l :
  NoDup (map LivestreamModel_ID l) -> newest_first l ->
  StronglySorted (fun a b => LivestreamModel_ID b < LivestreamModel_ID a) l.
Proof.
  unfold newest_first. induction l as [|x l IH]; intros Hnd Hs; [constructor|].
  apply StronglySorted_inv in Hs as [Hl Hx]. cbn [map] in Hnd.
  apply NoDup_cons in Hnd as [Hnin Hnd].
  constructor; [apply IH; assumption|].
  rewrite Forall_forall in *. intros y Hy.
  pose proof (Hx y Hy) as Hle.
  assert (LivestreamModel_ID y <> LivestreamModel_ID x).
  { intros He. apply Hnin. rewrite <- He.
    apply list_elem_of_In, in_map, list_elem_of_In. exact Hy. }
  lia.
Qed.

Lemma id_keys_sound_begun w : id_keys_sound w -> id_keys_sound (snd (BeginTxx w)).
Proof. intros Hsound userId p e Hk. exact (Hsound userId p e Hk). Qed.

Lemma id_keys_sound_empty w : userCache w = ∅ -> id_keys_sound w.
Proof. intros He userId p expire. rewrite He, lookup_empty. discriminate. Qed.

Lemma shows_ids TAGS d livestreams models :
  Forall2 (shows TAGS d) livestreams models ->
  map Livestream_ID livestreams = map LivestreamModel_ID models.
Proof.
  induction 1 as [|e m ls ms (owner & _ & ->) _ IH]; [reflexivity|].
  cbn [map]. rewrite IH. reflexivity.
Qed.

(** X17.  A search without a tag lists the newest livestreams.  On a
    cache with sound id keys and a store in which every livestream has
    its owner's row, [searchLivestreamsHandler] with an empty [tag] and
    an empty or non-negative [limit] answers 200 and never panics.  The
    entries are the first [limit] (all, without a limit) of the store's
    livestreams arranged by strictly descending id; each carries an
    owner object of the id its row names and the tag ids of its
    [livestream_tags] rows.  The store is left as it was. *)
Theorem search_lists_newest_first (TAGS : Z -> string) (tags_table : list TagModel)
    (limit_error : Z -> string) (now : Z) (limit : LimitParam) (w : World) :
  id_keys_sound w ->
  owners_exist (committed w) ->
  NoDup (map LivestreamModel_ID (livestreams (committed w))) ->
  limit <> LimitNotInteger ->
  (forall n, limit = LimitInteger n -> 0 <= n) ->
  let run := searchLivestreamsHandler TAGS tags_table limit_error now "" limit w in
  exists entries models rest,
    fst run = Returns (AnswerJSON StatusOK entries) /\
    Forall2 (shows TAGS (committed w)) entries models /\
    Permutation (models ++ rest) (livestreams (committed w)) /\
    StronglySorted (fun a b => LivestreamModel_ID b < LivestreamModel_ID a)
      (models ++ rest) /\
    length models
    = match limit with
      | LimitInteger n => Nat.min (Z.to_nat n) (length (livestreams (committed w)))
      | _ => length (livestreams (committed w))
      end /\
    committed (snd run) = committed w.
Proof.
  intros Hs Hown Hnd Hlim Hneg. cbv zeta.
  set (d := committed w) in *.
  set (sorted := sort_Sort id_desc (livestreams d)).
  assert (Hperm : Permutation sorted (livestreams d))
    by (apply Permutation_sym, sort_Sort_perm).
  assert (Hstrict : StronglySorted
                      (fun a b => LivestreamModel_ID b < LivestreamModel_ID a) sorted).
  { apply newest_first_strict; [|apply sort_Sort_newest_first].
    assert (Hp : Permutation (map LivestreamModel_ID (livestreams d))
                             (map LivestreamModel_ID sorted))
      by (apply Permutation_map, Permutation_sym, Hperm).
    rewrite <- Hp. exact Hnd. }
  assert (Hfill : forall k,
    exists livestreams,
      fst (fill_search TAGS now (firstn k sorted) (snd (BeginTxx w)))
      = Returns (AnswerJSON StatusOK livestreams) /\
      Forall2 (shows TAGS d) livestreams (firstn k sorted) /\
      committed (snd (fill_search TAGS now (firstn k sorted) (snd (BeginTxx w)))) = d).
  { intros k. apply (fill_search_spec TAGS now (firstn k sorted) (snd (BeginTxx w))).
    - apply id_keys_sound_begun. exact Hs.
    - intros m Hm. apply Hown. eapply Permutation_in; [exact Hperm|].
      rewrite <- (firstn_skipn k sorted). apply in_or_app. left. exact Hm. }
  unfold searchLivestreamsHandler. cbv zeta.
  change (negb ("" =? "")%string) with false. cbv iota.
  destruct limit as [| |n]; [|contradiction|].
  - destruct (Hfill (length sorted)) as (ls & Ha & Hall & Hc).
    rewrite firstn_all in Ha, Hall, Hc.
    exists ls, sorted, []. rewrite app_nil_r.
    split; [exact Ha|]. split; [exact Hall|]. split; [exact Hperm|].
    split; [exact Hstrict|]. split; [apply Permutation_length; exact Hperm | exact Hc].
  - pose proof (Hneg n eq_refl) as Hn.
    destruct (Z.ltb_spec n 0) as [|_]; [lia|].
    destruct (Hfill (Z.to_nat n)) as (ls & Ha & Hall & Hc).
    exists ls, (firstn (Z.to_nat n) sorted), (skipn (Z.to_nat n) sorted).
    rewrite firstn_skipn.
    split; [exact Ha|]. split; [exact Hall|]. split; [exact Hperm|].
    split; [exact Hstrict|]. split; [|exact Hc].
    rewrite length_firstn, (Permutation_length Hperm). reflexivity.
Qed.

(** The table [tags] that goes with [ex_TAGS]. *)
Definition ex_tags : list TagModel :=
  [{| TagModel_ID := 1; TagModel_Name := "music" |};
   {| TagModel_ID := 2; TagModel_Name := "sports" |}].

(** [ex_stats_db] with a livestream of a user 9 that has no row. *)
Definition ex_orphan_db : DB :=
  with_livestreams (livestreams ex_stats_db ++ [ex_livestream 4 9 0 0]) 5 ex_stats_db.

Definition ex_orphan_world : World :=
  {| committed := ex_orphan_db; working := ex_orphan_db; tx_done := true; heap := [];
     userCache := ∅; iconCache := ∅; trace := [] |}.

Lemma ex_tagged_world_owners : owners_exist (committed ex_tagged_world).
Proof.
  intros l Hl. vm_compute in Hl.
  destruct Hl as [<-|[<-|[<-|[]]]]; vm_compute; tauto.
Qed.

Lemma search_lists_newest_first_witness :
  exists entries,
    fst (searchLivestreamsHandler ex_TAGS ex_tags (fun _ => "syntax error") 0 ""
           (LimitInteger 2) ex_tagged_world)
    = Returns (AnswerJSON StatusOK entries) /\
    map Livestream_ID entries = [3; 2].
Proof.
  destruct (search_lists_newest_first ex_TAGS ex_tags (fun _ => "syntax error") 0
              (LimitInteger 2) ex_tagged_world)
    as (entries & models & rest & Ha & _).
  - apply id_keys_sound_empty. reflexivity.
  - exact ex_tagged_world_owners.
  - apply (bool_decide_unpack _). vm_compute. exact I.
  - discriminate.
  - intros n [= <-]. lia.
  - exists entries. split; [exact Ha|].
    assert (Hc : option_map (map Livestream_ID)
                   (match fst (searchLivestreamsHandler ex_TAGS ex_tags
                                 (fun _ => "syntax error") 0 ""
                                 (LimitInteger 2) ex_tagged_world) with
                    | Returns (AnswerJSON _ body) => Some body
                    | _ => None
                    end) = Some [3; 2]) by (vm_compute; reflexivity).
    rewrite Ha in Hc. injection Hc as Hc. exact Hc.
Defined.

(** Without the owner's row the search does not answer: it panics. *)
Example ex_search_panics :
  fst (searchLivestreamsHandler ex_TAGS ex_tags (fun _ => "syntax error") 0 ""
         LimitEmpty ex_orphan_world)
  = NilPointerPanic.
Proof. vm_compute. reflexivity. Qed.

Lemma tagged_rows_spec d tagIDList m :
  In m (select_tagged_livestreams d tagIDList) <->
  exists l t,
    m = scan_livestream_columns l /\ In l (livestreams d) /\
    In t (livestream_tags d) /\
    LivestreamTagModel_LivestreamID t = LivestreamModel_ID l /\
    In (LivestreamTagModel_TagID t) tagIDList.
Proof.
  unfold select_tagged_livestreams.
  rewrite <- (Permutation_in' (eq_refl m) (sort_Sort_perm id_desc _)).
  rewrite in_flat_map. split.
  - intros (l & Hl & Hm). apply in_map_iff in Hm as (t & <- & Ht).
    apply filter_In in Ht as (Ht & Hc). unfold tagged_with in Hc.
    apply andb_true_iff in Hc as (He & Hid).
    apply existsb_exists in He as (x & Hx & Hxe). apply Z.eqb_eq in Hxe, Hid.
    exists l, t. subst x. auto.
  - intros (l & t & -> & Hl & Ht & Hid & Hin). exists l. split; [exact Hl|].
    apply in_map_iff. exists t. split; [reflexivity|].
    apply filter_In. split; [exact Ht|]. unfold tagged_with.
    apply andb_true_iff. split; [|apply Z.eqb_eq; exact Hid].
    apply existsb_exists. exists (LivestreamTagModel_TagID t).
    split; [exact Hin | apply Z.eqb_refl].
Qed.

(** The store has a [livestream_tags] row that gives the livestream
    [l] one of the tags [tagIDList]. *)
Definition carries (d : DB) (tagIDList : list Z) (l : LivestreamModel) : Prop :=
  exists t,
    In t (livestream_tags d) /\
    LivestreamTagModel_LivestreamID t = LivestreamModel_ID l /\
    In (LivestreamTagModel_TagID t) tagIDList.

(** X18.  A search by tag.  With a non-empty [tag] the [limit] parameter
    is not read at all.  A name that is not in [tags] is answered with
    500, not with an empty list.  Otherwise, on a cache with sound id
    keys and a store in which every livestream has its owner's row, the
    answer is 200 and lists, by descending id, exactly the livestreams
    that carry a tag of that name, each with its owner and all of its
    tags.  The store is left as it was. *)
Theorem search_by_tag (TAGS : Z -> string) (tags_table : list TagModel)
    (limit_error : Z -> string) (now : Z) (keyTagName : string) (limit : LimitParam)
    (w : World) :
  keyTagName <> "" ->
  id_keys_sound w ->
  owners_exist (committed w) ->
  let d := committed w in
  let tagIDList := select_tag_ids_by_name tags_table keyTagName in
  let run := searchLivestreamsHandler TAGS tags_table limit_error now keyTagName limit w in
  run = searchLivestreamsHandler TAGS tags_table limit_error now keyTagName LimitEmpty w /\
  committed (snd run) = d /\
  (tagIDList = [] ->
   fst run = Returns (EchoError StatusInternalServerError
               "failed to construct IN query: empty slice passed to 'in' query")) /\
  (tagIDList <> [] ->
   exists entries,
     fst run = Returns (AnswerJSON StatusOK entries) /\
     StronglySorted (fun a b => Livestream_ID b <= Livestream_ID a) entries /\
     Forall (fun e => exists l, In l (livestreams d) /\ carries d tagIDList l /\
                                shows TAGS d e l) entries /\
     forall l, In l (livestreams d) -> carries d tagIDList l ->
               In (LivestreamModel_ID l) (map Livestream_ID entries)).
Proof.
  intros Hname Hs Hown. cbv zeta.
  unfold searchLivestreamsHandler. cbv zeta.
  destruct (String.eqb_spec keyTagName "") as [|_]; [contradiction|].
  cbn [negb]. split; [reflexivity|].
  destruct (select_tag_ids_by_name tags_table keyTagName) as [|i ids] eqn:Hids.
  { split; [rewrite leave_committed; apply BeginTxx_committed|].
    split; [reflexivity|]. intros H. contradiction. }
  set (models := select_tagged_livestreams (working (snd (BeginTxx w))) (i :: ids)).
  destruct (fill_search_spec TAGS now models (snd (BeginTxx w)))
    as (ls & Ha & Hall & Hc).
  { apply id_keys_sound_begun. exact Hs. }
  { intros m Hm. apply tagged_rows_spec in Hm as (l & t & -> & Hl & _).
    exact (Hown l Hl). }
  change (working (snd (BeginTxx w))) with (committed w) in *.
  split; [exact Hc|]. split; [discriminate|]. intros _.
  exists ls. split; [exact Ha|].
  pose proof (shows_ids _ _ _ _ Hall) as Hid.
  split; [|split].
  - assert (Hsorted : newest_first models) by apply sort_Sort_newest_first.
    clear Hid Ha Hc. unfold newest_first in Hsorted.
    induction Hall as [|e m ls' ms (owner & _ & ->) Hrest IH]; [constructor|].
    apply StronglySorted_inv in Hsorted as [Hms Hm].
    constructor; [apply IH; exact Hms|].
    clear IH Hms. induction Hrest as [|e' m' ls'' ms' (owner' & _ & ->) _ IH];
      [constructor|].
    apply Forall_cons_iff in Hm as [Hm' Hm]. constructor; [exact Hm' | apply IH; exact Hm].
  - assert (Hin : forall m, In m models ->
                            exists l, In l (livestreams (committed w)) /\
                                      carries (committed w) (i :: ids) l /\
                                      m = scan_livestream_columns l).
    { intros m Hm. apply tagged_rows_spec in Hm as (l & t & -> & Hl & Ht & Hlid & Htag).
      exists l. split; [exact Hl|]. split; [|reflexivity]. exists t. auto. }
    clear Hid Ha Hc. induction Hall as [|e m ls' ms Hsh _ IH]; [constructor|].
    constructor.
    + destruct (Hin m (or_introl eq_refl)) as (l & Hl & Hcar & ->).
      exists l. split; [exact Hl|]. split; [exact Hcar|].
      destruct Hsh as (owner & Hid & ->). exists owner. split; [exact Hid | reflexivity].
    + apply IH. intros m' Hm'. apply Hin. right. exact Hm'.
  - intros l Hl (t & Ht & Hlid & Htag). rewrite Hid.
    change (LivestreamModel_ID l) with (LivestreamModel_ID (scan_livestream_columns l)).
    apply in_map. apply tagged_rows_spec. exists l, t. auto.
Qed.

Lemma search_by_tag_witness :
  (exists entries,
     fst (searchLivestreamsHandler ex_TAGS ex_tags (fun _ => "syntax error") 0 "music"
            LimitNotInteger ex_tagged_world)
     = Returns (AnswerJSON StatusOK entries) /\
     map Livestream_ID entries = [2; 1]) /\
  fst (searchLivestreamsHandler ex_TAGS ex_tags (fun _ => "syntax error") 0 "chess"
         LimitEmpty ex_tagged_world)
  = Returns (EchoError StatusInternalServerError
               "failed to construct IN query: empty slice passed to 'in' query").
Proof.
  split.
  - destruct (search_by_tag ex_TAGS ex_tags (fun _ => "syntax error") 0 "music"
                LimitNotInteger ex_tagged_world)
      as (_ & _ & _ & Hlist).
    + discriminate.
    + apply id_keys_sound_empty. reflexivity.
    + exact ex_tagged_world_owners.
    + destruct Hlist as (entries & Ha & _); [vm_compute; discriminate|].
      exists entries. split; [exact Ha|].
      assert (Hc : option_map (map Livestream_ID)
                     (match fst (searchLivestreamsHandler ex_TAGS ex_tags
                                   (fun _ => "syntax error") 0 "music"
                                   LimitNotInteger ex_tagged_world) with
                      | Returns (AnswerJSON _ body) => Some body
                      | _ => None
                      end) = Some [2; 1]) by (vm_compute; reflexivity).
      rewrite Ha in Hc. injection Hc as Hc. exact Hc.
  - destruct (search_by_tag ex_TAGS ex_tags (fun _ => "syntax error") 0 "chess"
                LimitEmpty ex_tagged_world)
      as (_ & _ & Hnone & _).
    + discriminate.
    + apply id_keys_sound_empty. reflexivity.
    + exact ex_tagged_world_owners.
    + apply Hnone. reflexivity.
Defined.

(** ** The id keys stay sound *)

Lemma key_id_inj a b : key_id a = key_id b -> a = b.
Proof. unfold key_id. cbn. intros [= H]. apply (inj pretty). exact H. Qed.

Lemma populate_keeps_id_keys now (row : UserModel) userId ic op (w : World) :
  id_keys_sound w ->
  UserModel_ID row = userId ->
  id_keys_sound
    (set_caches (heap (log op w) ++ [scan_user_columns row])
       (gocache.Set_ now userCache_ttl
          (gocache.Set_ now userCache_ttl (userCache (log op w)) (key_id userId)
             (length (heap (log op w))))
          (key_name (UserModel_Name (scan_user_columns row)))
          (length (heap (log op w))))
       ic (log op w)).
Proof.
  intros Hsound Hid k p e Hk.
  cbn [userCache heap set_caches log scan_user_columns UserModel_Name] in *.
  unfold gocache.Set_ in Hk. rewrite length_app. cbn [length].
  rewrite lookup_insert_ne in Hk by apply not_eq_sym, key_id_neq_key_name.
  destruct (decide (key_id userId = key_id k)) as [He|Hne].
  - rewrite He, lookup_insert_eq in Hk. injection Hk as <- _.
    apply key_id_inj in He. subst k.
    split; [lia|]. unfold deref. cbn [heap set_caches].
    rewrite lookup_app_r by reflexivity. rewrite Nat.sub_diag. cbn. exact Hid.
  - rewrite lookup_insert_ne in Hk by exact Hne.
    destruct (Hsound _ _ _ Hk) as (Hlt & Hrid).
    split; [lia|]. unfold deref in *. cbn [heap set_caches].
    rewrite lookup_app_l by exact Hlt. exact Hrid.
Qed.

Lemma getUserWithCache_keeps_id_keys now userId w :
  id_keys_sound w -> id_keys_sound (snd (getUserWithCache now userId w)).
Proof.
  intros Hsound. unfold getUserWithCache.
  destruct (lookup_cached now (key_id userId) w) as [[u w1]|] eqn:Hc.
  { eapply grows_id_keys_sound; [eapply lookup_cached_grows; exact Hc | exact Hsound]. }
  cbn [committed log].
  destruct (select_user_by_id (committed w) userId) as [row|] eqn:Hs.
  - cbn [snd]. apply populate_keeps_id_keys; [exact Hsound|].
    unfold select_user_by_id in Hs. apply find_some in Hs as [_ Hid].
    apply Z.eqb_eq. exact Hid.
  - cbn [snd]. intros k p e Hk. apply (Hsound k p e Hk).
Qed.

Lemma getUserByName_keeps_id_keys now userName w :
  id_keys_sound w -> id_keys_sound (snd (getUserByName now userName w)).
Proof.
  intros Hsound. unfold getUserByName.
  destruct (lookup_cached now (key_name userName) w) as [[u w1]|] eqn:Hc.
  { eapply grows_id_keys_sound; [eapply lookup_cached_grows; exact Hc | exact Hsound]. }
  cbn [committed log].
  destruct (select_user_by_name (committed w) userName) as [row|] eqn:Hs.
  - cbn [snd]. apply populate_keeps_id_keys; [exact Hsound | reflexivity].
  - cbn [snd]. intros k p e Hk. apply (Hsound k p e Hk).
Qed.

Lemma getUserOnlyCache_keeps_id_keys now userId w :
  id_keys_sound w -> id_keys_sound (snd (getUserOnlyCache now userId w)).
Proof.
  intros Hsound. unfold getUserOnlyCache.
  destruct (lookup_cached now (key_id userId) w) as [[u w1]|] eqn:Hc; [|exact Hsound].
  eapply grows_id_keys_sound; [eapply lookup_cached_grows; exact Hc | exact Hsound].
Qed.

(** The object a lookup by id returns has that id. *)
Lemma getUserWithCache_id now userId w u w2 :
  id_keys_sound w ->
  getUserWithCache now userId w = (Ok (Some u), w2) ->
  UserModel_ID (deref w2 u) = userId.
Proof.
  intros Hsound. unfold getUserWithCache.
  destruct (lookup_cached now (key_id userId) w) as [[u' w1]|] eqn:Hc.
  - intros [= -> ->].
    destruct (lookup_cached_key _ _ _ _ _ Hc) as (e & Hk).
    destruct (Hsound _ _ _ Hk) as (Hlt & Hid).
    destruct (lookup_cached_grows _ _ _ _ _ Hc) as (_ & _ & _ & _ & _ & _ & _ & Hkeep).
    rewrite Hkeep by exact Hlt. exact Hid.
  - cbn [committed log].
    destruct (select_user_by_id (committed w) userId) as [row|] eqn:Hs; [|discriminate].
    intros [= <- <-]. unfold deref. cbn [heap set_caches log].
    rewrite lookup_app_r by reflexivity. rewrite Nat.sub_diag. cbn.
    unfold select_user_by_id in Hs. apply find_some in Hs as [_ Hid].
    apply Z.eqb_eq. exact Hid.
Qed.

(** X19.  The id keys of the user cache stay sound.  If every id key
    points to an object with that id, it does so after
    [getUserWithCache], [getUserByName] and [getUserOnlyCache], whatever
    they are asked for: the cache never comes to hold one user's object
    under the id of another. *)
Theorem id_keys_stay_sound (now : Z) (w : World) :
  id_keys_sound w ->
  (forall userId, id_keys_sound (snd (getUserWithCache now userId w))) /\
  (forall userName, id_keys_sound (snd (getUserByName now userName w))) /\
  (forall userId, id_keys_sound (snd (getUserOnlyCache now userId w))).
Proof.
  intros Hsound. split; [|split]; intros x.
  - apply getUserWithCache_keeps_id_keys. exact Hsound.
  - apply getUserByName_keeps_id_keys. exact Hsound.
  - apply getUserOnlyCache_keeps_id_keys. exact Hsound.
Qed.

Lemma id_keys_stay_sound_witness :
  id_keys_sound (snd (getUserWithCache 0 1 ex_world)) /\
  id_keys_sound (snd (getUserByName 0 "bob" (snd (getUserWithCache 0 1 ex_world)))).
Proof.
  assert (H1 : id_keys_sound (snd (getUserWithCache 0 1 ex_world))).
  { apply (id_keys_stay_sound 0 ex_world). apply id_keys_sound_empty. reflexivity. }
  split; [exact H1|].
  apply (id_keys_stay_sound 0 (snd (getUserWithCache 0 1 ex_world)) H1).
Defined.

(** ** A reservation and the search *)

(** The row with the highest id comes first in [ORDER BY id DESC]. *)
Lemma sort_Sort_newest x l :
  Forall (fun y => LivestreamModel_ID y < LivestreamModel_ID x) l ->
  sort_Sort id_desc (l ++ [x]) = x :: sort_Sort id_desc l.
Proof.
  induction 1 as [|y l Hy _ IH]; [reflexivity|].
  cbn [app sort_Sort]. rewrite IH. cbn [sort_insert]. unfold id_desc at 1.
  destruct (Z.ltb_spec (LivestreamModel_ID y) (LivestreamModel_ID x)); [reflexivity | lia].
Qed.

(** X20.  A new reservation heads the search.  When
    [reserveLivestreamHandler] has answered 201, on a store whose
    livestream ids are all below the next id, with sound id keys and
    the rows of all owners and of the reserving user, a later search
    without a tag (no limit, or a limit of at least 1) answers 200 and
    its first entry is the new livestream: the same row and the same
    tags as the body of the reservation, with an owner object of the
    same user id. *)
Theorem reservation_heads_the_search (TAGS : Z -> string) (tags_table : list TagModel)
    (limit_error : Z -> string) (now t userID : Z) (req : ReserveLivestreamRequest)
    (limit : LimitParam) (w : World) (body : Livestream) :
  fst (reserveLivestreamHandler TAGS now userID req w) = JSON StatusCreated body ->
  Forall (fun l => LivestreamModel_ID l < livestreams_auto (committed w))
    (livestreams (committed w)) ->
  Forall (fun r => LivestreamTagModel_LivestreamID r <> livestreams_auto (committed w))
    (livestream_tags (committed w)) ->
  id_keys_sound w ->
  owners_exist (committed w) ->
  In userID (map UserModel_ID (users (committed w))) ->
  limit = LimitEmpty \/ (exists n, limit = LimitInteger n /\ 1 <= n) ->
  let row := new_row userID req (committed w) in
  exists owner owner' rest,
    UserModel_ID owner = userID /\ UserModel_ID owner' = userID /\
    body = fillLivestreamResponse TAGS row owner' (Req_Tags req) /\
    fst (searchLivestreamsHandler TAGS tags_table limit_error t "" limit
           (snd (reserveLivestreamHandler TAGS now userID req w)))
    = Returns (AnswerJSON StatusOK
                 (fillLivestreamResponse TAGS row owner (Req_Tags req) :: rest)).
Proof.
  intros Hr Hbelow Htags Hsound Hown Huser Hlimit. cbv zeta.
  destruct (reserve_created_inv TAGS now userID req w body Hr) as (Hout & Hcommitted).
  assert (Hfresh : livestream_id_fresh (committed w)).
  { split; [|exact Htags]. eapply Forall_impl; [exact Hbelow|]. cbn beta. intros l Hl. lia. }
  (* the world the reservation leaves *)
  assert (Hleft : id_keys_sound (snd (reserveLivestreamHandler TAGS now userID req w)) /\
                  exists owner', UserModel_ID owner' = userID /\
                    body = fillLivestreamResponse TAGS (new_row userID req (committed w))
                             owner' (Req_Tags req)).
  { destruct (reserve_run_cases TAGS now userID req w Hout)
      as [(code & msg & wc & He & _) | (ops & He)].
    { rewrite He in Hr. discriminate. }
    cbv zeta in He. rewrite He in Hr |- *. clear He.
    assert (Hs1 : id_keys_sound (written userID req (logs ops (begun w)))).
    { intros k p e Hk. exact (Hsound k p e Hk). }
    pose proof (getUserWithCache_keeps_id_keys now userID _ Hs1) as Hs2.
    destruct (getUserWithCache now userID (written userID req (logs ops (begun w))))
      as [r w2] eqn:Hu.
    pose proof (getUserWithCache_frame _ _ _ _ _ Hu) as (_ & _ & _ & _ & o & -> & _).
    destruct o as [u|]; [|cbn [fst snd] in Hr; discriminate Hr].
    cbn [fst snd] in Hr, Hs2 |- *.
    injection Hr as <-. split.
    - intros k p e Hk. exact (Hs2 k p e Hk).
    - exists (deref w2 u). split; [|reflexivity].
      exact (getUserWithCache_id _ _ _ _ _ Hs1 Hu). }
  destruct Hleft as (Hs' & owner' & Hid' & Hbody).
  set (w' := snd (reserveLivestreamHandler TAGS now userID req w)) in *.
  set (row := new_row userID req (committed w)).
  assert (Hsorted : sort_Sort id_desc (livestreams (committed w'))
                    = row :: sort_Sort id_desc (livestreams (committed w))).
  { rewrite Hcommitted, admitted_view_livestreams. apply sort_Sort_newest. exact Hbelow. }
  assert (Hfill : forall models,
    (forall m, In m models -> In m (livestreams (committed w))) ->
    exists owner rest,
      UserModel_ID owner = userID /\
      fst (fill_search TAGS t (row :: models) (snd (BeginTxx w')))
      = Returns (AnswerJSON StatusOK
                   (fillLivestreamResponse TAGS row owner (Req_Tags req) :: rest))).
  { intros models Hin.
    destruct (fill_search_spec TAGS t (row :: models) (snd (BeginTxx w')))
      as (entries & Ha & Hall & _).
    - apply id_keys_sound_begun. exact Hs'.
    - change (working (snd (BeginTxx w'))) with (committed w'). rewrite Hcommitted.
      change (users (admitted_view userID req (committed w))) with (users (committed w)).
      intros m [<-|Hm]; [exact Huser|]. apply Hown, Hin, Hm.
    - change (working (snd (BeginTxx w'))) with (committed w') in Hall.
      destruct entries as [|e es]; [inversion Hall|].
      apply Forall2_cons in Hall as [(owner & Hid & He) _].
      exists owner, es. split; [exact Hid|]. rewrite Ha, He. do 3 f_equal.
      rewrite Hcommitted.
      change (LivestreamModel_ID row) with (livestreams_auto (committed w)).
      rewrite (select_admitted_tags userID req (committed w) Hfresh). reflexivity. }
  unfold searchLivestreamsHandler. cbv zeta.
  change (negb ("" =? "")%string) with false. cbv iota.
  unfold select_livestreams_desc. cbv zeta.
  change (working (snd (BeginTxx w'))) with (committed w'). rewrite Hsorted.
  destruct Hlimit as [->|(n & -> & Hn)].
  - destruct (Hfill (sort_Sort id_desc (livestreams (committed w))))
      as (owner & rest & Hid & Ha).
    { intros m Hm. eapply Permutation_in; [|exact Hm].
      apply Permutation_sym, sort_Sort_perm. }
    exists owner, owner', rest. auto.
  - destruct (Z.ltb_spec n 0) as [|_]; [lia|].
    replace (Z.to_nat n) with (S (Z.to_nat (n - 1))) by lia. cbn [firstn].
    destruct (Hfill (firstn (Z.to_nat (n - 1))
                       (sort_Sort id_desc (livestreams (committed w)))))
      as (owner & rest & Hid & Ha).
    { intros m Hm. eapply Permutation_in; [apply Permutation_sym, sort_Sort_perm|].
      rewrite <- (firstn_skipn (Z.to_nat (n - 1))
                    (sort_Sort id_desc (livestreams (committed w)))).
      apply in_or_app. left. exact Hm. }
    exists owner, owner', rest. auto.
Qed.

Lemma reservation_heads_the_search_witness :
  exists body entry rest,
    fst (reserveLivestreamHandler ex_TAGS 0 1 (ex_req 1700874000 1700877600) ex_world)
    = JSON StatusCreated body /\
    fst (searchLivestreamsHandler ex_TAGS ex_tags (fun _ => "syntax error")
           7000000000 "" (LimitInteger 1)
           (snd (reserveLivestreamHandler ex_TAGS 0 1 (ex_req 1700874000 1700877600)
                   ex_world)))
    = Returns (AnswerJSON StatusOK (entry :: rest)) /\
    Livestream_ID entry = Livestream_ID body /\
    Livestream_Tags entry = Livestream_Tags body.
Proof.
  assert (H1 : exists body,
             fst (reserveLivestreamHandler ex_TAGS 0 1 (ex_req 1700874000 1700877600)
                    ex_world) = JSON StatusCreated body)
    by (eexists; vm_compute; reflexivity).
  destruct H1 as (body & H1).
  destruct (reservation_heads_the_search ex_TAGS ex_tags (fun _ => "syntax error")
              0 7000000000 1 (ex_req 1700874000 1700877600) (LimitInteger 1)
              ex_world body H1)
    as (owner & owner' & rest & _ & _ & Hbody & Ha).
  - constructor.
  - constructor.
  - apply id_keys_sound_empty. reflexivity.
  - intros l [].
  - left. reflexivity.
  - right. exists 1. split; [reflexivity | lia].
  - exists body, (fillLivestreamResponse ex_TAGS
                    (new_row 1 (ex_req 1700874000 1700877600) (committed ex_world))
                    owner (Req_Tags (ex_req 1700874000 1700877600))), rest.
    split; [exact H1|]. split; [exact Ha|]. rewrite Hbody. split; reflexivity.
Defined.

(** * The name server: [isudns]

    [registerHandler] announces every new user to this server with a
    POST to [/api/record]; the server answers the DNS queries for
    [<name>.u.isucon.dev.] from the names it has been told.  [records]
    is the [sync.Map] of the server, with its string keys and values. *)

Module isudns.

Definition MethodPost : string := "POST".
Definition StatusCreated : Z := 201.
Definition StatusBadRequest : Z := 400.
Definition StatusMethodNotAllowed : Z := 405.

(** [dns.TypeA], [dns.TypeNS], [dns.TypeSOA], [dns.RcodeNameError] *)
Definition TypeA : Z := 1.
Definition TypeNS : Z := 2.
Definition TypeSOA : Z := 6.
Definition RcodeNameError : Z := 3.

Record RecordCreateParam := { Username : string }.

(** What [json.NewDecoder(r.Body).Decode(&param)] makes of the body. *)
Inductive Decoded :=
| DecodeError (message : string)
| DecodedParam (param : RecordCreateParam).

Record Request := { Method : string; Body : Decoded }.

(** What a handler run has written to the [http.ResponseWriter], and the
    error it returns ([None] for nil). *)
Record Written := {
  Written_Status : Z;
  Written_Body : string;
  Written_Error : option string
}.

Record Question := { Question_Name : string; Question_Qtype : Z }.

Section Server.

(** [dns.RR] and [dns.NewRR] of [github.com/miekg/dns]; [None] is an
    error. *)
Variable RR : Type.
Variable NewRR : string -> option RR.

(** Set once by [main] from the environment. *)
Variable powerDNSSubdomainAddress : string.

(** The fields of [dns.Msg] that [parseQuery] reads and writes. *)
Record Msg := {
  Msg_Question : list Question;
  Msg_Answer : list RR;
  Msg_Rcode : Z
}.

(** [fmt.Sprintf("%s.u.isucon.dev.", username)] *)
Definition record_name (username : string) : string := username +:+ ".u.isucon.dev.".

(** [func HandleAddRecord(w http.ResponseWriter, r *http.Request) error] *)
Definition HandleAddRecord (r : Request) (records : gmap string string)
  : Written * gmap string string :=
  if negb (String.eqb (Method r) MethodPost) then
    ({| Written_Status := StatusMethodNotAllowed;
        Written_Body := "method not allowed";
        Written_Error := Some "method not allowed" |}, records)
  else
    match Body r with
    | DecodeError message =>
        ({| Written_Status := StatusBadRequest;
            Written_Body := "failed to decode request body";
            Written_Error := Some ("failed to decode request body: " +:+ message) |},
         records)
    | DecodedParam param =>
        ({| Written_Status := StatusCreated; Written_Body := "";
            Written_Error := None |},
         <[record_name (Username param) := powerDNSSubdomainAddress]> records)
    end.

Definition append_answer (rr : RR) (m : Msg) : Msg :=
  {| Msg_Question := Msg_Question m; Msg_Answer := Msg_Answer m ++ [rr];
     Msg_Rcode := Msg_Rcode m |}.

Definition set_Rcode (rcode : Z) (m : Msg) : Msg :=
  {| Msg_Question := Msg_Question m; Msg_Answer := Msg_Answer m;
     Msg_Rcode := rcode |}.

(** The body of the loop of [parseQuery], for one question. *)
Definition answer_question (records : gmap string string) (m : Msg) (q : Question)
  : Msg :=
  if Question_Qtype q =? TypeSOA then
    match NewRR (Question_Name q
                 +:+ " SOA ns1 hostmaster.u.isucon.dev. isucon.isucon.net. 0 10800 3600 604800 3600") with
    | None => m
    | Some rr => append_answer rr m
    end
  else if Question_Qtype q =? TypeNS then
    match NewRR (Question_Name q +:+ " NS ns1.u.isucon.dev.") with
    | None => m
    | Some rr => append_answer rr m
    end
  else if Question_Qtype q =? TypeA then
    match records !! Question_Name q with
    | Some _ =>
        match NewRR (Question_Name q +:+ " A " +:+ powerDNSSubdomainAddress) with
        | Some rr => append_answer rr m
        | None => m
        end
    | None =>
        match NewRR (Question_Name q +:+ " A") with
        | None => m
        | Some rr => append_answer rr (set_Rcode RcodeNameError m)
        end
    end
  else m.

(** [func parseQuery(m *dns.Msg, db sqlx.DB)] *)
Definition parseQuery (records : gmap string string) (m : Msg) : Msg :=
  fold_left (answer_question records) (Msg_Question m) m.

(** The server's records after a sequence of requests to
    [/api/record]. *)
Definition serve (requests : list Request) (records : gmap string string)
  : gmap string string :=
  fold_left (fun records r => snd (HandleAddRecord r records)) requests records.

(** A request that [HandleAddRecord] answers with 201 for [username]. *)
Definition adds (username : string) (r : Request) : Prop :=
  Method r = MethodPost /\ Body r = DecodedParam {| Username := username |}.

Lemma HandleAddRecord_keeps r records name :
  is_Some (records !! name) -> is_Some (snd (HandleAddRecord r records) !! name).
Proof.
  intros Hn. unfold HandleAddRecord.
  destruct (negb _); [exact Hn|]. destruct (Body r) as [e|param]; [exact Hn|].
  cbn [snd]. destruct (decide (record_name (Username param) = name)) as [<-|Hne].
  - rewrite lookup_insert_eq. eauto.
  - rewrite lookup_insert_ne by exact Hne. exact Hn.
Qed.

Lemma serve_keeps requests : forall records name,
  is_Some (records !! name) -> is_Some (serve requests records !! name).
Proof.
  induction requests as [|r requests IH]; intros records name Hn; [exact Hn|].
  cbn [serve fold_left]. apply IH. apply HandleAddRecord_keeps. exact Hn.
Qed.

Lemma serve_adds requests : forall records username r,
  In r requests -> adds username r ->
  is_Some (serve requests records !! record_name username).
Proof.
  induction requests as [|r0 requests IH]; intros records username r [].
  - subst r0. intros (Hm & Hb). cbn [serve fold_left]. apply serve_keeps.
    unfold HandleAddRecord. rewrite Hm, Hb. cbn [negb snd Username].
    change (negb (MethodPost =? MethodPost)%string) with false. cbv iota.
    cbn [snd Username]. rewrite lookup_insert_eq. eauto.
  - intros Ha. cbn [serve fold_left]. eapply IH; eassumption.
Qed.

Lemma serve_only_adds requests : forall records name,
  records !! name = None ->
  (forall r username, In r requests -> adds username r -> record_name username <> name) ->
  serve requests records !! name = None.
Proof.
  induction requests as [|r requests IH]; intros records name Hn Hr; [exact Hn|].
  cbn [serve fold_left]. apply IH.
  - unfold HandleAddRecord.
    destruct (String.eqb_spec (Method r) MethodPost) as [Hm|_]; [|exact Hn].
    cbn [negb]. destruct (Body r) as [e|[username]] eqn:Hb; [exact Hn|].
    cbn [snd Username]. rewrite lookup_insert_ne; [exact Hn|].
    apply (Hr r username); [left; reflexivity|]. split; assumption.
  - intros r' username Hin. apply Hr. right. exact Hin.
Qed.

End Server.

End isudns.

Section NameServer.

Variable RR : Type.
Variable NewRR : string -> option RR.
Variable powerDNSSubdomainAddress : string.

(** X21.  Names that were added resolve, the others do not.  After any
    sequence of requests to [/api/record], an A question for
    [<username>.u.isucon.dev.] of a user some request has added is
    answered with the record for the configured address and leaves the
    response code alone; an A question for a name that was neither in
    the records at the start nor added by a request gets the response
    code NXDOMAIN.  No request removes a name. *)
Theorem added_names_resolve (requests : list isudns.Request) (records : gmap string string)
    (m : isudns.Msg RR) (name : string) :
  isudns.Msg_Question RR m
  = [{| isudns.Question_Name := name; isudns.Question_Qtype := isudns.TypeA |}] ->
  let records' := isudns.serve powerDNSSubdomainAddress requests records in
  (forall username r rr,
     In r requests -> isudns.adds username r -> name = isudns.record_name username ->
     NewRR (name +:+ " A " +:+ powerDNSSubdomainAddress) = Some rr ->
     isudns.parseQuery RR NewRR powerDNSSubdomainAddress records' m
     = isudns.append_answer RR rr m) /\
  (forall rr,
     records !! name = None ->
     (forall r username, In r requests -> isudns.adds username r ->
                         isudns.record_name username <> name) ->
     NewRR (name +:+ " A") = Some rr ->
     isudns.parseQuery RR NewRR powerDNSSubdomainAddress records' m
     = isudns.append_answer RR rr (isudns.set_Rcode RR isudns.RcodeNameError m)) /\
  (forall n, is_Some (records !! n) -> is_Some (records' !! n)).
Proof.
  intros Hq. cbv zeta. unfold isudns.parseQuery. rewrite Hq. cbn [fold_left].
  unfold isudns.answer_question. cbn [isudns.Question_Qtype isudns.Question_Name].
  change (isudns.TypeA =? isudns.TypeSOA) with false.
  change (isudns.TypeA =? isudns.TypeNS) with false.
  change (isudns.TypeA =? isudns.TypeA) with true. cbv iota.
  split; [|split].
  - intros username r rr Hin Hadd -> Hrr.
    destruct (isudns.serve_adds powerDNSSubdomainAddress requests records username r Hin Hadd) as (v & ->).
    rewrite Hrr. reflexivity.
  - intros rr Hnone Hothers Hrr.
    rewrite (isudns.serve_only_adds powerDNSSubdomainAddress requests records name Hnone Hothers), Hrr. reflexivity.
  - intros n. apply isudns.serve_keeps.
Qed.

End NameServer.

(** A stand-in for [dns.NewRR] in the examples: the record is its text. *)
Definition ex_NewRR (s : string) : option string := Some s.

Lemma added_names_resolve_witness :
  let requests :=
    [{| isudns.Method := "GET";
        isudns.Body := isudns.DecodedParam {| isudns.Username := "mallory" |} |};
     {| isudns.Method := "POST";
        isudns.Body := isudns.DecodedParam {| isudns.Username := "alice" |} |};
     {| isudns.Method := "POST"; isudns.Body := isudns.DecodeError "EOF" |}] in
  let query name :=
    {| isudns.Msg_Question :=
         [{| isudns.Question_Name := name; isudns.Question_Qtype := isudns.TypeA |}];
       isudns.Msg_Answer := []; isudns.Msg_Rcode := 0 |} in
  let answer name :=
    isudns.parseQuery string ex_NewRR "192.0.2.1" (isudns.serve "192.0.2.1" requests ∅)
      (query name) in
  isudns.Msg_Answer string (answer "alice.u.isucon.dev.")
  = ["alice.u.isucon.dev. A 192.0.2.1"] /\
  isudns.Msg_Rcode string (answer "alice.u.isucon.dev.") = 0.
Proof.
  cbv zeta.
  destruct (added_names_resolve string ex_NewRR "192.0.2.1"
              [{| isudns.Method := "GET";
                  isudns.Body := isudns.DecodedParam {| isudns.Username := "mallory" |} |};
               {| isudns.Method := "POST";
                  isudns.Body := isudns.DecodedParam {| isudns.Username := "alice" |} |};
               {| isudns.Method := "POST"; isudns.Body := isudns.DecodeError "EOF" |}]
              ∅
              {| isudns.Msg_Question :=
                   [{| isudns.Question_Name := "alice.u.isucon.dev.";
                       isudns.Question_Qtype := isudns.TypeA |}];
                 isudns.Msg_Answer := []; isudns.Msg_Rcode := 0 |}
              "alice.u.isucon.dev." eq_refl) as (Hadded & _).
  rewrite (Hadded "alice"
             {| isudns.Method := "POST";
                isudns.Body := isudns.DecodedParam {| isudns.Username := "alice" |} |}
             "alice.u.isucon.dev. A 192.0.2.1").
  - split; reflexivity.
  - right. left. reflexivity.
  - split; reflexivity.
  - reflexivity.
  - reflexivity.
Defined.
